(** * dns.c: wire codec, name algebra, resolver configuration and hints

    A shallow embedding of [src/dns.c].  C integers are modelled as [Z] with
    the wrap-around of their width written out ([u8], [u16], [u32], [usize]);
    buffers are lists of octets indexed by offset.  Loops whose termination
    depends on the input carry a fuel argument and return [None] when the
    fuel runs out. *)

From Stdlib Require Import ZArith Lia Bool.
From stdpp Require Import base list strings.

Local Open Scope Z_scope.

(** ** Machine integers and buffers *)

Module Mem.

Definition u8 (x : Z) : Z := x mod 256.
Definition u16 (x : Z) : Z := x mod 65536.
Definition u32 (x : Z) : Z := x mod 4294967296.
(** [size_t] on the LP64 targets the library is built for. *)
Definition usize (x : Z) : Z := x mod 18446744073709551616.

Definition MIN (a b : Z) : Z := if a <? b then a else b.
Definition MAX (a b : Z) : Z := if a >? b then a else b.

(** [b[i]] for a buffer [b]; the code never reads outside its buffers, the
    default only makes the function total. *)
Definition byte_at (b : list Z) (i : Z) : Z := default 0 (b !! Z.to_nat i).

(** [b[i] = v]. *)
Definition store (b : list Z) (i v : Z) : list Z := <[Z.to_nat i := v]> b.

(** The [n] octets of [b] starting at [off]. *)
Definition slice (b : list Z) (off n : Z) : list Z :=
  take (Z.to_nat n) (drop (Z.to_nat off) b).

(** [memcpy(&dst[off], src, length src)] (also [memmove]: the source is a
    value read before the destination is written). *)
Definition memcpy (dst : list Z) (off : Z) (src : list Z) : list Z :=
  list_inserts (Z.to_nat off) src dst.

End Mem.
Import Mem.

(** ** Packets *)

(** [struct dns_packet]: the compression dictionary, the capacity of
    [data], the used length and the octets themselves. *)
Record dns_packet := mkPacket {
  dict : list Z;
  size : Z;
  p_end : Z;
  data : list Z
}.

Definition set_end (P : dns_packet) (e : Z) : dns_packet :=
  {| dict := dict P; size := size P; p_end := e; data := data P |}.

Definition set_data (P : dns_packet) (d : list Z) : dns_packet :=
  {| dict := dict P; size := size P; p_end := p_end P; data := d |}.

Definition set_dict (P : dns_packet) (d : list Z) : dns_packet :=
  {| dict := d; size := size P; p_end := p_end P; data := data P |}.

Definition DNS_D_MAXPTRS : Z := 127.

(** ** Domain names on the wire *)

(** [dns_d_skip]: one iteration of the [while] per unit of fuel.  [src] and
    [len] are [unsigned short], [P->end] is a [size_t]; the result is
    converted to [unsigned short]. *)
Fixpoint dns_d_skip_loop (fuel : nat) (src : Z) (P : dns_packet) : option Z :=
  match fuel with
  | O => None
  | S fuel =>
    if src <? p_end P then
      match Z.land 3 (Z.shiftr (byte_at (data P) src) 6) with
      | 0 =>
        let len := Z.land 63 (byte_at (data P) src) in
        let src := u16 (src + 1) in
        if len =? 0 then Some src
        else if usize (p_end P - src) >? len
             then dns_d_skip_loop fuel (u16 (src + len)) P
             else Some (u16 (p_end P))
      | 3 =>
        if usize (p_end P - src) <? 2 then Some (u16 (p_end P))
        else Some (u16 (src + 2))
      | _ => Some (u16 (p_end P))
      end
    else Some (u16 (p_end P))
  end.

(** Enough fuel for every packet a 16-bit offset can address: each
    iteration moves [src] forward by at least two octets. *)
Definition dns_d_skip (src : Z) (P : dns_packet) : option Z :=
  dns_d_skip_loop (S (Z.to_nat (p_end P))) src P.

(** Result of [dns_d_expand]: the returned length, the destination buffer
    and what was stored through [error], if anything. *)
Record expanded := mkExpanded {
  x_len : Z;
  x_dst : list Z;
  x_error : option Z
}.

(** The two exits [toolong] and [reserved] of [dns_d_expand]. *)
Definition expand_fail (dst : list Z) (lim dstp : Z) : expanded :=
  {| x_len := 0;
     x_dst := if lim >? 0 then store dst (MIN dstp (lim - 1)) 0 else dst;
     x_error := Some (-1) |}.

(** [dns_d_expand]: one iteration of the [while] per unit of fuel.  [dstp]
    is a [size_t], [nptrs] an [unsigned], [src] an [unsigned short] and
    [len] an [unsigned char]. *)
Fixpoint dns_d_expand_loop (fuel : nat) (dst : list Z) (lim : Z) (src : Z)
    (P : dns_packet) (dstp nptrs : Z) : option expanded :=
  match fuel with
  | O => None
  | S fuel =>
    if src <? p_end P then
      match Z.land 3 (Z.shiftr (byte_at (data P) src) 6) with
      | 0 =>
        let len := Z.land 63 (byte_at (data P) src) in
        if len =? 0 then
          let '(dst, dstp) :=
            if dstp =? 0
            then ((if dstp <? lim then store dst dstp 46 else dst), usize (dstp + 1))
            else (dst, dstp) in
          let dst := if lim >? 0 then store dst (MIN dstp (lim - 1)) 0 else dst in
          Some {| x_len := dstp; x_dst := dst; x_error := None |}
        else
          let src := u16 (src + 1) in
          if usize (p_end P - src) <? len then Some (expand_fail dst lim dstp)
          else
            let dst :=
              if dstp <? lim
              then memcpy dst dstp (slice (data P) src (MIN len (lim - dstp)))
              else dst in
            let src := u16 (src + len) in
            let dstp := usize (dstp + len) in
            let dst := if dstp <? lim then store dst dstp 46 else dst in
            let dstp := usize (dstp + 1) in
            dns_d_expand_loop fuel dst lim src P dstp 0
      | 3 =>
        let nptrs := u32 (nptrs + 1) in
        if nptrs >? DNS_D_MAXPTRS then Some (expand_fail dst lim dstp)
        else if usize (p_end P - src) <? 2 then Some (expand_fail dst lim dstp)
        else
          let src :=
            Z.lor (Z.shiftl (Z.land 63 (byte_at (data P) src)) 8)
                  (Z.shiftl (Z.land 255 (byte_at (data P) (src + 1))) 0) in
          dns_d_expand_loop fuel dst lim src P dstp nptrs
      | _ => Some (expand_fail dst lim dstp)
      end
    else Some (expand_fail dst lim dstp)
  end.

Definition dns_d_expand (fuel : nat) (dst : list Z) (lim : Z) (src : Z)
    (P : dns_packet) : option expanded :=
  dns_d_expand_loop fuel dst lim src P 0 0.

(** Result of [dns_l_expand]: the returned length, [*nxt] and the label
    buffer. *)
Record label := mkLabel {
  l_len : Z;
  l_nxt : Z;
  l_dst : list Z
}.

(** [dns_l_expand], the [retry] loop.  [hops] is the number of pointers
    that may still be followed: the code counts [nptrs] up from 0 and gives
    up when [++nptrs > DNS_D_MAXPTRS], so [hops] starts at 127 and the loop
    always ends.  [nxt] is an [unsigned short]. *)
Fixpoint dns_l_expand_retry (hops : nat) (dst : list Z) (lim : Z) (src : Z)
    (data : list Z) (end_ : Z) : label :=
  let invalid := {| l_len := 0; l_nxt := u16 end_; l_dst := dst |} in
  if src >=? end_ then invalid
  else
    match Z.land 3 (Z.shiftr (byte_at data src) 6) with
    | 0 =>
      let len := Z.land 63 (byte_at data src) in
      let src := u16 (src + 1) in
      if usize (end_ - src) <? len then invalid
      else
        let dst :=
          if lim >? 0
          then store (memcpy dst 0 (slice data src (MIN lim len))) (MIN (lim - 1) len) 0
          else dst in
        {| l_len := len; l_nxt := u16 (src + len); l_dst := dst |}
    | 3 =>
      match hops with
      | O => invalid
      | S hops =>
        if usize (end_ - src) <? 2 then invalid
        else
          let src :=
            Z.lor (Z.shiftl (Z.land 63 (byte_at data src)) 8)
                  (Z.shiftl (Z.land 255 (byte_at data (src + 1))) 0) in
          dns_l_expand_retry hops dst lim src data end_
      end
    | _ => invalid
    end.

Definition dns_l_expand (dst : list Z) (lim : Z) (src : Z) (data : list Z)
    (end_ : Z) : label :=
  dns_l_expand_retry (Z.to_nat DNS_D_MAXPTRS) dst lim src data end_.

(** ** Domain names as text *)

(** [dns_d_anchor]; [src] holds at least [len] octets.  Returns the length
    and the destination buffer. *)
Definition dns_d_anchor (dst : list Z) (lim : Z) (src : list Z) (len : Z)
    : Z * list Z :=
  if len =? 0 then (0, dst)
  else
    let dst := memcpy dst 0 (slice src 0 (MIN lim len)) in
    let '(dst, len) :=
      if negb (byte_at src (len - 1) =? 46)
      then ((if len <? lim then store dst len 46 else dst), usize (len + 1))
      else (dst, len) in
    let dst := if lim >? 0 then store dst (MIN (lim - 1) len) 0 else dst in
    (len, dst).

(** [memchr(s + from, c, n)]: the offset in [s] of the first [c] among the
    [n] octets from [from] on. *)
Fixpoint memchr_from (s : list Z) (from : Z) (c : Z) (n : nat) : option Z :=
  match n with
  | O => None
  | S n => if byte_at s from =? c then Some from else memchr_from s (from + 1) c n
  end.

(** [dns_d_cleave]. *)
Definition dns_d_cleave (dst : list Z) (lim : Z) (src : list Z) (len : Z)
    : Z * list Z :=
  if len =? 0 then (0, dst)
  else
    match memchr_from src 1 46 (Z.to_nat (len - 1)) with
    | None => (0, dst)
    | Some dot =>
      let len := usize (len - dot) in
      let '(from, len) := if len >? 1 then (dot + 1, len - 1) else (dot, len) in
      let dst := memcpy dst 0 (slice src from (MIN lim len)) in
      let dst := if lim >? 0 then store dst (MIN (lim - 1) len) 0 else dst in
      (len, dst)
    end.

(** ** C strings *)

(** The octets of a C string held in a buffer: everything before the first
    NUL. *)
Fixpoint c_str (b : list Z) : list Z :=
  match b with
  | [] => []
  | c :: b => if c =? 0 then [] else c :: c_str b
  end.

Definition strlen (b : list Z) : Z := Z.of_nat (length (c_str b)).

(** [tolower] in the C locale. *)
Definition tolower (c : Z) : Z :=
  if (65 <=? c) && (c <=? 90) then c + 32 else c.

(** [0 == strcasecmp(a, b)]. *)
Definition strcaseeq (a b : list Z) : bool :=
  bool_decide (map tolower (c_str a) = map tolower (c_str b)).

(** [0 == strncasecmp(a, b, n)]. *)
Definition strncaseeq (a b : list Z) (n : nat) : bool :=
  bool_decide (map tolower (take n (c_str a)) = map tolower (take n (c_str b))).

(** ** Name compression *)

Definition DNS_D_MAXLABEL : Z := 63.
Definition DNS_D_MAXNAME : Z := 255.

(** The first loop of [dns_d_comp], over the octets [src.b[src.x .. len)]:
    it lays out length-prefixed labels in [dst.b].  All cursors are
    [size_t]. *)
Fixpoint comp_labels (s : list Z) (lim : Z) (dstb : list Z)
    (dst_p dst_x src_p src_x : Z) : list Z * Z * Z * Z * Z :=
  match s with
  | [] => (dstb, dst_p, dst_x, src_p, src_x)
  | ch :: s =>
    if ch =? 46 then
      let dstb :=
        if dst_p <? lim then store dstb dst_p (Z.land 63 (usize (src_x - src_p)))
        else dstb in
      comp_labels s lim dstb dst_x (usize (dst_x + 1))
                  (usize (src_x + 1)) (usize (src_x + 1))
    else
      let dstb := if dst_x <? lim then store dstb dst_x ch else dstb in
      comp_labels s lim dstb dst_p (usize (dst_x + 1)) src_p (usize (src_x + 1))
  end.

(** The locals [a] and [b] of [dns_d_comp]: a label buffer of
    [DNS_D_MAXLABEL + 1] octets, its length, and three offsets. *)
Record walker := mkWalker {
  w_label : list Z;
  w_len : Z;
  w_p : Z;
  w_x : Z;
  w_y : Z
}.

Definition walker_init : walker :=
  {| w_label := replicate 64 0; w_len := 0; w_p := 0; w_x := 0; w_y := 0 |}.

(** What the search for a suffix ends with: a pointer to emit at [a.p]
    towards [b.p], or nothing, with both locals as the loops left them. *)
Inductive comp_found :=
| Hit (ap bp : Z)
| Miss (a b : walker).

(** The innermost [while]: compare label after label. *)
Fixpoint comp_match (fuel : nat) (dstb : list Z) (lim : Z) (P : dns_packet)
    (a b : walker) : option (walker * walker) :=
  match fuel with
  | O => None
  | S fuel =>
    if negb (w_len a =? 0) && negb (w_len b =? 0)
       && strcaseeq (w_label a) (w_label b)
    then
      let la := dns_l_expand (w_label a) 64 (w_y a) dstb lim in
      let lb := dns_l_expand (w_label b) 64 (w_y b) (data P) (p_end P) in
      comp_match fuel dstb lim P
        {| w_label := l_dst la; w_len := l_len la; w_p := w_p a; w_x := w_x a;
           w_y := l_nxt la |}
        {| w_label := l_dst lb; w_len := l_len lb; w_p := w_p b; w_x := w_x b;
           w_y := l_nxt lb |}
    else Some (a, b)
  end.

(** The [while] over the labels of one dictionary name, from [b.p] on. *)
Fixpoint comp_walk_b (fuel : nat) (dstb : list Z) (lim : Z) (P : dns_packet)
    (a b : walker) : option comp_found :=
  match fuel with
  | O => None
  | S fuel =>
    let lb := dns_l_expand (w_label b) 64 (w_p b) (data P) (p_end P) in
    if l_len lb =? 0
    then Some (Miss a {| w_label := l_dst lb; w_len := l_len lb; w_p := w_p b;
                         w_x := l_nxt lb; w_y := w_y b |})
    else
      let a := {| w_label := w_label a; w_len := w_len a; w_p := w_p a;
                  w_x := w_x a; w_y := w_x a |} in
      let b := {| w_label := l_dst lb; w_len := l_len lb; w_p := w_p b;
                  w_x := l_nxt lb; w_y := l_nxt lb |} in
      match comp_match fuel dstb lim P a b with
      | None => None
      | Some (a, b) =>
        if (w_len a =? 0) && (w_len b =? 0) && (w_p b <=? 16383)
        then Some (Hit (w_p a) (w_p b))
        else comp_walk_b fuel dstb lim P a
               {| w_label := w_label b; w_len := w_len b; w_p := w_x b;
                  w_x := w_x b; w_y := w_y b |}
      end
  end.

(** The [for] over the dictionary: it stops at the first empty entry. *)
Fixpoint comp_dict (fuel : nat) (dstb : list Z) (lim : Z) (P : dns_packet)
    (d : list Z) (a b : walker) : option comp_found :=
  match d with
  | [] => Some (Miss a b)
  | e :: d =>
    if e =? 0 then Some (Miss a b)
    else
      match comp_walk_b fuel dstb lim P a
              {| w_label := w_label b; w_len := w_len b; w_p := e;
                 w_x := w_x b; w_y := w_y b |} with
      | Some (Miss a b) => comp_dict fuel dstb lim P d a b
      | r => r
      end
  end.

(** The outer [while] over the labels just written, from [a.p] on. *)
Fixpoint comp_walk_a (fuel : nat) (dstb : list Z) (lim : Z) (P : dns_packet)
    (a b : walker) : option (option (Z * Z)) :=
  match fuel with
  | O => None
  | S fuel =>
    let la := dns_l_expand (w_label a) 64 (w_p a) dstb lim in
    if l_len la =? 0 then Some None
    else
      let a := {| w_label := l_dst la; w_len := l_len la; w_p := w_p a;
                  w_x := l_nxt la; w_y := w_y a |} in
      match comp_dict fuel dstb lim P (take 16 (dict P)) a b with
      | None => None
      | Some (Hit ap bp) => Some (Some (ap, bp))
      | Some (Miss a b) =>
        comp_walk_a fuel dstb lim P
          {| w_label := w_label a; w_len := w_len a; w_p := w_x a;
             w_x := w_x a; w_y := w_y a |} b
      end
  end.

(** [dns_d_comp] up to the search for a suffix: the labels are laid out,
    the last one is closed if the name did not end in a dot, and the root
    label is added.  Yields the destination and [dst.p]. *)
Definition comp_layout (dst : list Z) (lim : Z) (src : list Z) (len : Z)
    : list Z * Z :=
  let '(dstb, dst_p, dst_x, src_p, src_x) :=
    comp_labels (slice src 0 len) lim dst 0 1 0 0 in
  let '(dstb, dst_p) :=
    if src_x >? src_p
    then ((if dst_p <? lim
           then store dstb dst_p (Z.land 63 (usize (src_x - src_p)))
           else dstb), dst_x)
    else (dstb, dst_p) in
  let dstb := if dst_p <? lim then store dstb dst_p 0 else dstb in
  (dstb, usize (dst_p + 1)).

(** [dns_d_comp]: the length and the destination buffer.  [src] is the
    name, [len] octets of it are read.  The function never stores through
    [error]. *)
Definition dns_d_comp (fuel : nat) (dst : list Z) (lim : Z) (src : list Z)
    (len : Z) (P : dns_packet) : option (Z * list Z) :=
  let '(dstb, dst_p) := comp_layout dst lim src len in
  if dst_p <? lim then
    match comp_walk_a fuel dstb lim P walker_init walker_init with
    | None => None
    | Some (Some (ap, bp)) =>
      let dstb := store dstb ap (Z.lor 192 (Z.land 63 (Z.shiftr bp 8))) in
      let dstb := store dstb (u16 (ap + 1)) (Z.land 255 (Z.shiftr bp 0)) in
      Some (u16 (u16 (ap + 1) + 1), dstb)
    | Some None => Some (dst_p, dstb)
    end
  else Some (dst_p, dstb).

(** [dns_p_dictadd]: [dn] goes into the first empty entry, if any. *)
Fixpoint dictadd (d : list Z) (dn : Z) : list Z :=
  match d with
  | [] => []
  | e :: d => if e =? 0 then dn :: d else e :: dictadd d dn
  end.

Definition dns_p_dictadd (P : dns_packet) (dn : Z) : dns_packet :=
  set_dict P (dictadd (dict P) dn).

(** ** The packet header *)

(** Modelled from the spec: [dns.h] is not part of the sources.  Sections
    are the bits QD, AN, NS, AR of a mask (the iterator goes from one to
    the next by shifting left), the header is the first 12 octets of
    [data], and its four section counts are the 16-bit big-endian fields at
    offsets 4, 6, 8 and 10. *)
Definition DNS_S_QD : Z := 1.
Definition DNS_S_AN : Z := 2.
Definition DNS_S_NS : Z := 4.
Definition DNS_S_AR : Z := 8.
Definition DNS_S_ALL : Z := 15.

Definition qdcount_off : Z := 4.
Definition ancount_off : Z := 6.
Definition nscount_off : Z := 8.
Definition arcount_off : Z := 10.

(** [ntohs] of the 16-bit field at [off]. *)
Definition ntohs_at (d : list Z) (off : Z) : Z :=
  Z.lor (Z.shiftl (Z.land 255 (byte_at d off)) 8) (Z.land 255 (byte_at d (off + 1))).

(** [field = htons(v)] for the 16-bit field at [off]. *)
Definition htons_at (d : list Z) (off v : Z) : list Z :=
  store (store d off (Z.land 255 (Z.shiftr (u16 v) 8))) (off + 1) (Z.land 255 (u16 v)).

(** [field = htons(ntohs(field) + 1)]. *)
Definition count_incr (P : dns_packet) (off : Z) : dns_packet :=
  set_data P (htons_at (data P) off (ntohs_at (data P) off + 1)).

Definition dns_p_count (P : dns_packet) (section : Z) : Z :=
  match section with
  | 1 => ntohs_at (data P) qdcount_off
  | 2 => ntohs_at (data P) ancount_off
  | 4 => ntohs_at (data P) nscount_off
  | 8 => ntohs_at (data P) arcount_off
  | 15 => u32 (ntohs_at (data P) qdcount_off + ntohs_at (data P) ancount_off
               + ntohs_at (data P) nscount_off + ntohs_at (data P) arcount_off)
  | _ => 0
  end.

(** [dns_p_init] on the zeroed storage that [dns_p_new] hands it; [size] is
    the capacity of [data]. *)
Definition dns_p_init (size : Z) : dns_packet :=
  {| dict := replicate 16 0; size := size; p_end := 12;
     data := replicate (Z.to_nat size) 0 |}.

(** [P->data[P->end++] = v]. *)
Definition push_octet (P : dns_packet) (v : Z) : dns_packet :=
  {| dict := dict P; size := size P; p_end := usize (p_end P + 1);
     data := store (data P) (p_end P) v |}.

(** ** Record data *)

(** Modelled from the spec: the record types of the registry, with their
    standard numbers. *)
Definition DNS_T_A : Z := 1.
Definition DNS_T_NS : Z := 2.
Definition DNS_T_CNAME : Z := 5.
Definition DNS_T_MX : Z := 15.
Definition DNS_T_TXT : Z := 16.
Definition DNS_T_AAAA : Z := 28.
Definition DNS_T_ALL : Z := 255.
Definition DNS_C_IN : Z := 1.
Definition DNS_C_ANY : Z := 255.

(** [union dns_any], one field per view of the union that the push
    functions read: the IPv4 address in host order ([ntohl] of it), the 16
    octets of an IPv6 address, the preference and host of an MX, the host
    of an NS or CNAME (C strings, without the NUL), and the length and
    octets of a TXT or of opaque data. *)
Record dns_any := mkAny {
  a_addr : Z;
  aaaa_addr : list Z;
  mx_preference : Z;
  mx_host : list Z;
  ns_host : list Z;
  rdata_len : Z;
  rdata_data : list Z
}.

(** The [while] of [dns_txt_push]; [dst_p] and [src_p] are the two cursors,
    [dst.end] is [P->size] and [src.end] is [txt->len]. *)
Fixpoint dns_txt_push_loop (fuel : nat) (P : dns_packet) (txt : dns_any)
    (dstb : list Z) (dst_p src_p : Z) : option (Z * dns_packet) :=
  match fuel with
  | O => None
  | S fuel =>
    if src_p <? rdata_len txt then
      let n := Z.land 255 (usize (rdata_len txt - src_p)) in
      if dst_p >=? size P then Some (-1, set_data P dstb)
      else
        let dstb := store dstb dst_p n in
        let dst_p := usize (dst_p + 1) in
        if usize (size P - dst_p) <? n then Some (-1, set_data P dstb)
        else
          let dstb := memcpy dstb dst_p (slice (rdata_data txt) src_p n) in
          dns_txt_push_loop fuel P txt dstb (usize (dst_p + n)) (usize (src_p + n))
    else Some (0, set_end (set_data P dstb) dst_p)
  end.

(** [dns_txt_push].  Every iteration of its loop takes at least one octet
    of the free space or fails, so the fuel given here is never used up. *)
Definition dns_txt_push (P : dns_packet) (txt : dns_any) : option (Z * dns_packet) :=
  if usize (size P - p_end P) <? 2 then Some (-1, P)
  else
    let n := u32 (rdata_len txt + 1 + rdata_len txt / 256) in
    let dstb := store (data P) (p_end P) (Z.land 255 (Z.shiftr n 8)) in
    let dstb := store dstb (usize (p_end P + 1)) (Z.land 255 (Z.shiftr n 0)) in
    dns_txt_push_loop (S (Z.to_nat (size P))) P txt dstb (usize (p_end P + 2)) 0.

Definition dns_a_push (P : dns_packet) (a : dns_any) : Z * dns_packet :=
  if usize (size P - p_end P) <? 6 then (-1, P)
  else
    let P := push_octet P 0 in
    let P := push_octet P 4 in
    let addr := a_addr a in
    let P := push_octet P (Z.land 255 (Z.shiftr addr 24)) in
    let P := push_octet P (Z.land 255 (Z.shiftr addr 16)) in
    let P := push_octet P (Z.land 255 (Z.shiftr addr 8)) in
    let P := push_octet P (Z.land 255 (Z.shiftr addr 0)) in
    (0, P).

Definition dns_aaaa_push (P : dns_packet) (aaaa : dns_any) : Z * dns_packet :=
  if usize (size P - p_end P) <? 2 + 16 then (-1, P)
  else
    let P := push_octet P 0 in
    let P := push_octet P 16 in
    let P := set_data P (memcpy (data P) (p_end P) (slice (aaaa_addr aaaa) 0 16)) in
    (0, set_end P (usize (p_end P + 16))).

(** ** Appending names and records *)

Section Push.

(** [dns_d_push] returns its local [error] when [dns_d_comp] yields 0, and
    nothing has stored to it then: [indeterminate] is the value read. *)
Variable indeterminate : Z.

(** [dns_d_push].  The destination of [dns_d_comp] is the free space
    [&P->data[P->end]], which the octets [data[0 .. end)] it reads through
    the dictionary never overlap. *)
Definition dns_d_push (fuel : nat) (P : dns_packet) (dn : list Z) (len : Z)
    : option (Z * dns_packet) :=
  let lim := usize (size P - p_end P) in
  let e := Z.to_nat (p_end P) in
  match dns_d_comp fuel (drop e (data P)) lim dn len P with
  | None => None
  | Some (len, dst) =>
    let P := set_data P (take e (data P) ++ dst) in
    if len =? 0 then Some (indeterminate, P)
    else if len >? lim then Some (-1, P)
    else
      let P := dns_p_dictadd P (u16 (p_end P)) in
      Some (0, set_end P (usize (p_end P + len)))
  end.

(** The back-filled [rdlength] of [dns_mx_push] and [dns_ns_push]. *)
Definition backfill (P : dns_packet) (end_ : Z) : dns_packet :=
  let len := usize (usize (p_end P - end_) - 2) in
  let d := store (data P) (end_ + 0) (Z.land 255 (Z.shiftr len 8)) in
  set_data P (store d (end_ + 1) (Z.land 255 (Z.shiftr len 0))).

Definition dns_mx_push (fuel : nat) (P : dns_packet) (mx : dns_any)
    : option (Z * dns_packet) :=
  if usize (size P - p_end P) <? 5 then Some (-1, P)
  else
    let end_ := p_end P in
    let P := set_end P (usize (p_end P + 2)) in
    let P := push_octet P (Z.land 255 (Z.shiftr (mx_preference mx) 8)) in
    let P := push_octet P (Z.land 255 (Z.shiftr (mx_preference mx) 0)) in
    match dns_d_push fuel P (mx_host mx) (Z.of_nat (length (mx_host mx))) with
    | None => None
    | Some (error, P) =>
      if negb (error =? 0) then Some (error, set_end P end_)
      else Some (0, backfill P end_)
    end.

Definition dns_ns_push (fuel : nat) (P : dns_packet) (ns : dns_any)
    : option (Z * dns_packet) :=
  if usize (size P - p_end P) <? 3 then Some (-1, P)
  else
    let end_ := p_end P in
    let P := set_end P (usize (p_end P + 2)) in
    match dns_d_push fuel P (ns_host ns) (Z.of_nat (length (ns_host ns))) with
    | None => None
    | Some (error, P) =>
      if negb (error =? 0) then Some (error, set_end P end_)
      else Some (0, backfill P end_)
    end.

(** [dns_cname_push] casts its argument and calls [dns_ns_push]. *)
Definition dns_cname_push (fuel : nat) (P : dns_packet) (cname : dns_any)
    : option (Z * dns_packet) :=
  dns_ns_push fuel P cname.

(** [dns_any_push]: the table [dns_rrtypes] in its order, then the opaque
    fallback. *)
Definition dns_any_push (fuel : nat) (P : dns_packet) (any : dns_any) (type : Z)
    : option (Z * dns_packet) :=
  if type =? DNS_T_A then Some (dns_a_push P any)
  else if type =? DNS_T_AAAA then Some (dns_aaaa_push P any)
  else if type =? DNS_T_MX then dns_mx_push fuel P any
  else if type =? DNS_T_NS then dns_ns_push fuel P any
  else if type =? DNS_T_CNAME then dns_cname_push fuel P any
  else if type =? DNS_T_TXT then dns_txt_push P any
  else if usize (size P - p_end P) <? usize (rdata_len any + 2) then Some (-1, P)
  else
    let P := push_octet P (Z.land 255 (Z.shiftr (rdata_len any) 8)) in
    let P := push_octet P (Z.land 255 (Z.shiftr (rdata_len any) 0)) in
    let P := set_data P (memcpy (data P) (p_end P)
                           (slice (rdata_data any) 0 (rdata_len any))) in
    Some (0, set_end P (usize (p_end P + rdata_len any))).

(** [dns_p_push].  [ttl] is an [unsigned]; [type] and [class] are enums. *)
Definition dns_p_push (fuel : nat) (P : dns_packet) (section : Z) (dn : list Z)
    (dnlen : Z) (type class ttl : Z) (any : dns_any) : option (Z * dns_packet) :=
  let end_ := p_end P in
  match dns_d_push fuel P dn dnlen with
  | None => None
  | Some (error, P) =>
    if negb (error =? 0) then Some (error, set_end P end_)
    else if usize (size P - p_end P) <? 4 then Some (-1, set_end P end_)
    else
      let P := push_octet P (Z.land 255 (Z.shiftr type 8)) in
      let P := push_octet P (Z.land 255 (Z.shiftr type 0)) in
      let P := push_octet P (Z.land 255 (Z.shiftr class 8)) in
      let P := push_octet P (Z.land 255 (Z.shiftr class 0)) in
      if section =? DNS_S_QD then Some (0, count_incr P qdcount_off)
      else if usize (size P - p_end P) <? 6 then Some (-1, set_end P end_)
      else
        let P := push_octet P (Z.land 127 (Z.shiftr ttl 24)) in
        let P := push_octet P (Z.land 255 (Z.shiftr ttl 16)) in
        let P := push_octet P (Z.land 255 (Z.shiftr ttl 8)) in
        let P := push_octet P (Z.land 255 (Z.shiftr ttl 0)) in
        match dns_any_push fuel P any type with
        | None => None
        | Some (error, P) =>
          if negb (error =? 0) then Some (error, set_end P end_)
          else
            Some (0,
              if section =? DNS_S_AN then count_incr P ancount_off
              else if section =? DNS_S_NS then count_incr P nscount_off
              else if section =? DNS_S_AR then count_incr P arcount_off
              else P)
        end
  end.

End Push.

(** ** Resource records *)

(** [struct dns_rr].  Offsets and lengths into the packet are 16 bits wide,
    as everywhere in the sources ([dns_rr_len] and [dns_rr_skip] return
    [unsigned short]). *)
Record dns_rr := mkRR {
  rr_section : Z;
  dn_p : Z;
  dn_len : Z;
  rr_type : Z;
  rr_class : Z;
  rr_ttl : Z;
  rd_p : Z;
  rd_len : Z
}.

Definition rr_blank : dns_rr :=
  {| rr_section := 0; dn_p := 0; dn_len := 0; rr_type := 0; rr_class := 0;
     rr_ttl := 0; rd_p := 0; rd_len := 0 |}.

(** [(data[p] << 8) | data[p + 1]]. *)
Definition be16 (d : list Z) (p : Z) : Z :=
  Z.lor (Z.shiftl (Z.land 255 (byte_at d (p + 0))) 8)
        (Z.shiftl (Z.land 255 (byte_at d (p + 1))) 0).

(** [dns_rr_parse]: the status and [*rr], which the code fills in as it
    goes, so that a failed parse leaves some fields of [rr] as they were. *)
Definition dns_rr_parse (fuel : nat) (rr : dns_rr) (src : Z) (P : dns_packet)
    : option (Z * dns_rr) :=
  if src >=? p_end P then Some (-1, rr)
  else
    match dns_d_skip_loop fuel src P with
    | None => None
    | Some p =>
      let rr := {| rr_section := rr_section rr; dn_p := src; dn_len := u16 (p - src);
                   rr_type := rr_type rr; rr_class := rr_class rr;
                   rr_ttl := rr_ttl rr; rd_p := rd_p rr; rd_len := rd_len rr |} in
      if usize (p_end P - p) <? 4 then Some (-1, rr)
      else
        let type := be16 (data P) p in
        let class := be16 (data P) (p + 2) in
        let p := u16 (p + 4) in
        if src =? 12 then
          Some (0, {| rr_section := rr_section rr; dn_p := dn_p rr;
                      dn_len := dn_len rr; rr_type := type; rr_class := class;
                      rr_ttl := 0; rd_p := 0; rd_len := 0 |})
        else
          let rr := {| rr_section := rr_section rr; dn_p := dn_p rr;
                       dn_len := dn_len rr; rr_type := type; rr_class := class;
                       rr_ttl := rr_ttl rr; rd_p := rd_p rr; rd_len := rd_len rr |} in
          if usize (p_end P - p) <? 4 then Some (-1, rr)
          else
            let ttl :=
              Z.lor (Z.lor (Z.lor
                (Z.shiftl (Z.land 127 (byte_at (data P) (p + 0))) 24)
                (Z.shiftl (Z.land 255 (byte_at (data P) (p + 1))) 16))
                (Z.shiftl (Z.land 255 (byte_at (data P) (p + 2))) 8))
                (Z.shiftl (Z.land 255 (byte_at (data P) (p + 3))) 0) in
            let p := u16 (p + 4) in
            let rr := {| rr_section := rr_section rr; dn_p := dn_p rr;
                         dn_len := dn_len rr; rr_type := type; rr_class := class;
                         rr_ttl := ttl; rd_p := rd_p rr; rd_len := rd_len rr |} in
            if usize (p_end P - p) <? 2 then Some (-1, rr)
            else
              let rr := {| rr_section := rr_section rr; dn_p := dn_p rr;
                           dn_len := dn_len rr; rr_type := type; rr_class := class;
                           rr_ttl := ttl; rd_p := u16 (p + 2);
                           rd_len := be16 (data P) p |} in
              let p := u16 (p + 2) in
              if usize (p_end P - p) <? rd_len rr then Some (-1, rr)
              else Some (0, rr)
    end.

(** [dns_rr_len]; the sum is a [size_t], the result an [unsigned short]. *)
Definition dns_rr_len (rr : dns_rr) : Z :=
  let len := dn_len rr + 4 in
  if dn_p rr =? 12 then u16 len
  else u16 (len + 4 + 2 + rd_len rr).

Definition dns_rr_skip (fuel : nat) (src : Z) (P : dns_packet) : option Z :=
  match dns_rr_parse fuel rr_blank src P with
  | None => None
  | Some (error, rr) =>
    if negb (error =? 0) then Some (u16 (p_end P))
    else Some (u16 (src + dns_rr_len rr))
  end.

(** [struct dns_rr_i]: the filter ([0] and [None] stand for an unset
    field) and the state of the iteration. *)
Record dns_rr_i := mkRRI {
  i_section : Z;
  i_name : option (list Z);
  i_type : Z;
  i_class : Z;
  st_section : Z;
  st_next : Z;
  st_index : Z
}.

(** Modelled from the spec: [DNS_RR_I_STATE_INITIALIZER] of [dns.h], the
    question section, the offset 12 right after the header, index 0. *)
Definition dns_rr_i_init (i : dns_rr_i) : dns_rr_i :=
  {| i_section := i_section i; i_name := i_name i; i_type := i_type i;
     i_class := i_class i; st_section := DNS_S_QD; st_next := 12; st_index := 0 |}.

Definition set_state (i : dns_rr_i) (section next index : Z) : dns_rr_i :=
  {| i_section := i_section i; i_name := i_name i; i_type := i_type i;
     i_class := i_class i; st_section := section; st_next := next;
     st_index := index |}.

(** What [dns_rr_grep] leaves behind: the count it returns, the records it
    put into the caller's array, the iterator, and the last value stored
    through [error], if any. *)
Record grepped := mkGrepped {
  g_count : Z;
  g_rr : list dns_rr;
  g_i : dns_rr_i;
  g_error : option Z
}.

(** [dns_rr_grep], one iteration of the [while] per unit of fuel.  [cur] is
    the array slot [*rr] being filled, [out] the slots already passed. *)
Fixpoint dns_rr_grep_loop (fuel : nat) (cur : dns_rr) (out : list dns_rr)
    (count lim : Z) (i : dns_rr_i) (P : dns_packet) (error : option Z)
    : option grepped :=
  let stop i error :=
    Some {| g_count := count; g_rr := out; g_i := i; g_error := error |} in
  match fuel with
  | O => None
  | S fuel =>
    if st_next i <? p_end P then
      if st_index i >=? dns_p_count P (st_section i) then
        let section := Z.shiftl (st_section i) 1 in
        if DNS_S_AR <? section then stop (set_state i section (st_next i) (st_index i)) error
        else dns_rr_grep_loop fuel cur out count lim (set_state i section (st_next i) 0) P error
      else
        match dns_rr_parse fuel cur (st_next i) P with
        | None => None
        | Some (e, rr) =>
          if negb (e =? 0) then stop i (Some e)
          else
            let rr := {| rr_section := st_section i; dn_p := dn_p rr;
                         dn_len := dn_len rr; rr_type := rr_type rr;
                         rr_class := rr_class rr; rr_ttl := rr_ttl rr;
                         rd_p := rd_p rr; rd_len := rd_len rr |} in
            let i := set_state i (st_section i) (u16 (st_next i + dns_rr_len rr))
                               (u32 (st_index i + 1)) in
            let skip error := dns_rr_grep_loop fuel rr out count lim i P error in
            if negb (i_section i =? 0) && (Z.land (rr_section rr) (i_section i) =? 0)
            then skip (Some e)
            else if negb (i_type i =? 0) && negb (rr_type rr =? i_type i)
                    && negb (i_type i =? DNS_T_ALL)
            then skip (Some e)
            else if negb (i_class i =? 0) && negb (rr_class rr =? i_class i)
                    && negb (i_class i =? DNS_C_ANY)
            then skip (Some e)
            else
              let take_it error :=
                if u32 (count + 1) <? lim
                then dns_rr_grep_loop fuel rr_blank (out ++ [rr]) (u32 (count + 1))
                                      lim i P error
                else Some {| g_count := u32 (count + 1); g_rr := out ++ [rr];
                             g_i := i; g_error := error |} in
              match i_name i with
              | None => take_it (Some e)
              | Some name =>
                match dns_d_expand fuel (replicate 256 0) 256 (dn_p rr) P with
                | None => None
                | Some x =>
                  let error := match x_error x with Some v => Some v | None => Some e end in
                  if 256 <=? x_len x then stop i error
                  else if negb (strcaseeq (x_dst x) name) then skip error
                  else take_it error
                end
              end
        end
    else stop i error
  end.

Definition dns_rr_grep (fuel : nat) (lim : Z) (i : dns_rr_i) (P : dns_packet)
    : option grepped :=
  dns_rr_grep_loop fuel rr_blank [] 0 lim i P None.

(** ** Text output helpers *)

(** [dns__printstring(dst, lim, cp, src, len)]: the destination; the value
    returned is [len]. *)
Definition dns__printstring (dst : list Z) (lim cp : Z) (src : list Z) (len : Z)
    : list Z :=
  if cp <? lim then memcpy dst cp (slice src 0 (MIN len (usize (lim - cp)))) else dst.

Definition dns__printnul (dst : list Z) (lim off : Z) : list Z :=
  if lim >? 0 then store dst (MIN off (lim - 1)) 0 else dst.

(** ** Resolver configuration *)

(** Values of the host's headers (Linux): address families and the sizes
    that [dns_af_len] looks up. *)
Module Platform.
Definition AF_UNSPEC : Z := 0.
Definition AF_UNIX : Z := 1.
Definition AF_INET : Z := 2.
Definition AF_INET6 : Z := 10.
Definition sizeof_sockaddr_un : Z := 110.
Definition sizeof_sockaddr_in : Z := 16.
Definition sizeof_sockaddr_in6 : Z := 28.
End Platform.
Import Platform.

(** A socket address: family, port (as [htons] stored it, given here in
    host order) and the octets of the address. *)
Record sockaddr := mkSockaddr {
  sa_family : Z;
  sa_port : Z;
  sa_addr : list Z
}.

Definition sockaddr_zero : sockaddr :=
  {| sa_family := 0; sa_port := 0; sa_addr := [] |}.

(** [dns_af_len]: the table has 32 entries, all 0 but three. *)
Definition dns_af_len (af : Z) : Z :=
  let af := MIN af 31 in
  if af =? AF_INET6 then sizeof_sockaddr_in6
  else if af =? AF_INET then sizeof_sockaddr_in
  else if af =? AF_UNIX then sizeof_sockaddr_un
  else 0.

(** Modelled from the spec: [struct dns_resolv_conf] of [dns.h], with room
    for 3 nameservers and 6 search entries of [DNS_D_MAXNAME + 1] octets;
    the capacity of [lookup] is the length of the list. *)
Record dns_resolv_conf := mkResconf {
  nameserver : list sockaddr;
  search : list (list Z);
  lookup : list Z;
  opt_edns0 : Z;
  opt_ndots : Z;
  opt_recursive : Z;
  interface : sockaddr
}.

Definition nameserver_max : Z := 3.
Definition search_max : Z := 6.

(** [enum dns_resconf_keyword]. *)
Definition DNS_RESCONF_NAMESERVER : Z := 0.
Definition DNS_RESCONF_DOMAIN : Z := 1.
Definition DNS_RESCONF_SEARCH : Z := 2.
Definition DNS_RESCONF_LOOKUP : Z := 3.
Definition DNS_RESCONF_FILE : Z := 4.
Definition DNS_RESCONF_BIND : Z := 5.
Definition DNS_RESCONF_OPTIONS : Z := 6.
Definition DNS_RESCONF_EDNS0 : Z := 7.
Definition DNS_RESCONF_NDOTS : Z := 8.
Definition DNS_RESCONF_RECURSIVE : Z := 9.
Definition DNS_RESCONF_INTERFACE : Z := 10.

(** The octets of a string literal. *)
Definition octets (s : string) : list Z :=
  map (fun c => Z.of_N (Ascii.N_of_ascii c)) (String.list_ascii_of_string s).


(** The table [words] of [dns_resconf_keyword], indexed by the enum; the
    entry of [DNS_RESCONF_NDOTS] is a null pointer. *)
Definition keyword_words : list (option (list Z)) :=
  [ Some (octets "nameserver"); Some (octets "domain"); Some (octets "search");
    Some (octets "lookup"); Some (octets "file"); Some (octets "bind");
    Some (octets "options"); Some (octets "edns0"); None;
    Some (octets "recursive"); Some (octets "interface") ].

(** The [for] of [dns_resconf_keyword] from index [i] on. *)
Fixpoint keyword_scan (ws : list (option (list Z))) (i : Z) (word : list Z)
    : option Z :=
  match ws with
  | [] => None
  | w :: ws =>
    match w with
    | Some w => if strcaseeq w word then Some i else keyword_scan ws (i + 1) word
    | None => keyword_scan ws (i + 1) word
    end
  end.

(** [dns_resconf_keyword]: a word the table does not hold yields 0. *)
Definition dns_resconf_keyword (word : list Z) : Z :=
  match keyword_scan keyword_words 0 word with
  | Some i => i
  | None =>
    if strncaseeq word (octets "ndots:") 6 then DNS_RESCONF_NDOTS else 0
  end.

Definition isspace (ch : Z) : bool :=
  (ch =? 32) || ((9 <=? ch) && (ch <=? 13)).
Definition isdigit (ch : Z) : bool := (48 <=? ch) && (ch <=? 57).
Definition dns_resconf_issep (ch : Z) : bool := isspace ch || (ch =? 44).
Definition dns_resconf_iscom (ch : Z) : bool := (ch =? 35) || (ch =? 59).

Definition EOF : Z := -1.

(** The [do ... while] after the label [skip]: the rest of the line is
    dropped.  Yields what is left of the file and the last [ch]. *)
Fixpoint skip_line (fp : list Z) : list Z * Z :=
  match fp with
  | [] => ([], EOF)
  | ch :: fp => if ch =? 10 then (fp, ch) else skip_line fp
  end.

(** [words[wc][wp] = ch] through [dns__printchar], which drops what does
    not fit into the [DNS_D_MAXNAME + 1] octets of a word.  [words] is the
    array [char words[6][DNS_D_MAXNAME + 1]] as it lies in memory, its six
    rows of 256 octets one after the other. *)
Definition word_put (words : list Z) (wc wp ch : Z) : list Z :=
  if wp <? 256 then store words (256 * wc + wp) ch else words.

(** The inner [while] of [dns_resconf_loadfile], which splits one line into
    words: the words, [wp], [wc], what is left of the file and the last
    [ch]. *)
Fixpoint read_line (fp : list Z) (words : list Z) (wp wc : Z)
    : list Z * Z * Z * list Z * Z :=
  match fp with
  | [] => (words, wp, wc, [], EOF)
  | ch :: fp =>
    if ch =? 10 then (words, wp, wc, fp, ch)
    else if dns_resconf_issep ch then
      if wp >? 0 then
        if u32 (wc + 1) >=? 6
        then let '(fp, ch) := skip_line fp in (words, 0, u32 (wc + 1), fp, ch)
        else read_line fp words 0 (u32 (wc + 1))
      else read_line fp words wp wc
    else if dns_resconf_iscom ch then
      let '(fp, ch) := skip_line fp in (words, wp, wc, fp, ch)
    else read_line fp (word_put words wc wp ch) (u32 (wp + 1)) wc
  end.

(** The digit loops of the [ndots:] option and of the [interface] port:
    [n] is an [unsigned]. *)
Fixpoint digits (s : list Z) (n : Z) : Z :=
  match s with
  | [] => n
  | c :: s => if isdigit c then digits s (u32 (u32 (n * 10) + (c - 48))) else n
  end.

Section Resconf.

(** [inet_pton(af, src, dst)] of the host: the octets it stores through
    [dst] when it returns 1, [None] when it returns anything else. *)
Variable inet_pton : Z -> list Z -> option (list Z).

(** The octets that lie in memory behind the array [words]. *)
Variable beyond : list Z.

(** [words[i]] as [strlen], [strchr], [strcasecmp], [inet_pton] and the
    digit loops see it: the octets from the start of row [i] on.  A word of
    fewer than 256 octets is closed by a NUL of the [memset]; a longer one
    fills its row, and what is read then goes on into the next row and,
    from the last row, behind the array. *)
Definition word_at (words : list Z) (i : nat) : list Z :=
  drop (256 * i)%nat (words ++ beyond).

(** [strchr(s, ':')] as a truth value. *)
Definition has_colon (s : list Z) : bool := existsb (Z.eqb 58) (c_str s).

(** [dns_resconf_setiface]; its status is ignored by the only caller. *)
Definition dns_resconf_setiface (resconf : dns_resolv_conf) (addr : list Z)
    (port : Z) : dns_resolv_conf :=
  let af := if has_colon addr then AF_INET6 else AF_INET in
  match inet_pton af (c_str addr) with
  | None => resconf
  | Some a =>
    {| nameserver := nameserver resconf; search := search resconf;
       lookup := lookup resconf; opt_edns0 := opt_edns0 resconf;
       opt_ndots := opt_ndots resconf; opt_recursive := opt_recursive resconf;
       interface := {| sa_family := af; sa_port := u16 port; sa_addr := a |} |}
  end.

(** The [for] of the [search] and [domain] directives over [words[i ..
    wc)], filling [search[j]] on. *)
Fixpoint search_fill (ws : list (list Z)) (j : Z) (search : list (list Z))
    : list (list Z) :=
  match ws with
  | [] => search
  | w :: ws =>
    if j <? search_max
    then search_fill ws (j + 1)
           (alter (fun b => snd (dns_d_anchor b 256 w (strlen w))) (Z.to_nat j) search)
    else search
  end.

(** The [for] of the [lookup] directive; the capacity of [lookup] is the
    length of the list. *)
Fixpoint lookup_fill (ws : list (list Z)) (j : Z) (lookup : list Z) : list Z :=
  match ws with
  | [] => lookup
  | w :: ws =>
    if j <? Z.of_nat (length lookup) then
      let k := dns_resconf_keyword w in
      if k =? DNS_RESCONF_FILE then lookup_fill ws (j + 1) (store lookup j 102)
      else if k =? DNS_RESCONF_BIND then lookup_fill ws (j + 1) (store lookup j 98)
      else lookup_fill ws j lookup
    else lookup
  end.

(** The [for] of the [options] directive. *)
Fixpoint options_fill (ws : list (list Z)) (resconf : dns_resolv_conf)
    : dns_resolv_conf :=
  match ws with
  | [] => resconf
  | w :: ws =>
    let k := dns_resconf_keyword w in
    let set e n r :=
      {| nameserver := nameserver resconf; search := search resconf;
         lookup := lookup resconf; opt_edns0 := e; opt_ndots := n;
         opt_recursive := r; interface := interface resconf |} in
    options_fill ws
      (if k =? DNS_RESCONF_EDNS0
       then set 1 (opt_ndots resconf) (opt_recursive resconf)
       else if k =? DNS_RESCONF_NDOTS
       then set (opt_edns0 resconf) (digits (drop 6 w) 0) (opt_recursive resconf)
       else if k =? DNS_RESCONF_RECURSIVE
       then set (opt_edns0 resconf) (opt_ndots resconf) 1
       else resconf)
  end.

(** The [switch] of [dns_resconf_loadfile] on the first word of a line of
    [wc >= 2] words: the configuration and [sa_count] after it. *)
Definition loadfile_switch (words : list Z) (wc : Z)
    (resconf : dns_resolv_conf) (sa_count : Z) : dns_resolv_conf * Z :=
  let word i := word_at words i in
  let args := map word (seq 1 (Z.to_nat (wc - 1))) in
  let k := dns_resconf_keyword (word 0%nat) in
  if k =? DNS_RESCONF_NAMESERVER then
    if sa_count >=? nameserver_max then (resconf, sa_count)
    else
      let af := if has_colon (word 1%nat) then AF_INET6 else AF_INET in
      match inet_pton af (c_str (word 1%nat)) with
      | None => (resconf, sa_count)
      | Some a =>
        ({| nameserver :=
              <[Z.to_nat sa_count := {| sa_family := af; sa_port := 53; sa_addr := a |}]>
                (nameserver resconf);
            search := search resconf; lookup := lookup resconf;
            opt_edns0 := opt_edns0 resconf; opt_ndots := opt_ndots resconf;
            opt_recursive := opt_recursive resconf;
            interface := interface resconf |},
         u32 (sa_count + 1))
      end
  else if (k =? DNS_RESCONF_DOMAIN) || (k =? DNS_RESCONF_SEARCH) then
    ({| nameserver := nameserver resconf;
        search := search_fill args 0 (replicate (Z.to_nat search_max) (replicate 256 0));
        lookup := lookup resconf; opt_edns0 := opt_edns0 resconf;
        opt_ndots := opt_ndots resconf; opt_recursive := opt_recursive resconf;
        interface := interface resconf |}, sa_count)
  else if k =? DNS_RESCONF_LOOKUP then
    ({| nameserver := nameserver resconf; search := search resconf;
        lookup := lookup_fill args 0 (lookup resconf);
        opt_edns0 := opt_edns0 resconf; opt_ndots := opt_ndots resconf;
        opt_recursive := opt_recursive resconf;
        interface := interface resconf |}, sa_count)
  else if k =? DNS_RESCONF_OPTIONS then (options_fill args resconf, sa_count)
  else if k =? DNS_RESCONF_INTERFACE then
    (dns_resconf_setiface resconf (word 1%nat) (digits (word 2%nat) 0), sa_count)
  else (resconf, sa_count).

(** The body of the [do ... while] of [dns_resconf_loadfile], once per unit
    of fuel; [fp] is what is left of the file. *)
Fixpoint loadfile_loop (fuel : nat) (fp : list Z) (resconf : dns_resolv_conf)
    (sa_count : Z) : option dns_resolv_conf :=
  match fuel with
  | O => None
  | S fuel =>
    let '(words, wp, wc, fp, ch) :=
      read_line fp (replicate 1536 0) 0 0 in
    let wc := if wp >? 0 then u32 (wc + 1) else wc in
    let '(resconf, sa_count) :=
      if wc <? 2 then (resconf, sa_count)
      else loadfile_switch words wc resconf sa_count in
    if ch =? EOF then Some resconf else loadfile_loop fuel fp resconf sa_count
  end.

(** [dns_resconf_loadfile] on a file holding the octets [fp].  Every pass
    of the loop reads at least one octet or ends it, so the fuel given here
    is never used up. *)
Definition dns_resconf_loadfile (resconf : dns_resolv_conf) (fp : list Z)
    : option dns_resolv_conf :=
  loadfile_loop (S (length fp)) fp resconf 0.

End Resconf.

(** The dots of [qname[0 .. qlen)], counted by the [memchr] loop of
    [dns_resconf_search] onto [ndots], an [unsigned]. *)
Fixpoint count_dots (q : list Z) (ndots : Z) : Z :=
  match q with
  | [] => ndots
  | c :: q => count_dots q (if c =? 46 then u32 (ndots + 1) else ndots)
  end.

(** The cases of the [switch] of [dns_resconf_search], last first since
    each falls through into the next: the length, the destination, the
    state word and [srchi]. *)
Definition search_case2 (dst : list Z) (lim : Z) (qname : list Z) (qlen : Z)
    (resconf : dns_resolv_conf) (state srchi ndots : Z) : Z * list Z * Z * Z :=
  let state := usize (state + 1) in
  if ndots <? opt_ndots resconf then
    let '(len, dst) := dns_d_anchor dst lim qname qlen in
    (u32 len, dst, state, srchi)
  else (0, dst, state, srchi).

Definition search_case1 (dst : list Z) (lim : Z) (qname : list Z) (qlen : Z)
    (resconf : dns_resolv_conf) (state srchi ndots : Z) : Z * list Z * Z * Z :=
  let entry := default [] (search resconf !! Z.to_nat srchi) in
  let slen := u32 (strlen entry) in
  if (srchi <? search_max) && negb (slen =? 0) then
    let dst := dns__printstring dst lim 0 qname qlen in
    let len := u32 qlen in
    let '(len, dst) := dns_d_anchor dst lim dst len in
    let len := u32 len in
    let dst := dns__printstring dst lim len entry slen in
    (u32 (len + slen), dst, state, u32 (srchi + 1))
  else search_case2 dst lim qname qlen resconf (usize (state + 1)) srchi ndots.

Definition search_case0 (dst : list Z) (lim : Z) (qname : list Z) (qlen : Z)
    (resconf : dns_resolv_conf) (state srchi ndots : Z)
    : Z * list Z * Z * Z * Z :=
  let ndots := count_dots (slice qname 0 qlen) ndots in
  let state := usize (state + 1) in
  if ndots >=? opt_ndots resconf then
    let '(len, dst) := dns_d_anchor dst lim qname qlen in
    (u32 len, dst, state, srchi, ndots)
  else
    (search_case1 dst lim qname qlen resconf state srchi ndots, ndots).

(** [dns_resconf_search]: the length returned, the destination and the new
    [*state]. *)
Definition dns_resconf_search (dst : list Z) (lim : Z) (qname : list Z)
    (qlen : Z) (resconf : dns_resolv_conf) (state : Z) : Z * list Z * Z :=
  let srchi := Z.land 255 (Z.shiftr state 8) in
  let ndots := Z.land 255 (Z.shiftr state 16) in
  let '(len, dst, state, srchi, ndots) :=
    match Z.land 255 state with
    | 0 => search_case0 dst lim qname qlen resconf state srchi ndots
    | 1 => (search_case1 dst lim qname qlen resconf state srchi ndots, ndots)
    | 2 => (search_case2 dst lim qname qlen resconf state srchi ndots, ndots)
    | _ => (0, dst, state, srchi, ndots)
    end in
  let dst := dns__printnul dst lim len in
  let state :=
    Z.lor (Z.lor (Z.shiftl (Z.land 255 state) 0) (Z.shiftl (Z.land 255 srchi) 8))
          (Z.shiftl (Z.land 255 ndots) 16) in
  (len, dst, state).

(** The loop of [search_list], the command-line routine that prints the
    candidates: [dns_resconf_search] is called on the buffer [name] of
    [DNS_D_MAXNAME + 1] octets until it returns 0; each candidate is the C
    string then found in [name]. *)
Fixpoint search_list (fuel : nat) (name qname : list Z)
    (resconf : dns_resolv_conf) (i : Z) : option (list (list Z)) :=
  match fuel with
  | O => None
  | S fuel =>
    let '(len, name, i) :=
      dns_resconf_search name 256 qname (Z.of_nat (length qname)) resconf i in
    if len =? 0 then Some []
    else option_map (cons (c_str name)) (search_list fuel name qname resconf i)
  end.

(** ** Hints *)

(** One slot of [addrs]: the address, the three priorities and the loss
    counter. *)
Record hints_addr := mkHintsAddr {
  ss : sockaddr;
  pri_saved : Z;
  pri_effective : Z;
  pri_ttl : Z;
  nlost : Z
}.

(** [struct dns_hints_soa]; [next] is a pointer to another node, or null. *)
Record dns_hints_soa := mkSoa {
  zone : list Z;
  addrs : list hints_addr;
  count : Z;
  next : option nat
}.

(** [struct dns_hints]. *)
Record dns_hints := mkHints {
  refcount : Z;
  head : option nat
}.

(** The nodes [malloc] has handed out so far; the address of a node is its
    position.  Nothing in [dns_hints_insert] frees a node. *)
Definition heap := list dns_hints_soa.

Definition hints_addr_zero : hints_addr :=
  {| ss := sockaddr_zero; pri_saved := 0; pri_effective := 0; pri_ttl := 0;
     nlost := 0 |}.

(** [soa_initializer], then [dns__printstring] of the zone into it. *)
Definition soa_initializer (zone : list Z) : dns_hints_soa :=
  {| zone := dns__printstring (replicate 256 0) 256 0 zone (Z.of_nat (length zone));
     addrs := replicate 16 hints_addr_zero; count := 0; next := None |}.

(** [dns_hints_open]: [H_initializer], then [dns_hints_acquire]. *)
Definition dns_hints_open : dns_hints := {| refcount := 1; head := None |}.

(** [dns_hints_fetch], from the node [soa] on.  A chain with more nodes
    than the heap holds is a cycle, on which the [for] would not end. *)
Fixpoint fetch_from (fuel : nat) (m : heap) (soa : option nat) (z : list Z)
    : option (option nat) :=
  match soa with
  | None => Some None
  | Some p =>
    match fuel with
    | O => None
    | S fuel =>
      match m !! p with
      | None => None
      | Some node =>
        if strcaseeq z (zone node) then Some (Some p)
        else fetch_from fuel m (next node) z
      end
    end
  end.

Definition dns_hints_fetch (m : heap) (H : dns_hints) (z : list Z)
    : option (option nat) :=
  fetch_from (S (length m)) m (head H) z.

Definition ENOMEM : Z := 12.

(** The slot [i] of [soa] after [dns_hints_insert] has written to it: the
    address is copied over [dns_sa_len(sa)] octets, which is nothing for a
    family [dns_af_len] does not know. *)
Definition soa_put (soa : dns_hints_soa) (sa : sockaddr) (priority : Z)
    : dns_hints_soa :=
  let i := Z.to_nat (count soa mod 16) in
  let slot := default hints_addr_zero (addrs soa !! i) in
  let slot :=
    {| ss := if dns_af_len (sa_family sa) =? 0 then ss slot else sa;
       pri_saved := MAX 1 priority; pri_effective := MAX 1 priority;
       pri_ttl := pri_ttl slot; nlost := nlost slot |} in
  {| zone := zone soa; addrs := <[i := slot]> (addrs soa);
     count := if count soa <? 16 then u32 (count soa + 1) else count soa;
     next := next soa |}.

(** [dns_hints_insert]: the status, the heap and [*H].  [oom] tells whether
    [malloc] fails, should the zone need a node.  A new node gets the old
    head as its [next], and then [H->head] is assigned [soa->next]. *)
Definition dns_hints_insert (oom : bool) (m : heap) (H : dns_hints)
    (z : list Z) (sa : sockaddr) (priority : Z) : option (Z * heap * dns_hints) :=
  match dns_hints_fetch m H z with
  | None => None
  | Some (Some p) =>
    Some (0, alter (fun soa => soa_put soa sa priority) p m, H)
  | Some None =>
    if oom then Some (ENOMEM, m, H)
    else
      let soa := soa_initializer z in
      let soa := {| zone := zone soa; addrs := addrs soa; count := count soa;
                    next := head H |} in
      let H := {| refcount := refcount H; head := next soa |} in
      Some (0, m ++ [soa_put soa sa priority], H)
  end.

(** [struct dns_hints_i]: the zone asked for and the state of the
    iteration (priority, ring pointer and end of the scan, all
    [unsigned]). *)
Record dns_hints_i := mkHintsI {
  hi_zone : list Z;
  hi_priority : Z;
  hi_p : Z;
  hi_end : Z
}.

Definition dns_hints_i_init (i : dns_hints_i) : dns_hints_i :=
  {| hi_zone := hi_zone i; hi_priority := 0; hi_p := 0; hi_end := 0 |}.

Definition effective_at (soa : dns_hints_soa) (j : Z) : Z :=
  pri_effective (default hints_addr_zero (addrs soa !! Z.to_nat j)).

(** The inner [while] of [dns_hints_i_ffwd], at most [n] passes: the slot
    found, if any, and the ring pointer. *)
Fixpoint ffwd_scan (n : nat) (soa : dns_hints_soa) (priority p end_ : Z)
    : option Z * Z :=
  match n with
  | O => (None, p)
  | S n =>
    if p <? end_ then
      let j := p mod count soa in
      let p := u32 (p + 1) in
      if effective_at soa j =? priority then (Some j, p)
      else ffwd_scan n soa priority p end_
    else (None, p)
  end.

(** The [for] of [dns_hints_i_ffwd] that looks for the next priority, over
    the slots [j .. count): the priority, [max] and [found]. *)
Fixpoint ffwd_next (n : nat) (soa : dns_hints_soa) (j min priority max : Z)
    (found : bool) : Z * Z * bool :=
  match n with
  | O => (priority, max, found)
  | S n =>
    let pri := effective_at soa j in
    if (pri >=? min) && (pri <=? max)
    then ffwd_next n soa (j + 1) min pri pri true
    else ffwd_next n soa (j + 1) min priority max found
  end.

Section Hints.

(** [dns_random]: the [n]-th value the generator hands out. *)
Variable dns_random : nat -> Z.

(** [dns_hints_i_ffwd], one pass of the [do ... while] per unit of fuel:
    the slot or -1, the iterator, and how many random values were drawn. *)
Fixpoint dns_hints_i_ffwd (fuel : nat) (tick : nat) (i : dns_hints_i)
    (soa : dns_hints_soa) : option (Z * dns_hints_i * nat) :=
  match fuel with
  | O => None
  | S fuel =>
    match ffwd_scan (Z.to_nat (hi_end i - hi_p i)) soa (hi_priority i) (hi_p i)
                    (hi_end i) with
    | (Some j, p) =>
      Some (j, {| hi_zone := hi_zone i; hi_priority := hi_priority i; hi_p := p;
                  hi_end := hi_end i |}, tick)
    | (None, _) =>
      let min := u32 (hi_priority i + 1) in
      let '(priority, _, found) :=
        ffwd_next (Z.to_nat (count soa)) soa 0 min min 4294967295 false in
      let p := Z.land 255 (dns_random tick) in
      let i := {| hi_zone := hi_zone i; hi_priority := priority; hi_p := p;
                  hi_end := u32 (p + count soa) |} in
      if found then dns_hints_i_ffwd fuel (S tick) i soa
      else Some (-1, i, S tick)
    end
  end.

(** The [while] of [dns_hints_grep]: the addresses stored through [sa], in
    order, and the iterator. *)
Fixpoint hints_grep_loop (fuel : nat) (tick : nat) (n lim : Z)
    (i : dns_hints_i) (soa : dns_hints_soa) (out : list sockaddr)
    : option (list sockaddr * dns_hints_i) :=
  match fuel with
  | O => None
  | S fuel =>
    if n <? lim then
      match dns_hints_i_ffwd fuel tick i soa with
      | None => None
      | Some (j, i, tick) =>
        if j =? -1 then Some (out, i)
        else
          hints_grep_loop fuel tick (u32 (n + 1)) lim i soa
            (out ++ [ss (default hints_addr_zero (addrs soa !! Z.to_nat j))])
      end
    else Some (out, i)
  end.

(** [dns_hints_grep]: the value it returns is the number of addresses. *)
Definition dns_hints_grep (fuel : nat) (lim : Z) (i : dns_hints_i) (m : heap)
    (H : dns_hints) : option (list sockaddr * dns_hints_i) :=
  match dns_hints_fetch m H (hi_zone i) with
  | None => None
  | Some None => Some ([], i)
  | Some (Some p) =>
    match m !! p with
    | None => None
    | Some soa => hints_grep_loop fuel 0 0 lim i soa []
    end
  end.

End Hints.

(** A run of calls of [dns_hints_insert], none of which finds [malloc]
    failing: the statuses in order, the heap and [*H] after the last. *)
Fixpoint dns_hints_insert_all (m : heap) (H : dns_hints)
    (calls : list (list Z * sockaddr * Z)) : option (list Z * heap * dns_hints) :=
  match calls with
  | [] => Some ([], m, H)
  | (z, sa, priority) :: calls =>
    match dns_hints_insert false m H z sa priority with
    | None => None
    | Some (status, m, H) =>
      match dns_hints_insert_all m H calls with
      | None => None
      | Some (statuses, m, H) => Some (status :: statuses, m, H)
      end
    end
  end.

(** ** Runs of calls *)

(** The arguments of one call of [dns_p_push] after the packet: section,
    name, type, class, TTL and record data. *)
Record push_call := mkPush {
  pc_section : Z;
  pc_dn : list Z;
  pc_type : Z;
  pc_class : Z;
  pc_ttl : Z;
  pc_any : dns_any
}.

(** A run of calls of [dns_p_push] on one packet, each after the other
    whatever the one before returned: the statuses in order and the packet
    after the last. *)
Fixpoint dns_p_push_all (indeterminate : Z) (fuel : nat) (P : dns_packet)
    (calls : list push_call) : option (list Z * dns_packet) :=
  match calls with
  | [] => Some ([], P)
  | c :: calls =>
    match dns_p_push indeterminate fuel P (pc_section c) (pc_dn c)
            (Z.of_nat (length (pc_dn c))) (pc_type c) (pc_class c) (pc_ttl c)
            (pc_any c) with
    | None => None
    | Some (status, P) =>
      match dns_p_push_all indeterminate fuel P calls with
      | None => None
      | Some (statuses, P) => Some (status :: statuses, P)
      end
    end
  end.

(** ** Record data read back *)

Definition set_a (any : dns_any) (addr : Z) : dns_any :=
  {| a_addr := addr; aaaa_addr := aaaa_addr any;
     mx_preference := mx_preference any; mx_host := mx_host any;
     ns_host := ns_host any; rdata_len := rdata_len any;
     rdata_data := rdata_data any |}.

Definition set_aaaa (any : dns_any) (addr : list Z) : dns_any :=
  {| a_addr := a_addr any; aaaa_addr := addr;
     mx_preference := mx_preference any; mx_host := mx_host any;
     ns_host := ns_host any; rdata_len := rdata_len any;
     rdata_data := rdata_data any |}.

Definition set_mx (any : dns_any) (preference : Z) (host : list Z) : dns_any :=
  {| a_addr := a_addr any; aaaa_addr := aaaa_addr any;
     mx_preference := preference; mx_host := host;
     ns_host := ns_host any; rdata_len := rdata_len any;
     rdata_data := rdata_data any |}.

Definition set_ns (any : dns_any) (host : list Z) : dns_any :=
  {| a_addr := a_addr any; aaaa_addr := aaaa_addr any;
     mx_preference := mx_preference any; mx_host := mx_host any;
     ns_host := host; rdata_len := rdata_len any;
     rdata_data := rdata_data any |}.

Definition set_rdata (any : dns_any) (len : Z) (d : list Z) : dns_any :=
  {| a_addr := a_addr any; aaaa_addr := aaaa_addr any;
     mx_preference := mx_preference any; mx_host := mx_host any;
     ns_host := ns_host any; rdata_len := len; rdata_data := d |}.

(** [dns_a_parse].  [addr] is an [unsigned long] of which [htonl] takes the
    low 32 bits. *)
Definition dns_a_parse (a : dns_any) (rr : dns_rr) (P : dns_packet) : Z * dns_any :=
  if negb (rd_len rr =? 4) then (-1, a)
  else
    let addr :=
      Z.lor (Z.lor (Z.lor
        (Z.shiftl (Z.land 255 (byte_at (data P) (rd_p rr + 0))) 24)
        (Z.shiftl (Z.land 255 (byte_at (data P) (rd_p rr + 1))) 16))
        (Z.shiftl (Z.land 255 (byte_at (data P) (rd_p rr + 2))) 8))
        (Z.shiftl (Z.land 255 (byte_at (data P) (rd_p rr + 3))) 0) in
    (0, set_a a (u32 addr)).

Definition dns_aaaa_parse (aaaa : dns_any) (rr : dns_rr) (P : dns_packet)
    : Z * dns_any :=
  if negb (rd_len rr =? 16) then (-1, aaaa)
  else (0, set_aaaa aaaa (slice (data P) (rd_p rr) 16)).

(** The [while] of [dns_txt_parse]: the status, the buffer [txt->data] and
    [dst.p].  [dst.end] is [txt->size], the capacity of the buffer. *)
Fixpoint dns_txt_parse_loop (fuel : nat) (P : dns_packet) (size : Z)
    (dstb : list Z) (dst_p src_p src_end : Z) : option (Z * list Z * Z) :=
  match fuel with
  | O => None
  | S fuel =>
    if src_p <? src_end then
      let n := Z.land 255 (byte_at (data P) src_p) in
      let src_p := usize (src_p + 1) in
      if (usize (src_end - src_p) <? n) || (usize (size - dst_p) <? n)
      then Some (-1, dstb, dst_p)
      else
        let dstb := memcpy dstb dst_p (slice (data P) src_p n) in
        dns_txt_parse_loop fuel P size dstb (usize (dst_p + n)) (usize (src_p + n))
                           src_end
    else Some (0, dstb, dst_p)
  end.

(** [dns_txt_parse]; [size] is [txt->size].  Every pass of the loop takes
    at least one octet of the record data, so the fuel given here is never
    used up.  [txt->len] is stored on success only. *)
Definition dns_txt_parse (size : Z) (txt : dns_any) (rr : dns_rr) (P : dns_packet)
    : option (Z * dns_any) :=
  match dns_txt_parse_loop (S (Z.to_nat (rd_len rr))) P size (rdata_data txt) 0
          (rd_p rr) (rd_p rr + rd_len rr) with
  | None => None
  | Some (e, dstb, dst_p) =>
    Some (e, set_rdata txt (if e =? 0 then dst_p else rdata_len txt) dstb)
  end.

Section Parse.

(** [dns_mx_parse] and [dns_ns_parse] return their local [error] when
    [dns_d_expand] yields 0; should nothing have been stored to it,
    [indeterminate] is the value read. *)
Variable indeterminate : Z.

(** [dns_mx_parse]; the host is the C string that [dns_d_expand] leaves in
    [mx->host].  Modelled from the spec: the host of [struct dns_mx] and
    [struct dns_ns] in [dns.h] holds [DNS_D_MAXNAME + 1] octets. *)
Definition dns_mx_parse (fuel : nat) (mx : dns_any) (rr : dns_rr) (P : dns_packet)
    : option (Z * dns_any) :=
  if rd_len rr <? 3 then Some (-1, mx)
  else
    let preference :=
      Z.lor (Z.land 65280 (Z.shiftl (byte_at (data P) (rd_p rr + 0)) 8))
            (Z.land 255 (Z.shiftl (byte_at (data P) (rd_p rr + 1)) 0)) in
    match dns_d_expand fuel (replicate 256 0) 256 (u16 (rd_p rr + 2)) P with
    | None => None
    | Some x =>
      let mx := set_mx mx preference (c_str (x_dst x)) in
      if x_len x =? 0 then Some (default indeterminate (x_error x), mx)
      else if x_len x >=? 256 then Some (-1, mx)
      else Some (0, mx)
    end.

Definition dns_ns_parse (fuel : nat) (ns : dns_any) (rr : dns_rr) (P : dns_packet)
    : option (Z * dns_any) :=
  match dns_d_expand fuel (replicate 256 0) 256 (rd_p rr) P with
  | None => None
  | Some x =>
    let ns := set_ns ns (c_str (x_dst x)) in
    if x_len x =? 0 then Some (default indeterminate (x_error x), ns)
    else if x_len x >=? 256 then Some (-1, ns)
    else Some (0, ns)
  end.

(** [dns_cname_parse] casts its argument and calls [dns_ns_parse]. *)
Definition dns_cname_parse (fuel : nat) (cname : dns_any) (rr : dns_rr)
    (P : dns_packet) : option (Z * dns_any) :=
  dns_ns_parse fuel cname rr P.

(** [dns_any_parse]: the table [dns_rrtypes] in its order, then the opaque
    fallback; [size] is [any->rdata.size]. *)
Definition dns_any_parse (fuel : nat) (size : Z) (any : dns_any) (rr : dns_rr)
    (P : dns_packet) : option (Z * dns_any) :=
  if rr_type rr =? DNS_T_A then Some (dns_a_parse any rr P)
  else if rr_type rr =? DNS_T_AAAA then Some (dns_aaaa_parse any rr P)
  else if rr_type rr =? DNS_T_MX then dns_mx_parse fuel any rr P
  else if rr_type rr =? DNS_T_NS then dns_ns_parse fuel any rr P
  else if rr_type rr =? DNS_T_CNAME then dns_cname_parse fuel any rr P
  else if rr_type rr =? DNS_T_TXT then dns_txt_parse size any rr P
  else if rd_len rr >? size then Some (-1, any)
  else
    Some (0, set_rdata any (rd_len rr)
               (memcpy (rdata_data any) 0 (slice (data P) (rd_p rr) (rd_len rr)))).

End Parse.

(** ** Decimal output *)

Definition dns__printchar (dst : list Z) (lim cp ch : Z) : list Z :=
  if cp <? lim then store dst cp ch else dst.

(** The [while (d)] of [dns__print10]: [cp], [d], [ch] and [n] are
    [unsigned], the octet stored is an [unsigned char]. *)
Fixpoint print10_loop (fuel : nat) (dst : list Z) (lim off cp n d : Z)
    : option (list Z * Z) :=
  match fuel with
  | O => None
  | S fuel =>
    if d =? 0 then Some (dst, cp)
    else
      let ch := n / d in
      if negb (ch =? 0) || (cp >? off) then
        let n := u32 (n - u32 (ch * d)) in
        let dst := if cp <? lim then store dst cp (u8 (48 + ch)) else dst in
        print10_loop fuel dst lim off (u32 (cp + 1)) n (d / 10)
      else print10_loop fuel dst lim off cp n (d / 10)
  end.

(** [dns__print10]: the length returned and the destination.  [d] goes
    from 1000000 down to 0 in eight steps. *)
Definition dns__print10 (dst : list Z) (lim off n : Z) : option (Z * list Z) :=
  match print10_loop 8 dst lim off (u32 off) n 1000000 with
  | None => None
  | Some (dst, cp) => Some (usize (cp - off), dst)
  end.

(** ** Inputs of the examples *)

(** The packet of the witness: twenty octets, a question for ["a."]. *)
Definition skip_packet : dns_packet :=
  {| dict := replicate 16 0; size := 20; p_end := 17;
     data := [0; 0; 0; 0; 0; 1; 0; 0; 0; 0; 0; 0; 1; 97; 0; 0; 1; 0; 1; 0] |}.

(** A packet longer than a 16-bit offset can address: 65546 octets, each
    one 0x40, a reserved label type. *)
Definition wide_packet : dns_packet :=
  {| dict := replicate 16 0; size := 65546; p_end := 65546;
     data := replicate (Z.to_nat 65546) 64 |}.


(** A name that loops through a label: at offset 12 the label ["a"], at
    offset 14 a pointer back to offset 12. *)
Definition loop_packet : dns_packet :=
  {| dict := replicate 16 0; size := 16; p_end := 16;
     data := [0; 0; 0; 0; 0; 0; 0; 0; 0; 0; 0; 0; 1; 97; 192; 12] |}.

(** A pointer at offset 20 that points to offset 20. *)
Definition self_pointer_packet : dns_packet :=
  {| dict := replicate 16 0; size := 22; p_end := 22;
     data := replicate 20 0 ++ [192; 20] |}.

(** A C string in a buffer of [n] octets. *)
Definition c_buf (n : nat) (s : list Z) : list Z :=
  s ++ replicate (n - length s) 0.

(** A configuration as [dns_resconf_open] makes it, but for [ndots] and the
    search list. *)
Definition resconf_with (ndots : Z) (search : list (list Z)) : dns_resolv_conf :=
  {| nameserver := replicate 3 sockaddr_zero;
     search := map (c_buf 256) search
               ++ replicate (6 - length search) (replicate 256 0);
     lookup := octets "bf";
     opt_edns0 := 0; opt_ndots := ndots; opt_recursive := 0;
     interface := {| sa_family := AF_INET; sa_port := 0; sa_addr := [] |} |}.

(** A TXT of 300 octets ['t']; only the view of [dns_txt_push] is filled
    in. *)
Definition txt_300 : dns_any :=
  {| a_addr := 0; aaaa_addr := []; mx_preference := 0; mx_host := [];
     ns_host := []; rdata_len := 300; rdata_data := replicate 300 116 |}.

(** The IPv4 address [a.b.c.d], port 53. *)
Definition ipv4 (a b c d : Z) : sockaddr :=
  {| sa_family := AF_INET; sa_port := 53; sa_addr := [a; b; c; d] |}.

(** Three hints for the root zone with the priorities 1, 2 and 3. *)
Definition root_hints : list (list Z * sockaddr * Z) :=
  [ (octets ".", ipv4 192 0 2 1, 1);
    (octets ".", ipv4 192 0 2 2, 2);
    (octets ".", ipv4 192 0 2 3, 3) ].

(** An [inet_pton] that knows one address. *)
Definition inet_pton_1234 (af : Z) (s : list Z) : option (list Z) :=
  if (af =? AF_INET) && bool_decide (s = octets "1.2.3.4")
  then Some [1; 2; 3; 4] else None.

(** Record data with nothing in it. *)
Definition any_blank : dns_any :=
  {| a_addr := 0; aaaa_addr := []; mx_preference := 0; mx_host := [];
     ns_host := []; rdata_len := 0; rdata_data := [] |}.

(** Opaque record data: the octets [d]. *)
Definition any_opaque (d : list Z) : dns_any :=
  {| a_addr := 0; aaaa_addr := []; mx_preference := 0; mx_host := [];
     ns_host := []; rdata_len := Z.of_nat (length d); rdata_data := d |}.

(** A response of 35 octets in a buffer of 40: the question ["a." A IN] at
    offset 12 and, at offset 19, one answer of 16 octets: a pointer to
    offset 12, A, IN, TTL 3600, the four octets 192.0.2.1. *)
Definition answer_packet : dns_packet :=
  {| dict := 12 :: replicate 15 0; size := 40; p_end := 35;
     data := [0; 0; 0; 0; 0; 1; 0; 1; 0; 0; 0; 0;
              1; 97; 0; 0; 1; 0; 1;
              192; 12; 0; 1; 0; 1; 0; 0; 14; 16; 0; 4; 192; 0; 2; 1;
              0; 0; 0; 0; 0] |}.

(** The same response in a buffer of 64 octets. *)
Definition answer_packet_64 : dns_packet :=
  {| dict := dict answer_packet; size := 64; p_end := p_end answer_packet;
     data := take 35 (data answer_packet) ++ replicate 29 0 |}.

(** A fresh packet of 64 octets to which the name ["x.y.w.z.y.z"] has been
    appended, at offset 12. *)
Definition stale_packet : dns_packet :=
  match dns_d_push 0 9 (dns_p_init 64) (octets "x.y.w.z.y.z") 11 with
  | Some (_, P) => P
  | None => dns_p_init 64
  end.

(** ** Names, as the statements speak of them *)

(** A label: 1 to 63 octets, none of them the separator. *)
Definition label_ok (l : list Z) : Prop :=
  (1 <= length l <= 63)%nat /\ Forall (fun c => c <> 46) l.

(** The labels of a name with a dot after each: the anchored text. *)
Definition dotted (ls : list (list Z)) : list Z :=
  concat (map (fun l => l ++ [46]) ls).

(** The same without the dot at the end. *)
Fixpoint undotted (ls : list (list Z)) : list Z :=
  match ls with
  | [] => []
  | [l] => l
  | l :: ls => l ++ 46 :: undotted ls
  end.

(** The text of a name, anchored or not. *)
Definition presentation (ls : list (list Z)) (anchored : bool) : list Z :=
  if anchored then dotted ls else undotted ls.

(** The labels on the wire, each behind its length octet. *)
Definition wire (ls : list (list Z)) : list Z :=
  concat (map (fun l => Z.of_nat (length l) :: l) ls).

(** The octets [w] stand in the buffer [d] from offset [q] on. *)
Definition occurs (d : list Z) (q : Z) (w : list Z) : Prop :=
  slice d q (Z.of_nat (length w)) = w.

(** What ends a name on the wire: the root label, or the two octets of a
    pointer. *)
Definition ends_name (t : list Z) : Prop :=
  t = [0] \/ exists hi lo, t = [hi; lo] /\ Z.land 3 (Z.shiftr hi 6) = 3.

(** ** Packets, as the statements speak of them *)

(** A packet as the code keeps it: the used length within the capacity,
    the capacity that of the buffer. *)
Definition packet_ok (P : dns_packet) : Prop :=
  0 <= p_end P <= size P
  /\ size P < 18446744073709551616
  /\ Z.of_nat (length (data P)) = size P.

(** [P'] has the capacity of [P] and the octets of [P] below [P->end]. *)
Definition frame (P P' : dns_packet) : Prop :=
  size P' = size P
  /\ length (data P') = length (data P)
  /\ take (Z.to_nat (p_end P)) (data P') = take (Z.to_nat (p_end P)) (data P).

(** [P'] comes from [P] by writing at or beyond [P->end] only, without
    moving the end backwards. *)
Definition appended (P P' : dns_packet) : Prop :=
  frame P P' /\ p_end P <= p_end P' /\ packet_ok P'.


(** How many of the calls were for section [s] and returned 0. *)
Definition pushed (s : Z) (calls : list push_call) (statuses : list Z) : Z :=
  Z.of_nat (length (filter (fun cs : Z * Z => cs.1 = s /\ cs.2 = 0)
                           (zip (map pc_section calls) statuses))).

(** ** Numbers, as the statements speak of them *)

(** The [m] decimal digits of [n < 10^m], most significant first, as
    characters. *)
Fixpoint decimal (m : nat) (n : Z) : list Z :=
  match m with
  | O => []
  | S m => (48 + n / 10 ^ Z.of_nat m) :: decimal m (n mod 10 ^ Z.of_nat m)
  end.

(** The same without the zeros in front. *)
Fixpoint strip_zeros (s : list Z) : list Z :=
  match s with
  | [] => []
  | c :: s' => if c =? 48 then strip_zeros s' else s
  end.

(** The labels of a name with upper case letters made lower case: what the
    comparison of names goes by. *)
Definition caseless (ls : list (list Z)) : list (list Z) := map (map tolower) ls.

(** * Properties *)

(** ** Machine arithmetic *)

Lemma u16_small x : 0 <= x < 65536 -> u16 x = x.
Proof. intros; unfold u16; now apply Z.mod_small. Qed.

Lemma u32_small x : 0 <= x < 4294967296 -> u32 x = x.
Proof. intros; unfold u32; now apply Z.mod_small. Qed.

Lemma usize_small x : 0 <= x < 18446744073709551616 -> usize x = x.
Proof. intros; unfold usize; now apply Z.mod_small. Qed.

Lemma land_low_bits a b n :
  0 <= n -> a = Z.ones n -> 0 <= Z.land a b < 2 ^ n.
Proof.
  intros Hn ->. rewrite Z.land_comm, Z.land_ones by assumption.
  apply Z.mod_pos_bound. apply Z.pow_pos_nonneg; lia.
Qed.

Lemma land63_range b : 0 <= Z.land 63 b <= 63.
Proof.
  pose proof (land_low_bits 63 b 6 ltac:(lia) eq_refl) as H.
  change (2 ^ 6) with 64 in H. lia.
Qed.

Lemma land255_range b : 0 <= Z.land 255 b <= 255.
Proof.
  pose proof (land_low_bits 255 b 8 ltac:(lia) eq_refl) as H.
  change (2 ^ 8) with 256 in H. lia.
Qed.

(** Splits on a number that a [match] of the goal inspects: the label type
    in the top two bits of an octet, a section, a state. *)
Ltac case_scrutinee :=
  match goal with
  | |- context [match ?x with _ => _ end] =>
    lazymatch type of x with
    | Z => destruct x eqn:?
    | positive => destruct x eqn:?
    end
  end.

Ltac case_if :=
  match goal with
  | |- context [if ?b then _ else _] =>
    lazymatch b with
    | context [if _ then _ else _] => fail
    | _ => destruct b eqn:?
    end
  end.

(** ** Buffers *)

Lemma length_store b i v : length (store b i v) = length b.
Proof. unfold store. apply length_insert. Qed.

Lemma length_memcpy dst off src : length (memcpy dst off src) = length dst.
Proof. unfold memcpy. apply length_inserts. Qed.

Lemma store_lookup_eq b i v :
  0 <= i < Z.of_nat (length b) -> store b i v !! Z.to_nat i = Some v.
Proof. intros. unfold store. apply list_lookup_insert_eq. lia. Qed.

Lemma store_lookup_ne b i j v :
  Z.to_nat i <> j -> store b i v !! j = b !! j.
Proof. intros. unfold store. now apply list_lookup_insert_ne. Qed.

Lemma MIN_spec a b : MIN a b = Z.min a b.
Proof. unfold MIN. destruct (Z.ltb_spec a b); lia. Qed.

Lemma MAX_spec a b : MAX a b = Z.max a b.
Proof. unfold MAX. destruct (Z.gtb_spec a b); lia. Qed.

Lemma memchr_from_range s c n :
  forall from d, memchr_from s from c n = Some d ->
    from <= d < from + Z.of_nat n /\ byte_at s d = c.
Proof.
  induction n as [|n IH]; intros from d H; [discriminate|].
  cbn [memchr_from] in H.
  destruct (Z.eqb_spec (byte_at s from) c).
  - injection H as <-. split; [lia|assumption].
  - apply IH in H. split; [lia|tauto].
Qed.

Lemma memcpy_nil dst off : memcpy dst off [] = dst.
Proof. reflexivity. Qed.

Lemma memcpy_cons dst off x a :
  0 <= off -> memcpy dst off (x :: a) = store (memcpy dst (off + 1) a) off x.
Proof.
  intros. unfold memcpy, store. cbn [list_inserts].
  now replace (Z.to_nat (off + 1)) with (S (Z.to_nat off)) by lia.
Qed.

Lemma memcpy_app dst off a b :
  0 <= off ->
  memcpy dst off (a ++ b) = memcpy (memcpy dst off a) (off + Z.of_nat (length a)) b.
Proof.
  intros. unfold memcpy. rewrite list_inserts_app_l.
  now replace (Z.to_nat (off + Z.of_nat (length a)))
    with (length a + Z.to_nat off)%nat by lia.
Qed.

Lemma store_memcpy_lt dst off i x a :
  0 <= i < off -> memcpy (store dst i x) off a = store (memcpy dst off a) i x.
Proof.
  intros. unfold memcpy, store. symmetry. apply list_insert_inserts_lt. lia.
Qed.

(** A label and its length octet, written the way [dns_d_comp] does it:
    the octets first, the length once the label has ended. *)
Lemma store_memcpy_label dst p l n :
  0 <= p -> store (memcpy dst (p + 1) l) p n = memcpy dst p (n :: l).
Proof. intros. now rewrite memcpy_cons. Qed.

Lemma memcpy_snoc dst off a x :
  0 <= off ->
  store (memcpy dst off a) (off + Z.of_nat (length a)) x = memcpy dst off (a ++ [x]).
Proof.
  intros. rewrite memcpy_app by assumption.
  rewrite memcpy_cons, memcpy_nil by lia. reflexivity.
Qed.

Lemma take_memcpy_0 dst a :
  (length a <= length dst)%nat -> take (length a) (memcpy dst 0 a) = a.
Proof.
  intros. unfold memcpy. cbn [Z.to_nat].
  rewrite <- (take_drop (length a) dst) at 1.
  rewrite list_inserts_0_r by (rewrite length_take; lia).
  now rewrite take_app_length.
Qed.

Lemma drop_memcpy_0 dst a :
  (length a <= length dst)%nat ->
  drop (length a) (memcpy dst 0 a) = drop (length a) dst.
Proof.
  intros. unfold memcpy. cbn [Z.to_nat].
  rewrite <- (take_drop (length a) dst) at 1.
  rewrite list_inserts_0_r by (rewrite length_take; lia).
  now rewrite drop_app_length.
Qed.

Lemma memcpy_0_eq dst a :
  (length a <= length dst)%nat -> memcpy dst 0 a = a ++ drop (length a) dst.
Proof.
  intros. rewrite <- (take_drop (length a) (memcpy dst 0 a)).
  now rewrite take_memcpy_0, drop_memcpy_0.
Qed.

Lemma byte_at_app_r a b i :
  Z.of_nat (length a) <= i -> byte_at (a ++ b) i = byte_at b (i - Z.of_nat (length a)).
Proof.
  intros. unfold byte_at. rewrite lookup_app_r by lia.
  now replace (Z.to_nat i - length a)%nat with (Z.to_nat (i - Z.of_nat (length a))) by lia.
Qed.

Lemma byte_at_app_l a b i :
  0 <= i < Z.of_nat (length a) -> byte_at (a ++ b) i = byte_at a i.
Proof. intros. unfold byte_at. now rewrite lookup_app_l by lia. Qed.

Lemma byte_at_cons_0 x a : byte_at (x :: a) 0 = x.
Proof. reflexivity. Qed.

Lemma slice_app_r a b off n :
  Z.of_nat (length a) <= off ->
  slice (a ++ b) off n = slice b (off - Z.of_nat (length a)) n.
Proof.
  intros. unfold slice. rewrite drop_app_ge by lia.
  now replace (Z.to_nat off - length a)%nat
    with (Z.to_nat (off - Z.of_nat (length a))) by lia.
Qed.

Lemma slice_0_app a b : slice (a ++ b) 0 (Z.of_nat (length a)) = a.
Proof.
  unfold slice. cbn [Z.to_nat drop]. rewrite Nat2Z.id. apply take_app_length.
Qed.

Lemma slice_full a : slice a 0 (Z.of_nat (length a)) = a.
Proof. unfold slice. cbn [Z.to_nat drop]. rewrite Nat2Z.id. now apply take_ge. Qed.

(** ** [dns_d_skip] *)

(** More fuel does not change a result. *)
Lemma dns_d_skip_loop_mono (P : dns_packet) f1 :
  forall f2 s r,
    dns_d_skip_loop f1 s P = Some r -> (f1 <= f2)%nat ->
    dns_d_skip_loop f2 s P = Some r.
Proof.
  induction f1 as [|f1 IH]; intros f2 s r H1 Hle; [discriminate|].
  destruct f2 as [|f2]; [lia|]. cbn [dns_d_skip_loop] in *.
  repeat case_scrutinee; repeat case_if; try exact H1.
  all: apply IH; [exact H1|lia].
Qed.

Lemma dns_d_skip_loop_spec (P : dns_packet) :
  0 <= p_end P <= 65535 ->
  forall fuel src,
    0 <= src ->
    (Z.to_nat (p_end P - src) < fuel)%nat ->
    exists v,
      dns_d_skip_loop fuel src P = Some v
      /\ 0 <= v <= p_end P
      /\ (src < p_end P -> src < v)
      /\ (p_end P <= src -> v = p_end P).
Proof.
  intros Hend fuel. induction fuel as [|fuel IH]; intros src Hsrc Hfuel; [lia|].
  cbn [dns_d_skip_loop].
  destruct (Z.ltb_spec src (p_end P)) as [Hlt|Hge].
  2:{ exists (p_end P). rewrite u16_small by lia. repeat split; lia. }
  pose proof (land63_range (byte_at (data P) src)) as Hlen.
  assert (Hfail : exists v, Some (u16 (p_end P)) = Some v /\ 0 <= v <= p_end P
            /\ (src < p_end P -> src < v) /\ (p_end P <= src -> v = p_end P)).
  { exists (p_end P). rewrite u16_small by lia. repeat split; lia. }
  assert (Hlabel : exists v,
    (let len := Z.land 63 (byte_at (data P) src) in
     let src0 := u16 (src + 1) in
     if len =? 0 then Some src0
     else if usize (p_end P - src0) >? len
          then dns_d_skip_loop fuel (u16 (src0 + len)) P
          else Some (u16 (p_end P))) = Some v
    /\ 0 <= v <= p_end P
    /\ (src < p_end P -> src < v) /\ (p_end P <= src -> v = p_end P)).
  { cbv zeta. rewrite (u16_small (src + 1)) by lia.
    destruct (Z.eqb_spec (Z.land 63 (byte_at (data P) src)) 0).
    - exists (src + 1). repeat split; lia.
    - rewrite usize_small by lia.
      destruct (Z.gtb_spec (p_end P - (src + 1)) (Z.land 63 (byte_at (data P) src))).
      + rewrite u16_small by lia.
        destruct (IH (src + 1 + Z.land 63 (byte_at (data P) src))) as (v & Hv & ? & Hp & ?);
          [lia|lia|].
        exists v. repeat split; try lia. exact Hv.
      + exact Hfail. }
  assert (Hptr : exists v,
    (if usize (p_end P - src) <? 2 then Some (u16 (p_end P))
     else Some (u16 (src + 2))) = Some v
    /\ 0 <= v <= p_end P
    /\ (src < p_end P -> src < v) /\ (p_end P <= src -> v = p_end P)).
  { rewrite usize_small by lia.
    destruct (Z.ltb_spec (p_end P - src) 2); [exact Hfail|].
    exists (src + 2). rewrite u16_small by lia. repeat split; lia. }
  repeat case_scrutinee; first [exact Hlabel | exact Hptr | exact Hfail].
Qed.

(** C10, amended: on every packet whose used length a 16-bit offset can
    address ([P->end <= 65535]), with arbitrary octets, and from every
    offset [src], [dns_d_skip] ends and returns some [v <= P->end]; [v >
    src] when [src < P->end], and [v = P->end] when [src >= P->end]. *)
Theorem dns_d_skip_progress (P : dns_packet) (src : Z) :
  0 <= p_end P <= 65535 ->
  0 <= src < 65536 ->
  exists v,
    dns_d_skip src P = Some v
    /\ (forall fuel, (Z.to_nat (p_end P - src) < fuel)%nat ->
          dns_d_skip_loop fuel src P = Some v)
    /\ 0 <= v <= p_end P
    /\ (src < p_end P -> src < v)
    /\ (p_end P <= src -> v = p_end P).
Proof.
  intros Hend Hsrc.
  destruct (dns_d_skip_loop_spec P Hend (S (Z.to_nat (p_end P))) src)
    as (v & Hv & Hle & Hlt & Hge); [lia|lia|].
  exists v. split; [exact Hv|]. split; [|auto].
  intros fuel Hfuel.
  destruct (dns_d_skip_loop_spec P Hend fuel src) as (v' & Hv' & _); [lia|lia|].
  unfold dns_d_skip in Hv.
  enough (v' = v) by congruence.
  clear Hle Hlt Hge.
  pose proof (dns_d_skip_loop_mono P) as Hmono.
  destruct (Nat.le_ge_cases fuel (S (Z.to_nat (p_end P)))) as [Hc|Hc].
  - pose proof (Hmono _ _ _ _ Hv' Hc). congruence.
  - pose proof (Hmono _ _ _ _ Hv Hc). congruence.
Qed.

Lemma dns_d_skip_progress_witness :
  exists v,
    dns_d_skip 12 skip_packet = Some v
    /\ (forall fuel, (Z.to_nat (p_end skip_packet - 12) < fuel)%nat ->
          dns_d_skip_loop fuel 12 skip_packet = Some v)
    /\ 0 <= v <= p_end skip_packet
    /\ (12 < p_end skip_packet -> 12 < v)
    /\ (p_end skip_packet <= 12 -> v = p_end skip_packet).
Proof.
  apply (dns_d_skip_progress skip_packet 12); cbn; lia.
Defined.

(** C10 as stated fails on such a packet: from offset 20, which lies
    inside the used length, [dns_d_skip] returns [P->end] cut down to 16
    bits, which is 10 and so not beyond 20. *)
Lemma dns_d_skip_wide_packet :
  20 < p_end wide_packet
  /\ (forall fuel, dns_d_skip_loop (S fuel) 20 wide_packet = Some 10)
  /\ ~ (20 < 10).
Proof.
  split; [cbn; lia|]. split; [|lia].
  intros fuel. cbn [dns_d_skip_loop]. now vm_compute.
Qed.

(** ** [dns_d_expand] *)

(** One pass over the label at offset 12 of [loop_packet] leads to the
    pointer at offset 14 with the pointer count back at 0, whatever the
    count was. *)
Lemma loop_packet_label fuel dst lim dstp nptrs :
  exists dst' dstp',
    dns_d_expand_loop (S fuel) dst lim 12 loop_packet dstp nptrs
    = dns_d_expand_loop fuel dst' lim 14 loop_packet dstp' 0.
Proof. eexists; eexists; reflexivity. Qed.

(** One pass over the pointer at offset 14 leads back to offset 12. *)
Lemma loop_packet_pointer fuel dst lim dstp :
  dns_d_expand_loop (S fuel) dst lim 14 loop_packet dstp 0
  = dns_d_expand_loop fuel dst lim 12 loop_packet dstp 1.
Proof. reflexivity. Qed.

Lemma loop_packet_runs_on fuel :
  forall dst lim dstp nptrs,
    dns_d_expand_loop fuel dst lim 12 loop_packet dstp nptrs = None
    /\ dns_d_expand_loop fuel dst lim 14 loop_packet dstp 0 = None.
Proof.
  induction fuel as [|fuel IH]; intros dst lim dstp nptrs; [split; reflexivity|].
  split.
  - destruct (loop_packet_label fuel dst lim dstp nptrs) as (dst' & dstp' & ->).
    apply (IH dst' lim dstp' 0).
  - rewrite loop_packet_pointer. apply (IH dst lim dstp 1).
Qed.

(** C3 at the failing input: on the 16 octets of [loop_packet], expanding
    the name at offset 12 never returns: whatever number of passes of the
    [while] is allowed, and whatever the destination, the loop is still
    running after them.  The hop counter does not stop it, since every
    label sets it back to 0. *)
Theorem dns_d_expand_label_loop_diverges :
  forall fuel dst lim, dns_d_expand fuel dst lim 12 loop_packet = None.
Proof.
  intros fuel dst lim. unfold dns_d_expand.
  apply (loop_packet_runs_on fuel dst lim 0 0).
Qed.

(** A pointer that points to itself is caught by the hop counter: the
    result is 0 with the error stored. *)
Lemma dns_d_expand_self_pointer :
  forall fuel, (128 <= fuel)%nat ->
    dns_d_expand fuel (replicate 256 0) 256 20 self_pointer_packet
    = Some {| x_len := 0; x_dst := replicate 256 0; x_error := Some (-1) |}.
Proof.
  intros fuel Hfuel.
  replace fuel with (128 + (fuel - 128))%nat by lia.
  generalize (fuel - 128)%nat as k. intros k.
  unfold dns_d_expand. now vm_compute.
Qed.

(** ** [dns_d_anchor] and [dns_d_cleave] *)





(** What the two functions do on ["a.b"] and on ["a.b."]. *)
Example dns_d_anchor_a_b :
  dns_d_anchor (replicate 8 120) 8 (octets "a.b") 3
  = (4, octets "a.b." ++ [0; 120; 120; 120]).
Proof. reflexivity. Qed.

Example dns_d_cleave_a_b :
  dns_d_cleave (replicate 8 120) 8 (octets "a.b.") 4
  = (2, octets "b." ++ [0; 120; 120; 120; 120; 120]).
Proof. reflexivity. Qed.


(** ** [dns_resconf_search] *)

(** C7: with [ndots = 1] and the search list ["a."], ["b."], the calls of
    [dns_resconf_search] for ["x"] from state 0 yield ["x.a."], ["x.b."],
    ["x."] and then 0; with [ndots = 2] and the search list ["a."], the
    calls for ["x.y.z"] yield ["x.y.z."], ["x.y.z.a."] and then 0.  The
    buffer [name] of [search_list] is not initialised: this holds whatever
    its 256 octets are, each candidate being closed by the NUL of
    [dns__printnul]. *)
Theorem dns_resconf_search_candidates :
  forall (fuel : nat) (name : list Z),
    length name = 256%nat ->
    search_list (4 + fuel) name (octets "x")
      (resconf_with 1 [octets "a."; octets "b."]) 0
    = Some [octets "x.a."; octets "x.b."; octets "x."]
    /\ search_list (3 + fuel) name (octets "x.y.z")
         (resconf_with 2 [octets "a."]) 0
       = Some [octets "x.y.z."; octets "x.y.z.a."].
Proof.
  intros fuel name Hlen.
  do 16 (destruct name as [|? name]; [discriminate|]).
  clear Hlen. split; now vm_compute.
Qed.

(** A buffer full of the letter ['x']. *)
Lemma dns_resconf_search_candidates_witness :
  search_list (4 + 0) (replicate 256 120) (octets "x")
    (resconf_with 1 [octets "a."; octets "b."]) 0
  = Some [octets "x.a."; octets "x.b."; octets "x."]
  /\ search_list (3 + 0) (replicate 256 120) (octets "x.y.z")
       (resconf_with 2 [octets "a."]) 0
     = Some [octets "x.y.z."; octets "x.y.z.a."].
Proof.
  apply (dns_resconf_search_candidates 0 (replicate 256 120)). reflexivity.
Defined.

(** The single calls for ["x"], with the state word after each. *)
Example dns_resconf_search_x_steps :
  let rc := resconf_with 1 [octets "a."; octets "b."] in
  let '(l1, d1, s1) := dns_resconf_search (replicate 256 0) 256 (octets "x") 1 rc 0 in
  let '(l2, d2, s2) := dns_resconf_search d1 256 (octets "x") 1 rc s1 in
  let '(l3, d3, s3) := dns_resconf_search d2 256 (octets "x") 1 rc s2 in
  let '(l4, d4, s4) := dns_resconf_search d3 256 (octets "x") 1 rc s3 in
  (l1, c_str d1, s1) = (4, octets "x.a.", 257)
  /\ (l2, c_str d2, s2) = (4, octets "x.b.", 513)
  /\ (l3, c_str d3, s3) = (2, octets "x.", 515)
  /\ (l4, c_str d4, s4) = (0, [], 515).
Proof. vm_compute. repeat split. Qed.

(** ** [dns_txt_push] *)

Lemma land255_mod x : Z.land 255 x = x mod 256.
Proof. rewrite Z.land_comm. apply (Z.land_ones x 8). lia. Qed.

(** Once what is left of the payload is a multiple of 256 octets, every
    pass of the loop computes the chunk length [0xff & left = 0], stores a
    lone length octet 0 and leaves [src.p] where it was, until the packet
    is full. *)
Lemma dns_txt_push_loop_stuck (P : dns_packet) (txt : dns_any) (src_p : Z) :
  0 <= size P < 18446744073709551616 ->
  0 <= src_p < rdata_len txt ->
  rdata_len txt < 18446744073709551616 ->
  (rdata_len txt - src_p) mod 256 = 0 ->
  forall fuel dstb dst_p,
    0 <= dst_p ->
    (Z.to_nat (size P - dst_p) < fuel)%nat ->
    exists dstb', dns_txt_push_loop fuel P txt dstb dst_p src_p
                  = Some (-1, set_data P dstb').
Proof.
  intros Hsize Hsrc Hlen Hmod fuel.
  induction fuel as [|fuel IH]; intros dstb dst_p Hdst Hfuel; [lia|].
  cbn [dns_txt_push_loop].
  destruct (Z.ltb_spec src_p (rdata_len txt)); [|lia].
  rewrite land255_mod, (usize_small (rdata_len txt - src_p)), Hmod by lia.
  destruct (Z.geb_spec dst_p (size P)); [eauto|].
  rewrite (usize_small (dst_p + 1)) by lia.
  rewrite (usize_small (size P - _)) by lia.
  destruct (Z.ltb_spec (size P - (dst_p + 1)) 0); [lia|].
  rewrite !Z.add_0_r, ?usize_small by lia.
  unfold memcpy, slice; cbn [Z.to_nat take list_inserts].
  apply IH; lia.
Qed.

(** C2 at its failing inputs: a TXT payload of 256 octets or more is never
    pushed, however much room the packet has.  The chunk length is taken
    as [0xff & left] instead of [MIN(255, left)]: after at most one chunk
    what is left is a multiple of 256, the loop fills the packet with
    length octets 0, and [dns_txt_push] returns -1 with [P->end] as it
    was. *)
Theorem dns_txt_push_long_payload_fails (P : dns_packet) (txt : dns_any) :
  0 <= p_end P <= size P ->
  size P < 18446744073709551616 ->
  256 <= rdata_len txt < 18446744073709551616 ->
  exists P', dns_txt_push P txt = Some (-1, P') /\ p_end P' = p_end P.
Proof.
  intros Hend Hsize Hlen. unfold dns_txt_push.
  rewrite usize_small by lia.
  destruct (Z.ltb_spec (size P - p_end P) 2); [eauto|].
  rewrite (usize_small (p_end P + 2)) by lia.
  set (dstb := store _ _ _). clearbody dstb.
  cbn [dns_txt_push_loop].
  destruct (Z.ltb_spec 0 (rdata_len txt)); [|lia].
  rewrite Z.sub_0_r, land255_mod, (usize_small (rdata_len txt)) by lia.
  destruct (Z.geb_spec (p_end P + 2) (size P)); [eauto|].
  rewrite (usize_small (p_end P + 2 + 1)) by lia.
  rewrite (usize_small (size P - _)) by lia.
  pose proof (Z.mod_pos_bound (rdata_len txt) 256 ltac:(lia)) as Hn.
  destruct (Z.ltb_spec (size P - (p_end P + 2 + 1)) (rdata_len txt mod 256));
    [eauto|].
  rewrite Z.add_0_l, !usize_small by lia.
  pose proof (Z.div_mod (rdata_len txt) 256 ltac:(lia)) as Hdm.
  assert (1 <= rdata_len txt / 256) by (apply Z.div_le_lower_bound; lia).
  edestruct (dns_txt_push_loop_stuck P txt (rdata_len txt mod 256))
    as (dstb' & ->); [lia|lia|lia| |..|eauto]; [|lia|lia].
  replace (rdata_len txt - rdata_len txt mod 256) with (rdata_len txt / 256 * 256) by lia.
  apply Z.mod_mul. lia.
Qed.

Lemma dns_txt_push_long_payload_fails_witness :
  exists P', dns_txt_push (dns_p_init 512) txt_300 = Some (-1, P')
             /\ p_end P' = p_end (dns_p_init 512).
Proof.
  apply (dns_txt_push_long_payload_fails (dns_p_init 512) txt_300); cbn; lia.
Defined.

(** The 300 octets of scenario 6 in a fresh packet of 512: the length 302
    is written, then a chunk of 44 octets (300 = 256 + 44), and the other
    454 octets of the packet are length octets 0; the status is -1. *)
Example dns_txt_push_300 :
  exists P',
    dns_txt_push (dns_p_init 512) txt_300 = Some (-1, P')
    /\ p_end P' = 12
    /\ slice (data P') 12 2 = [1; 46]
    /\ slice (data P') 14 45 = 44 :: replicate 44 116
    /\ slice (data P') 59 453 = replicate 453 0.
Proof. eexists. split; [now vm_compute|]. now vm_compute. Qed.

(** Payloads of up to 255 octets go out as one chunk. *)
Example dns_txt_push_hello :
  let txt := {| a_addr := 0; aaaa_addr := []; mx_preference := 0; mx_host := [];
                ns_host := []; rdata_len := 5; rdata_data := octets "hello" |} in
  exists P',
    dns_txt_push (dns_p_init 32) txt = Some (0, P')
    /\ p_end P' = 20
    /\ slice (data P') 12 8 = [0; 6; 5] ++ octets "hello".
Proof. eexists. split; [now vm_compute|]. now vm_compute. Qed.

(** ** Hints *)

(** With no zone linked, [dns_hints_insert] makes a node, gives it the
    null head as its [next] and assigns that [next] back to the head: the
    node is in the heap, and the list of zones is still empty. *)
Lemma dns_hints_insert_unlinked (m : heap) (H : dns_hints) z sa priority :
  head H = None ->
  exists soa H',
    dns_hints_insert false m H z sa priority = Some (0, m ++ [soa], H')
    /\ head H' = None.
Proof.
  intros Hhead. unfold dns_hints_insert, dns_hints_fetch.
  rewrite Hhead. cbn. eauto.
Qed.

Lemma dns_hints_insert_all_unlinked calls :
  forall (m : heap) (H : dns_hints),
    head H = None ->
    exists m' H',
      dns_hints_insert_all m H calls = Some (map (fun _ => 0) calls, m', H')
      /\ length m' = (length m + length calls)%nat
      /\ head H' = None.
Proof.
  induction calls as [|[[z sa] priority] calls IH]; intros m H Hhead.
  - exists m, H. cbn. repeat split; [lia|assumption].
  - cbn [dns_hints_insert_all].
    destruct (dns_hints_insert_unlinked m H z sa priority Hhead)
      as (soa & H1 & -> & Hhead1).
    destruct (IH (m ++ [soa]) H1 Hhead1) as (m' & H' & -> & Hlen & Hhead').
    exists m', H'. cbn. rewrite length_app in Hlen. cbn in Hlen.
    repeat split; [lia|assumption].
Qed.

(** C1 at its failing inputs: on a database fresh from [dns_hints_open],
    any run of [dns_hints_insert] calls returns 0 every time and allocates
    a node every time, but links none, so that [dns_hints_grep] finds no
    zone and yields no address, whatever zone is asked for, whatever the
    iterator, the limit and the random numbers. *)
Theorem dns_hints_grep_after_insert_empty :
  forall (dns_random : nat -> Z) (calls : list (list Z * sockaddr * Z))
         (fuel : nat) (lim : Z) (i : dns_hints_i),
  exists m H,
    dns_hints_insert_all [] dns_hints_open calls
    = Some (map (fun _ => 0) calls, m, H)
    /\ length m = length calls
    /\ head H = None
    /\ dns_hints_grep dns_random fuel lim i m H = Some ([], i).
Proof.
  intros dns_random calls fuel lim i.
  destruct (dns_hints_insert_all_unlinked calls [] dns_hints_open eq_refl)
    as (m & H & Hrun & Hlen & Hhead).
  exists m, H. repeat split; try assumption.
  unfold dns_hints_grep, dns_hints_fetch. rewrite Hhead. reflexivity.
Qed.

(** Scenario 5: three hints for ["."] with priorities 1, 2, 3, then a
    fresh iterator for ["."], yield no slot. *)
Example dns_hints_grep_root_hints :
  forall dns_random fuel,
    match dns_hints_insert_all [] dns_hints_open root_hints with
    | Some (statuses, m, H) =>
      statuses = [0; 0; 0]
      /\ dns_hints_grep dns_random fuel 16
           (dns_hints_i_init {| hi_zone := octets "."; hi_priority := 0;
                                hi_p := 0; hi_end := 0 |}) m H
         = Some ([], {| hi_zone := octets "."; hi_priority := 0; hi_p := 0;
                        hi_end := 0 |})
    | None => False
    end.
Proof. intros dns_random fuel. now vm_compute. Qed.

(** Had the node been linked, the iterator would yield the three slots in
    the order of their priorities: here the heap and the head are as the
    three calls would leave them with [H->head = soa]. *)
Example dns_hints_grep_linked :
  let z := octets "." in
  let soa := soa_put (soa_put (soa_put (soa_initializer z) (ipv4 192 0 2 1) 1)
                              (ipv4 192 0 2 2) 2) (ipv4 192 0 2 3) 3 in
  exists i,
    dns_hints_grep (fun _ => 7) 8 16
      {| hi_zone := z; hi_priority := 0; hi_p := 0; hi_end := 0 |}
      [soa] {| refcount := 1; head := Some 0%nat |}
    = Some ([ipv4 192 0 2 1; ipv4 192 0 2 2; ipv4 192 0 2 3], i).
Proof. eexists. now vm_compute. Qed.

(** ** [dns_resconf_loadfile] *)

(** A word that is no keyword is reported as 0, which is the value of
    [DNS_RESCONF_NAMESERVER]. *)
Example dns_resconf_keyword_unknown :
  dns_resconf_keyword (octets "foo") = DNS_RESCONF_NAMESERVER
  /\ dns_resconf_keyword (octets "nameserver") = DNS_RESCONF_NAMESERVER
  /\ dns_resconf_keyword (octets "Search") = DNS_RESCONF_SEARCH
  /\ dns_resconf_keyword (octets "ndots:3") = DNS_RESCONF_NDOTS.
Proof. repeat split. Qed.

(** C8 at a failing input: the line ["foo 1.2.3.4"], whose first word is
    no directive, is handled as a [nameserver] line: if the host's
    [inet_pton] accepts the address, it becomes the first nameserver, with
    port 53. *)
Theorem dns_resconf_loadfile_unknown_word
    (inet_pton : Z -> list Z -> option (list Z)) (beyond a : list Z)
    (resconf : dns_resolv_conf) :
  inet_pton AF_INET (octets "1.2.3.4") = Some a ->
  dns_resconf_loadfile inet_pton beyond resconf (octets "foo 1.2.3.4" ++ [10])
  = Some {| nameserver :=
              <[0%nat := {| sa_family := AF_INET; sa_port := 53; sa_addr := a |}]>
                (nameserver resconf);
            search := search resconf; lookup := lookup resconf;
            opt_edns0 := opt_edns0 resconf; opt_ndots := opt_ndots resconf;
            opt_recursive := opt_recursive resconf;
            interface := interface resconf |}.
Proof.
  intros Hpton. vm_compute in Hpton. vm_compute. rewrite Hpton. reflexivity.
Qed.

Lemma dns_resconf_loadfile_unknown_word_witness :
  dns_resconf_loadfile inet_pton_1234 [] (resconf_with 1 [])
    (octets "foo 1.2.3.4" ++ [10])
  = Some {| nameserver :=
              <[0%nat := {| sa_family := AF_INET; sa_port := 53;
                            sa_addr := [1; 2; 3; 4] |}]>
                (nameserver (resconf_with 1 []));
            search := search (resconf_with 1 []);
            lookup := lookup (resconf_with 1 []);
            opt_edns0 := opt_edns0 (resconf_with 1 []);
            opt_ndots := opt_ndots (resconf_with 1 []);
            opt_recursive := opt_recursive (resconf_with 1 []);
            interface := interface (resconf_with 1 []) |}.
Proof.
  apply (dns_resconf_loadfile_unknown_word inet_pton_1234 [] [1; 2; 3; 4]).
  reflexivity.
Defined.

(** The file of scenario 4, for comparison: one nameserver, [ndots:3],
    [edns0], the search list ["a."], ["b."], and the lookup order still
    ["bf"]. *)
Example dns_resconf_loadfile_scenario :
  exists rc,
    dns_resconf_loadfile inet_pton_1234 [] (resconf_with 1 [])
      (octets "nameserver 1.2.3.4" ++ [10] ++ octets "options ndots:3 edns0"
       ++ [10] ++ octets "search a. b." ++ [10])
    = Some rc
    /\ nameserver rc !! 0%nat = Some (ipv4 1 2 3 4)
    /\ opt_ndots rc = 3 /\ opt_edns0 rc = 1
    /\ map c_str (search rc) = [octets "a."; octets "b."; []; []; []; []]
    /\ lookup rc = octets "bf".
Proof. eexists. split; [now vm_compute|]. now vm_compute. Qed.

(** A word of 256 octets fills its row of [words] and leaves no NUL in it:
    the digits of ["ndots:"] followed by 250 zeros are read on into the
    next row, which holds the word ["5"]. *)
Example dns_resconf_loadfile_long_word :
  option_map opt_ndots
    (dns_resconf_loadfile inet_pton_1234 [] (resconf_with 1 [])
       (octets "options ndots:" ++ replicate 250 48 ++ octets " 5" ++ [10]))
  = Some 5.
Proof. now vm_compute. Qed.

(** ** What appending to a packet leaves alone *)

Lemma frame_refl P : frame P P.
Proof. repeat split. Qed.

Lemma frame_trans P1 P2 P3 :
  frame P1 P2 -> frame P2 P3 -> 0 <= p_end P1 <= p_end P2 -> frame P1 P3.
Proof.
  intros (Hs1 & Hl1 & Ht1) (Hs2 & Hl2 & Ht2) Hle. repeat split; try congruence.
  rewrite <- Ht1.
  replace (Z.to_nat (p_end P1)) with (Z.to_nat (p_end P1) `min` Z.to_nat (p_end P2))%nat
    by lia.
  rewrite <- !take_take. now rewrite Ht2.
Qed.

Lemma appended_refl P : packet_ok P -> appended P P.
Proof. intros H. split; [apply frame_refl|]. split; [lia|exact H]. Qed.

Lemma appended_trans P1 P2 P3 :
  0 <= p_end P1 -> appended P1 P2 -> appended P2 P3 -> appended P1 P3.
Proof.
  intros H0 (Hf1 & Hle1 & Hok1) (Hf2 & Hle2 & Hok2).
  split; [|split; [lia|assumption]].
  apply (frame_trans P1 P2 P3); [assumption|assumption|lia].
Qed.

Lemma frame_set_end P P' e : frame P P' -> frame P (set_end P' e).
Proof. intros H. exact H. Qed.

Lemma take_store b n i v :
  (n <= Z.to_nat i)%nat -> take n (store b i v) = take n b.
Proof. intros. unfold store. now apply take_insert_ge. Qed.

Lemma take_list_inserts {A} (k : list A) :
  forall l n i, (n <= i)%nat -> take n (list_inserts i k l) = take n l.
Proof.
  induction k as [|y k IH]; intros l n i Hle; [reflexivity|].
  cbn [list_inserts]. rewrite take_insert_ge by lia. apply IH. lia.
Qed.

Lemma take_memcpy b n off src :
  (n <= Z.to_nat off)%nat -> take n (memcpy b off src) = take n b.
Proof. intros. unfold memcpy. now apply take_list_inserts. Qed.

Lemma appended_push_octet P v :
  packet_ok P -> p_end P < size P -> appended P (push_octet P v).
Proof.
  intros (Hend & Hsize & Hlen) Hroom. unfold appended, frame, packet_ok, push_octet.
  cbn [dict size p_end data]. rewrite usize_small, length_store by lia.
  repeat split; try lia. apply take_store. lia.
Qed.

Lemma p_end_push_octet P v :
  packet_ok P -> p_end P < size P -> p_end (push_octet P v) = p_end P + 1.
Proof.
  intros (Hend & Hsize & Hlen) Hroom. unfold push_octet. cbn.
  apply usize_small. lia.
Qed.

(** The octets below offset 12 hold the section counts. *)
Lemma dns_p_count_frame P P' section :
  12 <= p_end P -> frame P P' -> dns_p_count P' section = dns_p_count P section.
Proof.
  intros H12 (_ & _ & Ht).
  assert (Hb : forall i, 0 <= i < 12 -> byte_at (data P') i = byte_at (data P) i).
  { intros i Hi. unfold byte_at.
    rewrite <- (lookup_take_lt (data P') (Z.to_nat (p_end P))) by lia.
    rewrite <- (lookup_take_lt (data P) (Z.to_nat (p_end P))) by lia.
    now rewrite Ht. }
  unfold dns_p_count, ntohs_at, qdcount_off, ancount_off, nscount_off, arcount_off.
  rewrite !Hb by lia. reflexivity.
Qed.

(** *** [dns_d_comp] writes within its destination *)

Lemma comp_labels_length s lim :
  forall dstb dp dx sp sx,
    length (comp_labels s lim dstb dp dx sp sx).1.1.1.1 = length dstb.
Proof.
  induction s as [|ch s IH]; intros; [reflexivity|].
  cbn [comp_labels].
  destruct (ch =? 46); rewrite IH; repeat case_if; now rewrite ?length_store.
Qed.

Lemma comp_layout_length dst lim src len :
  length (comp_layout dst lim src len).1 = length dst.
Proof.
  unfold comp_layout.
  pose proof (comp_labels_length (slice src 0 len) lim dst 0 1 0 0) as Hl.
  destruct (comp_labels _ _ _ _ _ _ _) as [[[[dstb dst_p] dst_x] src_p] src_x].
  cbn in Hl. repeat case_match; simplify_eq; cbn; now rewrite ?length_store.
Qed.

Lemma dns_d_comp_length fuel dst lim src len P n dst' :
  dns_d_comp fuel dst lim src len P = Some (n, dst') -> length dst' = length dst.
Proof.
  unfold dns_d_comp.
  pose proof (comp_layout_length dst lim src len) as Hl.
  destruct (comp_layout _ _ _ _) as [dstb dst_p]. cbn in Hl. intros H.
  repeat case_match; simplify_eq; now rewrite ?length_store.
Qed.

Lemma dns_d_comp_nonneg fuel dst lim src len P n dst' :
  dns_d_comp fuel dst lim src len P = Some (n, dst') -> 0 <= n.
Proof.
  unfold dns_d_comp, comp_layout. intros H.
  repeat case_match; simplify_eq; unfold usize, u16; apply Z.mod_pos_bound; lia.
Qed.

(** *** The push functions only append *)

Lemma dns_d_push_appended ind fuel P dn len e P' :
  packet_ok P ->
  dns_d_push ind fuel P dn len = Some (e, P') ->
  appended P P' /\ (e <> 0 -> p_end P' = p_end P).
Proof.
  intros (Hend & Hsize & Hlen) H. unfold dns_d_push in H.
  destruct (dns_d_comp _ _ _ _ _ _) as [[n dst']|] eqn:Hcomp; [|discriminate].
  pose proof (dns_d_comp_length _ _ _ _ _ _ _ _ Hcomp) as Hl.
  pose proof (dns_d_comp_nonneg _ _ _ _ _ _ _ _ Hcomp) as Hn.
  rewrite length_drop in Hl.
  rewrite (usize_small (size P - p_end P)) in H by lia.
  assert (Hframe : frame P (set_data P (take (Z.to_nat (p_end P)) (data P) ++ dst'))).
  { unfold frame, set_data; cbn [size data].
    split; [reflexivity|]. split.
    - rewrite length_app, length_take_le by lia. lia.
    - apply take_app_length'. rewrite length_take_le; lia. }
  assert (Hok : packet_ok (set_data P (take (Z.to_nat (p_end P)) (data P) ++ dst'))).
  { destruct Hframe as (? & Hl' & _). unfold packet_ok, set_data in *.
    cbn [size data p_end] in *. rewrite Hl'. lia. }
  destruct (Z.eqb_spec n 0).
  { simplify_eq. split; [|reflexivity]. split; [assumption|]. split; [cbn; lia|assumption]. }
  destruct (Z.gtb_spec n (size P - p_end P)).
  { simplify_eq. split; [|reflexivity]. split; [assumption|]. split; [cbn; lia|assumption]. }
  simplify_eq. split; [|congruence].
  unfold appended, frame, packet_ok, set_end, dns_p_dictadd, set_dict, set_data in *.
  cbn [size data p_end dict] in *.
  rewrite usize_small by lia. repeat split; try tauto; lia.
Qed.

Lemma dns_a_push_appended P a e P' :
  packet_ok P -> dns_a_push P a = (e, P') ->
  appended P P' /\ (e <> 0 -> p_end P' = p_end P).
Proof.
  intros Hok H. unfold dns_a_push in H.
  destruct Hok as (Hend & Hsize & Hlen).
  rewrite usize_small in H by lia.
  destruct (Z.ltb_spec (size P - p_end P) 6).
  { simplify_eq. split; [|reflexivity]. apply appended_refl. repeat split; lia. }
  simplify_eq. split; [|congruence].
  unfold appended, frame, packet_ok, push_octet. cbn [size data p_end dict].
  rewrite !usize_small by (rewrite ?usize_small; lia).
  rewrite !length_store, !take_store by lia. repeat split; lia.
Qed.

Lemma dns_aaaa_push_appended P a e P' :
  packet_ok P -> dns_aaaa_push P a = (e, P') ->
  appended P P' /\ (e <> 0 -> p_end P' = p_end P).
Proof.
  intros Hok H. unfold dns_aaaa_push in H.
  destruct Hok as (Hend & Hsize & Hlen).
  rewrite usize_small in H by lia.
  destruct (Z.ltb_spec (size P - p_end P) (2 + 16)).
  { simplify_eq. split; [|reflexivity]. apply appended_refl. repeat split; lia. }
  simplify_eq. split; [|congruence].
  unfold appended, frame, packet_ok, push_octet, set_data, set_end.
  cbn [size data p_end dict].
  rewrite !usize_small by (rewrite ?usize_small; lia).
  rewrite length_memcpy, take_memcpy, !length_store, !take_store by lia.
  repeat split; lia.
Qed.

Lemma dns_txt_push_loop_appended (P : dns_packet) (txt : dns_any) :
  packet_ok P ->
  forall fuel dstb dst_p src_p e P',
    length dstb = length (data P) ->
    take (Z.to_nat (p_end P)) dstb = take (Z.to_nat (p_end P)) (data P) ->
    p_end P <= dst_p <= size P ->
    dns_txt_push_loop fuel P txt dstb dst_p src_p = Some (e, P') ->
    appended P P' /\ (e <> 0 -> p_end P' = p_end P).
Proof.
  intros (Hend & Hsize & Hlen) fuel.
  induction fuel as [|fuel IH]; intros dstb dst_p src_p e P' Hl Ht Hp H;
    [discriminate|].
  cbn [dns_txt_push_loop] in H.
  assert (Hstop : forall d, length d = length (data P) ->
            take (Z.to_nat (p_end P)) d = take (Z.to_nat (p_end P)) (data P) ->
            appended P (set_data P d)).
  { intros d Hd Htd. unfold appended, frame, packet_ok, set_data.
    cbn [size data p_end]. repeat split; try assumption; lia. }
  destruct (src_p <? rdata_len txt).
  2:{ simplify_eq. split; [|congruence].
      unfold appended, frame, packet_ok, set_data, set_end.
      cbn [size data p_end]. repeat split; try assumption; lia. }
  pose proof (land255_range (usize (rdata_len txt - src_p))) as Hn.
  destruct (Z.geb_spec dst_p (size P)).
  { simplify_eq. split; [|reflexivity]. now apply Hstop. }
  rewrite (usize_small (dst_p + 1)) in H by lia.
  rewrite (usize_small (size P - _)) in H by lia.
  destruct (Z.ltb_spec (size P - (dst_p + 1)) (Z.land 255 (usize (rdata_len txt - src_p)))).
  { simplify_eq. split; [|reflexivity].
    apply Hstop; [now rewrite length_store|]. rewrite take_store by lia. assumption. }
  rewrite (usize_small (dst_p + 1 + _)) in H by lia.
  eapply IH in H; [exact H| | |lia].
  - now rewrite length_memcpy, length_store.
  - rewrite take_memcpy, take_store by lia. assumption.
Qed.

Lemma dns_txt_push_appended P txt e P' :
  packet_ok P -> dns_txt_push P txt = Some (e, P') ->
  appended P P' /\ (e <> 0 -> p_end P' = p_end P).
Proof.
  intros Hok H. unfold dns_txt_push in H.
  pose proof Hok as (Hend & Hsize & Hlen).
  rewrite usize_small in H by lia.
  destruct (Z.ltb_spec (size P - p_end P) 2).
  { simplify_eq. split; [|reflexivity]. now apply appended_refl. }
  rewrite !usize_small in H by lia.
  eapply dns_txt_push_loop_appended in H; [exact H|assumption| | |lia].
  - now rewrite !length_store.
  - rewrite !take_store by lia. reflexivity.
Qed.

Lemma appended_backfill P0 P end_ :
  p_end P0 <= end_ -> end_ + 2 <= p_end P ->
  appended P0 P -> appended P0 (backfill P end_).
Proof.
  intros H0 H2 ((Hs & Hl & Ht) & Hle & Hok).
  unfold appended, frame, packet_ok, backfill, set_data in *.
  cbn [size data p_end] in *.
  rewrite !length_store, !take_store by lia. repeat split; tauto || lia.
Qed.

Lemma dns_mx_push_appended ind fuel P mx e P' :
  packet_ok P -> dns_mx_push ind fuel P mx = Some (e, P') ->
  appended P P' /\ (e <> 0 -> p_end P' = p_end P).
Proof.
  intros Hok H. unfold dns_mx_push in H.
  pose proof Hok as (Hend & Hsize & Hlen).
  rewrite usize_small in H by lia.
  destruct (Z.ltb_spec (size P - p_end P) 5).
  { simplify_eq. split; [|reflexivity]. now apply appended_refl. }
  rewrite usize_small in H by lia.
  set (P2 := push_octet (push_octet (set_end P (p_end P + 2)) _) _) in H.
  assert (H2 : appended P P2 /\ p_end P2 = p_end P + 4).
  { unfold P2, appended, frame, packet_ok, push_octet, set_end.
    cbn [size data p_end dict].
    rewrite !usize_small by (rewrite ?usize_small; lia).
    rewrite !length_store, !take_store by lia. repeat split; lia. }
  destruct H2 as (Happ2 & Hend2).
  destruct (dns_d_push _ _ _ _ _) as [[error P3]|] eqn:Hpush; [|discriminate].
  apply dns_d_push_appended in Hpush; [|apply Happ2].
  destruct Hpush as (Happ3 & _).
  pose proof (appended_trans P P2 P3 ltac:(lia) Happ2 Happ3) as Happ.
  destruct (negb (error =? 0)) eqn:He; simplify_eq.
  - split; [|reflexivity].
    destruct Happ as (Hf & Hle & Hok3). split; [exact Hf|].
    split; [cbn; lia|]. unfold packet_ok, set_end in *. cbn [size data p_end] in *. lia.
  - split; [|congruence]. apply appended_backfill; [lia| |assumption].
    destruct Happ3 as (_ & ? & _). lia.
Qed.

Lemma dns_ns_push_appended ind fuel P ns e P' :
  packet_ok P -> dns_ns_push ind fuel P ns = Some (e, P') ->
  appended P P' /\ (e <> 0 -> p_end P' = p_end P).
Proof.
  intros Hok H. unfold dns_ns_push in H.
  pose proof Hok as (Hend & Hsize & Hlen).
  rewrite usize_small in H by lia.
  destruct (Z.ltb_spec (size P - p_end P) 3).
  { simplify_eq. split; [|reflexivity]. now apply appended_refl. }
  rewrite usize_small in H by lia.
  set (P2 := set_end P (p_end P + 2)) in H.
  assert (Happ2 : appended P P2).
  { unfold P2, appended, frame, packet_ok, set_end. cbn [size data p_end dict].
    repeat split; lia. }
  destruct (dns_d_push _ _ _ _ _) as [[error P3]|] eqn:Hpush; [|discriminate].
  apply dns_d_push_appended in Hpush; [|apply Happ2].
  destruct Hpush as (Happ3 & _).
  pose proof (appended_trans P P2 P3 ltac:(lia) Happ2 Happ3) as Happ.
  destruct (negb (error =? 0)) eqn:He; simplify_eq.
  - split; [|reflexivity].
    destruct Happ as (Hf & Hle & Hok3). split; [exact Hf|].
    split; [cbn; lia|]. unfold packet_ok, set_end in *. cbn [size data p_end] in *. lia.
  - split; [|congruence]. apply appended_backfill; [lia| |assumption].
    destruct Happ3 as (_ & ? & _). unfold P2 in *. cbn in *. lia.
Qed.

Lemma dns_any_push_appended ind fuel P any type e P' :
  packet_ok P ->
  0 <= rdata_len any < 18446744073709551614 ->
  dns_any_push ind fuel P any type = Some (e, P') ->
  appended P P' /\ (e <> 0 -> p_end P' = p_end P).
Proof.
  intros Hok Hrd H. unfold dns_any_push, dns_cname_push in H.
  destruct (type =? DNS_T_A).
  { injection H as H. now apply dns_a_push_appended in H. }
  destruct (type =? DNS_T_AAAA).
  { injection H as H. now apply dns_aaaa_push_appended in H. }
  destruct (type =? DNS_T_MX); [now apply dns_mx_push_appended in H|].
  destruct (type =? DNS_T_NS); [now apply dns_ns_push_appended in H|].
  destruct (type =? DNS_T_CNAME); [now apply dns_ns_push_appended in H|].
  destruct (type =? DNS_T_TXT); [now apply dns_txt_push_appended in H|].
  pose proof Hok as (Hend & Hsize & Hlen).
  rewrite !usize_small in H by lia.
  destruct (Z.ltb_spec (size P - p_end P) (rdata_len any + 2)).
  { simplify_eq. split; [|reflexivity]. now apply appended_refl. }
  simplify_eq. split; [|congruence].
  unfold appended, frame, packet_ok, push_octet, set_data, set_end.
  cbn [size data p_end dict].
  rewrite !usize_small by (rewrite ?usize_small; lia).
  rewrite length_memcpy, take_memcpy, !length_store, !take_store by lia.
  repeat split; lia.
Qed.

(** ** [dns_p_push] is all or nothing *)

Lemma dns_p_push_failure ind fuel P section dn dnlen type class ttl any e P' :
  packet_ok P ->
  0 <= rdata_len any < 18446744073709551614 ->
  dns_p_push ind fuel P section dn dnlen type class ttl any = Some (e, P') ->
  e <> 0 ->
  frame P P' /\ p_end P' = p_end P.
Proof.
  intros Hok Hrd H He. unfold dns_p_push in H.
  pose proof Hok as (Hend & _).
  destruct (dns_d_push _ _ _ _ _) as [[error P1]|] eqn:Hname; [|discriminate].
  apply dns_d_push_appended in Hname; [|assumption].
  destruct Hname as (Happ1 & _).
  pose proof Happ1 as (Hf1 & Hle1 & Hok1).
  pose proof Hok1 as (Hend1 & Hsize1 & Hlen1).
  destruct (negb (error =? 0)).
  { simplify_eq. split; [exact Hf1|reflexivity]. }
  rewrite usize_small in H by lia.
  destruct (Z.ltb_spec (size P1 - p_end P1) 4).
  { simplify_eq. split; [exact Hf1|reflexivity]. }
  set (P2 := push_octet (push_octet (push_octet (push_octet P1 _) _) _) _) in H.
  assert (H2 : appended P1 P2 /\ p_end P2 = p_end P1 + 4).
  { unfold P2, appended, frame, packet_ok, push_octet.
    cbn [size data p_end dict].
    rewrite !usize_small by (rewrite ?usize_small; lia).
    rewrite !length_store, !take_store by lia. repeat split; lia. }
  destruct H2 as (Happ2 & Hend2).
  pose proof (appended_trans P P1 P2 ltac:(lia) Happ1 Happ2) as Happ12.
  pose proof Happ12 as (Hf12 & Hle12 & Hok2).
  pose proof Hok2 as (Hend2' & Hsize2 & Hlen2).
  destruct (section =? DNS_S_QD); [simplify_eq|].
  rewrite (usize_small (size P2 - p_end P2)) in H by lia.
  destruct (Z.ltb_spec (size P2 - p_end P2) 6).
  { simplify_eq. split; [exact Hf12|reflexivity]. }
  set (P3 := push_octet (push_octet (push_octet (push_octet P2 _) _) _) _) in H.
  assert (Happ3 : appended P2 P3).
  { unfold P3, appended, frame, packet_ok, push_octet.
    cbn [size data p_end dict].
    rewrite !usize_small by (rewrite ?usize_small; lia).
    rewrite !length_store, !take_store by lia. repeat split; lia. }
  pose proof (appended_trans P P2 P3 ltac:(lia) Happ12 Happ3) as Happ13.
  destruct (dns_any_push _ _ _ _ _) as [[error' P4]|] eqn:Hany; [|discriminate].
  apply dns_any_push_appended in Hany; [|apply Happ3|assumption].
  destruct Hany as (Happ4 & _).
  pose proof (appended_trans P P3 P4 ltac:(lia) Happ13 Happ4) as (Hf & _).
  destruct (negb (error' =? 0)); simplify_eq.
  split; [exact Hf|reflexivity].
Qed.

(** C6: if [dns_p_push] returns an error, then [P->end] is what it was
    before the call, the four section counts of the header are unchanged,
    and so is every octet of the packet below [P->end].  The packet is one
    the code keeps ([12 <= end <= size], the buffer as long as [size]), and
    the length of the record data that of an object in memory. *)
Theorem dns_p_push_all_or_nothing
    (indeterminate : Z) (fuel : nat) (P : dns_packet) (section : Z)
    (dn : list Z) (dnlen type class ttl : Z) (any : dns_any)
    (error : Z) (P' : dns_packet) :
  packet_ok P ->
  12 <= p_end P ->
  0 <= rdata_len any < 18446744073709551614 ->
  dns_p_push indeterminate fuel P section dn dnlen type class ttl any
  = Some (error, P') ->
  error <> 0 ->
  p_end P' = p_end P
  /\ (forall s, dns_p_count P' s = dns_p_count P s)
  /\ take (Z.to_nat (p_end P)) (data P') = take (Z.to_nat (p_end P)) (data P).
Proof.
  intros Hok H12 Hrd H He.
  destruct (dns_p_push_failure _ _ _ _ _ _ _ _ _ _ _ _ Hok Hrd H He) as (Hf & Hend).
  split; [exact Hend|]. split; [|apply Hf].
  intros s. now apply dns_p_count_frame.
Qed.

(** A question for ["example.com"] does not fit into a packet of 20
    octets: the push fails and the packet is as [dns_p_init] left it. *)
Lemma dns_p_push_all_or_nothing_witness :
  exists error P',
    dns_p_push 0 8 (dns_p_init 20) DNS_S_QD (octets "example.com") 11
               DNS_T_A DNS_C_IN 0 any_blank = Some (error, P')
    /\ error <> 0
    /\ p_end P' = p_end (dns_p_init 20)
    /\ (forall s, dns_p_count P' s = dns_p_count (dns_p_init 20) s)
    /\ take (Z.to_nat (p_end (dns_p_init 20))) (data P')
       = take (Z.to_nat (p_end (dns_p_init 20))) (data (dns_p_init 20)).
Proof.
  eexists. eexists. split; [vm_compute; reflexivity|].
  split; [discriminate|].
  apply (dns_p_push_all_or_nothing 0 8 (dns_p_init 20) DNS_S_QD
           (octets "example.com") 11 DNS_T_A DNS_C_IN 0 any_blank (-1)).
  - unfold packet_ok. repeat split; vm_compute; congruence.
  - vm_compute; congruence.
  - split; vm_compute; congruence.
  - vm_compute. reflexivity.
  - discriminate.
Defined.

(** ** The layout of a name: [dns_d_comp] before it compresses *)

Lemma length_dotted_cons l ls :
  length (dotted (l :: ls)) = (length l + 1 + length (dotted ls))%nat.
Proof. unfold dotted. cbn. rewrite !length_app. cbn. lia. Qed.

Lemma length_wire_cons l ls :
  length (wire (l :: ls)) = (1 + length l + length (wire ls))%nat.
Proof. unfold wire. cbn. rewrite !length_app. lia. Qed.

Lemma length_wire_dotted ls : length (wire ls) = length (dotted ls).
Proof.
  induction ls as [|l ls IH]; [reflexivity|].
  rewrite length_wire_cons, length_dotted_cons. lia.
Qed.

Lemma undotted_cons l ls : ls <> [] -> undotted (l :: ls) = l ++ 46 :: undotted ls.
Proof. destruct ls; [congruence|reflexivity]. Qed.

Lemma undotted_snoc ls l : undotted (ls ++ [l]) = dotted ls ++ l.
Proof.
  induction ls as [|l0 ls IH]; [reflexivity|].
  change (dotted (l0 :: ls)) with ((l0 ++ [46]) ++ dotted ls).
  cbn [app]. rewrite undotted_cons by (now destruct ls).
  rewrite IH. now rewrite <- !app_assoc.
Qed.

Lemma wire_snoc ls l : wire (ls ++ [l]) = wire ls ++ Z.of_nat (length l) :: l.
Proof. unfold wire. rewrite map_app, concat_app. cbn. now rewrite app_nil_r. Qed.

Lemma dotted_undotted ls : ls <> [] -> dotted ls = undotted ls ++ [46].
Proof.
  induction ls as [|l ls IH]; [congruence|]. intros _.
  destruct ls as [|l' ls]; [cbn; now rewrite app_nil_r|].
  change (dotted (l :: l' :: ls)) with ((l ++ [46]) ++ dotted (l' :: ls)).
  rewrite IH by congruence. cbn [undotted].
  now rewrite <- !app_assoc.
Qed.

Lemma land63_small n : 0 <= n <= 63 -> Z.land 63 n = n.
Proof.
  intros. rewrite Z.land_comm. change 63 with (Z.ones 6).
  rewrite Z.land_ones by lia. apply Z.mod_small. change (2 ^ 6) with 64. lia.
Qed.

(** The octets of a label go to [dst.x] on. *)
Lemma comp_labels_chars l :
  forall rest lim dstb dp dx sp sx,
    Forall (fun c => c <> 46) l ->
    0 <= dx -> dx + Z.of_nat (length l) <= lim -> lim < 18446744073709551616 ->
    0 <= sx -> sx + Z.of_nat (length l) < 18446744073709551616 ->
    comp_labels (l ++ rest) lim dstb dp dx sp sx
    = comp_labels rest lim (memcpy dstb dx l) dp (dx + Z.of_nat (length l))
                  sp (sx + Z.of_nat (length l)).
Proof.
  induction l as [|c l IH]; intros rest lim dstb dp dx sp sx Hl Hdx Hlim Hlim' Hsx Hsx'.
  { cbn. now rewrite !Z.add_0_r. }
  apply Forall_cons in Hl. destruct Hl as [Hc Hl]. cbn [length] in *.
  cbn [app comp_labels].
  destruct (Z.eqb_spec c 46); [contradiction|].
  destruct (Z.ltb_spec dx lim); [|lia].
  rewrite !usize_small by lia.
  rewrite IH by (try assumption; lia).
  rewrite store_memcpy_lt, <- memcpy_cons by lia.
  f_equal; lia.
Qed.

(** A label and the dot after it: the octets, then the length in front. *)
Lemma comp_labels_label l rest lim dstb p s :
  label_ok l ->
  0 <= p -> p + 1 + Z.of_nat (length l) <= lim -> lim + 1 < 18446744073709551616 ->
  0 <= s -> s + Z.of_nat (length l) + 1 < 18446744073709551616 ->
  comp_labels (l ++ 46 :: rest) lim dstb p (p + 1) s s
  = comp_labels rest lim (memcpy dstb p (Z.of_nat (length l) :: l))
                (p + 1 + Z.of_nat (length l)) (p + 1 + Z.of_nat (length l) + 1)
                (s + Z.of_nat (length l) + 1) (s + Z.of_nat (length l) + 1).
Proof.
  intros [Hlen Hl] Hp Hlim Hlim' Hs Hs'.
  rewrite comp_labels_chars by (try assumption; lia).
  cbn [comp_labels]. rewrite Z.eqb_refl.
  destruct (Z.ltb_spec p lim); [|lia].
  rewrite !usize_small by lia.
  replace (s + Z.of_nat (length l) - s) with (Z.of_nat (length l)) by lia.
  rewrite land63_small by lia.
  now rewrite store_memcpy_label by lia.
Qed.

(** Labels, each with its dot. *)
Lemma comp_labels_dotted ls :
  forall rest lim dstb p s,
    Forall label_ok ls ->
    0 <= p -> p + Z.of_nat (length (wire ls)) <= lim ->
    lim + 1 < 18446744073709551616 ->
    0 <= s -> s + Z.of_nat (length (dotted ls)) < 18446744073709551616 ->
    comp_labels (dotted ls ++ rest) lim dstb p (p + 1) s s
    = comp_labels rest lim (memcpy dstb p (wire ls))
                  (p + Z.of_nat (length (wire ls)))
                  (p + Z.of_nat (length (wire ls)) + 1)
                  (s + Z.of_nat (length (dotted ls)))
                  (s + Z.of_nat (length (dotted ls))).
Proof.
  induction ls as [|l ls IH]; intros rest lim dstb p s Hls Hp Hlim Hlim' Hs Hs'.
  { cbn. now rewrite !Z.add_0_r. }
  apply Forall_cons in Hls. destruct Hls as [Hl Hls].
  rewrite length_wire_cons in *. rewrite length_dotted_cons in *.
  change (dotted (l :: ls)) with ((l ++ [46]) ++ dotted ls).
  rewrite <- !app_assoc. cbn [app].
  rewrite comp_labels_label by (try assumption; lia).
  rewrite IH by (try assumption; lia).
  change (wire (l :: ls)) with ((Z.of_nat (length l) :: l) ++ wire ls).
  rewrite memcpy_app by lia. cbn [length].
  f_equal; try lia. f_equal. lia.
Qed.

(** The layout of a whole name, anchored or not: its labels on the wire
    and the root label, from the start of the destination on. *)
Lemma comp_layout_name ls anchored dst lim :
  ls <> [] -> Forall label_ok ls ->
  Z.of_nat (length (wire ls)) + 1 <= lim -> lim + 1 < 18446744073709551616 ->
  comp_layout dst lim (presentation ls anchored)
              (Z.of_nat (length (presentation ls anchored)))
  = (memcpy dst 0 (wire ls ++ [0]), Z.of_nat (length (wire ls)) + 1).
Proof.
  intros Hne Hls Hlim Hlim'. unfold comp_layout. rewrite slice_full.
  pose proof (length_wire_dotted ls) as Hwd.
  destruct anchored; cbn [presentation].
  - rewrite <- (app_nil_r (dotted ls)).
    rewrite comp_labels_dotted by (try assumption; lia).
    cbn [comp_labels]. rewrite !Z.add_0_l.
    destruct (Z.gtb_spec (Z.of_nat (length (dotted ls))) (Z.of_nat (length (dotted ls))));
      [lia|].
    destruct (Z.ltb_spec (Z.of_nat (length (wire ls))) lim); [|lia].
    rewrite usize_small by lia.
    rewrite <- memcpy_snoc by lia. reflexivity.
  - (* the last label is closed after the loop *)
    destruct (exists_last Hne) as (ls0 & l & ->).
    apply Forall_app in Hls. destruct Hls as [Hls0 Hl].
    apply Forall_cons in Hl. destruct Hl as [[Hlen Hl] _].
    pose proof (undotted_snoc ls0 l) as Hu.
    pose proof (wire_snoc ls0 l) as Hw.
    rewrite Hu. rewrite Hw in *. rewrite length_app in Hlim. cbn [length] in Hlim.
    pose proof (length_wire_dotted ls0) as Hwd0.
    rewrite comp_labels_dotted by (try assumption; lia).
    rewrite <- (app_nil_r l) at 1.
    rewrite comp_labels_chars by (try assumption; lia).
    cbn [comp_labels]. rewrite !Z.add_0_l.
    destruct (Z.gtb_spec (Z.of_nat (length (dotted ls0)) + Z.of_nat (length l))
                (Z.of_nat (length (dotted ls0)))); [|lia].
    destruct (Z.ltb_spec (Z.of_nat (length (wire ls0))) lim); [|lia].
    replace (Z.of_nat (length (dotted ls0)) + Z.of_nat (length l)
             - Z.of_nat (length (dotted ls0))) with (Z.of_nat (length l)) by lia.
    rewrite (usize_small (Z.of_nat (length l))), land63_small by lia.
    destruct (Z.ltb_spec (Z.of_nat (length (wire ls0)) + 1 + Z.of_nat (length l)) lim);
      [|lia].
    rewrite usize_small by lia.
    rewrite store_memcpy_label by lia.
    rewrite length_app. cbn [length].
    rewrite <- memcpy_snoc, (memcpy_app dst 0) by lia.
    rewrite length_app. cbn [length]. rewrite !Z.add_0_l.
    f_equal; [f_equal|]; lia.
Qed.

(** ** Reading labels off the wire *)

Lemma occurs_app d q a b :
  0 <= q ->
  occurs d q (a ++ b) -> occurs d q a /\ occurs d (q + Z.of_nat (length a)) b.
Proof.
  unfold occurs, slice. intros Hq H. rewrite length_app in H.
  rewrite !Nat2Z.id in *.
  split.
  - apply (f_equal (take (length a))) in H.
    rewrite take_take, take_app_length in H.
    now replace (length a `min` (length a + length b))%nat with (length a) in H by lia.
  - apply (f_equal (drop (length a))) in H.
    rewrite drop_app_length in H. rewrite <- H at 2.
    rewrite <- take_drop_commute, drop_drop.
    now replace (Z.to_nat (q + Z.of_nat (length a))) with (Z.to_nat q + length a)%nat by lia.
Qed.

Lemma occurs_cons d q x a :
  0 <= q -> occurs d q (x :: a) -> byte_at d q = x /\ occurs d (q + 1) a.
Proof.
  intros Hq H. apply (occurs_app d q [x] a Hq) in H. destruct H as [H1 H2].
  cbn [length] in *. change (Z.of_nat 1) with 1 in *.
  split; [|exact H2].
  unfold occurs, slice in H1. rewrite Nat2Z.id in H1. unfold byte_at.
  rewrite <- (Nat.add_0_r (Z.to_nat q)), <- lookup_drop.
  destruct (drop (Z.to_nat q) d); [discriminate|]. cbn in *. congruence.
Qed.

Lemma occurs_slice d q w : occurs d q w -> slice d q (Z.of_nat (length w)) = w.
Proof. trivial. Qed.

Lemma wire_cons_app l ls t :
  wire (l :: ls) ++ t = (Z.of_nat (length l) :: l) ++ (wire ls ++ t).
Proof. unfold wire. cbn [map concat]. now rewrite <- app_assoc. Qed.

Lemma label_type_0 n : 0 <= n <= 63 -> Z.land 3 (Z.shiftr n 6) = 0.
Proof.
  intros. rewrite Z.shiftr_div_pow2 by lia. change (2 ^ 6) with 64.
  now rewrite Z.div_small by lia.
Qed.

(** [dns_l_expand] at a label, or at the root label ([l] empty). *)
Lemma dns_l_expand_at_label lbl d end_ q l :
  (length l <= 63)%nat ->
  0 <= q -> q + 1 + Z.of_nat (length l) <= end_ -> end_ <= 65535 ->
  occurs d q (Z.of_nat (length l) :: l) ->
  dns_l_expand lbl 64 q d end_
  = {| l_len := Z.of_nat (length l); l_nxt := q + 1 + Z.of_nat (length l);
       l_dst := store (memcpy lbl 0 l) (Z.of_nat (length l)) 0 |}.
Proof.
  intros Hlen Hq Hend H16 Hocc.
  apply occurs_cons in Hocc; [|lia]. destruct Hocc as [Hb Hl].
  unfold dns_l_expand. change (Z.to_nat DNS_D_MAXPTRS) with (S 126).
  generalize 126%nat. intros hops. cbn [dns_l_expand_retry].
  destruct (Z.geb_spec q end_); [lia|].
  rewrite Hb, label_type_0, land63_small by lia.
  rewrite !u16_small by lia. rewrite usize_small by lia.
  destruct (Z.ltb_spec (end_ - (q + 1)) (Z.of_nat (length l))); [lia|].
  change (64 >? 0) with true. cbv iota.
  rewrite !MIN_spec, !Z.min_r by lia.
  unfold occurs in Hl. now rewrite Hl.
Qed.

Lemma dns_l_expand_length lbl lim q d end_ :
  length (l_dst (dns_l_expand lbl lim q d end_)) = length lbl.
Proof.
  unfold dns_l_expand. generalize (Z.to_nat DNS_D_MAXPTRS) as hops.
  intros hops. revert q. induction hops as [|hops IH]; intros q;
    cbn [dns_l_expand_retry];
    repeat case_match; cbn [l_dst]; rewrite ?length_store, ?length_memcpy;
    auto.
Qed.

(** With nothing in the dictionary, the search for a suffix walks over the
    labels just written and finds nothing. *)
Lemma comp_dict_empty fuel dstb lim P d a b :
  d !! 0%nat = Some 0 \/ d = [] -> comp_dict fuel dstb lim P d a b = Some (Miss a b).
Proof.
  intros [H| ->]; [|reflexivity]. destruct d as [|e d]; [discriminate|].
  cbn in H. injection H as ->. reflexivity.
Qed.

Lemma comp_walk_a_empty (P : dns_packet) dstb lim ls :
  dict P !! 0%nat = Some 0 \/ dict P = [] ->
  Forall label_ok ls ->
  forall fuel q a b,
    (length ls < fuel)%nat ->
    0 <= q -> q + Z.of_nat (length (wire ls)) + 1 <= lim -> lim <= 65535 ->
    occurs dstb q (wire ls ++ [0]) ->
    w_p a = q ->
    comp_walk_a fuel dstb lim P a b = Some None.
Proof.
  intros Hdict Hls. induction Hls as [|l ls Hl Hls IH];
    intros fuel q a b Hfuel Hq Hlim H16 Hocc Hp;
    (destruct fuel as [|fuel]; [cbn in Hfuel; lia|]); cbn [comp_walk_a].
  - rewrite Hp.
    rewrite (dns_l_expand_at_label _ dstb lim q []) by (cbn in *; auto; lia).
    reflexivity.
  - rewrite length_wire_cons in Hlim.
    rewrite wire_cons_app in Hocc.
    apply occurs_app in Hocc; [|lia]. destruct Hocc as [Hocc1 Hocc2].
    destruct Hl as [Hlen Hl].
    rewrite Hp.
    rewrite (dns_l_expand_at_label _ dstb lim q l) by (auto; lia).
    cbn [l_len l_nxt l_dst].
    destruct (Z.eqb_spec (Z.of_nat (length l)) 0); [lia|].
    rewrite comp_dict_empty.
    2:{ destruct Hdict as [H| ->]; [left|now right].
        destruct (dict P); [discriminate|]. exact H. }
    apply (IH fuel (q + 1 + Z.of_nat (length l))); cbn [length] in *; try lia.
    + now replace (q + 1 + Z.of_nat (length l))
        with (q + Z.of_nat (S (length l))) by lia.
    + reflexivity.
Qed.

(** ** Compressing a name and expanding it again *)

Lemma occurs_memcpy_0 dst w :
  (length w <= length dst)%nat -> occurs (memcpy dst 0 w) 0 w.
Proof.
  intros. unfold occurs, slice. cbn [Z.to_nat drop]. rewrite Nat2Z.id.
  now apply take_memcpy_0.
Qed.

(** With an empty dictionary the name goes out as it was laid out. *)
Lemma dns_d_comp_plain (P : dns_packet) ls anchored dst lim fuel :
  dict P !! 0%nat = Some 0 \/ dict P = [] ->
  ls <> [] -> Forall label_ok ls ->
  Z.of_nat (length (wire ls)) + 1 <= lim -> lim <= 65535 ->
  Z.of_nat (length (wire ls)) + 1 <= Z.of_nat (length dst) ->
  (length ls < fuel)%nat ->
  dns_d_comp fuel dst lim (presentation ls anchored)
             (Z.of_nat (length (presentation ls anchored))) P
  = Some (Z.of_nat (length (wire ls)) + 1, memcpy dst 0 (wire ls ++ [0])).
Proof.
  intros Hdict Hne Hls Hlim H16 Hdst Hfuel. unfold dns_d_comp.
  rewrite comp_layout_name by (try assumption; lia).
  destruct (Z.ltb_spec (Z.of_nat (length (wire ls)) + 1) lim); [|reflexivity].
  rewrite (comp_walk_a_empty P _ lim ls Hdict Hls fuel 0); try reflexivity; try lia.
  apply occurs_memcpy_0. rewrite length_app. cbn [length]. lia.
Qed.

(** [dns_d_expand] over labels that stand on the wire one after the other
    up to the root label. *)
Lemma dns_d_expand_loop_wire (P : dns_packet) lim ls :
  Forall label_ok ls ->
  forall fuel dst q dstp nptrs,
    (length ls < fuel)%nat ->
    0 <= q -> q + Z.of_nat (length (wire ls)) + 1 <= p_end P -> p_end P <= 65535 ->
    occurs (data P) q (wire ls ++ [0]) ->
    0 < dstp \/ ls <> [] ->
    0 <= dstp -> dstp + Z.of_nat (length (dotted ls)) < lim ->
    lim <= Z.of_nat (length dst) -> lim < 18446744073709551616 ->
    dns_d_expand_loop fuel dst lim q P dstp nptrs
    = Some {| x_len := dstp + Z.of_nat (length (dotted ls));
              x_dst := store (memcpy dst dstp (dotted ls))
                             (dstp + Z.of_nat (length (dotted ls))) 0;
              x_error := None |}.
Proof.
  intros Hls. induction Hls as [|l ls Hl Hls IH];
    intros fuel dst q dstp nptrs Hfuel Hq Hend H16 Hocc Hpos Hdstp Hlim Hdst Hlim';
    (destruct fuel as [|fuel]; [cbn in Hfuel; lia|]); cbn [dns_d_expand_loop].
  - assert (0 < dstp) by (destruct Hpos; [assumption|congruence]).
    cbn [wire dotted map concat length app] in *.
    apply occurs_cons in Hocc; [|lia]. destruct Hocc as [Hb _].
    destruct (Z.ltb_spec q (p_end P)); [|lia].
    rewrite Hb, label_type_0, land63_small by lia.
    change (0 =? 0) with true. cbv iota.
    destruct (Z.eqb_spec dstp 0); [lia|].
    destruct (Z.gtb_spec lim 0); [|lia].
    rewrite MIN_spec, Z.min_l by lia.
    now rewrite Z.add_0_r, memcpy_nil.
  - rewrite length_wire_cons in Hend. rewrite length_dotted_cons in *.
    rewrite wire_cons_app in Hocc.
    apply occurs_app in Hocc; [|lia]. destruct Hocc as [Hocc1 Hocc2].
    apply occurs_cons in Hocc1; [|lia]. destruct Hocc1 as [Hb Hl'].
    destruct Hl as [Hlen Hl].
    destruct (Z.ltb_spec q (p_end P)); [|lia].
    rewrite Hb, label_type_0, land63_small by lia.
    destruct (Z.eqb_spec (Z.of_nat (length l)) 0); [lia|].
    rewrite !u16_small by lia. rewrite (usize_small (p_end P - _)) by lia.
    destruct (Z.ltb_spec (p_end P - (q + 1)) (Z.of_nat (length l))); [lia|].
    destruct (Z.ltb_spec dstp lim); [|lia].
    rewrite MIN_spec, Z.min_l by lia.
    rewrite !usize_small by lia.
    destruct (Z.ltb_spec (dstp + Z.of_nat (length l)) lim); [|lia].
    unfold occurs in Hl'. rewrite Hl'.
    rewrite memcpy_snoc by lia.
    rewrite (IH fuel); cbn [length] in *; try lia.
    + change (dotted (l :: ls)) with ((l ++ [46]) ++ dotted ls).
      rewrite (memcpy_app dst dstp (l ++ [46])) by lia.
      rewrite length_app. cbn [length].
      do 2 f_equal; [lia|]. f_equal; [f_equal|]; lia.
    + now replace (q + 1 + Z.of_nat (length l))
        with (q + Z.of_nat (S (length l))) by lia.
    + now rewrite length_memcpy.
Qed.

(** [dns_d_anchor] on the text of a name. *)
Lemma dns_d_anchor_presentation ls anchored dst lim :
  ls <> [] -> Forall label_ok ls ->
  Z.of_nat (length (dotted ls)) < lim ->
  lim < 18446744073709551616 ->
  dns_d_anchor dst lim (presentation ls anchored)
               (Z.of_nat (length (presentation ls anchored)))
  = (Z.of_nat (length (dotted ls)),
     store (memcpy dst 0 (dotted ls)) (Z.of_nat (length (dotted ls))) 0).
Proof.
  intros Hne Hls Hlim Hlim'.
  pose proof (dotted_undotted ls Hne) as Hdu.
  assert (Hlen : length (dotted ls) = S (length (undotted ls)))
    by (rewrite Hdu, length_app; cbn; lia).
  unfold dns_d_anchor.
  destruct anchored; cbn [presentation].
  - destruct (Z.eqb_spec (Z.of_nat (length (dotted ls))) 0); [lia|].
    rewrite MIN_spec, Z.min_r, slice_full by lia.
    assert (Hlast : byte_at (dotted ls) (Z.of_nat (length (dotted ls)) - 1) = 46).
    { rewrite Hdu at 1. rewrite byte_at_app_r by lia.
      now replace (Z.of_nat (length (dotted ls)) - 1 - Z.of_nat (length (undotted ls)))
        with 0 by lia. }
    rewrite Hlast. cbn [Z.eqb Pos.eqb negb].
    destruct (Z.gtb_spec lim 0); [|lia].
    now rewrite MIN_spec, Z.min_r by lia.
  - destruct (exists_last Hne) as (ls0 & l & ->).
    apply Forall_app in Hls. destruct Hls as [_ Hl].
    apply Forall_cons in Hl. destruct Hl as [[Hll Hl] _].
    rewrite undotted_snoc in *.
    assert (length (dotted ls0 ++ l) <> 0)%nat by (rewrite length_app; lia).
    destruct (Z.eqb_spec (Z.of_nat (length (dotted ls0 ++ l))) 0); [lia|].
    rewrite MIN_spec, Z.min_r, slice_full by lia.
    assert (Hlast : byte_at (dotted ls0 ++ l) (Z.of_nat (length (dotted ls0 ++ l)) - 1) <> 46).
    { rewrite byte_at_app_r by (rewrite length_app; lia).
      rewrite length_app.
      replace (Z.of_nat (length (dotted ls0) + length l) - 1 - Z.of_nat (length (dotted ls0)))
        with (Z.of_nat (length l - 1)) by lia.
      unfold byte_at. rewrite Nat2Z.id.
      destruct (lookup_lt_is_Some_2 l (length l - 1)) as [c Hc]; [lia|].
      rewrite Hc. cbn. rewrite Forall_forall in Hl. apply Hl.
      eapply list_elem_of_lookup_2. exact Hc. }
    destruct (Z.eqb_spec (byte_at (dotted ls0 ++ l) (Z.of_nat (length (dotted ls0 ++ l)) - 1)) 46);
      [contradiction|]. cbn [negb].
    destruct (Z.ltb_spec (Z.of_nat (length (dotted ls0 ++ l))) lim); [|lia].
    rewrite usize_small by lia.
    destruct (Z.gtb_spec lim 0); [|lia].
    rewrite MIN_spec, Z.min_r by lia.
    rewrite Hdu.
    rewrite <- (Z.add_0_l (Z.of_nat (length (dotted ls0 ++ l)))) at 1.
    rewrite memcpy_snoc by lia.
    rewrite (length_app (dotted ls0 ++ l) [46]). cbn [length].
    f_equal; [|f_equal]; lia.
Qed.

(** With nothing in the dictionary a name comes back as [dns_d_anchor]
    makes it: for every name made of labels of 1 to 63 octets other than
    the dot, given anchored or not, and every packet with an empty
    compression dictionary and room for the name, [dns_d_push] appends the
    name and returns 0, and [dns_d_expand] of what it appended yields
    exactly what [dns_d_anchor] makes of the name: the same length and the
    same octets in the destination, case included. *)
Theorem dns_d_push_expand_roundtrip
    (indeterminate : Z) (P : dns_packet) (ls : list (list Z)) (anchored : bool)
    (fuel : nat) :
  packet_ok P -> size P <= 65535 ->
  dict P !! 0%nat = Some 0 \/ dict P = [] ->
  ls <> [] -> Forall label_ok ls ->
  Z.of_nat (length (wire ls)) + 1 <= size P - p_end P ->
  (length ls < fuel)%nat ->
  let name := presentation ls anchored in
  exists P',
    dns_d_push indeterminate fuel P name (Z.of_nat (length name)) = Some (0, P')
    /\ p_end P' = p_end P + Z.of_nat (length (wire ls)) + 1
    /\ forall dst lim,
         Z.of_nat (length (dotted ls)) < lim -> lim <= Z.of_nat (length dst) ->
         lim < 18446744073709551616 ->
         exists n text,
           dns_d_anchor dst lim name (Z.of_nat (length name)) = (n, text)
           /\ dns_d_expand fuel dst lim (p_end P) P'
              = Some {| x_len := n; x_dst := text; x_error := None |}.
Proof.
  intros (Hend & Hsize & Hlen) H16 Hdict Hne Hls Hroom Hfuel name.
  unfold dns_d_push. rewrite usize_small by lia.
  unfold name.
  rewrite (dns_d_comp_plain P ls anchored) by
    (try assumption; try lia; rewrite length_drop; lia).
  destruct (Z.eqb_spec (Z.of_nat (length (wire ls)) + 1) 0); [lia|].
  destruct (Z.gtb_spec (Z.of_nat (length (wire ls)) + 1) (size P - p_end P)); [lia|].
  eexists. split; [reflexivity|].
  cbn [p_end set_end dns_p_dictadd set_dict set_data].
  rewrite usize_small by lia. split; [lia|].
  intros dst lim Hlim Hdst Hlim'.
  rewrite dns_d_anchor_presentation by assumption.
  eexists. eexists. split; [reflexivity|].
  unfold dns_d_expand.
  rewrite (dns_d_expand_loop_wire _ lim ls Hls); try assumption;
    cbn [p_end data set_end dns_p_dictadd set_dict set_data]; try lia.
  - now rewrite Z.add_0_l.
  - unfold occurs. rewrite slice_app_r by (rewrite length_take; lia).
    rewrite length_take_le by lia. rewrite Z2Nat.id, Z.sub_diag by lia.
    apply occurs_memcpy_0. rewrite length_drop, length_app. cbn [length]. lia.
  - now right.
Qed.

Lemma dns_d_push_expand_roundtrip_witness :
  let name := presentation [octets "Example"; octets "COM"] false in
  exists P',
    dns_d_push 0 3 (dns_p_init 64) name (Z.of_nat (length name)) = Some (0, P')
    /\ p_end P' = p_end (dns_p_init 64)
                  + Z.of_nat (length (wire [octets "Example"; octets "COM"])) + 1
    /\ forall dst lim,
         Z.of_nat (length (dotted [octets "Example"; octets "COM"])) < lim ->
         lim <= Z.of_nat (length dst) ->
         lim < 18446744073709551616 ->
         exists n text,
           dns_d_anchor dst lim name (Z.of_nat (length name)) = (n, text)
           /\ dns_d_expand 3 dst lim (p_end (dns_p_init 64)) P'
              = Some {| x_len := n; x_dst := text; x_error := None |}.
Proof.
  apply (dns_d_push_expand_roundtrip 0 (dns_p_init 64)
           [octets "Example"; octets "COM"] false 3).
  - unfold packet_ok. repeat split; vm_compute; congruence.
  - vm_compute; congruence.
  - left. reflexivity.
  - discriminate.
  - repeat constructor; vm_compute; congruence.
  - vm_compute; congruence.
  - vm_compute. lia.
Defined.

(** What the witness amounts to. *)
Example dns_d_push_expand_example :
  exists P' x,
    dns_d_push 0 3 (dns_p_init 64) (octets "Example.COM") 11 = Some (0, P')
    /\ slice (data P') 12 13 = [7] ++ octets "Example" ++ [3] ++ octets "COM" ++ [0]
    /\ dns_d_expand 3 (replicate 256 0) 256 12 P' = Some x
    /\ x_len x = 12 /\ c_str (x_dst x) = octets "Example.COM.".
Proof. eexists. eexists. split; [now vm_compute|]. now vm_compute. Qed.

(** Once the dictionary holds a name, the case of letters is that of the
    name already there: suffixes are compared with [strcasecmp], so ["A"]
    pushed after ["a."] becomes a pointer to the earlier name and expands
    to ["a."], while [dns_d_anchor] makes ["A."] of it. *)
Example dns_d_push_expand_case_lost :
  exists P1 P2 x,
    dns_d_push 0 8 (dns_p_init 64) (octets "a.") 2 = Some (0, P1)
    /\ dns_d_push 0 8 P1 (octets "A") 1 = Some (0, P2)
    /\ slice (data P2) (p_end P1) 2 = [192; 12]
    /\ dns_d_expand 8 (replicate 256 0) 256 (p_end P1) P2 = Some x
    /\ c_str (x_dst x) = octets "a."
    /\ c_str (dns_d_anchor (replicate 256 0) 256 (octets "A") 1).2 = octets "A."
    /\ octets "a." <> octets "A.".
Proof.
  eexists. eexists. eexists.
  split; [now vm_compute|]. split; [now vm_compute|]. split; [now vm_compute|].
  split; [now vm_compute|]. split; [now vm_compute|]. split; [now vm_compute|].
  discriminate.
Qed.

(** The search for a suffix goes wrong after a partial match: the
    comparison overwrites [a.label], and the next dictionary position is
    compared with what is left in it.  Here ["x.y.z"] is pushed after
    ["x.y.w.z.y.z"]: the first try matches ["x"], ["y"] and stops at ["z"]
    against ["w"]; with ["z"] left in [a.label], the position of the
    second ["z"] then matches, and the name goes out as a pointer to
    ["z.y.z."]. *)
Example dns_d_comp_partial_match :
  exists P1 P2 x,
    dns_d_push 0 9 (dns_p_init 64) (octets "x.y.w.z.y.z") 11 = Some (0, P1)
    /\ dns_d_push 0 9 P1 (octets "x.y.z") 5 = Some (0, P2)
    /\ slice (data P2) (p_end P1) 2 = [192; 18]
    /\ dns_d_expand 9 (replicate 256 0) 256 (p_end P1) P2 = Some x
    /\ c_str (x_dst x) = octets "z.y.z.".
Proof.
  eexists. eexists. eexists.
  split; [now vm_compute|]. split; [now vm_compute|]. split; [now vm_compute|].
  split; [now vm_compute|]. now vm_compute.
Qed.

(** ** What [dns_d_push] appends, with any dictionary *)

Lemma occurs_lookup d q w :
  0 <= q ->
  occurs d q w <-> (forall i x, w !! i = Some x -> d !! (Z.to_nat q + i)%nat = Some x).
Proof.
  intros Hq. unfold occurs, slice. rewrite Nat2Z.id. split.
  - intros H i x Hi. rewrite <- lookup_drop.
    rewrite <- (lookup_take_lt _ (length w)) by (apply lookup_lt_Some in Hi; lia).
    now rewrite H.
  - intros H. apply list_eq. intros i.
    destruct (w !! i) as [x|] eqn:Hi.
    + rewrite lookup_take_lt by (apply lookup_lt_Some in Hi; lia).
      rewrite lookup_drop. now apply H.
    + apply lookup_ge_None in Hi. apply lookup_ge_None.
      rewrite length_take. lia.
Qed.

Lemma occurs_byte_at d q w i x :
  0 <= q -> occurs d q w -> w !! i = Some x -> byte_at d (q + Z.of_nat i) = x.
Proof.
  intros Hq Hocc Hi. unfold byte_at.
  replace (Z.to_nat (q + Z.of_nat i)) with (Z.to_nat q + i)%nat by lia.
  pose proof (proj1 (occurs_lookup d q w Hq) Hocc) as H. now rewrite (H i x Hi).
Qed.

(** Where the cursors of the first loop of [dns_d_comp] end up does not
    depend on the room in the destination. *)
Lemma comp_labels_cursors s :
  forall lim lim' dstb dstb' dp dx sp sx,
    let r := comp_labels s lim dstb dp dx sp sx in
    let r' := comp_labels s lim' dstb' dp dx sp sx in
    (r.1.1.1.2, r.1.1.2, r.1.2, r.2) = (r'.1.1.1.2, r'.1.1.2, r'.1.2, r'.2).
Proof.
  induction s as [|ch s IH]; intros; [reflexivity|].
  subst r r'. cbn [comp_labels]. destruct (ch =? 46); apply IH.
Qed.

Lemma comp_layout_len_indep dst dst' lim lim' src len :
  (comp_layout dst lim src len).2 = (comp_layout dst' lim' src len).2.
Proof.
  unfold comp_layout.
  pose proof (comp_labels_cursors (slice src 0 len) lim lim' dst dst' 0 1 0 0) as H.
  cbv zeta in H.
  destruct (comp_labels _ lim _ _ _ _ _) as [[[[dstb dst_p] dst_x] src_p] src_x].
  destruct (comp_labels _ lim' _ _ _ _ _) as [[[[dstb' dst_p'] dst_x'] src_p'] src_x'].
  cbn in H. simplify_eq. destruct (src_x' >? src_p'); reflexivity.
Qed.

Lemma comp_layout_len ls anchored dst lim :
  ls <> [] -> Forall label_ok ls ->
  Z.of_nat (length (wire ls)) + 2 < 18446744073709551616 ->
  (comp_layout dst lim (presentation ls anchored)
               (Z.of_nat (length (presentation ls anchored)))).2
  = Z.of_nat (length (wire ls)) + 1.
Proof.
  intros Hne Hls Hw.
  rewrite (comp_layout_len_indep dst dst lim (Z.of_nat (length (wire ls)) + 1)).
  now rewrite comp_layout_name by (try assumption; lia).
Qed.

(** The loops that search for a suffix leave [a.p] and [a.x] alone. *)
Lemma comp_match_a fuel dstb lim P :
  forall a b a' b',
    comp_match fuel dstb lim P a b = Some (a', b') ->
    w_p a' = w_p a /\ w_x a' = w_x a /\ w_p b' = w_p b /\ w_x b' = w_x b.
Proof.
  induction fuel as [|fuel IH]; intros a b a' b' H; [discriminate|].
  cbn [comp_match] in H. case_match.
  - apply IH in H. cbn in H. exact H.
  - now simplify_eq.
Qed.

Lemma comp_walk_b_a fuel dstb lim P :
  forall a b r,
    comp_walk_b fuel dstb lim P a b = Some r ->
    match r with
    | Hit ap bp => ap = w_p a
    | Miss a' b' => w_p a' = w_p a /\ w_x a' = w_x a
    end.
Proof.
  induction fuel as [|fuel IH]; intros a b r H; [discriminate|].
  cbn [comp_walk_b] in H. case_match; [now simplify_eq|].
  destruct (comp_match _ _ _ _ _ _) as [[a1 b1]|] eqn:Hm; [|discriminate].
  apply comp_match_a in Hm. cbn in Hm. destruct Hm as (Hp & Hx & _).
  case_match.
  - simplify_eq. exact Hp.
  - apply IH in H. destruct r; [congruence|].
    destruct H as [-> ->]. auto.
Qed.

Lemma comp_dict_a fuel dstb lim P d :
  forall a b r,
    comp_dict fuel dstb lim P d a b = Some r ->
    match r with
    | Hit ap bp => ap = w_p a
    | Miss a' b' => w_p a' = w_p a /\ w_x a' = w_x a
    end.
Proof.
  induction d as [|e d IH]; intros a b r H; cbn [comp_dict] in H.
  { now simplify_eq. }
  case_match; [now simplify_eq|].
  destruct (comp_walk_b _ _ _ _ _ _) as [r1|] eqn:Hb; [|discriminate].
  apply comp_walk_b_a in Hb. cbn in Hb.
  destruct r1 as [ap bp|a1 b1]; [now simplify_eq|].
  apply IH in H. destruct Hb as [Hb1 Hb2].
  destruct r; [congruence|]. destruct H. split; congruence.
Qed.

Lemma wire_take_S l ls k :
  wire (take (S k) (l :: ls)) = (Z.of_nat (length l) :: l) ++ wire (take k ls).
Proof. reflexivity. Qed.

(** A pointer replaces the name from the start of one of its labels on. *)
Lemma comp_walk_a_hit (P : dns_packet) dstb lim ls :
  Forall label_ok ls ->
  forall fuel q a b ap bp,
    0 <= q -> q + Z.of_nat (length (wire ls)) + 1 <= lim -> lim <= 65535 ->
    occurs dstb q (wire ls ++ [0]) ->
    w_p a = q ->
    comp_walk_a fuel dstb lim P a b = Some (Some (ap, bp)) ->
    exists k, (k < length ls)%nat /\ ap = q + Z.of_nat (length (wire (take k ls))).
Proof.
  intros Hls. induction Hls as [|l ls Hl Hls IH];
    intros fuel q a b ap bp Hq Hlim H16 Hocc Hp H;
    (destruct fuel as [|fuel]; [discriminate|]); cbn [comp_walk_a] in H.
  - rewrite Hp in H.
    rewrite (dns_l_expand_at_label _ dstb lim q []) in H by (cbn in *; auto; lia).
    discriminate.
  - rewrite length_wire_cons in Hlim.
    rewrite wire_cons_app in Hocc.
    apply occurs_app in Hocc; [|lia]. destruct Hocc as [Hocc1 Hocc2].
    destruct Hl as [Hlen Hl].
    rewrite Hp in H.
    rewrite (dns_l_expand_at_label _ dstb lim q l) in H by (auto; lia).
    cbn [l_len l_nxt l_dst] in H.
    destruct (Z.eqb_spec (Z.of_nat (length l)) 0); [lia|].
    destruct (comp_dict _ _ _ _ _ _ _) as [r|] eqn:Hd; [|discriminate].
    apply comp_dict_a in Hd. cbn in Hd.
    destruct r as [ap' bp'|a1 b1].
    + simplify_eq. exists 0%nat. cbn. split; lia.
    + destruct Hd as [Hp1 Hx1].
      eapply (IH fuel (q + 1 + Z.of_nat (length l))) in H; cbn [length] in *; try lia.
      * destruct H as (k & Hk & ->). exists (S k). split; [lia|].
        rewrite wire_take_S, length_app. cbn [length]. lia.
      * now replace (q + 1 + Z.of_nat (length l))
          with (q + Z.of_nat (S (length l))) by lia.
      * cbn. exact Hx1.
Qed.

Lemma wire_app a b : wire (a ++ b) = wire a ++ wire b.
Proof. unfold wire. now rewrite map_app, concat_app. Qed.

Lemma pointer_type x : Z.land 3 (Z.shiftr (Z.lor 192 (Z.land 63 x)) 6) = 3.
Proof.
  pose proof (land63_range x).
  rewrite Z.shiftr_lor, (Z.shiftr_div_pow2 (Z.land 63 x)) by lia.
  change (2 ^ 6) with 64. rewrite Z.div_small by lia. reflexivity.
Qed.

Lemma length_wire_drop_pos ls k :
  Forall label_ok ls -> (k < length ls)%nat ->
  (2 <= length (wire (drop k ls)))%nat.
Proof.
  intros Hls Hk.
  destruct (drop k ls) as [|l ls'] eqn:E.
  { apply (f_equal length) in E. rewrite length_drop in E. cbn in E. lia. }
  assert (Hl : label_ok l).
  { rewrite Forall_forall in Hls. apply Hls.
    apply (list_elem_of_lookup_2 _ k).
    rewrite <- (Nat.add_0_r k), <- lookup_drop, E. reflexivity. }
  destruct Hl as [Hl _]. rewrite length_wire_cons. lia.
Qed.
(** ** Records read back from a packet *)

Lemma dns_d_skip_loop_bounds (P : dns_packet) fuel src v :
  0 <= p_end P <= 65535 -> 0 <= src ->
  dns_d_skip_loop fuel src P = Some v ->
  0 <= v <= p_end P /\ (src < p_end P -> src < v) /\ (p_end P <= src -> v = p_end P).
Proof.
  intros HP Hs H.
  assert (Hf : (Z.to_nat (p_end P - src) < Nat.max (S (Z.to_nat (p_end P - src))) fuel)%nat)
    by lia.
  destruct (dns_d_skip_loop_spec P HP _ src Hs Hf) as (v' & Hv' & Hb).
  rewrite (dns_d_skip_loop_mono P fuel _ src v H) in Hv' by lia.
  simplify_eq. exact Hb.
Qed.

Lemma lor_range a b n :
  0 <= n -> 0 <= a < 2 ^ n -> 0 <= b < 2 ^ n -> 0 <= Z.lor a b < 2 ^ n.
Proof.
  intros Hn Ha Hb. split; [apply Z.lor_nonneg; lia|].
  assert (Hz : Z.shiftr (Z.lor a b) n = 0).
  { rewrite Z.shiftr_lor, !Z.shiftr_div_pow2 by lia.
    now rewrite !Z.div_small by lia. }
  rewrite Z.shiftr_div_pow2 in Hz by lia.
  apply Z.div_small_iff in Hz; lia.
Qed.

Lemma shiftl_land_range m x k n :
  0 <= k -> m = Z.ones n -> 0 <= n ->
  0 <= Z.shiftl (Z.land m x) k < 2 ^ (n + k).
Proof.
  intros Hk -> Hn. pose proof (land_low_bits (Z.ones n) x n Hn eq_refl).
  rewrite Z.shiftl_mul_pow2 by lia. rewrite Z.pow_add_r by lia.
  assert (0 < 2 ^ k) by (apply Z.pow_pos_nonneg; lia). nia.
Qed.

Lemma be16_range d p : 0 <= be16 d p < 65536.
Proof.
  unfold be16. change 65536 with (2 ^ 16). apply lor_range; [lia| |].
  - apply (shiftl_land_range 255 _ 8 8); [lia|reflexivity|lia].
  - pose proof (shiftl_land_range 255 (byte_at d (p + 1)) 0 8 ltac:(lia) eq_refl ltac:(lia)).
    change (2 ^ (8 + 0)) with 256 in H. change (2 ^ 16) with 65536. lia.
Qed.

Lemma dns_rr_parse_ok (P : dns_packet) (fuel : nat) (rr0 rr : dns_rr) (src : Z) :
  0 <= p_end P <= 65535 -> 0 <= src ->
  dns_rr_parse fuel rr0 src P = Some (0, rr) ->
  dn_p rr = src /\ 1 <= dn_len rr
  /\ rr_section rr = rr_section rr0
  /\ 0 <= rr_type rr < 65536 /\ 0 <= rr_class rr < 65536
  /\ (if src =? 12
      then rr_ttl rr = 0 /\ rd_p rr = 0 /\ rd_len rr = 0
           /\ dns_rr_len rr = dn_len rr + 4
      else 0 <= rr_ttl rr < 2147483648
           /\ rd_p rr = src + dn_len rr + 10 /\ 0 <= rd_len rr
           /\ dns_rr_len rr = dn_len rr + 10 + rd_len rr)
  /\ src + dns_rr_len rr <= p_end P.
Proof.
  intros HP Hs H. unfold dns_rr_parse in H.
  destruct (Z.geb_spec src (p_end P)); [discriminate|].
  destruct (dns_d_skip_loop fuel src P) as [p|] eqn:Hskip; [|discriminate].
  apply dns_d_skip_loop_bounds in Hskip; [|lia..].
  destruct Hskip as (Hp & Hlt & _). specialize (Hlt ltac:(lia)).
  rewrite (usize_small (p_end P - p)) in H by lia.
  destruct (Z.ltb_spec (p_end P - p) 4); [discriminate|].
  rewrite (u16_small (p - src)) in H by lia.
  rewrite (u16_small (p + 4)) in H by lia.
  pose proof (be16_range (data P) p). pose proof (be16_range (data P) (p + 2)).
  destruct (Z.eqb_spec src 12).
  - simplify_eq. unfold dns_rr_len. cbn.
    rewrite u16_small by lia. repeat split; lia.
  - rewrite (usize_small (p_end P - (p + 4))) in H by lia.
    destruct (Z.ltb_spec (p_end P - (p + 4)) 4); [discriminate|].
    rewrite (u16_small (p + 4 + 4)) in H by lia.
    rewrite (usize_small (p_end P - (p + 4 + 4))) in H by lia.
    destruct (Z.ltb_spec (p_end P - (p + 4 + 4)) 2); [discriminate|].
    rewrite (u16_small (p + 4 + 4 + 2)) in H by lia.
    rewrite (usize_small (p_end P - (p + 4 + 4 + 2))) in H by lia.
    cbn [rd_len] in H.
    pose proof (be16_range (data P) (p + 4 + 4)).
    destruct (Z.ltb_spec (p_end P - (p + 4 + 4 + 2)) (be16 (data P) (p + 4 + 4)));
      [discriminate|].
    simplify_eq. unfold dns_rr_len.
    cbn [dn_p dn_len rd_p rd_len rr_ttl rr_type rr_class rr_section].
    destruct (Z.eqb_spec src 12); [lia|].
    rewrite u16_small by lia.
    assert (0 <= Z.lor
              (Z.lor
                 (Z.lor (Z.shiftl (Z.land 127 (byte_at (data P) (p + 4 + 0))) 24)
                        (Z.shiftl (Z.land 255 (byte_at (data P) (p + 4 + 1))) 16))
                 (Z.shiftl (Z.land 255 (byte_at (data P) (p + 4 + 2))) 8))
              (Z.shiftl (Z.land 255 (byte_at (data P) (p + 4 + 3))) 0) < 2 ^ 31).
    { pose proof (shiftl_land_range 127 (byte_at (data P) (p + 4 + 0)) 24 7
                    ltac:(lia) eq_refl ltac:(lia)) as Hb3.
      pose proof (shiftl_land_range 255 (byte_at (data P) (p + 4 + 1)) 16 8
                    ltac:(lia) eq_refl ltac:(lia)) as Hb2.
      pose proof (shiftl_land_range 255 (byte_at (data P) (p + 4 + 2)) 8 8
                    ltac:(lia) eq_refl ltac:(lia)) as Hb1.
      pose proof (shiftl_land_range 255 (byte_at (data P) (p + 4 + 3)) 0 8
                    ltac:(lia) eq_refl ltac:(lia)) as Hb0.
      change (2 ^ (7 + 24)) with (2 ^ 31) in Hb3.
      change (2 ^ (8 + 16)) with 16777216 in Hb2.
      change (2 ^ (8 + 8)) with 65536 in Hb1.
      change (2 ^ (8 + 0)) with 256 in Hb0.
      assert (2 ^ 31 = 2147483648) as E31 by reflexivity.
      repeat (apply lor_range; [lia|try lia..]). }
    change (2 ^ 31) with 2147483648 in *.
    repeat split; lia.
Qed.

Lemma dns_rr_parse_total (P : dns_packet) (fuel : nat) (rr0 : dns_rr) (src : Z) :
  0 <= p_end P <= 65535 -> 0 <= src ->
  (Z.to_nat (p_end P - src) < fuel)%nat ->
  exists e rr, dns_rr_parse fuel rr0 src P = Some (e, rr).
Proof.
  intros HP Hs Hf. unfold dns_rr_parse.
  destruct (dns_d_skip_loop_spec P HP fuel src Hs Hf) as (v & -> & _).
  repeat case_if; eexists; eexists; reflexivity.
Qed.

(** A record that [dns_rr_parse] accepts lies inside the packet: the name
    starts at [src] and takes at least one octet, a question ends four
    octets after its name, any other record has its data ten octets after
    the name and the data ends within [P->end]; the TTL read has 31 bits;
    the section is not touched.  [dns_rr_len] is then the extent of the
    record, so the offset after it is within the packet too. *)
Theorem dns_rr_parse_in_bounds (P : dns_packet) (fuel : nat) (rr0 rr : dns_rr)
    (src : Z) :
  0 <= p_end P <= 65535 -> 0 <= src ->
  dns_rr_parse fuel rr0 src P = Some (0, rr) ->
  dn_p rr = src /\ 1 <= dn_len rr
  /\ rr_section rr = rr_section rr0
  /\ 0 <= rr_type rr < 65536 /\ 0 <= rr_class rr < 65536
  /\ (if src =? 12
      then rr_ttl rr = 0 /\ rd_p rr = 0 /\ rd_len rr = 0
           /\ dns_rr_len rr = dn_len rr + 4
      else 0 <= rr_ttl rr < 2147483648
           /\ rd_p rr = src + dn_len rr + 10 /\ 0 <= rd_len rr
           /\ dns_rr_len rr = dn_len rr + 10 + rd_len rr)
  /\ src + dns_rr_len rr <= p_end P.
Proof. apply dns_rr_parse_ok. Qed.

(** The answer of [answer_packet], at offset 19. *)
Lemma dns_rr_parse_in_bounds_witness :
  exists rr,
    dns_rr_parse 4 rr_blank 19 answer_packet = Some (0, rr)
    /\ dn_p rr = 19 /\ 1 <= dn_len rr
    /\ rr_section rr = rr_section rr_blank
    /\ 0 <= rr_type rr < 65536 /\ 0 <= rr_class rr < 65536
    /\ (if 19 =? 12
        then rr_ttl rr = 0 /\ rd_p rr = 0 /\ rd_len rr = 0
             /\ dns_rr_len rr = dn_len rr + 4
        else 0 <= rr_ttl rr < 2147483648
             /\ rd_p rr = 19 + dn_len rr + 10 /\ 0 <= rd_len rr
             /\ dns_rr_len rr = dn_len rr + 10 + rd_len rr)
    /\ 19 + dns_rr_len rr <= p_end answer_packet.
Proof.
  eexists. split; [vm_compute; reflexivity|].
  apply (dns_rr_parse_in_bounds answer_packet 4 rr_blank _ 19).
  - vm_compute. split; congruence.
  - lia.
  - vm_compute. reflexivity.
Defined.

(** [dns_rr_skip] ends on every packet that 16-bit offsets can address and
    returns an offset within the packet; from an offset below [P->end] it
    moves forward (to [P->end] when the record does not parse), from one at
    or beyond [P->end] it returns [P->end]. *)
Theorem dns_rr_skip_progress (P : dns_packet) (src : Z) (fuel : nat) :
  0 <= p_end P <= 65535 -> 0 <= src ->
  (Z.to_nat (p_end P - src) < fuel)%nat ->
  exists v,
    dns_rr_skip fuel src P = Some v
    /\ 0 <= v <= p_end P
    /\ (src < p_end P -> src < v)
    /\ (p_end P <= src -> v = p_end P).
Proof.
  intros HP Hs Hf. unfold dns_rr_skip.
  destruct (dns_rr_parse_total P fuel rr_blank src HP Hs Hf) as (e & rr & Hparse).
  rewrite Hparse. destruct (Z.eqb_spec e 0) as [->|He]; cbn [negb].
  - apply dns_rr_parse_ok in Hparse; [|assumption..].
    destruct Hparse as (_ & Hdn & _ & _ & _ & Hcase & Hend).
    assert (5 <= dns_rr_len rr) by (destruct (src =? 12); lia).
    eexists. split; [reflexivity|]. rewrite u16_small by lia. lia.
  - eexists. split; [reflexivity|]. rewrite u16_small by lia. lia.
Qed.

Lemma dns_rr_skip_progress_witness :
  exists v,
    dns_rr_skip 36 12 answer_packet = Some v
    /\ 0 <= v <= p_end answer_packet
    /\ (12 < p_end answer_packet -> 12 < v)
    /\ (p_end answer_packet <= 12 -> v = p_end answer_packet).
Proof.
  apply (dns_rr_skip_progress answer_packet 12 36).
  - vm_compute. split; congruence.
  - lia.
  - vm_compute. lia.
Defined.
(** ** The record iterator *)

Lemma log2_shiftl_1 s : 1 <= s -> Z.log2 (Z.shiftl s 1) = Z.log2 s + 1.
Proof.
  intros. rewrite Z.shiftl_mul_pow2 by lia. change (2 ^ 1) with 2.
  rewrite Z.mul_comm. rewrite Z.log2_double by lia. lia.
Qed.

Lemma dns_rr_grep_loop_ends (P : dns_packet) (lim : Z) :
  0 <= p_end P <= 65535 ->
  forall fuel cur out count i error,
    i_name i = None -> 1 <= st_section i -> 12 <= st_next i ->
    (Z.to_nat (p_end P - st_next i) + Z.to_nat (4 - Z.log2 (st_section i)) + 2
     <= fuel)%nat ->
    count = Z.of_nat (length out) -> count <= st_next i ->
    count = 0 \/ count < lim ->
    Forall (fun rr => 12 <= dn_p rr /\ dn_p rr + dns_rr_len rr <= p_end P) out ->
    exists g,
      dns_rr_grep_loop fuel cur out count lim i P error = Some g
      /\ g_count g = Z.of_nat (length (g_rr g))
      /\ g_count g <= Z.max 1 lim
      /\ Forall (fun rr => 12 <= dn_p rr /\ dn_p rr + dns_rr_len rr <= p_end P)
                (g_rr g).
Proof.
  intros HP. induction fuel as [|fuel IH];
    intros cur out count i error Hname Hsec Hnext Hfuel Hcount Hle Hlim Hout; [lia|].
  cbn [dns_rr_grep_loop].
  destruct (Z.ltb_spec (st_next i) (p_end P)) as [Hin|Hout'].
  2:{ eexists. split; [reflexivity|]. cbn [g_count g_rr]. repeat split; [lia..|assumption]. }
  destruct (st_index i >=? dns_p_count P (st_section i)).
  - destruct (Z.ltb_spec DNS_S_AR (Z.shiftl (st_section i) 1)) as [Hlast|Hmore].
    + eexists. split; [reflexivity|]. cbn [g_count g_rr].
      repeat split; [lia..|assumption].
    + apply IH; cbn [set_state i_name st_section st_next]; try assumption.
      * rewrite Z.shiftl_mul_pow2 by lia. lia.
      * rewrite log2_shiftl_1 by lia.
        assert (Z.log2 (Z.shiftl (st_section i) 1) <= Z.log2 DNS_S_AR)
          by (apply Z.log2_le_mono; lia).
        rewrite log2_shiftl_1 in H by lia. change (Z.log2 DNS_S_AR) with 3 in H.
        lia.
  - destruct (dns_rr_parse_total P fuel cur (st_next i) HP ltac:(lia) ltac:(lia))
      as (e & rr & Hparse).
    rewrite Hparse. destruct (Z.eqb_spec e 0) as [->|He]; cbn [negb].
    2:{ eexists. split; [reflexivity|]. cbn [g_count g_rr].
        repeat split; [lia..|assumption]. }
    apply dns_rr_parse_ok in Hparse; [|lia..].
    destruct Hparse as (Hdn & Hdnlen & _ & _ & _ & Hcase & Hend).
    set (rr' := {| rr_section := st_section i; dn_p := dn_p rr; dn_len := dn_len rr;
                   rr_type := rr_type rr; rr_class := rr_class rr;
                   rr_ttl := rr_ttl rr; rd_p := rd_p rr; rd_len := rd_len rr |}).
    assert (Hlen : dns_rr_len rr' = dns_rr_len rr) by reflexivity.
    assert (H5 : 5 <= dns_rr_len rr) by (destruct (st_next i =? 12); lia).
    rewrite Hlen. rewrite (u16_small (st_next i + dns_rr_len rr)) by lia.
    set (i' := set_state i (st_section i) (st_next i + dns_rr_len rr)
                         (u32 (st_index i + 1))).
    assert (Hskip : forall error,
      exists g,
        dns_rr_grep_loop fuel rr' out count lim i' P error = Some g
        /\ g_count g = Z.of_nat (length (g_rr g))
        /\ g_count g <= Z.max 1 lim
        /\ Forall (fun rr => 12 <= dn_p rr /\ dn_p rr + dns_rr_len rr <= p_end P)
                  (g_rr g)).
    { intros error'. apply IH; cbn [i' set_state i_name st_section st_next];
        try assumption; lia. }
    cbn [i' set_state i_section i_type i_class i_name]. fold i'.
    destruct (negb (i_section i =? 0) && _); [apply Hskip|].
    destruct (negb (i_type i =? 0) && _ && _); [apply Hskip|].
    destruct (negb (i_class i =? 0) && _ && _); [apply Hskip|].
    rewrite Hname. rewrite (u32_small (count + 1)) by lia.
    assert (Hout2 : Forall (fun rr => 12 <= dn_p rr /\ dn_p rr + dns_rr_len rr <= p_end P)
                           (out ++ [rr'])).
    { apply Forall_app. split; [assumption|]. constructor; [|constructor].
      rewrite Hlen. cbn [rr' dn_p]. lia. }
    destruct (Z.ltb_spec (count + 1) lim).
    + apply IH; cbn [i' set_state i_name st_section st_next]; try assumption;
        try lia.
      rewrite length_app. cbn [length]. lia.
    + eexists. split; [reflexivity|]. cbn [g_count g_rr].
      rewrite length_app. cbn [length]. repeat split; [lia..|assumption].
Qed.

(** Without a name to filter on, [dns_rr_grep] from an initialised iterator
    ends on every packet that 16-bit offsets can address, whatever its
    octets are.  The count it returns is the number of records stored, at
    most [lim] of them (one when [lim] is 0, since the count is compared
    after the record has been stored), and each record stored lies after
    the header and within [P->end]. *)
Theorem dns_rr_grep_terminates (P : dns_packet) (lim : Z) (i : dns_rr_i)
    (fuel : nat) :
  0 <= p_end P <= 65535 ->
  i_name i = None ->
  (Z.to_nat (p_end P) + 6 <= fuel)%nat ->
  exists g,
    dns_rr_grep fuel lim (dns_rr_i_init i) P = Some g
    /\ g_count g = Z.of_nat (length (g_rr g))
    /\ g_count g <= Z.max 1 lim
    /\ Forall (fun rr => 12 <= dn_p rr /\ dn_p rr + dns_rr_len rr <= p_end P)
              (g_rr g).
Proof.
  intros HP Hname Hfuel. unfold dns_rr_grep.
  apply dns_rr_grep_loop_ends; cbn [dns_rr_i_init i_name st_section st_next length];
    try assumption; try (unfold DNS_S_QD; lia).
  - change (Z.log2 DNS_S_QD) with 0. lia.
  - constructor.
Qed.

Lemma dns_rr_grep_terminates_witness :
  exists g,
    dns_rr_grep 41 8 (dns_rr_i_init (mkRRI 0 None 0 0 0 0 0)) answer_packet = Some g
    /\ g_count g = Z.of_nat (length (g_rr g))
    /\ g_count g <= Z.max 1 8
    /\ Forall (fun rr => 12 <= dn_p rr
                         /\ dn_p rr + dns_rr_len rr <= p_end answer_packet)
              (g_rr g).
Proof.
  apply (dns_rr_grep_terminates answer_packet 8 (mkRRI 0 None 0 0 0 0 0) 41).
  - vm_compute. split; congruence.
  - reflexivity.
  - vm_compute. lia.
Defined.

(** Both records of [answer_packet], in order, each with its section. *)
Example dns_rr_grep_answer_packet :
  option_map (fun g => (g_count g, map (fun rr => (rr_section rr, dn_p rr, rr_type rr,
                                                    rr_ttl rr, rd_p rr, rd_len rr))
                                       (g_rr g)))
             (dns_rr_grep 41 8 (dns_rr_i_init (mkRRI 0 None 0 0 0 0 0)) answer_packet)
  = Some (2, [(DNS_S_QD, 12, DNS_T_A, 0, 0, 0); (DNS_S_AN, 19, DNS_T_A, 3600, 31, 4)]).
Proof. vm_compute. reflexivity. Qed.

(** An iterator whose state was zeroed rather than initialised never leaves
    the loop of [dns_rr_grep] while there are octets left: section 0 has no
    records, and shifting it left gives section 0 again. *)
Theorem dns_rr_grep_zero_section_diverges (P : dns_packet) (lim : Z) (i : dns_rr_i)
    (fuel : nat) (cur : dns_rr) (out : list dns_rr) (count : Z) (error : option Z) :
  st_section i = 0 -> 0 <= st_index i -> st_next i < p_end P ->
  dns_rr_grep_loop fuel cur out count lim i P error = None.
Proof.
  revert i error. induction fuel as [|fuel IH]; intros i error Hsec Hidx Hnext;
    [reflexivity|].
  cbn [dns_rr_grep_loop]. destruct (Z.ltb_spec (st_next i) (p_end P)); [|lia].
  rewrite Hsec. cbn [dns_p_count Z.shiftl].
  destruct (Z.geb_spec (st_index i) 0); [|lia].
  change (DNS_S_AR <? 0) with false. cbv iota.
  apply IH; cbn [set_state st_section st_index st_next]; [reflexivity|lia|assumption].
Qed.

Lemma dns_rr_grep_zero_section_diverges_witness :
  dns_rr_grep_loop 100 rr_blank [] 0 8 (mkRRI 0 None 0 0 0 12 0) answer_packet None
  = None.
Proof.
  apply (dns_rr_grep_zero_section_diverges answer_packet 8 (mkRRI 0 None 0 0 0 12 0)).
  - reflexivity.
  - cbn. lia.
  - vm_compute. reflexivity.
Defined.
(** ** Nothing is written at or beyond the limit *)

Lemma drop_store_lt b lim i v :
  0 <= i < lim -> drop (Z.to_nat lim) (store b i v) = drop (Z.to_nat lim) b.
Proof. intros. unfold store. apply drop_insert_lt. lia. Qed.

Lemma drop_list_inserts {A} (k : list A) :
  forall l n i, (i + length k <= n)%nat -> drop n (list_inserts i k l) = drop n l.
Proof.
  induction k as [|x k IH]; intros l n i H; [reflexivity|].
  cbn [list_inserts length] in *. rewrite drop_insert_lt by lia.
  apply IH. lia.
Qed.

Lemma drop_memcpy_lt b lim off src :
  0 <= off -> off + Z.of_nat (length src) <= lim ->
  drop (Z.to_nat lim) (memcpy b off src) = drop (Z.to_nat lim) b.
Proof. intros. unfold memcpy. apply drop_list_inserts. lia. Qed.

Lemma length_slice_le b off n : Z.of_nat (length (slice b off n)) <= Z.max 0 n.
Proof. unfold slice. rewrite length_take. lia. Qed.

Lemma drop_nul_lt b lim i :
  0 <= i ->
  drop (Z.to_nat lim) (if lim >? 0 then store b (MIN i (lim - 1)) 0 else b)
  = drop (Z.to_nat lim) b.
Proof.
  intros. destruct (Z.gtb_spec lim 0); [|reflexivity].
  apply drop_store_lt. rewrite MIN_spec. lia.
Qed.

Lemma drop_nul_lt_r b lim i :
  0 <= i ->
  drop (Z.to_nat lim) (if lim >? 0 then store b (MIN (lim - 1) i) 0 else b)
  = drop (Z.to_nat lim) b.
Proof.
  intros. destruct (Z.gtb_spec lim 0); [|reflexivity].
  apply drop_store_lt. rewrite MIN_spec. lia.
Qed.

Lemma length_nul b lim i :
  length (if lim >? 0 then store b (MIN i (lim - 1)) 0 else b) = length b.
Proof. destruct (lim >? 0); [apply length_store|reflexivity]. Qed.

Lemma usize_nonneg x : 0 <= usize x.
Proof. unfold usize. apply Z.mod_pos_bound. lia. Qed.

Lemma u16_nonneg x : 0 <= u16 x.
Proof. unfold u16. apply Z.mod_pos_bound. lia. Qed.

Lemma u16_le x : 0 <= x -> u16 x <= x.
Proof. intros. unfold u16. apply Z.mod_le; lia. Qed.

Lemma dns_d_expand_loop_within (P : dns_packet) (lim : Z) :
  forall fuel dst src dstp nptrs x,
    0 <= dstp ->
    dns_d_expand_loop fuel dst lim src P dstp nptrs = Some x ->
    length (x_dst x) = length dst
    /\ drop (Z.to_nat lim) (x_dst x) = drop (Z.to_nat lim) dst.
Proof.
  assert (Hfail : forall dst dstp, 0 <= dstp ->
            length (x_dst (expand_fail dst lim dstp)) = length dst
            /\ drop (Z.to_nat lim) (x_dst (expand_fail dst lim dstp))
               = drop (Z.to_nat lim) dst).
  { intros. unfold expand_fail. cbn [x_dst].
    split; [apply length_nul|now apply drop_nul_lt]. }
  induction fuel as [|fuel IH]; intros dst src dstp nptrs x Hdstp H; [discriminate|].
  cbn [dns_d_expand_loop] in H.
  destruct (src <? p_end P); [|simplify_eq; now apply Hfail].
  destruct (Z.land 3 (Z.shiftr (byte_at (data P) src) 6)) as [|[[]|[]|]|];
    try (simplify_eq; now apply Hfail).
  - destruct (Z.land 63 (byte_at (data P) src) =? 0).
    + destruct (Z.eqb_spec dstp 0) as [->|]; simplify_eq; cbn [x_dst].
      * split.
        -- rewrite length_nul. destruct (0 <? lim); [apply length_store|reflexivity].
        -- rewrite drop_nul_lt by apply usize_nonneg.
           destruct (Z.ltb_spec 0 lim); [|reflexivity]. apply drop_store_lt. lia.
      * split; [apply length_nul|now apply drop_nul_lt].
    + destruct (usize _ <? _); [simplify_eq; now apply Hfail|].
      apply IH in H; [|apply usize_nonneg]. destruct H as (Hl & Hd).
      rewrite Hl, Hd. pose proof (usize_nonneg (dstp + Z.land 63 (byte_at (data P) src))).
      split.
      * destruct (_ <? lim); rewrite ?length_store; destruct (dstp <? lim);
          now rewrite ?length_memcpy.
      * transitivity (drop (Z.to_nat lim)
                        (if dstp <? lim
                         then memcpy dst dstp
                                (slice (data P) (u16 (src + 1))
                                   (MIN (Z.land 63 (byte_at (data P) src)) (lim - dstp)))
                         else dst)).
        { destruct (Z.ltb_spec (usize (dstp + Z.land 63 (byte_at (data P) src))) lim);
            [|reflexivity].
          apply drop_store_lt. lia. }
        destruct (Z.ltb_spec dstp lim); [|reflexivity].
        apply drop_memcpy_lt; [assumption|].
        pose proof (length_slice_le (data P) (u16 (src + 1))
                      (MIN (Z.land 63 (byte_at (data P) src)) (lim - dstp))) as Hs.
        pose proof (MIN_spec (Z.land 63 (byte_at (data P) src)) (lim - dstp)) as Hm.
        set (m := MIN _ _) in *. lia.
  - destruct (_ >? DNS_D_MAXPTRS); [simplify_eq; now apply Hfail|].
    destruct (usize _ <? 2); [simplify_eq; now apply Hfail|].
    now apply IH in H.
Qed.

(** [dns_d_expand] writes into the first [lim] octets of the destination
    only, whatever the packet holds and however the call ends: the octets
    from [lim] on are what they were. *)
Theorem dns_d_expand_within_lim (fuel : nat) (dst : list Z) (lim src : Z)
    (P : dns_packet) (x : expanded) :
  dns_d_expand fuel dst lim src P = Some x ->
  length (x_dst x) = length dst
  /\ drop (Z.to_nat lim) (x_dst x) = drop (Z.to_nat lim) dst.
Proof. intros H. apply dns_d_expand_loop_within in H; [exact H|lia]. Qed.

(** A destination of 16 octets holding 9s, of which 4 may be used, and the
    name ["a."] of [answer_packet]. *)
Lemma dns_d_expand_within_lim_witness :
  exists x,
    dns_d_expand 3 (replicate 16 9) 4 12 answer_packet = Some x
    /\ length (x_dst x) = length (replicate 16 9)
    /\ drop (Z.to_nat 4) (x_dst x) = drop (Z.to_nat 4) (replicate 16 9).
Proof.
  eexists. split; [vm_compute; reflexivity|].
  apply (dns_d_expand_within_lim 3 (replicate 16 9) 4 12 answer_packet).
  vm_compute. reflexivity.
Defined.

Lemma nul_within b lim i :
  0 < lim <= Z.of_nat (length b) -> 0 <= i ->
  0 ∈ take (Z.to_nat lim) (if lim >? 0 then store b (MIN i (lim - 1)) 0 else b).
Proof.
  intros Hlim Hi. destruct (Z.gtb_spec lim 0); [|lia].
  apply (list_elem_of_lookup_2 _ (Z.to_nat (MIN i (lim - 1)))).
  rewrite MIN_spec. rewrite lookup_take_lt by lia.
  apply store_lookup_eq. lia.
Qed.

Lemma dns_d_expand_loop_nul (P : dns_packet) (lim : Z) :
  forall fuel dst src dstp nptrs x,
    0 < lim <= Z.of_nat (length dst) -> 0 <= dstp ->
    dns_d_expand_loop fuel dst lim src P dstp nptrs = Some x ->
    0 ∈ take (Z.to_nat lim) (x_dst x).
Proof.
  induction fuel as [|fuel IH]; intros dst src dstp nptrs x Hlim Hdstp H;
    [discriminate|].
  cbn [dns_d_expand_loop] in H.
  destruct (src <? p_end P); [|simplify_eq; now apply nul_within].
  destruct (Z.land 3 (Z.shiftr (byte_at (data P) src) 6)) as [|[[]|[]|]|];
    try (simplify_eq; now apply nul_within).
  - destruct (Z.land 63 (byte_at (data P) src) =? 0).
    + destruct (Z.eqb_spec dstp 0) as [->|]; simplify_eq; cbn [x_dst].
      * apply nul_within; [|apply usize_nonneg].
        destruct (0 <? lim); now rewrite ?length_store.
      * now apply nul_within.
    + destruct (usize _ <? _); [simplify_eq; now apply nul_within|].
      apply IH in H; [assumption| |apply usize_nonneg].
      destruct (_ <? lim); rewrite ?length_store; destruct (dstp <? lim);
        now rewrite ?length_memcpy.
  - destruct (_ >? DNS_D_MAXPTRS); [simplify_eq; now apply nul_within|].
    destruct (usize _ <? 2); [simplify_eq; now apply nul_within|].
    now apply IH in H.
Qed.

(** Whenever [dns_d_expand] returns and [lim] is not 0, one of the first
    [lim] octets of the destination is a NUL: the text is a C string within
    the caller's buffer, also when the name was too long for it or the call
    failed. *)
Theorem dns_d_expand_nul_terminated (fuel : nat) (dst : list Z) (lim src : Z)
    (P : dns_packet) (x : expanded) :
  0 < lim <= Z.of_nat (length dst) ->
  dns_d_expand fuel dst lim src P = Some x ->
  0 ∈ take (Z.to_nat lim) (x_dst x)
  /\ Z.of_nat (length (c_str (x_dst x))) < lim.
Proof.
  intros Hlim H. apply dns_d_expand_loop_nul in H; [|assumption|lia].
  split; [exact H|].
  assert (Hc : forall b n, 0 ∈ take n b -> (length (c_str b) < n)%nat).
  { induction b as [|c b IHb]; intros n Hn.
    - rewrite take_nil in Hn. inversion Hn.
    - destruct n as [|n]; [inversion Hn|]. cbn [take c_str] in *.
      destruct (Z.eqb_spec c 0); [cbn; lia|].
      apply elem_of_cons in Hn. destruct Hn as [|Hn]; [congruence|].
      apply IHb in Hn. cbn [length]. lia. }
  apply Hc in H. lia.
Qed.

Lemma dns_d_expand_nul_terminated_witness :
  exists x,
    dns_d_expand 3 (replicate 16 9) 2 12 answer_packet = Some x
    /\ 0 ∈ take (Z.to_nat 2) (x_dst x)
    /\ Z.of_nat (length (c_str (x_dst x))) < 2.
Proof.
  eexists. split; [vm_compute; reflexivity|].
  apply (dns_d_expand_nul_terminated 3 (replicate 16 9) 2 12 answer_packet).
  - vm_compute. split; congruence.
  - vm_compute. reflexivity.
Defined.
Lemma comp_labels_within s lim :
  forall dstb dp dx sp sx,
    0 <= dp -> 0 <= dx ->
    drop (Z.to_nat lim) (comp_labels s lim dstb dp dx sp sx).1.1.1.1
    = drop (Z.to_nat lim) dstb
    /\ 0 <= (comp_labels s lim dstb dp dx sp sx).1.1.1.2
    /\ 0 <= (comp_labels s lim dstb dp dx sp sx).1.1.2.
Proof.
  induction s as [|ch s IH]; intros dstb dp dx sp sx Hdp Hdx; [now cbn|].
  cbn [comp_labels]. destruct (ch =? 46).
  - destruct (IH (if dp <? lim
                  then store dstb dp (Z.land 63 (usize (sx - sp))) else dstb)
                 dx (usize (dx + 1)) (usize (sx + 1)) (usize (sx + 1)) Hdx
                 (usize_nonneg _)) as (-> & ? & ?).
    split; [|now split]. destruct (Z.ltb_spec dp lim); [|reflexivity].
    apply drop_store_lt. lia.
  - destruct (IH (if dx <? lim then store dstb dx ch else dstb)
                 dp (usize (dx + 1)) sp (usize (sx + 1)) Hdp
                 (usize_nonneg _)) as (-> & ? & ?).
    split; [|now split]. destruct (Z.ltb_spec dx lim); [|reflexivity].
    apply drop_store_lt. lia.
Qed.

Lemma comp_layout_within dst lim src len :
  drop (Z.to_nat lim) (comp_layout dst lim src len).1 = drop (Z.to_nat lim) dst.
Proof.
  unfold comp_layout.
  pose proof (comp_labels_within (slice src 0 len) lim dst 0 1 0 0 ltac:(lia) ltac:(lia))
    as (Hd & Hp & Hx).
  destruct (comp_labels _ _ _ _ _ _ _) as [[[[dstb dp] dx] sp] sx].
  cbn [fst snd] in *.
  destruct (sx >? sp); cbn [fst].
  - destruct (Z.ltb_spec dx lim); destruct (Z.ltb_spec dp lim);
      rewrite ?drop_store_lt by lia; exact Hd.
  - destruct (Z.ltb_spec dp lim); rewrite ?drop_store_lt by lia; exact Hd.
Qed.

Lemma dns_l_expand_retry_nxt hops :
  forall dst lim src d end_, 0 <= l_nxt (dns_l_expand_retry hops dst lim src d end_).
Proof.
  induction hops as [|hops IH]; intros dst lim src d end_; cbn [dns_l_expand_retry];
    repeat case_match; cbn [l_nxt]; try apply u16_nonneg; apply IH.
Qed.

Lemma dns_l_expand_retry_found hops dst lim src d end_ :
  0 <= src -> end_ < 18446744073709551616 ->
  l_len (dns_l_expand_retry hops dst lim src d end_) <> 0 ->
  src < end_ /\ u16 (src + 1) < end_.
Proof.
  intros Hs He H. pose proof (u16_le (src + 1) ltac:(lia)) as Hle.
  pose proof (u16_nonneg (src + 1)).
  destruct hops as [|hops]; cbn [dns_l_expand_retry] in H;
    destruct (Z.geb_spec src end_); try (now cbn in H);
    destruct (Z.land 3 (Z.shiftr (byte_at d src) 6)) as [|[[]|[]|]|];
    try (now cbn in H).
  - rewrite usize_small in H by lia.
    destruct (Z.ltb_spec (end_ - u16 (src + 1)) (Z.land 63 (byte_at d src)));
      [now cbn in H|].
    cbn [l_len] in H. pose proof (land63_range (byte_at d src)). lia.
  - rewrite usize_small in H by lia.
    destruct (Z.ltb_spec (end_ - u16 (src + 1)) (Z.land 63 (byte_at d src)));
      [now cbn in H|].
    cbn [l_len] in H. pose proof (land63_range (byte_at d src)). lia.
  - rewrite usize_small in H by lia.
    destruct (Z.ltb_spec (end_ - src) 2); [now cbn in H|]. lia.
Qed.

Lemma comp_walk_a_hit_within (P : dns_packet) dstb lim :
  lim < 18446744073709551616 ->
  forall fuel a b ap bp,
    0 <= w_p a ->
    comp_walk_a fuel dstb lim P a b = Some (Some (ap, bp)) ->
    0 <= ap < lim /\ 0 <= u16 (ap + 1) < lim.
Proof.
  intros Hlim. induction fuel as [|fuel IH]; intros a b ap bp Ha H; [discriminate|].
  cbn [comp_walk_a] in H.
  destruct (Z.eqb_spec (l_len (dns_l_expand (w_label a) 64 (w_p a) dstb lim)) 0)
    as [|Hfound]; [discriminate|].
  destruct (comp_dict _ _ _ _ _ _ _) as [[ap' bp'|a' b']|] eqn:Hdict; [| |discriminate].
  - apply comp_dict_a in Hdict. cbn [w_p] in Hdict. simplify_eq.
    apply dns_l_expand_retry_found in Hfound; [|assumption..].
    pose proof (u16_nonneg (w_p a + 1)). lia.
  - apply comp_dict_a in Hdict. cbn [w_p w_x] in Hdict. destruct Hdict as (_ & Hx).
    apply IH in H; [assumption|]. cbn [w_p]. rewrite Hx.
    apply dns_l_expand_retry_nxt.
Qed.

(** [dns_d_comp] writes into the first [lim] octets of the destination
    only: neither the labels it lays out, for a name of any length and
    shape, nor the pointer it may put over them touch an octet from [lim]
    on. *)
Theorem dns_d_comp_within_lim (fuel : nat) (dst : list Z) (lim : Z) (src : list Z)
    (len : Z) (P : dns_packet) (n : Z) (dst' : list Z) :
  lim < 18446744073709551616 ->
  dns_d_comp fuel dst lim src len P = Some (n, dst') ->
  length dst' = length dst
  /\ drop (Z.to_nat lim) dst' = drop (Z.to_nat lim) dst.
Proof.
  intros Hlim H. split; [exact (dns_d_comp_length _ _ _ _ _ _ _ _ H)|].
  unfold dns_d_comp in H.
  pose proof (comp_layout_within dst lim src len) as Hlay.
  destruct (comp_layout dst lim src len) as [dstb dst_p]. cbn [fst] in Hlay.
  destruct (dst_p <? lim); [|now simplify_eq].
  destruct (comp_walk_a _ _ _ _ _ _) as [[[ap bp]|]|] eqn:Hwalk;
    [| |discriminate]; simplify_eq; [|assumption].
  apply comp_walk_a_hit_within in Hwalk; [|assumption|cbn; lia].
  rewrite !drop_store_lt by lia. assumption.
Qed.

(** The name ["b.a"] after ["a."]: a label and a pointer, four octets, in
    a destination of 16 of which 8 may be used. *)
Lemma dns_d_comp_within_lim_witness :
  exists n dst',
    dns_d_comp 8 (replicate 16 9) 8 (octets "b.a") 3 answer_packet = Some (n, dst')
    /\ n = 4
    /\ length dst' = length (replicate 16 9)
    /\ drop (Z.to_nat 8) dst' = drop (Z.to_nat 8) (replicate 16 9).
Proof.
  eexists. eexists. split; [vm_compute; reflexivity|]. split; [reflexivity|].
  apply (dns_d_comp_within_lim 8 (replicate 16 9) 8 (octets "b.a") 3 answer_packet 4).
  - lia.
  - vm_compute. reflexivity.
Defined.

(** [dns_d_anchor] and [dns_d_cleave] write into the first [lim] octets of
    the destination only, however long the name is. *)
Theorem dns_d_anchor_cleave_within_lim (dst : list Z) (lim : Z) (src : list Z)
    (len : Z) :
  0 <= lim -> 0 <= len ->
  drop (Z.to_nat lim) (dns_d_anchor dst lim src len).2 = drop (Z.to_nat lim) dst
  /\ drop (Z.to_nat lim) (dns_d_cleave dst lim src len).2 = drop (Z.to_nat lim) dst.
Proof.
  intros Hlim Hlen. split.
  - unfold dns_d_anchor. destruct (Z.eqb_spec len 0); [reflexivity|].
    assert (Hcopy : drop (Z.to_nat lim) (memcpy dst 0 (slice src 0 (MIN lim len)))
                    = drop (Z.to_nat lim) dst).
    { apply drop_memcpy_lt; [lia|].
      pose proof (length_slice_le src 0 (MIN lim len)) as Hs.
      pose proof (MIN_spec lim len). set (m := MIN _ _) in *. lia. }
    destruct (negb _); cbn [snd].
    + rewrite drop_nul_lt_r by apply usize_nonneg.
      destruct (Z.ltb_spec len lim); [|exact Hcopy].
      rewrite drop_store_lt by lia. exact Hcopy.
    + rewrite drop_nul_lt_r by lia. exact Hcopy.
  - unfold dns_d_cleave. destruct (Z.eqb_spec len 0); [reflexivity|].
    destruct (memchr_from src 1 46 (Z.to_nat (len - 1))) as [dot|]; [|reflexivity].
    pose proof (usize_nonneg (len - dot)).
    assert (Hcopy : forall from k, 0 <= k ->
              drop (Z.to_nat lim) (memcpy dst 0 (slice src from (MIN lim k)))
              = drop (Z.to_nat lim) dst).
    { intros from k Hk. apply drop_memcpy_lt; [lia|].
      pose proof (length_slice_le src from (MIN lim k)) as Hs.
      pose proof (MIN_spec lim k). set (m := MIN _ _) in *. lia. }
    destruct (Z.gtb_spec (usize (len - dot)) 1); cbn [snd].
    + rewrite drop_nul_lt_r by lia. apply Hcopy. lia.
    + rewrite drop_nul_lt_r by lia. apply Hcopy. lia.
Qed.

Lemma dns_d_anchor_cleave_within_lim_witness :
  drop (Z.to_nat 4) (dns_d_anchor (replicate 8 9) 4 (octets "www.example") 11).2
  = drop (Z.to_nat 4) (replicate 8 9)
  /\ drop (Z.to_nat 4) (dns_d_cleave (replicate 8 9) 4 (octets "www.example") 11).2
     = drop (Z.to_nat 4) (replicate 8 9).
Proof.
  apply (dns_d_anchor_cleave_within_lim (replicate 8 9) 4 (octets "www.example") 11); lia.
Defined.
(** ** Stripping labels off a name *)

Lemma byte_at_app_mid a x b : byte_at (a ++ x :: b) (Z.of_nat (length a)) = x.
Proof.
  unfold byte_at. rewrite Nat2Z.id. now rewrite list_lookup_middle.
Qed.

Lemma memchr_from_first c post n :
  forall pre skip,
    Forall (fun x => x <> c) pre ->
    (length pre < n)%nat ->
    memchr_from (skip ++ pre ++ c :: post) (Z.of_nat (length skip)) c n
    = Some (Z.of_nat (length skip + length pre)).
Proof.
  induction n as [|n IH]; intros pre skip Hpre Hn; [lia|].
  cbn [memchr_from]. destruct pre as [|x pre].
  - cbn [app length]. rewrite byte_at_app_mid, Z.eqb_refl. do 2 f_equal. lia.
  - inversion Hpre as [|? ? Hx Hpre']; subst. cbn [app length] in *.
    rewrite byte_at_app_mid. destruct (Z.eqb_spec x c); [congruence|].
    specialize (IH pre (skip ++ [x]) Hpre' ltac:(lia)).
    rewrite length_app, <- app_assoc in IH. cbn [length app] in IH.
    replace (Z.of_nat (length skip) + 1) with (Z.of_nat (length skip + 1)) by lia.
    rewrite IH. do 2 f_equal. lia.
Qed.

Lemma slice_app_mid a b n :
  slice (a ++ b) (Z.of_nat (length a)) n = slice b 0 n.
Proof. unfold slice. rewrite Nat2Z.id, drop_app_length. reflexivity. Qed.

(** What [dns_d_cleave] yields for a name that starts with a label [l]
    followed by a dot: the rest of the name when there is one, and the root
    ["."] when the dot ended the name.  The result fits the limit here. *)
Theorem dns_d_cleave_label (l rest dst : list Z) (lim : Z) :
  label_ok l ->
  Z.of_nat (length rest) + 1 < lim ->
  lim < 18446744073709551616 ->
  dns_d_cleave dst lim (l ++ 46 :: rest) (Z.of_nat (length (l ++ 46 :: rest)))
  = if bool_decide (rest = [])
    then (1, store (memcpy dst 0 [46]) 1 0)
    else (Z.of_nat (length rest),
          store (memcpy dst 0 rest) (Z.of_nat (length rest)) 0).
Proof.
  intros ((Hl1 & Hl63) & Hdots) Hlim H64. unfold dns_d_cleave.
  rewrite length_app. cbn [length].
  destruct (Z.eqb_spec (Z.of_nat (length l + S (length rest))) 0); [lia|].
  destruct l as [|c l]; [cbn in Hl1; lia|].
  inversion Hdots as [|? ? _ Hdots']; subst.
  pose proof (memchr_from_first 46 rest
                (Z.to_nat (Z.of_nat (length (c :: l) + S (length rest)) - 1))
                l [c] Hdots') as Hm.
  cbn [length app] in Hm. change (Z.of_nat 1) with 1 in Hm.
  cbn [length app]. rewrite Hm by lia. clear Hm.
  rewrite usize_small by lia.
  replace (Z.of_nat (S (length l) + S (length rest)) - Z.of_nat (1 + length l))
    with (Z.of_nat (length rest) + 1) by lia.
  assert (Hsplit : forall t, c :: l ++ 46 :: t = (c :: l) ++ 46 :: t) by reflexivity.
  case_bool_decide as Hrest.
  - subst rest. cbn [length]. change (Z.of_nat 0 + 1 >? 1) with false. cbv iota.
    rewrite !MIN_spec, !Z.min_r by lia.
    rewrite (Hsplit []).
    replace (Z.of_nat (1 + length l)) with (Z.of_nat (length (c :: l)))
      by (cbn [length]; lia).
    rewrite slice_app_mid. destruct (Z.gtb_spec lim 0); [|lia]. reflexivity.
  - assert (0 < length rest)%nat by (destruct rest; [congruence|cbn; lia]).
    destruct (Z.gtb_spec (Z.of_nat (length rest) + 1) 1); [|lia].
    rewrite !MIN_spec, !Z.min_r by lia.
    replace (c :: l ++ 46 :: rest) with ((c :: l ++ [46]) ++ rest)
      by (cbn; now rewrite <- app_assoc).
    replace (Z.of_nat (1 + length l) + 1) with (Z.of_nat (length (c :: l ++ [46])))
      by (cbn [length]; rewrite length_app; cbn [length]; lia).
    rewrite slice_app_mid.
    replace (Z.of_nat (length rest) + 1 - 1) with (Z.of_nat (length rest)) by lia.
    rewrite slice_full. destruct (Z.gtb_spec lim 0); [|lia]. reflexivity.
Qed.

Lemma dns_d_cleave_label_witness :
  dns_d_cleave (replicate 16 9) 16 (octets "www" ++ 46 :: octets "example.com.")
               (Z.of_nat (length (octets "www" ++ 46 :: octets "example.com.")))
  = if bool_decide (octets "example.com." = [])
    then (1, store (memcpy (replicate 16 9) 0 [46]) 1 0)
    else (Z.of_nat (length (octets "example.com.")),
          store (memcpy (replicate 16 9) 0 (octets "example.com."))
                (Z.of_nat (length (octets "example.com."))) 0).
Proof.
  apply (dns_d_cleave_label (octets "www") (octets "example.com.") (replicate 16 9) 16).
  - split; [cbn; lia|]. repeat constructor; discriminate.
  - cbn. lia.
  - lia.
Defined.

(** From ["www.example.com."] down to the root, and no further. *)
Example dns_d_cleave_chain :
  let cleave s := dns_d_cleave (replicate 16 0) 16 s (Z.of_nat (length s)) in
  c_str (cleave (octets "www.example.com.")).2 = octets "example.com."
  /\ c_str (cleave (octets "example.com.")).2 = octets "com."
  /\ c_str (cleave (octets "com.")).2 = octets "."
  /\ (cleave (octets ".")).1 = 0
  /\ c_str (cleave (octets "example.com")).2 = octets "com"
  /\ (cleave (octets "com")).1 = 0.
Proof. vm_compute. repeat split; reflexivity. Qed.

(** Whatever the name, what [dns_d_cleave] returns is shorter than what it
    was given: a loop that cleaves until it gets 0 ends. *)
Theorem dns_d_cleave_shorter (dst : list Z) (lim : Z) (src : list Z) (len : Z) :
  0 < len < 18446744073709551616 ->
  0 <= (dns_d_cleave dst lim src len).1 < len.
Proof.
  intros Hlen. unfold dns_d_cleave. destruct (Z.eqb_spec len 0); [lia|].
  destruct (memchr_from src 1 46 (Z.to_nat (len - 1))) as [dot|] eqn:Hm;
    [|cbn; lia].
  apply memchr_from_range in Hm. destruct Hm as (Hdot & _).
  rewrite usize_small by lia.
  destruct (Z.gtb_spec (len - dot) 1); cbn [fst]; lia.
Qed.

Lemma dns_d_cleave_shorter_witness :
  0 <= (dns_d_cleave (replicate 16 0) 16 (octets "a..b") 4).1 < 4.
Proof. apply (dns_d_cleave_shorter (replicate 16 0) 16 (octets "a..b") 4). lia. Defined.
(** ** The section counts of the header *)

Lemma land_shiftl_low a b n :
  0 <= n -> 0 <= b < 2 ^ n -> Z.land (Z.shiftl a n) b = 0.
Proof.
  intros Hn Hb. apply Z.bits_inj'. intros m Hm.
  rewrite Z.land_spec, Z.bits_0.
  destruct (Z.lt_ge_cases m n).
  - now rewrite Z.shiftl_spec_low.
  - rewrite <- (Z.mod_small b (2 ^ n)) by lia.
    rewrite Z.mod_pow2_bits_high by lia. apply andb_false_r.
Qed.

Lemma lor_shiftl_add a b n :
  0 <= n -> 0 <= b < 2 ^ n -> Z.lor (Z.shiftl a n) b = a * 2 ^ n + b.
Proof.
  intros Hn Hb. rewrite <- Z.lxor_lor by now apply land_shiftl_low.
  rewrite <- Z.add_nocarry_lxor by now apply land_shiftl_low.
  now rewrite Z.shiftl_mul_pow2.
Qed.

Lemma split16 w :
  0 <= w < 65536 ->
  Z.lor (Z.shiftl (Z.land 255 (Z.land 255 (Z.shiftr w 8))) 8)
        (Z.land 255 (Z.land 255 w)) = w.
Proof.
  intros Hw. rewrite !land255_mod, Z.shiftr_div_pow2 by lia.
  change (2 ^ 8) with 256. rewrite !Z.mod_mod by lia.
  rewrite lor_shiftl_add; change (2 ^ 8) with 256;
    [|lia|apply Z.mod_pos_bound; lia].
  rewrite (Z.mod_small (w / 256)) by (split; [apply Z.div_pos; lia|
    apply Z.div_lt_upper_bound; lia]).
  pose proof (Z.div_mod w 256 ltac:(lia)). lia.
Qed.

Lemma ntohs_htons d off v :
  0 <= off -> off + 1 < Z.of_nat (length d) ->
  ntohs_at (htons_at d off v) off = u16 v.
Proof.
  intros Hoff Hlen. unfold ntohs_at, htons_at, byte_at.
  rewrite store_lookup_eq by (rewrite length_store; lia).
  rewrite store_lookup_ne by lia. rewrite store_lookup_eq by lia.
  cbn [default]. apply split16. unfold u16. apply Z.mod_pos_bound. lia.
Qed.

Lemma ntohs_htons_ne d off off' v :
  0 <= off -> 0 <= off' -> off' + 1 < off \/ off + 1 < off' ->
  ntohs_at (htons_at d off v) off' = ntohs_at d off'.
Proof.
  intros Hoff Hoff' Hne. unfold ntohs_at, htons_at, byte_at.
  now rewrite !store_lookup_ne by lia.
Qed.

Lemma byte_at_htons_ne d off v j :
  0 <= off -> 0 <= j -> j < off \/ off + 1 < j ->
  byte_at (htons_at d off v) j = byte_at d j.
Proof.
  intros. unfold htons_at, byte_at. now rewrite !store_lookup_ne by lia.
Qed.

Lemma length_htons d off v : length (htons_at d off v) = length d.
Proof. unfold htons_at. now rewrite !length_store. Qed.

(** The section whose count a successful [dns_p_push] has incremented. *)
Lemma dns_p_push_success ind fuel P section dn dnlen type class ttl any P' :
  packet_ok P ->
  0 <= rdata_len any < 18446744073709551614 ->
  dns_p_push ind fuel P section dn dnlen type class ttl any = Some (0, P') ->
  exists P1,
    appended P P1 /\ p_end P + 4 <= p_end P1
    /\ P' = (if section =? DNS_S_QD then count_incr P1 qdcount_off
             else if section =? DNS_S_AN then count_incr P1 ancount_off
             else if section =? DNS_S_NS then count_incr P1 nscount_off
             else if section =? DNS_S_AR then count_incr P1 arcount_off
             else P1).
Proof.
  intros Hok Hrd H. unfold dns_p_push in H.
  pose proof Hok as (Hend & _).
  destruct (dns_d_push _ _ _ _ _) as [[error P1]|] eqn:Hname; [|discriminate].
  apply dns_d_push_appended in Hname; [|assumption].
  destruct Hname as (Happ1 & _).
  pose proof Happ1 as (Hf1 & Hle1 & Hok1).
  pose proof Hok1 as (Hend1 & Hsize1 & Hlen1).
  destruct (Z.eqb_spec error 0); cbn [negb] in H; [|congruence].
  rewrite usize_small in H by lia.
  destruct (Z.ltb_spec (size P1 - p_end P1) 4); [discriminate|].
  set (P2 := push_octet (push_octet (push_octet (push_octet P1 _) _) _) _) in H.
  assert (H2 : appended P1 P2 /\ p_end P2 = p_end P1 + 4).
  { unfold P2, appended, frame, packet_ok, push_octet.
    cbn [size data p_end dict].
    rewrite !usize_small by (rewrite ?usize_small; lia).
    rewrite !length_store, !take_store by lia. repeat split; lia. }
  destruct H2 as (Happ2 & Hend2).
  pose proof (appended_trans P P1 P2 ltac:(lia) Happ1 Happ2) as Happ12.
  pose proof Happ12 as (Hf12 & Hle12 & Hok2).
  pose proof Hok2 as (Hend2' & Hsize2 & Hlen2).
  destruct (section =? DNS_S_QD).
  { simplify_eq. exists P2. repeat split; try apply Happ12; lia. }
  rewrite (usize_small (size P2 - p_end P2)) in H by lia.
  destruct (Z.ltb_spec (size P2 - p_end P2) 6); [discriminate|].
  set (P3 := push_octet (push_octet (push_octet (push_octet P2 _) _) _) _) in H.
  assert (Happ3 : appended P2 P3).
  { unfold P3, appended, frame, packet_ok, push_octet.
    cbn [size data p_end dict].
    rewrite !usize_small by (rewrite ?usize_small; lia).
    rewrite !length_store, !take_store by lia. repeat split; lia. }
  pose proof (appended_trans P P2 P3 ltac:(lia) Happ12 Happ3) as Happ13.
  destruct (dns_any_push _ _ _ _ _) as [[error' P4]|] eqn:Hany; [|discriminate].
  apply dns_any_push_appended in Hany; [|apply Happ3|assumption].
  destruct Hany as (Happ4 & _).
  pose proof (appended_trans P P3 P4 ltac:(lia) Happ13 Happ4) as Happ14.
  destruct (Z.eqb_spec error' 0); cbn [negb] in H; [|congruence]. simplify_eq.
  exists P4. split; [exact Happ14|]. split; [|reflexivity].
  destruct Happ3 as (_ & ? & _). destruct Happ4 as (_ & ? & _). lia.
Qed.

Lemma dns_p_count_incr P off s :
  12 <= Z.of_nat (length (data P)) ->
  In (s, off) [(DNS_S_QD, qdcount_off); (DNS_S_AN, ancount_off);
               (DNS_S_NS, nscount_off); (DNS_S_AR, arcount_off)] ->
  dns_p_count (count_incr P off) s = u16 (dns_p_count P s + 1).
Proof.
  intros Hlen Hs. unfold count_incr. cbn [In] in Hs.
  destruct Hs as [Hs|[Hs|[Hs|[Hs|[]]]]]; injection Hs as <- <-;
    cbn [dns_p_count DNS_S_QD DNS_S_AN DNS_S_NS DNS_S_AR set_data data];
    unfold qdcount_off, ancount_off, nscount_off, arcount_off;
    apply ntohs_htons; lia.
Qed.

Lemma dns_p_count_incr_ne P off s :
  In s [DNS_S_QD; DNS_S_AN; DNS_S_NS; DNS_S_AR] ->
  In off [qdcount_off; ancount_off; nscount_off; arcount_off] ->
  ~ In (s, off) [(DNS_S_QD, qdcount_off); (DNS_S_AN, ancount_off);
                 (DNS_S_NS, nscount_off); (DNS_S_AR, arcount_off)] ->
  dns_p_count (count_incr P off) s = dns_p_count P s.
Proof.
  intros Hs Hoff Hne. unfold count_incr. cbn [In] in Hs, Hoff, Hne.
  destruct Hs as [<-|[<-|[<-|[<-|[]]]]]; destruct Hoff as [<-|[<-|[<-|[<-|[]]]]];
    try (exfalso; apply Hne; tauto);
    cbn [dns_p_count DNS_S_QD DNS_S_AN DNS_S_NS DNS_S_AR set_data data];
    unfold qdcount_off, ancount_off, nscount_off, arcount_off;
    apply ntohs_htons_ne; lia.
Qed.

(** A successful [dns_p_push] adds one, modulo 2^16, to the count of the
    section it was called for when that is QD, AN, NS or AR, and leaves the
    other three counts as they were; the end moves forward by at least the
    four octets of type and class; the identifier and flags of the header
    and every octet from offset 12 up to the old end are untouched. *)
Theorem dns_p_push_counts
    (indeterminate : Z) (fuel : nat) (P : dns_packet) (section : Z)
    (dn : list Z) (dnlen type class ttl : Z) (any : dns_any) (P' : dns_packet) :
  packet_ok P ->
  12 <= p_end P ->
  0 <= rdata_len any < 18446744073709551614 ->
  dns_p_push indeterminate fuel P section dn dnlen type class ttl any
  = Some (0, P') ->
  packet_ok P' /\ size P' = size P
  /\ p_end P + 4 <= p_end P'
  /\ (forall s, In s [DNS_S_QD; DNS_S_AN; DNS_S_NS; DNS_S_AR] ->
        dns_p_count P' s
        = if s =? section then u16 (dns_p_count P s + 1) else dns_p_count P s)
  /\ (forall j, 0 <= j < p_end P -> j < 4 \/ 12 <= j ->
        byte_at (data P') j = byte_at (data P) j).
Proof.
  intros Hok H12 Hrd H.
  destruct (dns_p_push_success _ _ _ _ _ _ _ _ _ _ _ Hok Hrd H)
    as (P1 & (Hf & Hle & Hok1) & Hend & ->).
  pose proof Hf as (Hsize & Hlen & Htake).
  pose proof Hok as (? & ? & Hdata).
  assert (Hbyte : forall j, 0 <= j < p_end P -> byte_at (data P1) j = byte_at (data P) j).
  { intros j Hj. unfold byte_at.
    rewrite <- (lookup_take_lt (data P1) (Z.to_nat (p_end P))) by lia.
    rewrite Htake. now rewrite lookup_take_lt by lia. }
  assert (Hincr : forall off,
            In off [qdcount_off; ancount_off; nscount_off; arcount_off] ->
            packet_ok (count_incr P1 off) /\ size (count_incr P1 off) = size P
            /\ p_end P + 4 <= p_end (count_incr P1 off)
            /\ (forall j, 0 <= j < p_end P -> j < 4 \/ 12 <= j ->
                  byte_at (data (count_incr P1 off)) j = byte_at (data P) j)).
  { intros off Hoff. unfold count_incr, packet_ok in *.
    cbn [set_data size p_end data]. rewrite length_htons.
    repeat split; try lia. intros j Hj Hj'.
    rewrite byte_at_htons_ne; [now apply Hbyte| | |];
      cbn [In] in Hoff;
      unfold qdcount_off, ancount_off, nscount_off, arcount_off in Hoff; lia. }
  assert (Hcount : forall s, dns_p_count P1 s = dns_p_count P s)
    by (intros s; now apply dns_p_count_frame).
  assert (Hl12 : 12 <= Z.of_nat (length (data P1))) by lia.
  destruct (Z.eqb_spec section DNS_S_QD) as [->|];
    [|destruct (Z.eqb_spec section DNS_S_AN) as [->|];
      [|destruct (Z.eqb_spec section DNS_S_NS) as [->|];
        [|destruct (Z.eqb_spec section DNS_S_AR) as [->|]]]].
  1-4: match goal with |- packet_ok (count_incr _ ?off) /\ _ =>
         destruct (Hincr off ltac:(cbn [In]; tauto)) as (? & ? & ? & ?) end;
    (split; [assumption|]); (split; [assumption|]); (split; [assumption|]);
    (split; [|assumption]); intros s Hs; rewrite <- Hcount;
    cbn [In] in Hs; destruct Hs as [<-|[<-|[<-|[<-|[]]]]];
    cbn [Z.eqb DNS_S_QD DNS_S_AN DNS_S_NS DNS_S_AR Pos.eqb];
    first [ apply dns_p_count_incr; [assumption|cbn [In]; tauto]
          | apply dns_p_count_incr_ne; cbn [In];
            [tauto|tauto|
             unfold DNS_S_QD, DNS_S_AN, DNS_S_NS, DNS_S_AR, qdcount_off, ancount_off,
               nscount_off, arcount_off; intros [E|[E|[E|[E|[]]]]]; discriminate E] ].
  split; [assumption|]. split; [assumption|]. split; [assumption|].
  split; [|intros; now apply Hbyte].
  intros s Hs. rewrite Hcount. cbn [In] in Hs.
  destruct Hs as [<-|[<-|[<-|[<-|[]]]]];
    match goal with |- context [?a =? section] =>
      destruct (Z.eqb_spec a section); [congruence|reflexivity] end.
Qed.

(** A question for ["a."] pushed into a fresh packet of 64 octets. *)
Lemma dns_p_push_counts_witness :
  exists P',
    dns_p_push 0 8 (dns_p_init 64) DNS_S_QD (octets "a.") 2 DNS_T_A DNS_C_IN 0
               any_blank = Some (0, P')
    /\ packet_ok P' /\ size P' = size (dns_p_init 64)
    /\ p_end (dns_p_init 64) + 4 <= p_end P'
    /\ (forall s, In s [DNS_S_QD; DNS_S_AN; DNS_S_NS; DNS_S_AR] ->
          dns_p_count P' s
          = if s =? DNS_S_QD then u16 (dns_p_count (dns_p_init 64) s + 1)
            else dns_p_count (dns_p_init 64) s)
    /\ (forall j, 0 <= j < p_end (dns_p_init 64) -> j < 4 \/ 12 <= j ->
          byte_at (data P') j = byte_at (data (dns_p_init 64)) j).
Proof.
  eexists. split; [vm_compute; reflexivity|].
  apply (dns_p_push_counts 0 8 (dns_p_init 64) DNS_S_QD (octets "a.") 2
           DNS_T_A DNS_C_IN 0 any_blank).
  - unfold packet_ok. repeat split; vm_compute; congruence.
  - vm_compute; congruence.
  - split; vm_compute; congruence.
  - vm_compute. reflexivity.
Defined.
(** ** The counts after a run of pushes *)

Lemma byte_at_replicate n i : byte_at (replicate n 0) i = 0.
Proof.
  unfold byte_at. destruct (replicate n 0 !! Z.to_nat i) as [x|] eqn:E; [|reflexivity].
  apply lookup_replicate in E. now destruct E.
Qed.

Lemma dns_p_count_init size s :
  In s [DNS_S_QD; DNS_S_AN; DNS_S_NS; DNS_S_AR] -> dns_p_count (dns_p_init size) s = 0.
Proof.
  intros Hs. cbn [In] in Hs. destruct Hs as [<-|[<-|[<-|[<-|[]]]]];
    cbn [dns_p_count DNS_S_QD DNS_S_AN DNS_S_NS DNS_S_AR dns_p_init data];
    unfold ntohs_at; now rewrite !byte_at_replicate.
Qed.

Lemma ntohs_at_range d off : 0 <= ntohs_at d off < 65536.
Proof.
  unfold ntohs_at. change 65536 with (2 ^ 16). apply lor_range; [lia| |].
  - apply (shiftl_land_range 255 _ 8 8); [lia|reflexivity|lia].
  - pose proof (land255_range (byte_at d (off + 1))). change (2 ^ 16) with 65536. lia.
Qed.

Lemma dns_p_count_range P s :
  In s [DNS_S_QD; DNS_S_AN; DNS_S_NS; DNS_S_AR] -> 0 <= dns_p_count P s < 65536.
Proof.
  intros Hs. cbn [In] in Hs. destruct Hs as [<-|[<-|[<-|[<-|[]]]]];
    cbn [dns_p_count DNS_S_QD DNS_S_AN DNS_S_NS DNS_S_AR]; apply ntohs_at_range.
Qed.

Lemma pushed_cons s c calls st statuses :
  pushed s (c :: calls) (st :: statuses)
  = (if bool_decide (pc_section c = s /\ st = 0) then 1 else 0)
    + pushed s calls statuses.
Proof.
  unfold pushed. cbn [map zip zip_with]. case_bool_decide as E.
  - rewrite filter_cons_True by exact E. cbn [length]. lia.
  - rewrite filter_cons_False by exact E. lia.
Qed.

Lemma u16_add_l a b : u16 (u16 a + b) = u16 (a + b).
Proof. unfold u16. apply Zplus_mod_idemp_l. Qed.

Lemma dns_p_push_all_from ind fuel :
  forall calls P statuses P',
    packet_ok P -> 12 <= p_end P ->
    Forall (fun c => 0 <= rdata_len (pc_any c) < 18446744073709551614) calls ->
    dns_p_push_all ind fuel P calls = Some (statuses, P') ->
    packet_ok P' /\ p_end P <= p_end P'
    /\ length statuses = length calls
    /\ forall s, In s [DNS_S_QD; DNS_S_AN; DNS_S_NS; DNS_S_AR] ->
         dns_p_count P' s = u16 (dns_p_count P s + pushed s calls statuses).
Proof.
  induction calls as [|c calls IH]; intros P statuses P' Hok H12 Hrd H;
    cbn [dns_p_push_all] in H.
  - simplify_eq. split; [assumption|]. split; [lia|]. split; [reflexivity|].
    intros s Hs. unfold pushed. cbn. rewrite Z.add_0_r.
    symmetry. apply u16_small. now apply dns_p_count_range.
  - inversion Hrd as [|? ? Hc Hrd']; subst.
    destruct (dns_p_push _ _ _ _ _ _ _ _ _ _) as [[st P1]|] eqn:Hpush; [|discriminate].
    destruct (dns_p_push_all ind fuel P1 calls) as [[sts P2]|] eqn:Hrest;
      [|discriminate].
    simplify_eq.
    assert (Hstep : packet_ok P1 /\ p_end P <= p_end P1
                    /\ forall s, In s [DNS_S_QD; DNS_S_AN; DNS_S_NS; DNS_S_AR] ->
                         dns_p_count P1 s
                         = if bool_decide (pc_section c = s /\ st = 0)
                           then u16 (dns_p_count P s + 1) else dns_p_count P s).
    { destruct (Z.eq_dec st 0) as [->|Hst].
      - destruct (dns_p_push_success _ _ _ _ _ _ _ _ _ _ _ Hok Hc Hpush)
          as (P0 & (Hf & Hle & Hok0) & Hend & HP1).
        assert (Hl12 : 12 <= Z.of_nat (length (data P0)))
          by (destruct Hok0 as (? & ? & ?); lia).
        assert (Hcount : forall s, dns_p_count P0 s = dns_p_count P s)
          by (intros s; now apply dns_p_count_frame).
        assert (Hincr : forall off, packet_ok (count_incr P0 off)
                                    /\ p_end (count_incr P0 off) = p_end P0).
        { intros off. unfold count_incr, packet_ok in *.
          cbn [set_data size p_end data]. rewrite length_htons.
          repeat split; lia. }
        assert (Hsec : forall s, In s [DNS_S_QD; DNS_S_AN; DNS_S_NS; DNS_S_AR] ->
                  dns_p_count P1 s
                  = if s =? pc_section c then u16 (dns_p_count P s + 1)
                    else dns_p_count P s).
        { intros s Hs. rewrite <- Hcount. subst P1. cbn [In] in Hs.
          destruct (Z.eqb_spec (pc_section c) DNS_S_QD) as [->|];
            [|destruct (Z.eqb_spec (pc_section c) DNS_S_AN) as [->|];
              [|destruct (Z.eqb_spec (pc_section c) DNS_S_NS) as [->|];
                [|destruct (Z.eqb_spec (pc_section c) DNS_S_AR) as [->|]]]].
          1-4: destruct Hs as [<-|[<-|[<-|[<-|[]]]]];
            cbn [Z.eqb DNS_S_QD DNS_S_AN DNS_S_NS DNS_S_AR Pos.eqb];
            first [ apply dns_p_count_incr; [assumption|cbn [In]; tauto]
                  | apply dns_p_count_incr_ne; cbn [In];
                    [tauto|tauto|
                     unfold DNS_S_QD, DNS_S_AN, DNS_S_NS, DNS_S_AR, qdcount_off,
                       ancount_off, nscount_off, arcount_off;
                     intros [E|[E|[E|[E|[]]]]]; discriminate E] ].
          destruct Hs as [<-|[<-|[<-|[<-|[]]]]];
            match goal with |- context [?a =? pc_section c] =>
              destruct (Z.eqb_spec a (pc_section c)); [congruence|reflexivity] end. }
        assert (Hshape : packet_ok P1 /\ p_end P1 = p_end P0).
        { subst P1. repeat case_if; first [apply Hincr | now split]. }
        destruct Hshape as (? & ?). split; [assumption|]. split; [lia|].
        intros s Hs. rewrite (Hsec s Hs).
        destruct (Z.eqb_spec s (pc_section c)) as [->|Hne]; case_bool_decide as E;
          try reflexivity;
          [exfalso; apply E; split; reflexivity|destruct E as [E _]; congruence].
      - destruct (dns_p_push_failure _ _ _ _ _ _ _ _ _ _ _ _ Hok Hc Hpush Hst)
          as ((Hsz & Hlen & Htake) & Hend).
        split; [unfold packet_ok in *; lia|]. split; [lia|].
        intros s Hs. case_bool_decide as E; [destruct E; contradiction|].
        apply dns_p_count_frame; [assumption|]. repeat split; assumption. }
    destruct Hstep as (Hok1 & Hle1 & Hc1).
    destruct (IH P1 sts P' Hok1 ltac:(lia) Hrd' Hrest) as (Hok' & Hle' & Hlen' & Hc').
    split; [assumption|]. split; [lia|]. split; [cbn [length]; lia|].
    intros s Hs. rewrite (Hc' s Hs), (Hc1 s Hs), pushed_cons.
    case_bool_decide.
    + rewrite u16_add_l. f_equal. lia.
    + f_equal.
Qed.

(** Starting from the packet [dns_p_init] makes, after any run of calls of
    [dns_p_push] the count of each of the four sections is, modulo 2^16,
    the number of calls for that section that returned 0: failed calls
    count for nothing, and neither do calls for a section that is none of
    QD, AN, NS and AR. *)
Theorem dns_p_push_all_counts (indeterminate : Z) (fuel : nat) (size : Z)
    (calls : list push_call) (statuses : list Z) (P' : dns_packet) :
  12 <= size < 18446744073709551616 ->
  Forall (fun c => 0 <= rdata_len (pc_any c) < 18446744073709551614) calls ->
  dns_p_push_all indeterminate fuel (dns_p_init size) calls = Some (statuses, P') ->
  forall s, In s [DNS_S_QD; DNS_S_AN; DNS_S_NS; DNS_S_AR] ->
    dns_p_count P' s = u16 (pushed s calls statuses).
Proof.
  intros Hsize Hrd H s Hs.
  destruct (dns_p_push_all_from indeterminate fuel calls (dns_p_init size) statuses P')
    as (_ & _ & _ & Hc); try assumption.
  - unfold packet_ok, dns_p_init. cbn [p_end data]; cbn.
    rewrite length_replicate. lia.
  - cbn. lia.
  - rewrite (Hc s Hs), dns_p_count_init by assumption. reflexivity.
Qed.

(** A question, an answer, an answer that does not fit any more, and an
    additional record, into a packet of 64 octets. *)
Lemma dns_p_push_all_counts_witness :
  let calls :=
    [ mkPush DNS_S_QD (octets "example.com") DNS_T_A DNS_C_IN 0 any_blank;
      mkPush DNS_S_AN (octets "example.com") DNS_T_A DNS_C_IN 3600 any_blank;
      mkPush DNS_S_AN (octets "a-long-name-that-does-not-fit.example.com")
             DNS_T_A DNS_C_IN 3600 any_blank;
      mkPush DNS_S_AR (octets "ns.example.com") DNS_T_A DNS_C_IN 60 any_blank ] in
  exists P',
    dns_p_push_all 0 16 (dns_p_init 64) calls = Some ([0; 0; -1; 0], P')
    /\ forall s, In s [DNS_S_QD; DNS_S_AN; DNS_S_NS; DNS_S_AR] ->
         dns_p_count P' s = u16 (pushed s calls [0; 0; -1; 0]).
Proof.
  intros calls. eexists. split; [vm_compute; reflexivity|].
  apply (dns_p_push_all_counts 0 16 64 calls [0; 0; -1; 0]).
  - lia.
  - repeat constructor; cbn; lia.
  - vm_compute. reflexivity.
Defined.
(** ** Text records written and read back *)

Lemma land255_small n : 0 <= n <= 255 -> Z.land 255 n = n.
Proof. intros. rewrite land255_mod. apply Z.mod_small. lia. Qed.

Lemma length_wire_chunks cs : (length cs <= length (wire cs))%nat.
Proof.
  induction cs as [|c cs IH]; [cbn; lia|]. rewrite length_wire_cons.
  cbn [length]. lia.
Qed.

Lemma length_wire_concat cs :
  length (wire cs) = (length cs + length (concat cs))%nat.
Proof.
  induction cs as [|c cs IH]; [reflexivity|].
  rewrite length_wire_cons. cbn [concat length]. rewrite length_app. lia.
Qed.

(** The loop of [dns_txt_parse] over chunks that stand in the packet one
    after the other, each behind its length octet. *)
Lemma dns_txt_parse_loop_chunks (P : dns_packet) (size : Z) :
  forall cs fuel dstb dst_p q,
    Forall (fun c => (length c <= 255)%nat) cs ->
    (length cs < fuel)%nat ->
    0 <= q -> q + Z.of_nat (length (wire cs)) < 18446744073709551616 ->
    occurs (data P) q (wire cs) ->
    0 <= dst_p -> dst_p + Z.of_nat (length (concat cs)) <= size ->
    size < 18446744073709551616 ->
    dns_txt_parse_loop fuel P size dstb dst_p q (q + Z.of_nat (length (wire cs)))
    = Some (0, memcpy dstb dst_p (concat cs), dst_p + Z.of_nat (length (concat cs))).
Proof.
  induction cs as [|c cs IH];
    intros fuel dstb dst_p q Hcs Hfuel Hq Hq64 Hocc Hdst Hsize H64;
    (destruct fuel as [|fuel]; [cbn in Hfuel; lia|]); cbn [dns_txt_parse_loop].
  - cbn [wire map concat length]. rewrite Z.add_0_r, Z.ltb_irrefl.
    now rewrite Z.add_0_r.
  - inversion Hcs as [|? ? Hc Hcs']; subst.
    rewrite length_wire_cons in *. cbn [concat] in *. rewrite length_app in Hsize.
    destruct (Z.ltb_spec q (q + Z.of_nat (1 + length c + length (wire cs)))); [|lia].
    replace (wire (c :: cs)) with ((Z.of_nat (length c) :: c) ++ wire cs) in Hocc
      by reflexivity.
    apply occurs_app in Hocc; [|lia]. destruct Hocc as (Hc1 & Hrest).
    apply occurs_cons in Hc1; [|lia]. destruct Hc1 as (Hlen & Hc1).
    rewrite Hlen, land255_small by lia.
    rewrite (usize_small (q + 1)) by lia.
    rewrite (usize_small (_ - (q + 1))) by lia.
    rewrite (usize_small (size - dst_p)) by lia.
    destruct (Z.ltb_spec (q + Z.of_nat (1 + length c + length (wire cs)) - (q + 1))
                (Z.of_nat (length c))); [lia|].
    destruct (Z.ltb_spec (size - dst_p) (Z.of_nat (length c))); [lia|].
    cbn [orb]. rewrite (occurs_slice _ _ _ Hc1).
    rewrite !usize_small by lia. cbn [length] in Hrest.
    specialize (IH fuel (memcpy dstb dst_p c) (dst_p + Z.of_nat (length c))
                   (q + 1 + Z.of_nat (length c)) Hcs' ltac:(cbn in Hfuel; lia)
                   ltac:(lia) ltac:(lia)).
    replace (q + Z.of_nat (S (length c))) with (q + 1 + Z.of_nat (length c))
      in Hrest by lia.
    specialize (IH Hrest ltac:(lia) ltac:(lia) H64).
    replace (q + 1 + Z.of_nat (length c) + Z.of_nat (length (wire cs)))
      with (q + Z.of_nat (1 + length c + length (wire cs))) in IH by lia.
    rewrite IH. rewrite memcpy_app by lia. rewrite length_app.
    do 2 f_equal. lia.
Qed.

(** [dns_txt_parse] concatenates the chunks of the record data: when the
    data of the record is a sequence of chunks of up to 255 octets, each
    behind its length octet, and the text fits [txt->size], it returns 0,
    the text is the chunks one after the other and [txt->len] their total
    length. *)
Theorem dns_txt_parse_chunks (P : dns_packet) (size : Z) (txt : dns_any)
    (rr : dns_rr) (cs : list (list Z)) :
  Forall (fun c => (length c <= 255)%nat) cs ->
  0 <= rd_p rr -> rd_len rr = Z.of_nat (length (wire cs)) ->
  rd_p rr + rd_len rr < 18446744073709551616 ->
  occurs (data P) (rd_p rr) (wire cs) ->
  Z.of_nat (length (concat cs)) <= size < 18446744073709551616 ->
  dns_txt_parse size txt rr P
  = Some (0, set_rdata txt (Z.of_nat (length (concat cs)))
                       (memcpy (rdata_data txt) 0 (concat cs))).
Proof.
  intros Hcs Hp Hlen H64 Hocc Hsize. unfold dns_txt_parse. rewrite Hlen in *.
  rewrite (dns_txt_parse_loop_chunks P size cs _ (rdata_data txt) 0 (rd_p rr));
    try assumption; try lia.
  - reflexivity.
  - pose proof (length_wire_chunks cs). lia.
Qed.

(** The two chunks ["ab"] and ["c"] at offset 14 of a packet. *)
Lemma dns_txt_parse_chunks_witness :
  let P := {| dict := []; size := 24; p_end := 19;
              data := replicate 12 0 ++ [0; 5; 2; 97; 98; 1; 99] ++ replicate 5 0 |} in
  let rr := {| rr_section := DNS_S_AN; dn_p := 0; dn_len := 0; rr_type := DNS_T_TXT;
               rr_class := DNS_C_IN; rr_ttl := 0; rd_p := 14; rd_len := 5 |} in
  dns_txt_parse 8 (any_opaque (replicate 8 0)) rr P
  = Some (0, set_rdata (any_opaque (replicate 8 0))
                       (Z.of_nat (length (concat [[97; 98]; [99]])))
                       (memcpy (rdata_data (any_opaque (replicate 8 0))) 0
                               (concat [[97; 98]; [99]]))).
Proof.
  intros P rr.
  apply (dns_txt_parse_chunks P 8 (any_opaque (replicate 8 0)) rr [[97; 98]; [99]]).
  - repeat constructor; cbn; lia.
  - cbn. lia.
  - reflexivity.
  - cbn. lia.
  - reflexivity.
  - cbn. lia.
Defined.

(** What [dns_txt_push] writes for a text of 1 to 255 octets: [rdlength],
    one length octet, the text. *)
Lemma dns_txt_push_short (P : dns_packet) (txt : dns_any) :
  packet_ok P ->
  1 <= rdata_len txt <= 255 ->
  rdata_len txt = Z.of_nat (length (rdata_data txt)) ->
  rdata_len txt + 3 <= size P - p_end P ->
  dns_txt_push P txt
  = Some (0, set_end (set_data P (memcpy (data P) (p_end P)
                                     ([(rdata_len txt + 1) / 256;
                                       (rdata_len txt + 1) mod 256; rdata_len txt]
                                      ++ rdata_data txt)))
                     (p_end P + 3 + rdata_len txt)).
Proof.
  intros (Hend & H64 & Hdata) Hlen Hd Hroom. unfold dns_txt_push.
  rewrite (usize_small (size P - p_end P)) by lia.
  destruct (Z.ltb_spec (size P - p_end P) 2); [lia|].
  assert (Hdiv : rdata_len txt / 256 = 0) by (apply Z.div_small; lia).
  rewrite Hdiv, Z.add_0_r, (u32_small (rdata_len txt + 1)) by lia.
  rewrite !usize_small by lia.
  assert (Hhi : Z.land 255 (Z.shiftr (rdata_len txt + 1) 8) = (rdata_len txt + 1) / 256).
  { rewrite Z.shiftr_div_pow2 by lia. change (2 ^ 8) with 256.
    apply land255_small. split; [apply Z.div_pos; lia|].
    assert ((rdata_len txt + 1) / 256 < 256) by (apply Z.div_lt_upper_bound; lia).
    lia. }
  assert (Hlo : Z.land 255 (Z.shiftr (rdata_len txt + 1) 0) = (rdata_len txt + 1) mod 256).
  { now rewrite Z.shiftr_0_r, land255_mod. }
  rewrite Hhi, Hlo. clear Hhi Hlo.
  destruct (Z.to_nat (size P)) as [|fuel] eqn:Hfuel; [lia|].
  cbn [dns_txt_push_loop].
  destruct (Z.ltb_spec 0 (rdata_len txt)); [|lia].
  rewrite Z.sub_0_r, (usize_small (rdata_len txt)), (land255_small (rdata_len txt))
    by lia.
  destruct (Z.geb_spec (p_end P + 2) (size P)); [lia|].
  rewrite (usize_small (p_end P + 2 + 1)), (usize_small (size P - _)) by lia.
  destruct (Z.ltb_spec (size P - (p_end P + 2 + 1)) (rdata_len txt)); [lia|].
  rewrite Z.add_0_l, !usize_small by lia.
  destruct (Z.ltb_spec (rdata_len txt) (rdata_len txt)); [lia|].
  do 3 f_equal; [|lia].
  rewrite Hd at 4. rewrite slice_full.
  cbn [app].
  rewrite !memcpy_cons by lia.
  replace (p_end P + 1 + 1 + 1) with (p_end P + 2 + 1) by lia.
  replace (p_end P + 1 + 1) with (p_end P + 2) by lia.
  rewrite !store_memcpy_lt by lia. f_equal. unfold store.
  rewrite (list_insert_insert_ne _ (Z.to_nat (p_end P + 2)) (Z.to_nat (p_end P + 1)))
    by lia.
  rewrite (list_insert_insert_ne _ (Z.to_nat (p_end P + 2)) (Z.to_nat (p_end P)))
    by lia.
  rewrite (list_insert_insert_ne _ (Z.to_nat (p_end P + 1)) (Z.to_nat (p_end P)))
    by lia.
  reflexivity.
Qed.

(** A text of 1 to 255 octets that [dns_txt_push] has appended is read back
    by [dns_txt_parse] as it was: the push returns 0, the 16-bit [rdlength]
    it wrote is the length of the text plus one, the end has moved by the
    length plus three, and parsing the record data (from two octets after
    the old end, [rdlength] octets) into a buffer that can hold the text
    gives the text and its length. *)
Theorem dns_txt_push_parse_roundtrip (P : dns_packet) (txt : dns_any)
    (size' : Z) (txt' : dns_any) (rr : dns_rr) :
  packet_ok P ->
  1 <= rdata_len txt <= 255 ->
  rdata_len txt = Z.of_nat (length (rdata_data txt)) ->
  rdata_len txt + 3 <= size P - p_end P ->
  rdata_len txt <= size' < 18446744073709551616 ->
  rdata_len txt <= Z.of_nat (length (rdata_data txt')) ->
  rd_p rr = p_end P + 2 -> rd_len rr = rdata_len txt + 1 ->
  exists P' any,
    dns_txt_push P txt = Some (0, P')
    /\ p_end P' = p_end P + 3 + rdata_len txt
    /\ be16 (data P') (p_end P) = rd_len rr
    /\ dns_txt_parse size' txt' rr P' = Some (0, any)
    /\ rdata_len any = rdata_len txt
    /\ slice (rdata_data any) 0 (rdata_len any) = rdata_data txt.
Proof.
  intros Hok Hlen Hd Hroom Hsize Hbuf Hp Hl.
  rewrite (dns_txt_push_short P txt Hok Hlen Hd Hroom).
  pose proof Hok as (Hend & H64 & Hdata).
  eexists. eexists. split; [reflexivity|]. cbn [p_end set_end set_data data].
  split; [reflexivity|].
  set (w := [(rdata_len txt + 1) / 256; (rdata_len txt + 1) mod 256; rdata_len txt]
            ++ rdata_data txt).
  assert (Hw : occurs (memcpy (data P) (p_end P) w) (p_end P) w).
  { unfold occurs, slice, memcpy. apply list_eq. intros i.
    destruct (Nat.lt_ge_cases i (length w)) as [Hi|Hi].
    - rewrite lookup_take_lt by lia. rewrite lookup_drop.
      rewrite list_lookup_inserts by (subst w; cbn [app length] in *; lia).
      f_equal. lia.
    - rewrite lookup_take_ge by lia. symmetry. apply lookup_ge_None_2. lia. }
  subst w. cbn [app] in Hw.
  apply occurs_cons in Hw; [|lia]. destruct Hw as (Hb0 & Hw).
  apply occurs_cons in Hw; [|lia]. destruct Hw as (Hb1 & Hw).
  split.
  { unfold be16. rewrite Z.add_0_r. cbn [app]. rewrite Hb0, Hb1, Z.shiftl_0_r.
    rewrite land255_mod, land255_mod, Z.mod_mod by lia.
    rewrite lor_shiftl_add; change (2 ^ 8) with 256;
      [|lia|apply Z.mod_pos_bound; lia].
    rewrite (Z.mod_small ((rdata_len txt + 1) / 256)).
    - pose proof (Z.div_mod (rdata_len txt + 1) 256 ltac:(lia)). lia.
    - split; [apply Z.div_pos; lia|]. apply Z.div_lt_upper_bound; lia. }
  rewrite (dns_txt_parse_chunks _ size' txt' rr [rdata_data txt]).
  - split; [reflexivity|]. cbn [set_rdata rdata_len rdata_data concat].
    rewrite app_nil_r. split; [lia|].
    rewrite <- Hd. rewrite Hd at 1. unfold slice. cbn [Z.to_nat drop].
    rewrite Nat2Z.id. apply take_memcpy_0. lia.
  - constructor; [lia|constructor].
  - lia.
  - rewrite Hl, length_wire_cons. cbn [wire map concat length]. lia.
  - lia.
  - rewrite Hp. cbn [data]. cbn [wire map concat]. rewrite app_nil_r.
    replace (p_end P + 2) with (p_end P + 1 + 1) by lia. rewrite <- Hd. exact Hw.
  - cbn [concat]. rewrite app_nil_r. lia.
Qed.

Lemma dns_txt_push_parse_roundtrip_witness :
  let txt := any_opaque (octets "hello") in
  let rr := {| rr_section := DNS_S_AN; dn_p := 0; dn_len := 0; rr_type := DNS_T_TXT;
               rr_class := DNS_C_IN; rr_ttl := 0; rd_p := 14; rd_len := 6 |} in
  exists P' any,
    dns_txt_push (dns_p_init 32) txt = Some (0, P')
    /\ p_end P' = p_end (dns_p_init 32) + 3 + rdata_len txt
    /\ be16 (data P') (p_end (dns_p_init 32)) = rd_len rr
    /\ dns_txt_parse 8 (any_opaque (replicate 8 0)) rr P' = Some (0, any)
    /\ rdata_len any = rdata_len txt
    /\ slice (rdata_data any) 0 (rdata_len any) = rdata_data txt.
Proof.
  intros txt rr.
  apply (dns_txt_push_parse_roundtrip (dns_p_init 32) txt 8
           (any_opaque (replicate 8 0)) rr).
  - unfold packet_ok. repeat split; vm_compute; congruence.
  - cbn. lia.
  - reflexivity.
  - cbn. lia.
  - cbn. lia.
  - cbn. lia.
  - reflexivity.
  - reflexivity.
Defined.

(** An empty text: [dns_txt_push] returns 0 and announces one octet of
    record data in [rdlength], but its loop does not run and no length
    octet is written; the end moves by the two octets of [rdlength] only,
    so the record data announced reaches beyond the end of the packet. *)
Theorem dns_txt_push_empty (P : dns_packet) (txt : dns_any) :
  packet_ok P ->
  rdata_len txt = 0 ->
  2 <= size P - p_end P ->
  exists P',
    dns_txt_push P txt = Some (0, P')
    /\ p_end P' = p_end P + 2
    /\ be16 (data P') (p_end P) = 1
    /\ p_end P' < p_end P + 2 + be16 (data P') (p_end P).
Proof.
  intros (Hend & H64 & Hdata) Hlen Hroom. unfold dns_txt_push.
  rewrite (usize_small (size P - p_end P)) by lia.
  destruct (Z.ltb_spec (size P - p_end P) 2); [lia|].
  rewrite Hlen. cbn [dns_txt_push_loop]. rewrite Hlen.
  change (0 <? 0) with false. cbv iota.
  rewrite !usize_small by lia.
  eexists. split; [reflexivity|]. cbn [p_end set_end set_data data].
  split; [reflexivity|].
  assert (Hbe : be16 (store (store (data P) (p_end P) (Z.land 255 (Z.shiftr (u32 (0 + 1 + 0 / 256)) 8)))
                        (p_end P + 1) (Z.land 255 (Z.shiftr (u32 (0 + 1 + 0 / 256)) 0)))
                     (p_end P) = 1).
  { unfold be16, byte_at. rewrite Z.add_0_r.
    rewrite store_lookup_eq by (rewrite length_store; lia).
    rewrite store_lookup_ne by lia. rewrite store_lookup_eq by lia. reflexivity. }
  rewrite Hbe. split; [reflexivity|lia].
Qed.

Lemma dns_txt_push_empty_witness :
  exists P',
    dns_txt_push (dns_p_init 32) any_blank = Some (0, P')
    /\ p_end P' = p_end (dns_p_init 32) + 2
    /\ be16 (data P') (p_end (dns_p_init 32)) = 1
    /\ p_end P' < p_end (dns_p_init 32) + 2 + be16 (data P') (p_end (dns_p_init 32)).
Proof.
  apply (dns_txt_push_empty (dns_p_init 32) any_blank).
  - unfold packet_ok. repeat split; vm_compute; congruence.
  - reflexivity.
  - vm_compute. congruence.
Defined.

(** ** Addresses written and read back *)

Lemma testbit_255 i : Z.testbit 255 i = (0 <=? i) && (i <? 8).
Proof.
  destruct (Z.leb_spec 0 i).
  - change 255 with (Z.ones 8). now rewrite Z.testbit_ones_nonneg by lia.
  - now rewrite Z.testbit_neg_r by lia.
Qed.

Lemma testbit_high w n i : 0 <= w < 2 ^ n -> n <= i -> Z.testbit w i = false.
Proof.
  intros Hw Hi. destruct (Z.eq_dec w 0) as [->|]; [apply Z.bits_0|].
  apply Z.bits_above_log2; [lia|].
  assert (Z.log2 w < n) by (apply Z.log2_lt_pow2; lia). lia.
Qed.

Lemma testbit_byte w k n :
  0 <= k -> 0 <= n ->
  Z.testbit (Z.shiftl (Z.land 255 (Z.land 255 (Z.shiftr w k))) k) n
  = (k <=? n) && (n <? k + 8) && Z.testbit w n.
Proof.
  intros Hk Hn. rewrite Z.shiftl_spec by lia.
  destruct (Z.leb_spec k n).
  - rewrite !Z.land_spec, testbit_255, Z.shiftr_spec by lia.
    replace (n - k + k) with n by lia.
    destruct (Z.leb_spec 0 (n - k)); [|lia].
    destruct (Z.ltb_spec (n - k) 8); destruct (Z.ltb_spec n (k + 8)); try lia;
      cbn [andb]; try reflexivity; now destruct (Z.testbit w n).
  - now rewrite Z.testbit_neg_r by lia.
Qed.

Lemma join32 w :
  0 <= w < 4294967296 ->
  Z.lor (Z.lor (Z.lor
    (Z.shiftl (Z.land 255 (Z.land 255 (Z.shiftr w 24))) 24)
    (Z.shiftl (Z.land 255 (Z.land 255 (Z.shiftr w 16))) 16))
    (Z.shiftl (Z.land 255 (Z.land 255 (Z.shiftr w 8))) 8))
    (Z.shiftl (Z.land 255 (Z.land 255 (Z.shiftr w 0))) 0) = w.
Proof.
  intros Hw. apply Z.bits_inj'. intros n Hn.
  rewrite !Z.lor_spec, !testbit_byte by lia.
  destruct (Z.lt_ge_cases n 32) as [H32|H32].
  - destruct (Z.leb_spec 24 n); destruct (Z.ltb_spec n (24 + 8));
      destruct (Z.leb_spec 16 n); destruct (Z.ltb_spec n (16 + 8));
      destruct (Z.leb_spec 8 n); destruct (Z.ltb_spec n (8 + 8));
      destruct (Z.leb_spec 0 n); destruct (Z.ltb_spec n (0 + 8));
      try lia; cbn [andb orb]; rewrite ?orb_false_r; reflexivity.
  - rewrite (testbit_high w 32 n) by (change (2 ^ 32) with 4294967296; lia).
    now rewrite !andb_false_r.
Qed.

Lemma byte_at_push_octet_old P v j :
  0 <= j < p_end P -> byte_at (data (push_octet P v)) j = byte_at (data P) j.
Proof.
  intros. unfold push_octet, byte_at. cbn [data]. now rewrite store_lookup_ne by lia.
Qed.

Lemma byte_at_push_octet_new P v :
  packet_ok P -> p_end P < size P ->
  byte_at (data (push_octet P v)) (p_end P) = v.
Proof.
  intros (? & ? & ?) ?. unfold push_octet, byte_at. cbn [data].
  now rewrite store_lookup_eq by lia.
Qed.

(** An IPv4 address that [dns_a_push] has appended is read back by
    [dns_a_parse] as it was: the push returns 0 and writes [rdlength] 4 and
    the four octets of the address, most significant first, and parsing the
    record data gives the same 32-bit value. *)
Theorem dns_a_push_parse_roundtrip (P : dns_packet) (a a' : dns_any) (rr : dns_rr) :
  packet_ok P ->
  0 <= a_addr a < 4294967296 ->
  6 <= size P - p_end P ->
  rd_p rr = p_end P + 2 -> rd_len rr = 4 ->
  exists P',
    dns_a_push P a = (0, P')
    /\ p_end P' = p_end P + 6
    /\ be16 (data P') (p_end P) = rd_len rr
    /\ dns_a_parse a' rr P' = (0, set_a a' (a_addr a)).
Proof.
  intros Hok Ha Hroom Hp Hl. pose proof Hok as (Hend & H64 & Hdata).
  unfold dns_a_push. rewrite usize_small by lia.
  destruct (Z.ltb_spec (size P - p_end P) 6); [lia|].
  eexists. split; [reflexivity|].
  set (P1 := push_octet P 0). set (P2 := push_octet P1 4).
  set (P3 := push_octet P2 _). set (P4 := push_octet P3 _).
  set (P5 := push_octet P4 _). set (P6 := push_octet P5 _).
  assert (Hstep : forall Q v, packet_ok Q -> p_end Q < size Q ->
            packet_ok (push_octet Q v) /\ p_end (push_octet Q v) = p_end Q + 1
            /\ size (push_octet Q v) = size Q).
  { intros Q v HQ Hlt. split; [apply appended_push_octet; assumption|].
    split; [now apply p_end_push_octet|reflexivity]. }
  destruct (Hstep P 0 Hok ltac:(lia)) as (Hok1 & He1 & Hs1). fold P1 in Hok1, He1, Hs1.
  destruct (Hstep P1 4 Hok1 ltac:(lia)) as (Hok2 & He2 & Hs2). fold P2 in Hok2, He2, Hs2.
  destruct (Hstep P2 (Z.land 255 (Z.shiftr (a_addr a) 24)) Hok2 ltac:(lia))
    as (Hok3 & He3 & Hs3). fold P3 in Hok3, He3, Hs3.
  destruct (Hstep P3 (Z.land 255 (Z.shiftr (a_addr a) 16)) Hok3 ltac:(lia))
    as (Hok4 & He4 & Hs4). fold P4 in Hok4, He4, Hs4.
  destruct (Hstep P4 (Z.land 255 (Z.shiftr (a_addr a) 8)) Hok4 ltac:(lia))
    as (Hok5 & He5 & Hs5). fold P5 in Hok5, He5, Hs5.
  destruct (Hstep P5 (Z.land 255 (Z.shiftr (a_addr a) 0)) Hok5 ltac:(lia))
    as (Hok6 & He6 & Hs6). fold P6 in Hok6, He6, Hs6.
  assert (Hb0 : byte_at (data P6) (p_end P) = 0).
  { unfold P6; rewrite byte_at_push_octet_old by lia. unfold P5; rewrite byte_at_push_octet_old by lia. unfold P4; rewrite byte_at_push_octet_old by lia. unfold P3; rewrite byte_at_push_octet_old by lia. unfold P2; rewrite byte_at_push_octet_old by lia.
    unfold P1. apply byte_at_push_octet_new; [assumption|lia]. }
  assert (Hb1 : byte_at (data P6) (p_end P + 1) = 4).
  { unfold P6; rewrite byte_at_push_octet_old by lia. unfold P5; rewrite byte_at_push_octet_old by lia. unfold P4; rewrite byte_at_push_octet_old by lia. unfold P3; rewrite byte_at_push_octet_old by lia.
    rewrite <- He1. apply byte_at_push_octet_new; [assumption|lia]. }
  assert (Hb2 : byte_at (data P6) (p_end P + 2 + 0)
                = Z.land 255 (Z.shiftr (a_addr a) 24)).
  { unfold P6; rewrite byte_at_push_octet_old by lia. unfold P5; rewrite byte_at_push_octet_old by lia. unfold P4; rewrite byte_at_push_octet_old by lia.
    replace (p_end P + 2 + 0) with (p_end P2) by lia.
    apply byte_at_push_octet_new; [assumption|lia]. }
  assert (Hb3 : byte_at (data P6) (p_end P + 2 + 1)
                = Z.land 255 (Z.shiftr (a_addr a) 16)).
  { unfold P6; rewrite byte_at_push_octet_old by lia. unfold P5; rewrite byte_at_push_octet_old by lia.
    replace (p_end P + 2 + 1) with (p_end P3) by lia.
    apply byte_at_push_octet_new; [assumption|lia]. }
  assert (Hb4 : byte_at (data P6) (p_end P + 2 + 2)
                = Z.land 255 (Z.shiftr (a_addr a) 8)).
  { unfold P6; rewrite byte_at_push_octet_old by lia.
    replace (p_end P + 2 + 2) with (p_end P4) by lia.
    apply byte_at_push_octet_new; [assumption|lia]. }
  assert (Hb5 : byte_at (data P6) (p_end P + 2 + 3)
                = Z.land 255 (Z.shiftr (a_addr a) 0)).
  { replace (p_end P + 2 + 3) with (p_end P5) by lia.
    apply byte_at_push_octet_new; [assumption|lia]. }
  split; [lia|]. split.
  { unfold be16. rewrite Z.add_0_r, Hb0, Hb1, Hl. reflexivity. }
  unfold dns_a_parse. rewrite Hl, Hp. cbn [Z.eqb Pos.eqb negb].
  rewrite Hb2, Hb3, Hb4, Hb5, join32 by assumption.
  now rewrite u32_small by lia.
Qed.

Lemma dns_a_push_parse_roundtrip_witness :
  let a := set_a any_blank 3221225985 in
  let rr := {| rr_section := DNS_S_AN; dn_p := 0; dn_len := 0; rr_type := DNS_T_A;
               rr_class := DNS_C_IN; rr_ttl := 0; rd_p := 14; rd_len := 4 |} in
  exists P',
    dns_a_push (dns_p_init 32) a = (0, P')
    /\ p_end P' = p_end (dns_p_init 32) + 6
    /\ be16 (data P') (p_end (dns_p_init 32)) = rd_len rr
    /\ dns_a_parse any_blank rr P' = (0, set_a any_blank (a_addr a)).
Proof.
  intros a rr. apply (dns_a_push_parse_roundtrip (dns_p_init 32) a any_blank rr).
  - unfold packet_ok. repeat split; vm_compute; congruence.
  - cbn. lia.
  - vm_compute. congruence.
  - reflexivity.
  - reflexivity.
Defined.

Lemma occurs_memcpy dst off w :
  0 <= off -> off + Z.of_nat (length w) <= Z.of_nat (length dst) ->
  occurs (memcpy dst off w) off w.
Proof.
  intros Hoff Hlen. unfold occurs, slice, memcpy. apply list_eq. intros i.
  destruct (Nat.lt_ge_cases i (length w)) as [Hi|Hi].
  - rewrite lookup_take_lt by lia. rewrite lookup_drop.
    rewrite list_lookup_inserts by lia. f_equal. lia.
  - rewrite lookup_take_ge by lia. symmetry. apply lookup_ge_None_2. lia.
Qed.

(** An IPv6 address that [dns_aaaa_push] has appended is read back by
    [dns_aaaa_parse] as it was: the push returns 0 and writes [rdlength] 16
    and the sixteen octets, and parsing the record data gives them back. *)
Theorem dns_aaaa_push_parse_roundtrip (P : dns_packet) (a a' : dns_any)
    (rr : dns_rr) :
  packet_ok P ->
  length (aaaa_addr a) = 16%nat ->
  18 <= size P - p_end P ->
  rd_p rr = p_end P + 2 -> rd_len rr = 16 ->
  exists P',
    dns_aaaa_push P a = (0, P')
    /\ p_end P' = p_end P + 18
    /\ be16 (data P') (p_end P) = rd_len rr
    /\ dns_aaaa_parse a' rr P' = (0, set_aaaa a' (aaaa_addr a)).
Proof.
  intros Hok Ha Hroom Hp Hl. pose proof Hok as (Hend & H64 & Hdata).
  unfold dns_aaaa_push. rewrite usize_small by lia.
  destruct (Z.ltb_spec (size P - p_end P) (2 + 16)); [lia|].
  eexists. split; [reflexivity|].
  unfold push_octet. cbn [p_end set_end set_data data size dict].
  rewrite (usize_small (p_end P + 1)) by lia.
  rewrite (usize_small (p_end P + 1 + 1)) by lia.
  rewrite (usize_small (p_end P + 1 + 1 + 16)) by lia.
  split; [lia|].
  replace (slice (aaaa_addr a) 0 16) with (aaaa_addr a)
    by (symmetry; rewrite <- (slice_full (aaaa_addr a)) at 2; now rewrite Ha).
  split.
  - unfold be16, byte_at, memcpy.
    rewrite !list_lookup_inserts_lt by lia. rewrite Z.add_0_r.
    rewrite store_lookup_ne by lia.
    rewrite store_lookup_eq by lia.
    rewrite store_lookup_eq by (rewrite length_store; lia).
    rewrite Hl. reflexivity.
  - unfold dns_aaaa_parse. rewrite Hl, Hp. cbn [Z.eqb Pos.eqb negb]. do 2 f_equal.
    replace (p_end P + 2) with (p_end P + 1 + 1) by lia.
    pose proof (occurs_memcpy (store (store (data P) (p_end P) 0) (p_end P + 1) 16)
                  (p_end P + 1 + 1) (aaaa_addr a) ltac:(lia)) as Hocc.
    unfold occurs in Hocc. rewrite Ha in Hocc. cbn [set_end set_data data].
    apply Hocc. rewrite !length_store. lia.
Qed.

Lemma dns_aaaa_push_parse_roundtrip_witness :
  let a := set_aaaa any_blank [32; 1; 13; 184; 0; 0; 0; 0; 0; 0; 0; 0; 0; 0; 0; 1] in
  let rr := {| rr_section := DNS_S_AN; dn_p := 0; dn_len := 0; rr_type := DNS_T_AAAA;
               rr_class := DNS_C_IN; rr_ttl := 0; rd_p := 14; rd_len := 16 |} in
  exists P',
    dns_aaaa_push (dns_p_init 32) a = (0, P')
    /\ p_end P' = p_end (dns_p_init 32) + 18
    /\ be16 (data P') (p_end (dns_p_init 32)) = rd_len rr
    /\ dns_aaaa_parse any_blank rr P' = (0, set_aaaa any_blank (aaaa_addr a)).
Proof.
  intros a rr. apply (dns_aaaa_push_parse_roundtrip (dns_p_init 32) a any_blank rr).
  - unfold packet_ok. repeat split; vm_compute; congruence.
  - reflexivity.
  - vm_compute. congruence.
  - reflexivity.
  - reflexivity.
Defined.
(** ** Decimal output *)

Lemma pow10_pos m : 0 < 10 ^ Z.of_nat m.
Proof. apply Z.pow_pos_nonneg; lia. Qed.

Lemma pow10_S m : 10 ^ Z.of_nat (S m) = 10 * 10 ^ Z.of_nat m.
Proof. rewrite Nat2Z.inj_succ, Z.pow_succ_r by lia. reflexivity. Qed.

Lemma length_decimal m : forall n, length (decimal m n) = m.
Proof. induction m as [|m IH]; intros n; [reflexivity|]. cbn. now rewrite IH. Qed.

Lemma decimal_S m n :
  decimal (S m) n = (48 + n / 10 ^ Z.of_nat m) :: decimal m (n mod 10 ^ Z.of_nat m).
Proof. reflexivity. Qed.

(** The divisor of [dns__print10] when [m] digits are still to come. *)
Lemma print10_next_divisor m :
  10 ^ Z.of_nat m / 10 = match m with O => 0 | S m' => 10 ^ Z.of_nat m' end.
Proof.
  destruct m as [|m']; [reflexivity|].
  rewrite pow10_S, Z.mul_comm. apply Z.div_mul. lia.
Qed.

Lemma print10_loop_S fuel dst lim off cp n d :
  print10_loop (S fuel) dst lim off cp n d
  = if d =? 0 then Some (dst, cp)
    else if negb (n / d =? 0) || (cp >? off)
         then print10_loop fuel
                (if cp <? lim then store dst cp (u8 (48 + n / d)) else dst)
                lim off (u32 (cp + 1)) (u32 (n - u32 (n / d * d))) (d / 10)
         else print10_loop fuel dst lim off cp n (d / 10).
Proof. reflexivity. Qed.

(** Once a digit has been written, the loop writes one for every divisor
    left. *)
Lemma print10_loop_started (lim off : Z) :
  forall m fuel dst cp n,
    (S m < fuel)%nat -> (m <= 7)%nat ->
    off < cp -> cp + Z.of_nat (S m) <= lim -> lim <= Z.of_nat (length dst) ->
    lim < 4294967296 -> 0 <= off ->
    0 <= n < 10 ^ Z.of_nat (S m) ->
    print10_loop fuel dst lim off cp n (10 ^ Z.of_nat m)
    = Some (memcpy dst cp (decimal (S m) n), cp + Z.of_nat (S m)).
Proof.
  induction m as [|m IH]; intros fuel dst cp n Hfuel Hm Hcp Hlim Hdst H32 Hoff Hn;
    (destruct fuel as [|fuel]; [lia|]); cbn [print10_loop].
  - change (10 ^ Z.of_nat 0) with 1 in *. change (10 ^ Z.of_nat 1) with 10 in *.
    change (1 =? 0) with false. cbv iota. rewrite Z.div_1_r.
    destruct (Z.gtb_spec cp off); [|lia]. rewrite orb_true_r.
    destruct (Z.ltb_spec cp lim); [|lia].
    change (1 / 10) with 0. destruct fuel as [|fuel]; [lia|]. cbn [print10_loop].
    change (0 =? 0) with true. cbv iota.
    rewrite (u32_small (cp + 1)) by lia. unfold u8.
    rewrite (Z.mod_small (48 + n)) by lia.
    cbn [decimal]. change (10 ^ Z.of_nat 0) with 1. rewrite Z.div_1_r.
    rewrite memcpy_cons, memcpy_nil by lia. reflexivity.
  - pose proof (pow10_pos (S m)) as Hpos. rewrite (pow10_S (S m)) in Hn.
    destruct (Z.eqb_spec (10 ^ Z.of_nat (S m)) 0); [lia|].
    destruct (Z.gtb_spec cp off); [|lia]. rewrite orb_true_r.
    destruct (Z.ltb_spec cp lim); [|lia].
    assert (Hch : 0 <= n / 10 ^ Z.of_nat (S m) < 10).
    { split; [apply Z.div_pos; lia|]. apply Z.div_lt_upper_bound; lia. }
    pose proof (Z.mod_pos_bound n (10 ^ Z.of_nat (S m)) Hpos) as Hmod.
    pose proof (Z.div_mod n (10 ^ Z.of_nat (S m)) ltac:(lia)) as Hdm.
    assert (Hn' : u32 (n - u32 (n / 10 ^ Z.of_nat (S m) * 10 ^ Z.of_nat (S m)))
                  = n mod 10 ^ Z.of_nat (S m)).
    { assert (10 ^ Z.of_nat (S m) <= 10 ^ Z.of_nat 7)
        by (apply Z.pow_le_mono_r; lia).
      change (10 ^ Z.of_nat 7) with 10000000 in *.
      rewrite (u32_small (_ * _)) by nia. rewrite u32_small by nia. nia. }
    rewrite Hn'. rewrite (u32_small (cp + 1)) by lia.
    rewrite print10_next_divisor.
    rewrite IH; try lia; [|rewrite length_store; lia].
    unfold u8. rewrite (Z.mod_small (48 + _)) by lia.
    rewrite (decimal_S (S m) n), memcpy_cons by lia.
    rewrite store_memcpy_lt by lia. do 2 f_equal. lia.
Qed.

Lemma length_strip_zeros s : (length (strip_zeros s) <= length s)%nat.
Proof.
  induction s as [|c s IH]; [reflexivity|]. cbn [strip_zeros].
  destruct (c =? 48); cbn [length]; lia.
Qed.

Lemma strip_zeros_decimal_S m n :
  0 <= n < 10 ^ Z.of_nat m ->
  strip_zeros (decimal (S m) n) = strip_zeros (decimal m n).
Proof.
  intros Hn. rewrite decimal_S. cbn [strip_zeros].
  rewrite Z.div_small, Z.mod_small by lia. reflexivity.
Qed.

(** Before any digit has been written, zeros are passed over. *)
Lemma print10_loop_leading (lim off : Z) :
  forall m fuel dst n,
    (S m < fuel)%nat -> (m <= 7)%nat ->
    off + Z.of_nat (S m) <= lim -> lim <= Z.of_nat (length dst) ->
    lim < 4294967296 -> 0 <= off ->
    0 <= n < 10 ^ Z.of_nat (S m) ->
    print10_loop fuel dst lim off off n (10 ^ Z.of_nat m)
    = Some (memcpy dst off (strip_zeros (decimal (S m) n)),
            off + Z.of_nat (length (strip_zeros (decimal (S m) n)))).
Proof.
  induction m as [|m IH]; intros fuel dst n Hfuel Hm Hlim Hdst H32 Hoff Hn;
    (destruct fuel as [|fuel]; [lia|]); cbn [print10_loop].
  - change (10 ^ Z.of_nat 0) with 1 in *. change (10 ^ Z.of_nat 1) with 10 in *.
    change (1 =? 0) with false. cbv iota. rewrite Z.div_1_r.
    change (1 / 10) with 0. destruct fuel as [|fuel]; [lia|]. cbn [print10_loop].
    change (0 =? 0) with true. cbv iota.
    rewrite decimal_S. change (10 ^ Z.of_nat 0) with 1. rewrite Z.div_1_r.
    cbn [decimal strip_zeros].
    destruct (Z.gtb_spec off off); [lia|].
    destruct (Z.eqb_spec n 0) as [->|Hn0]; cbn [negb orb].
    + change (48 + 0 =? 48) with true. cbv iota. cbn [length].
      now rewrite memcpy_nil, Z.add_0_r.
    + destruct (Z.eqb_spec (48 + n) 48); [lia|].
      destruct (Z.ltb_spec off lim); [|lia].
      rewrite (u32_small (off + 1)) by lia. unfold u8.
      rewrite (Z.mod_small (48 + n)) by lia.
      rewrite memcpy_cons, memcpy_nil by lia. reflexivity.
  - pose proof (pow10_pos (S m)) as Hpos. rewrite (pow10_S (S m)) in Hn.
    destruct (Z.eqb_spec (10 ^ Z.of_nat (S m)) 0); [lia|].
    destruct (Z.gtb_spec off off); [lia|]. rewrite orb_false_r.
    assert (Hch : 0 <= n / 10 ^ Z.of_nat (S m) < 10).
    { split; [apply Z.div_pos; lia|]. apply Z.div_lt_upper_bound; lia. }
    pose proof (Z.mod_pos_bound n (10 ^ Z.of_nat (S m)) Hpos) as Hmod.
    pose proof (Z.div_mod n (10 ^ Z.of_nat (S m)) ltac:(lia)) as Hdm.
    rewrite print10_next_divisor.
    destruct (Z.eqb_spec (n / 10 ^ Z.of_nat (S m)) 0) as [Hz|Hnz]; cbn [negb].
    + assert (n < 10 ^ Z.of_nat (S m)) by nia.
      rewrite IH by lia. now rewrite <- strip_zeros_decimal_S by lia.
    + destruct (Z.ltb_spec off lim); [|lia].
      assert (Hn' : u32 (n - u32 (n / 10 ^ Z.of_nat (S m) * 10 ^ Z.of_nat (S m)))
                    = n mod 10 ^ Z.of_nat (S m)).
      { assert (10 ^ Z.of_nat (S m) <= 10 ^ Z.of_nat 7)
          by (apply Z.pow_le_mono_r; lia).
        change (10 ^ Z.of_nat 7) with 10000000 in *.
        rewrite (u32_small (_ * _)) by nia. rewrite u32_small by nia. nia. }
      rewrite Hn', (u32_small (off + 1)) by lia.
      rewrite print10_loop_started; try lia; [|rewrite length_store; lia].
      unfold u8. rewrite (Z.mod_small (48 + _)) by lia.
      rewrite (decimal_S (S m) n). cbn [strip_zeros].
      destruct (Z.eqb_spec (48 + n / 10 ^ Z.of_nat (S m)) 48); [lia|].
      rewrite memcpy_cons by lia. rewrite store_memcpy_lt by lia.
      cbn [length]. rewrite length_decimal. do 2 f_equal. lia.
Qed.

(** For [n] below ten million, [dns__print10] writes [n] in decimal without
    zeros in front, and nothing at all for 0; it returns the number of
    octets written.  (The seven octets fit the limit here.) *)
Theorem dns__print10_decimal (dst : list Z) (lim off n : Z) :
  0 <= n < 10000000 ->
  0 <= off -> off + 7 <= lim -> lim <= Z.of_nat (length dst) ->
  lim < 4294967296 ->
  dns__print10 dst lim off n
  = Some (Z.of_nat (length (strip_zeros (decimal 7 n))),
          memcpy dst off (strip_zeros (decimal 7 n))).
Proof.
  intros Hn Hoff Hlim Hdst H32. unfold dns__print10.
  rewrite (u32_small off) by lia.
  change 1000000 with (10 ^ Z.of_nat 6).
  rewrite (print10_loop_leading lim off 6 8 dst n) by
    (try lia; change (10 ^ Z.of_nat 7) with 10000000; lia).
  pose proof (length_strip_zeros (decimal 7 n)) as Hlen.
  rewrite length_decimal in Hlen.
  replace (off + Z.of_nat (length (strip_zeros (decimal 7 n))) - off)
    with (Z.of_nat (length (strip_zeros (decimal 7 n)))) by lia.
  now rewrite usize_small by lia.
Qed.

Lemma dns__print10_decimal_witness :
  dns__print10 (replicate 16 0) 16 2 3600
  = Some (Z.of_nat (length (strip_zeros (decimal 7 3600))),
          memcpy (replicate 16 0) 2 (strip_zeros (decimal 7 3600))).
Proof. apply (dns__print10_decimal (replicate 16 0) 16 2 3600); cbn; lia. Defined.

(** 3600 comes out as the four characters "3600", 0 as no character. *)
Example dns__print10_3600 :
  strip_zeros (decimal 7 3600) = octets "3600"
  /\ dns__print10 (replicate 8 0) 8 0 3600 = Some (4, octets "3600" ++ replicate 4 0)
  /\ dns__print10 (replicate 8 0) 8 0 0 = Some (0, replicate 8 0).
Proof. vm_compute. repeat split; reflexivity. Qed.

(** From ten million on, [dns__print10] still writes seven octets only,
    fewer than [n] has digits: the first one is ['0'] plus the quotient of
    [n] by one million, which is 10 or more, and the other six are the
    last six digits of [n]. *)
Theorem dns__print10_large (dst : list Z) (lim off n : Z) :
  10000000 <= n < 4294967296 ->
  0 <= off -> off + 7 <= lim -> lim <= Z.of_nat (length dst) ->
  lim < 4294967296 ->
  dns__print10 dst lim off n
  = Some (7, memcpy dst off (u8 (48 + n / 1000000) :: decimal 6 (n mod 1000000)))
    /\ 10 <= n / 1000000.
Proof.
  intros Hn Hoff Hlim Hdst H32. split; [|apply Z.div_le_lower_bound; lia].
  unfold dns__print10. rewrite (u32_small off) by lia.
  change 8%nat with (S 7). rewrite print10_loop_S.
  change (1000000 =? 0) with false. cbv iota.
  assert (Hch : n / 1000000 <> 0).
  { assert (10 <= n / 1000000) by (apply Z.div_le_lower_bound; lia). lia. }
  destruct (Z.eqb_spec (n / 1000000) 0); [contradiction|]. cbn [negb orb].
  destruct (Z.ltb_spec off lim); [|lia].
  pose proof (Z.mod_pos_bound n 1000000 ltac:(lia)) as Hmod.
  pose proof (Z.div_mod n 1000000 ltac:(lia)) as Hdm.
  assert (Hn' : u32 (n - u32 (n / 1000000 * 1000000)) = n mod 1000000).
  { rewrite (u32_small (_ * _)) by lia. rewrite u32_small by lia. lia. }
  rewrite Hn', (u32_small (off + 1)) by lia.
  change (1000000 / 10) with (10 ^ Z.of_nat 5).
  rewrite (print10_loop_started lim off 5 7 _ (off + 1) (n mod 1000000));
    try lia; try (rewrite length_store; lia);
    try (change (10 ^ Z.of_nat 6) with 1000000; lia).
  rewrite usize_small by lia.
  rewrite memcpy_cons by lia. rewrite store_memcpy_lt by lia.
  do 2 f_equal. lia.
Qed.

Lemma dns__print10_large_witness :
  dns__print10 (replicate 16 0) 16 0 86400000
  = Some (7, memcpy (replicate 16 0) 0
                    (u8 (48 + 86400000 / 1000000) :: decimal 6 (86400000 mod 1000000)))
    /\ 10 <= 86400000 / 1000000.
Proof. apply (dns__print10_large (replicate 16 0) 16 0 86400000); cbn; lia. Defined.
(** ** Names appended with any dictionary *)

(** What [dns_d_comp] leaves in the destination when the name fits: some
    of the labels, then the root label or a pointer. *)
Lemma dns_d_comp_name (P : dns_packet) ls anchored dst lim fuel n dst' :
  ls <> [] -> Forall label_ok ls ->
  Z.of_nat (length (wire ls)) + 2 < 18446744073709551616 ->
  lim <= 65535 -> lim <= Z.of_nat (length dst) ->
  dns_d_comp fuel dst lim (presentation ls anchored)
             (Z.of_nat (length (presentation ls anchored))) P = Some (n, dst') ->
  n <= lim ->
  exists k t,
    (k <= length ls)%nat /\ ends_name t /\ ((k < length ls)%nat \/ t = [0])
    /\ n = Z.of_nat (length (wire (take k ls))) + Z.of_nat (length t)
    /\ occurs dst' 0 (wire (take k ls) ++ t).
Proof.
  intros Hne Hls Hbound H16 Hdst H Hn. unfold dns_d_comp in H.
  rewrite (surjective_pairing (comp_layout _ _ _ _)) in H.
  rewrite comp_layout_len in H by assumption.
  destruct (Z.ltb_spec (Z.of_nat (length (wire ls)) + 1) lim) as [Hroom|Hfull].
  - pose proof (comp_layout_name ls anchored dst lim Hne Hls ltac:(lia) ltac:(lia)) as HL.
    apply (f_equal fst) in HL. cbn [fst] in HL. rewrite HL in H.
    assert (Hocc : occurs (memcpy dst 0 (wire ls ++ [0])) 0 (wire ls ++ [0])).
    { apply occurs_memcpy_0. rewrite length_app. cbn [length]. lia. }
    destruct (comp_walk_a _ _ _ _ _ _) as [[[ap bp]|]|] eqn:Hwalk; [| |discriminate].
    + eapply (comp_walk_a_hit P _ lim ls Hls fuel 0) in Hwalk; try lia;
        [|exact Hocc|reflexivity].
      destruct Hwalk as (k & Hk & Hap). rewrite Z.add_0_l in Hap.
      pose proof (length_wire_drop_pos ls k Hls Hk) as Hrest.
      assert (Hsplit : wire ls = wire (take k ls) ++ wire (drop k ls))
        by now rewrite <- wire_app, take_drop.
      assert (Hlen : length (wire ls)
                     = (length (wire (take k ls)) + length (wire (drop k ls)))%nat)
        by now rewrite Hsplit at 1; rewrite length_app.
      simplify_eq. rewrite !u16_small by (rewrite ?u16_small; lia).
      exists k. eexists. split; [lia|]. split.
      { right. eexists. eexists. split; [reflexivity|]. apply pointer_type. }
      split; [now left|].
      split; [cbn [length]; lia|].
      apply (proj2 (occurs_lookup _ 0 _ ltac:(lia))). intros i x Hi.
      cbn [Z.to_nat Nat.add].
      pose proof (proj1 (occurs_lookup _ 0 _ ltac:(lia)) Hocc) as Hocc'.
      cbn [Z.to_nat Nat.add] in Hocc'.
      destruct (Nat.lt_ge_cases i (length (wire (take k ls)))) as [Hlt|Hge].
      * rewrite lookup_app_l in Hi by assumption.
        rewrite !store_lookup_ne by lia.
        apply (Hocc' i x). rewrite Hsplit, <- app_assoc.
        now rewrite lookup_app_l by assumption.
      * rewrite lookup_app_r in Hi by assumption.
        destruct (i - length (wire (take k ls)))%nat as [|[|j]] eqn:Ei;
          cbn in Hi; simplify_eq.
        -- rewrite store_lookup_ne by lia.
           replace i with (Z.to_nat (Z.of_nat (length (wire (take k ls))))) by lia.
           apply store_lookup_eq. rewrite length_memcpy. lia.
        -- replace i with (Z.to_nat (Z.of_nat (length (wire (take k ls))) + 1)) by lia.
           apply store_lookup_eq. rewrite length_store, length_memcpy. lia.
    + simplify_eq. exists (length ls), [0]. rewrite take_ge by lia.
      split; [lia|]. split; [now left|]. split; [now right|].
      split; [cbn [length]; lia|exact Hocc].
  - simplify_eq. exists (length ls), [0]. rewrite take_ge by lia.
    pose proof (comp_layout_name ls anchored dst lim Hne Hls ltac:(lia) ltac:(lia)) as HL.
    apply (f_equal fst) in HL. cbn [fst] in HL. rewrite HL.
    split; [lia|]. split; [now left|]. split; [now right|].
    split; [cbn [length]; lia|].
    apply occurs_memcpy_0. rewrite length_app. cbn [length]. lia.
Qed.

Lemma length_wire_ge ls : Forall label_ok ls -> (length ls <= length (wire ls))%nat.
Proof. intros _. apply length_wire_chunks. Qed.

(** [dns_d_skip] over labels that stand in the packet, closed by the root
    label or by a pointer. *)
Lemma dns_d_skip_loop_wire (P : dns_packet) (t : list Z) :
  ends_name t ->
  p_end P <= 65535 ->
  forall ls fuel q,
    Forall label_ok ls ->
    (length ls < fuel)%nat ->
    0 <= q ->
    q + Z.of_nat (length (wire ls)) + Z.of_nat (length t) <= p_end P ->
    occurs (data P) q (wire ls ++ t) ->
    dns_d_skip_loop fuel q P
    = Some (q + Z.of_nat (length (wire ls)) + Z.of_nat (length t)).
Proof.
  intros Ht H16. induction ls as [|l ls IH]; intros fuel q Hls Hfuel Hq Hend Hocc;
    (destruct fuel as [|fuel]; [cbn in Hfuel; lia|]); cbn [dns_d_skip_loop].
  - cbn [wire map concat app length] in *. rewrite Z.add_0_r in *.
    destruct Ht as [->|(hi & lo & -> & Hptr)]; cbn [length] in *.
    + apply occurs_cons in Hocc; [|lia]. destruct Hocc as (Hb & _).
      destruct (Z.ltb_spec q (p_end P)); [|lia].
      rewrite Hb. cbn. rewrite u16_small by lia. reflexivity.
    + apply occurs_cons in Hocc; [|lia]. destruct Hocc as (Hb & _).
      destruct (Z.ltb_spec q (p_end P)); [|lia].
      rewrite Hb, Hptr. rewrite usize_small by lia.
      destruct (Z.ltb_spec (p_end P - q) 2); [lia|].
      rewrite u16_small by lia. reflexivity.
  - inversion Hls as [|? ? Hl Hls']; subst. pose proof Hl as ((Hl1 & Hl63) & _).
    rewrite length_wire_cons in Hend. rewrite wire_cons_app in Hocc.
    apply occurs_app in Hocc; [|lia]. destruct Hocc as (Hhead & Hrest).
    apply occurs_cons in Hhead; [|lia]. destruct Hhead as (Hb & _).
    assert (1 <= Z.of_nat (length t))
      by (destruct Ht as [->|(hi & lo & -> & _)]; cbn [length]; lia).
    destruct (Z.ltb_spec q (p_end P)); [|lia].
    rewrite Hb, label_type_0, land63_small by lia.
    destruct (Z.eqb_spec (Z.of_nat (length l)) 0); [lia|].
    rewrite (u16_small (q + 1)), usize_small by lia.
    destruct (Z.gtb_spec (p_end P - (q + 1)) (Z.of_nat (length l))); [|lia].
    rewrite (u16_small (q + 1 + Z.of_nat (length l))) by lia.
    cbn [length] in Hrest.
    replace (q + Z.of_nat (S (length l))) with (q + 1 + Z.of_nat (length l))
      in Hrest by lia.
    rewrite (IH fuel (q + 1 + Z.of_nat (length l)) Hls' ltac:(cbn in Hfuel; lia)
               ltac:(lia) ltac:(lia) Hrest).
    rewrite length_wire_cons. f_equal. lia.
Qed.

Lemma occurs_app_r a b q w :
  occurs b q w -> 0 <= q -> occurs (a ++ b) (Z.of_nat (length a) + q) w.
Proof.
  unfold occurs. intros H Hq. rewrite slice_app_r by lia.
  replace (Z.of_nat (length a) + q - Z.of_nat (length a)) with q by lia. exact H.
Qed.

(** What a successful [dns_d_push] has appended, whatever names the packet
    and its dictionary hold: some of the labels of the name, in order from
    the first, and then the root label or a two-octet pointer. *)
Lemma dns_d_push_name ind fuel (P : dns_packet) ls anchored P' :
  packet_ok P -> size P <= 65535 ->
  ls <> [] -> Forall label_ok ls ->
  Z.of_nat (length (wire ls)) + 2 < 18446744073709551616 ->
  dns_d_push ind fuel P (presentation ls anchored)
             (Z.of_nat (length (presentation ls anchored))) = Some (0, P') ->
  exists k t,
    (k <= length ls)%nat /\ ends_name t /\ ((k < length ls)%nat \/ t = [0])
    /\ p_end P' = p_end P + Z.of_nat (length (wire (take k ls))) + Z.of_nat (length t)
    /\ p_end P' <= size P
    /\ occurs (data P') (p_end P) (wire (take k ls) ++ t).
Proof.
  intros Hok H16 Hne Hls Hbound H. pose proof Hok as (Hend & H64 & Hdata).
  unfold dns_d_push in H. rewrite usize_small in H by lia.
  destruct (dns_d_comp _ _ _ _ _ _) as [[n dst']|] eqn:Hcomp; [|discriminate].
  pose proof (dns_d_comp_nonneg _ _ _ _ _ _ _ _ Hcomp) as Hn0.
  assert (Hname : n <= size P - p_end P ->
            exists k t,
              (k <= length ls)%nat /\ ends_name t
              /\ ((k < length ls)%nat \/ t = [0])
              /\ n = Z.of_nat (length (wire (take k ls))) + Z.of_nat (length t)
              /\ occurs dst' 0 (wire (take k ls) ++ t)).
  { intros Hn.
    apply (dns_d_comp_name P ls anchored (drop (Z.to_nat (p_end P)) (data P))
             (size P - p_end P) fuel n dst' Hne Hls Hbound);
      [lia|rewrite length_drop; lia|exact Hcomp|exact Hn]. }
  assert (Hpos : forall t, ends_name t -> 1 <= Z.of_nat (length t))
    by (intros t [->|(hi & lo & -> & _)]; cbn [length]; lia).
  destruct (Z.eqb_spec n 0) as [->|Hnz].
  { destruct (Hname ltac:(lia)) as (k & t & _ & Ht & _ & Hn & _).
    specialize (Hpos t Ht). lia. }
  destruct (Z.gtb_spec n (size P - p_end P)); [discriminate|].
  destruct (Hname ltac:(lia)) as (k & t & Hk & Ht & Hkt & Hn & Hocc).
  simplify_eq. exists k, t. cbn [p_end set_end dns_p_dictadd set_dict set_data data].
  rewrite usize_small by lia.
  split; [assumption|]. split; [assumption|]. split; [assumption|].
  split; [lia|]. split; [lia|].
  pose proof (occurs_app_r (take (Z.to_nat (p_end P)) (data P)) dst' 0 _ Hocc
                ltac:(lia)) as Hocc'.
  rewrite length_take, Z.add_0_r in Hocc'.
  replace (Z.of_nat (Z.to_nat (p_end P) `min` length (data P))) with (p_end P)
    in Hocc' by lia.
  exact Hocc'.
Qed.

(** A name of one or more labels, each of 1 to 63 octets other than the
    dot, given with or without the dot at its end: once [dns_d_push] has
    appended it, it is spanned exactly by [dns_d_skip], whatever the packet
    and its dictionary held before.  Skipping from the old end of the
    packet gives the new end, which lies beyond the old one by at most the
    uncompressed length of the name; and what was appended is some of the
    labels of the name, in order from the first, and then the root label or
    a two-octet pointer. *)
Theorem dns_d_push_skip (indeterminate : Z) (fuel : nat) (P : dns_packet)
    (ls : list (list Z)) (anchored : bool) (P' : dns_packet) :
  packet_ok P -> size P <= 65535 ->
  ls <> [] -> Forall label_ok ls ->
  Z.of_nat (length (wire ls)) + 2 < 18446744073709551616 ->
  dns_d_push indeterminate fuel P (presentation ls anchored)
             (Z.of_nat (length (presentation ls anchored))) = Some (0, P') ->
  dns_d_skip (p_end P) P' = Some (p_end P')
  /\ p_end P < p_end P' <= p_end P + Z.of_nat (length (wire ls)) + 1
  /\ exists k t,
       (k <= length ls)%nat /\ ends_name t
       /\ p_end P' = p_end P + Z.of_nat (length (wire (take k ls)))
                     + Z.of_nat (length t)
       /\ occurs (data P') (p_end P) (wire (take k ls) ++ t).
Proof.
  intros Hok H16 Hne Hls Hbound H. pose proof Hok as (Hend & H64 & Hdata).
  destruct (dns_d_push_name _ _ _ _ _ _ Hok H16 Hne Hls Hbound H)
    as (k & t & Hk & Ht & Hkt & Hend' & Hsize & Hocc).
  assert (Hlsk : Forall label_ok (take k ls)) by now apply Forall_take.
  pose proof (length_wire_ge (take k ls) Hlsk) as Hlen.
  split; [|split].
  - unfold dns_d_skip.
    rewrite (dns_d_skip_loop_wire P' t Ht ltac:(lia) (take k ls)); try assumption;
      try lia. now rewrite Hend'.
  - assert (Hsplit : (length (wire ls)
                      = length (wire (take k ls)) + length (wire (drop k ls)))%nat)
      by (rewrite <- length_app, <- wire_app; now rewrite take_drop).
    destruct Ht as [->|(hi & lo & -> & Hptr)]; cbn [length] in *.
    + lia.
    + destruct Hkt as [Hlt|]; [|discriminate].
      pose proof (length_wire_drop_pos ls k Hls Hlt). lia.
  - exists k, t. auto.
Qed.

(** ["b.a"] after ["a."]: the label ["b"] and a pointer to offset 12. *)
Lemma dns_d_push_skip_witness :
  exists P',
    dns_d_push 0 8 answer_packet_64 (presentation [octets "b"; octets "a"] false)
               (Z.of_nat (length (presentation [octets "b"; octets "a"] false)))
    = Some (0, P')
    /\ slice (data P') (p_end answer_packet_64) 4 = [1; 98; 192; 12]
    /\ dns_d_skip (p_end answer_packet_64) P' = Some (p_end P')
    /\ p_end answer_packet_64 < p_end P'
       <= p_end answer_packet_64
          + Z.of_nat (length (wire [octets "b"; octets "a"])) + 1
    /\ exists k t,
         (k <= length [octets "b"; octets "a"])%nat /\ ends_name t
         /\ p_end P' = p_end answer_packet_64
                       + Z.of_nat (length (wire (take k [octets "b"; octets "a"])))
                       + Z.of_nat (length t)
         /\ occurs (data P') (p_end answer_packet_64)
                   (wire (take k [octets "b"; octets "a"]) ++ t).
Proof.
  eexists. split; [vm_compute; reflexivity|]. split; [vm_compute; reflexivity|].
  apply (dns_d_push_skip 0 8 answer_packet_64 [octets "b"; octets "a"] false).
  - unfold packet_ok. repeat split; vm_compute; congruence.
  - vm_compute. congruence.
  - discriminate.
  - repeat constructor; cbn; try lia; discriminate.
  - vm_compute. reflexivity.
  - vm_compute. reflexivity.
Defined.
(** ** Records appended and read back *)

(** Removes the wrap-around of the [size_t] sums that do not overflow,
    innermost first. *)
Ltac usize_simpl :=
  repeat match goal with
  | |- context [usize ?x] =>
    lazymatch x with
    | context [usize _] => fail
    | _ => rewrite (usize_small x) by lia
    end
  end.

Lemma testbit_127 i : Z.testbit 127 i = (0 <=? i) && (i <? 7).
Proof.
  destruct (Z.leb_spec 0 i).
  - change 127 with (Z.ones 7). now rewrite Z.testbit_ones_nonneg by lia.
  - now rewrite Z.testbit_neg_r by lia.
Qed.

Lemma testbit_byte7 w k n :
  0 <= k -> 0 <= n ->
  Z.testbit (Z.shiftl (Z.land 127 (Z.land 127 (Z.shiftr w k))) k) n
  = (k <=? n) && (n <? k + 7) && Z.testbit w n.
Proof.
  intros Hk Hn. rewrite Z.shiftl_spec by lia.
  destruct (Z.leb_spec k n).
  - rewrite !Z.land_spec, testbit_127, Z.shiftr_spec by lia.
    replace (n - k + k) with n by lia.
    destruct (Z.leb_spec 0 (n - k)); [|lia].
    destruct (Z.ltb_spec (n - k) 7); destruct (Z.ltb_spec n (k + 7)); try lia;
      cbn [andb]; try reflexivity; now destruct (Z.testbit w n).
  - now rewrite Z.testbit_neg_r by lia.
Qed.

Lemma testbit_mod_pow2 w k n :
  0 <= k -> 0 <= n -> Z.testbit (w mod 2 ^ k) n = (n <? k) && Z.testbit w n.
Proof.
  intros Hk Hn. destruct (Z.ltb_spec n k).
  - now rewrite Z.mod_pow2_bits_low by lia.
  - now rewrite Z.mod_pow2_bits_high by lia.
Qed.

Lemma join16 w :
  Z.lor (Z.shiftl (Z.land 255 (Z.land 255 (Z.shiftr w 8))) 8)
        (Z.shiftl (Z.land 255 (Z.land 255 (Z.shiftr w 0))) 0) = w mod 65536.
Proof.
  apply Z.bits_inj'. intros n Hn. change 65536 with (2 ^ 16).
  rewrite Z.lor_spec, !testbit_byte, testbit_mod_pow2 by lia.
  destruct (Z.leb_spec 8 n); destruct (Z.ltb_spec n (8 + 8));
    destruct (Z.leb_spec 0 n); destruct (Z.ltb_spec n (0 + 8));
    destruct (Z.ltb_spec n 16); try lia; cbn [andb orb];
    rewrite ?orb_false_r; reflexivity.
Qed.

Lemma join31 w :
  Z.lor (Z.lor (Z.lor
    (Z.shiftl (Z.land 127 (Z.land 127 (Z.shiftr w 24))) 24)
    (Z.shiftl (Z.land 255 (Z.land 255 (Z.shiftr w 16))) 16))
    (Z.shiftl (Z.land 255 (Z.land 255 (Z.shiftr w 8))) 8))
    (Z.shiftl (Z.land 255 (Z.land 255 (Z.shiftr w 0))) 0) = w mod 2147483648.
Proof.
  apply Z.bits_inj'. intros n Hn. change 2147483648 with (2 ^ 31).
  rewrite !Z.lor_spec, testbit_byte7, !testbit_byte, testbit_mod_pow2 by lia.
  destruct (Z.leb_spec 24 n); destruct (Z.ltb_spec n (24 + 7));
    destruct (Z.leb_spec 16 n); destruct (Z.ltb_spec n (16 + 8));
    destruct (Z.leb_spec 8 n); destruct (Z.ltb_spec n (8 + 8));
    destruct (Z.leb_spec 0 n); destruct (Z.ltb_spec n (0 + 8));
    destruct (Z.ltb_spec n 31); try lia; cbn [andb orb];
    rewrite ?orb_false_r; reflexivity.
Qed.

Lemma byte_at_frame P Q j :
  frame P Q -> 0 <= j < p_end P -> byte_at (data Q) j = byte_at (data P) j.
Proof.
  intros (_ & _ & Htake) Hj. unfold byte_at.
  rewrite <- (lookup_take_lt (data Q) (Z.to_nat (p_end P))) by lia.
  rewrite Htake. now rewrite lookup_take_lt by lia.
Qed.

Lemma occurs_frame P Q q w :
  frame P Q -> 0 <= q -> q + Z.of_nat (length w) <= p_end P ->
  occurs (data P) q w -> occurs (data Q) q w.
Proof.
  intros (_ & _ & Htake) Hq Hend Hocc.
  apply (proj2 (occurs_lookup _ q _ Hq)). intros i x Hi.
  pose proof (lookup_lt_Some _ _ _ Hi) as Hlt.
  rewrite <- (lookup_take_lt (data Q) (Z.to_nat (p_end P))) by lia.
  rewrite Htake, lookup_take_lt by lia.
  exact (proj1 (occurs_lookup _ q _ Hq) Hocc i x Hi).
Qed.

Lemma be16_frame P Q q :
  frame P Q -> 0 <= q -> q + 2 <= p_end P ->
  be16 (data Q) q = be16 (data P) q.
Proof.
  intros Hf Hq Hend. unfold be16. now rewrite !(byte_at_frame P Q) by (assumption || lia).
Qed.

Lemma be16_store2 d q hi lo :
  0 <= q -> q + 1 < Z.of_nat (length d) ->
  be16 (store (store d q hi) (q + 1) lo) q
  = Z.lor (Z.shiftl (Z.land 255 hi) 8) (Z.shiftl (Z.land 255 lo) 0).
Proof.
  intros Hq Hlen. unfold be16, byte_at. rewrite Z.add_0_r.
  rewrite store_lookup_eq by (rewrite length_store; lia).
  rewrite store_lookup_ne by lia. now rewrite store_lookup_eq by lia.
Qed.

Lemma be16_occurs d q hi lo rest :
  0 <= q -> occurs d q (hi :: lo :: rest) ->
  be16 d q = Z.lor (Z.shiftl (Z.land 255 hi) 8) (Z.shiftl (Z.land 255 lo) 0).
Proof.
  intros Hq Hocc. apply occurs_cons in Hocc; [|lia]. destruct Hocc as (H0 & Hocc).
  apply occurs_cons in Hocc; [|lia]. destruct Hocc as (H1 & _).
  unfold be16. now rewrite Z.add_0_r, H0, H1.
Qed.

Lemma be16_store16 d q w :
  0 <= q -> q + 1 < Z.of_nat (length d) -> 0 <= w < 65536 ->
  be16 (store (store d q (Z.land 255 (Z.shiftr w 8))) (q + 1)
              (Z.land 255 (Z.shiftr w 0))) q = w.
Proof.
  intros Hq Hlen Hw. rewrite be16_store2, join16 by assumption.
  apply Z.mod_small. lia.
Qed.

Lemma appended_push_octet2 P a b :
  packet_ok P -> p_end P + 2 <= size P ->
  appended P (push_octet (push_octet P a) b)
  /\ p_end (push_octet (push_octet P a) b) = p_end P + 2.
Proof.
  intros (Hend & H64 & Hdata) Hroom.
  unfold appended, frame, packet_ok, push_octet. cbn [size data p_end dict].
  rewrite (usize_small (p_end P + 1)) by lia.
  rewrite (usize_small (p_end P + 1 + 1)) by lia.
  rewrite !length_store, !take_store by lia. repeat split; lia.
Qed.

Lemma appended_push_octet4 P a b c d :
  packet_ok P -> p_end P + 4 <= size P ->
  appended P (push_octet (push_octet (push_octet (push_octet P a) b) c) d)
  /\ p_end (push_octet (push_octet (push_octet (push_octet P a) b) c) d)
     = p_end P + 4.
Proof.
  intros Hok Hroom.
  destruct (appended_push_octet2 P a b Hok ltac:(lia)) as (Ha & He).
  pose proof Ha as (Hf & _ & Hok2). pose proof Hf as (Hs & _).
  destruct (appended_push_octet2 _ c d Hok2 ltac:(lia)) as (Hb & He').
  split; [|lia]. eapply appended_trans; [|exact Ha|exact Hb].
  destruct Hok; lia.
Qed.

Lemma be16_push_octet2 P hi lo Q :
  packet_ok P -> p_end P + 2 <= size P ->
  frame (push_octet (push_octet P hi) lo) Q ->
  be16 (data Q) (p_end P)
  = Z.lor (Z.shiftl (Z.land 255 hi) 8) (Z.shiftl (Z.land 255 lo) 0).
Proof.
  intros Hok Hroom Hf. pose proof Hok as (Hend & H64 & Hdata).
  destruct (appended_push_octet2 P hi lo Hok Hroom) as (_ & He).
  rewrite (be16_frame _ Q (p_end P) Hf) by lia.
  unfold push_octet. cbn [data p_end]. rewrite (usize_small (p_end P + 1)) by lia.
  apply be16_store2; lia.
Qed.

(** The [rdlength] that the record data routines write is the number of
    octets they append after it.  For a text this needs 1 to 255 octets:
    an empty text gets one octet too few. *)
Lemma dns_any_push_rdlength ind fuel P any type P' :
  packet_ok P -> size P <= 65535 ->
  0 <= rdata_len any < 18446744073709551614 ->
  (type = DNS_T_TXT ->
   1 <= rdata_len any <= 255 /\ rdata_len any = Z.of_nat (length (rdata_data any))) ->
  dns_any_push ind fuel P any type = Some (0, P') ->
  p_end P + 2 <= p_end P'
  /\ be16 (data P') (p_end P) = p_end P' - p_end P - 2.
Proof.
  intros Hok H16 Hrd Htxt H. pose proof Hok as (Hend & H64 & Hdata).
  unfold dns_any_push in H.
  destruct (Z.eqb_spec type DNS_T_A) as [_|_].
  { unfold dns_a_push in H. rewrite usize_small in H by lia.
    destruct (Z.ltb_spec (size P - p_end P) 6); [discriminate|].
    injection H as <-.
    destruct (appended_push_octet2 P 0 4 Hok ltac:(lia)) as ((_ & _ & Hok2) & He2).
    set (P2 := push_octet (push_octet P 0) 4) in *.
    destruct (appended_push_octet4 P2 (Z.land 255 (Z.shiftr (a_addr any) 24))
                (Z.land 255 (Z.shiftr (a_addr any) 16))
                (Z.land 255 (Z.shiftr (a_addr any) 8))
                (Z.land 255 (Z.shiftr (a_addr any) 0)) Hok2
                ltac:(change (size P2) with (size P); lia)) as ((Hf & _) & He6).
    split; [lia|]. rewrite (be16_push_octet2 P 0 4 _ Hok ltac:(lia) Hf).
    rewrite He6, He2.
    change (Z.lor (Z.shiftl (Z.land 255 0) 8) (Z.shiftl (Z.land 255 4) 0)) with 4.
    lia. }
  destruct (Z.eqb_spec type DNS_T_AAAA) as [_|_].
  { unfold dns_aaaa_push in H. rewrite usize_small in H by lia.
    destruct (Z.ltb_spec (size P - p_end P) (2 + 16)); [discriminate|].
    injection H as <-.
    match goal with |- _ /\ be16 (data ?Q) _ = _ => set (Q' := Q) end.
    assert (HeQ : p_end Q' = p_end P + 18).
    { unfold Q', push_octet. cbn [p_end set_end set_data].
      rewrite (usize_small (p_end P + 1)) by lia.
      rewrite (usize_small (p_end P + 1 + 1)) by lia.
      rewrite (usize_small (p_end P + 1 + 1 + 16)) by lia. lia. }
    assert (Hf : frame (push_octet (push_octet P 0) 16) Q').
    { unfold Q', frame, push_octet. cbn [size data p_end set_end set_data].
      rewrite length_memcpy, take_memcpy by lia. repeat split. }
    rewrite HeQ. split; [lia|].
    rewrite (be16_push_octet2 P 0 16 Q' Hok ltac:(lia) Hf).
    change (Z.lor (Z.shiftl (Z.land 255 0) 8) (Z.shiftl (Z.land 255 16) 0)) with 16.
    lia. }
  assert (Hname : forall P0 host e Pn,
            packet_ok P0 -> size P0 = size P -> p_end P + 2 <= p_end P0 ->
            dns_d_push ind fuel P0 host (Z.of_nat (length host)) = Some (e, Pn) ->
            (if negb (e =? 0) then Some (e, set_end Pn (p_end P))
             else Some (0, backfill Pn (p_end P))) = Some (0, P') ->
            p_end P + 2 <= p_end P'
            /\ be16 (data P') (p_end P) = p_end P' - p_end P - 2).
  { intros P0 host e Pn Hok0 Hs0 He0 Hpush Hres.
    apply dns_d_push_appended in Hpush; [|assumption].
    destruct Hpush as (((Hsz & Hlen & _) & Hle & Hokn) & _).
    destruct (Z.eqb_spec e 0); cbn [negb] in Hres; [|congruence].
    injection Hres as <-. unfold backfill. cbn [p_end set_data data].
    destruct Hokn as (Hendn & ? & Hdatan).
    split; [lia|]. rewrite !Z.add_0_r.
    rewrite (usize_small (p_end Pn - p_end P)) by lia.
    rewrite (usize_small (p_end Pn - p_end P - 2)) by lia.
    apply be16_store16; lia. }
  destruct (Z.eqb_spec type DNS_T_MX) as [_|_].
  { unfold dns_mx_push in H. rewrite usize_small in H by lia.
    destruct (Z.ltb_spec (size P - p_end P) 5); [discriminate|].
    destruct (dns_d_push _ _ _ _ _) as [[e Pn]|] eqn:Hpush; [|discriminate].
    eapply Hname; [| | |exact Hpush|exact H].
    - unfold packet_ok, push_octet, set_end. cbn [p_end data size dict].
      usize_simpl. rewrite !length_store. lia.
    - reflexivity.
    - unfold push_octet, set_end. cbn [p_end data size dict].
      usize_simpl. lia. }
  assert (Hns : dns_ns_push ind fuel P any = Some (0, P') ->
            p_end P + 2 <= p_end P'
            /\ be16 (data P') (p_end P) = p_end P' - p_end P - 2).
  { intros Hpush'. unfold dns_ns_push in Hpush'. rewrite usize_small in Hpush' by lia.
    destruct (Z.ltb_spec (size P - p_end P) 3); [discriminate|].
    destruct (dns_d_push _ _ _ _ _) as [[e Pn]|] eqn:Hpush; [|discriminate].
    eapply Hname; [| | |exact Hpush|exact Hpush'].
    - unfold packet_ok, set_end. cbn [p_end data size dict].
      usize_simpl. lia.
    - reflexivity.
    - unfold set_end. cbn [p_end]. usize_simpl. lia. }
  destruct (Z.eqb_spec type DNS_T_NS) as [_|_]; [now apply Hns|].
  destruct (Z.eqb_spec type DNS_T_CNAME) as [_|_]; [now apply Hns|].
  destruct (Z.eqb_spec type DNS_T_TXT) as [Et|].
  { destruct (Htxt Et) as (Hlen & Hd).
    destruct (Z.le_gt_cases (rdata_len any + 3) (size P - p_end P)) as [Hroom|Hroom].
    - rewrite (dns_txt_push_short P any Hok Hlen Hd Hroom) in H. injection H as <-.
      cbn [p_end set_end set_data data]. split; [lia|].
      cbn [app]. rewrite (be16_occurs _ _ ((rdata_len any + 1) / 256)
                            ((rdata_len any + 1) mod 256)
                            (rdata_len any :: rdata_data any)).
      + rewrite !land255_small.
        * rewrite Z.shiftl_0_r, lor_shiftl_add by
            (try lia; change (2 ^ 8) with 256; apply Z.mod_pos_bound; lia).
          change (2 ^ 8) with 256.
          pose proof (Z.div_mod (rdata_len any + 1) 256 ltac:(lia)). lia.
        * pose proof (Z.mod_pos_bound (rdata_len any + 1) 256 ltac:(lia)). lia.
        * split; [apply Z.div_pos; lia|].
          assert ((rdata_len any + 1) / 256 < 256)
            by (apply Z.div_lt_upper_bound; lia). lia.
      + lia.
      + apply occurs_memcpy; [lia|]. cbn [length]. lia.
    - exfalso. unfold dns_txt_push in H.
      rewrite (usize_small (size P - p_end P)) in H by lia.
      destruct (Z.ltb_spec (size P - p_end P) 2); [discriminate|].
      rewrite (usize_small (p_end P + 2)) in H by lia.
      cbn [dns_txt_push_loop] in H.
      destruct (Z.ltb_spec 0 (rdata_len any)); [|lia].
      destruct (Z.geb_spec (p_end P + 2) (size P)); [discriminate|].
      rewrite Z.sub_0_r, (usize_small (rdata_len any)),
        (land255_small (rdata_len any)) in H by lia.
      rewrite (usize_small (p_end P + 2 + 1)), (usize_small (size P - _)) in H by lia.
      destruct (Z.ltb_spec (size P - (p_end P + 2 + 1)) (rdata_len any));
        [discriminate|lia]. }
  rewrite (usize_small (size P - p_end P)) in H by lia.
  rewrite (usize_small (rdata_len any + 2)) in H by lia.
  destruct (Z.ltb_spec (size P - p_end P) (rdata_len any + 2)); [discriminate|].
  injection H as <-.
  match goal with |- _ /\ be16 (data ?Q) _ = _ => set (Q' := Q) end.
  assert (HeQ : p_end Q' = p_end P + 2 + rdata_len any).
  { unfold Q', push_octet. cbn [p_end set_end set_data]. usize_simpl. lia. }
  assert (Hf : frame (push_octet (push_octet P (Z.land 255 (Z.shiftr (rdata_len any) 8)))
                                 (Z.land 255 (Z.shiftr (rdata_len any) 0))) Q').
  { unfold Q', frame, push_octet. cbn [size data p_end set_end set_data].
    rewrite length_memcpy, take_memcpy by lia. repeat split. }
  rewrite HeQ. split; [lia|].
  rewrite (be16_push_octet2 P _ _ Q' Hok ltac:(lia) Hf), join16.
  rewrite Z.mod_small by lia. lia.
Qed.

Lemma bytes_push_octet4 P a b c d Q :
  packet_ok P -> p_end P + 4 <= size P ->
  frame (push_octet (push_octet (push_octet (push_octet P a) b) c) d) Q ->
  byte_at (data Q) (p_end P + 0) = a /\ byte_at (data Q) (p_end P + 1) = b
  /\ byte_at (data Q) (p_end P + 2) = c /\ byte_at (data Q) (p_end P + 3) = d.
Proof.
  intros Hok Hroom Hf. pose proof Hok as (Hend & H64 & Hdata).
  destruct (appended_push_octet4 P a b c d Hok Hroom) as (_ & He).
  rewrite !(byte_at_frame _ Q _ Hf) by lia.
  unfold push_octet, byte_at. cbn [data p_end]. usize_simpl.
  rewrite Z.add_0_r.
  repeat split.
  - rewrite !store_lookup_ne by lia. now rewrite store_lookup_eq by lia.
  - rewrite !store_lookup_ne by lia.
    now rewrite store_lookup_eq by (rewrite !length_store; lia).
  - replace (p_end P + 2) with (p_end P + 1 + 1) by lia.
    rewrite store_lookup_ne by lia.
    now rewrite store_lookup_eq by (rewrite !length_store; lia).
  - replace (p_end P + 3) with (p_end P + 1 + 1 + 1) by lia.
    now rewrite store_lookup_eq by (rewrite !length_store; lia).
Qed.

(** The header counts lie below offset 12: changing one leaves the records
    as they are. *)
Lemma lookup_count_incr P off i :
  In off [qdcount_off; ancount_off; nscount_off; arcount_off] ->
  (12 <= i)%nat -> data (count_incr P off) !! i = data P !! i.
Proof.
  intros Hoff Hi. unfold count_incr, htons_at. cbn [set_data data].
  cbn [In] in Hoff.
  unfold qdcount_off, ancount_off, nscount_off, arcount_off in Hoff.
  rewrite !store_lookup_ne by lia. reflexivity.
Qed.

(** What [dns_rr_parse] reads from a record that is not the first one,
    once the name has been skipped. *)
Lemma dns_rr_parse_fields (P : dns_packet) fuel rr0 q n :
  p_end P <= 65535 -> 0 <= q -> q <> 12 -> 1 <= n ->
  dns_d_skip_loop fuel q P = Some (q + n) ->
  q + n + 10 + be16 (data P) (q + n + 8) <= p_end P ->
  dns_rr_parse fuel rr0 q P
  = Some (0, {| rr_section := rr_section rr0; dn_p := q; dn_len := n;
                rr_type := be16 (data P) (q + n);
                rr_class := be16 (data P) (q + n + 2);
                rr_ttl :=
                  Z.lor (Z.lor (Z.lor
                    (Z.shiftl (Z.land 127 (byte_at (data P) (q + n + 4 + 0))) 24)
                    (Z.shiftl (Z.land 255 (byte_at (data P) (q + n + 4 + 1))) 16))
                    (Z.shiftl (Z.land 255 (byte_at (data P) (q + n + 4 + 2))) 8))
                    (Z.shiftl (Z.land 255 (byte_at (data P) (q + n + 4 + 3))) 0);
                rd_p := q + n + 10;
                rd_len := be16 (data P) (q + n + 8) |}).
Proof.
  intros H16 Hq H12 Hn Hskip Hend.
  pose proof (be16_range (data P) (q + n + 8)) as Hrd.
  unfold dns_rr_parse. destruct (Z.geb_spec q (p_end P)); [lia|].
  rewrite Hskip. rewrite (usize_small (p_end P - (q + n))) by lia.
  destruct (Z.ltb_spec (p_end P - (q + n)) 4); [lia|].
  replace (q + n - q) with n by lia.
  rewrite (u16_small n), (u16_small (q + n + 4)) by lia.
  destruct (Z.eqb_spec q 12); [contradiction|].
  rewrite (usize_small (p_end P - (q + n + 4))) by lia.
  destruct (Z.ltb_spec (p_end P - (q + n + 4)) 4); [lia|].
  rewrite (u16_small (q + n + 4 + 4)) by lia.
  rewrite (usize_small (p_end P - (q + n + 4 + 4))) by lia.
  destruct (Z.ltb_spec (p_end P - (q + n + 4 + 4)) 2); [lia|].
  rewrite (u16_small (q + n + 4 + 4 + 2)) by lia.
  rewrite (usize_small (p_end P - (q + n + 4 + 4 + 2))) by lia.
  cbn [rd_len rr_section dn_p dn_len].
  replace (q + n + 4 + 4) with (q + n + 8) by lia.
  destruct (Z.ltb_spec (p_end P - (q + n + 8 + 2)) (be16 (data P) (q + n + 8)));
    [lia|].
  do 3 f_equal. lia.
Qed.

(** A record appended by a successful [dns_p_push] to a section other than
    the question section, after at least one record, is read back by
    [dns_rr_parse] from the old end of the packet: the parse returns 0,
    with the type and class modulo 2^16, the TTL modulo 2^31, and record
    data that ends exactly at the new end of the packet, as does the record
    by [dns_rr_len].  This holds whatever the packet and its dictionary
    held before, for every kind of record data; a text has 1 to 255
    octets. *)
Theorem dns_p_push_parse_roundtrip
    (indeterminate : Z) (fuel : nat) (P : dns_packet) (section : Z)
    (ls : list (list Z)) (anchored : bool) (type class ttl : Z) (any : dns_any)
    (P' : dns_packet) (fuel' : nat) (rr0 : dns_rr) :
  packet_ok P -> size P <= 65535 -> 12 < p_end P ->
  ls <> [] -> Forall label_ok ls ->
  Z.of_nat (length (wire ls)) + 2 < 18446744073709551616 ->
  section <> DNS_S_QD ->
  0 <= rdata_len any < 18446744073709551614 ->
  (type = DNS_T_TXT ->
   1 <= rdata_len any <= 255 /\ rdata_len any = Z.of_nat (length (rdata_data any))) ->
  dns_p_push indeterminate fuel P section (presentation ls anchored)
             (Z.of_nat (length (presentation ls anchored))) type class ttl any
  = Some (0, P') ->
  (Z.to_nat (p_end P') < fuel')%nat ->
  exists rr,
    dns_rr_parse fuel' rr0 (p_end P) P' = Some (0, rr)
    /\ dn_p rr = p_end P
    /\ rr_type rr = type mod 65536 /\ rr_class rr = class mod 65536
    /\ rr_ttl rr = ttl mod 2147483648
    /\ rd_p rr + rd_len rr = p_end P'
    /\ p_end P + dns_rr_len rr = p_end P'.
Proof.
  intros Hok H16 H12 Hne Hls Hbound Hsec Hrd Htxt H Hfuel.
  pose proof Hok as (Hend & H64 & Hdata). unfold dns_p_push in H.
  destruct (dns_d_push _ _ _ _ _) as [[e1 P1]|] eqn:Hname; [|discriminate].
  destruct (Z.eqb_spec e1 0) as [->|]; cbn [negb] in H; [|congruence].
  destruct (dns_d_push_name _ _ _ _ _ _ Hok H16 Hne Hls Hbound Hname)
    as (k & t & Hk & Ht & _ & Hend1 & Hsize1 & Hocc1).
  apply dns_d_push_appended in Hname; [|assumption].
  destruct Hname as (Happ1 & _).
  pose proof Happ1 as ((Hs1 & _) & _ & Hok1).
  rewrite (usize_small (size P1 - p_end P1)) in H by lia.
  destruct (Z.ltb_spec (size P1 - p_end P1) 4); [congruence|].
  destruct (appended_push_octet2 P1 (Z.land 255 (Z.shiftr type 8))
              (Z.land 255 (Z.shiftr type 0)) Hok1 ltac:(lia))
    as (Happ1' & Hend1').
  set (P1' := push_octet (push_octet P1 _) _) in *.
  pose proof Happ1' as ((Hs1' & _) & _ & Hok1').
  destruct (appended_push_octet2 P1' (Z.land 255 (Z.shiftr class 8))
              (Z.land 255 (Z.shiftr class 0)) Hok1' ltac:(lia))
    as (Happ2 & Hend2).
  set (P2 := push_octet (push_octet P1' _) _) in *.
  pose proof Happ2 as ((Hs2 & _) & _ & Hok2).
  destruct (Z.eqb_spec section DNS_S_QD); [contradiction|].
  rewrite (usize_small (size P2 - p_end P2)) in H by lia.
  destruct (Z.ltb_spec (size P2 - p_end P2) 6); [congruence|].
  destruct (appended_push_octet4 P2 (Z.land 127 (Z.shiftr ttl 24))
              (Z.land 255 (Z.shiftr ttl 16)) (Z.land 255 (Z.shiftr ttl 8))
              (Z.land 255 (Z.shiftr ttl 0)) Hok2 ltac:(lia)) as (Happ3 & Hend3).
  set (P3 := push_octet (push_octet (push_octet (push_octet P2 _) _) _) _) in *.
  pose proof Happ3 as ((Hs3 & _) & _ & Hok3).
  destruct (dns_any_push _ _ _ _ _) as [[e4 P4]|] eqn:Hany; [|discriminate].
  destruct (Z.eqb_spec e4 0) as [->|]; cbn [negb] in H; [|congruence].
  destruct (dns_any_push_rdlength _ _ _ _ _ _ Hok3 ltac:(lia) Hrd Htxt Hany)
    as (Hend4 & Hrdlen).
  apply dns_any_push_appended in Hany; [|assumption..].
  destruct Hany as (Happ4 & _).
  pose proof Happ4 as ((Hs4 & Hl4 & _) & _ & Hok4).
  pose proof Hok4 as (Hend4' & _ & Hdata4).
  (* everything below the end of each stage is still there in [P4] *)
  assert (Hf3 : frame P3 P4) by apply Happ4.
  assert (Hf2 : frame P2 P4).
  { eapply frame_trans; [apply Happ3|exact Hf3|]. destruct Hok2; lia. }
  assert (Hf1' : frame P1' P4).
  { eapply frame_trans; [apply Happ2|exact Hf2|]. destruct Hok1'; lia. }
  assert (Hf1 : frame P1 P4).
  { eapply frame_trans; [apply Happ1'|exact Hf1'|]. destruct Hok1; lia. }
  assert (Hpos : 1 <= Z.of_nat (length t))
    by (destruct Ht as [->|(hi & lo & -> & _)]; cbn [length]; lia).
  set (nm := Z.of_nat (length (wire (take k ls))) + Z.of_nat (length t)) in *.
  assert (Hn : p_end P1 = p_end P + nm) by (unfold nm; lia).
  assert (Hocc4 : occurs (data P4) (p_end P) (wire (take k ls) ++ t)).
  { apply (occurs_frame P1 P4); [exact Hf1|lia| |exact Hocc1].
    rewrite length_app. lia. }
  assert (Htype : be16 (data P4) (p_end P + nm) = type mod 65536).
  { rewrite <- Hn.
    rewrite (be16_push_octet2 P1 _ _ P4 Hok1 ltac:(lia) Hf1'). apply join16. }
  assert (Hclass : be16 (data P4) (p_end P + nm + 2) = class mod 65536).
  { replace (p_end P + nm + 2) with (p_end P1') by lia.
    rewrite (be16_push_octet2 P1' _ _ P4 Hok1' ltac:(lia) Hf2). apply join16. }
  destruct (bytes_push_octet4 P2 _ _ _ _ P4 Hok2 ltac:(lia) Hf3)
    as (Hb0 & Hb1 & Hb2 & Hb3).
  replace (p_end P2) with (p_end P + nm + 4) in Hb0, Hb1, Hb2, Hb3 by lia.
  replace (p_end P3) with (p_end P + nm + 8) in Hrdlen, Hend4 by lia.
  (* the header count that was incremented lies below the records *)
  assert (Hsame : p_end P' = p_end P4
                  /\ forall i, (12 <= i)%nat -> data P' !! i = data P4 !! i).
  { assert (Hincr : forall off,
              In off [qdcount_off; ancount_off; nscount_off; arcount_off] ->
              p_end (count_incr P4 off) = p_end P4
              /\ forall i, (12 <= i)%nat ->
                   data (count_incr P4 off) !! i = data P4 !! i).
    { intros off Hoff. split; [reflexivity|]. intros i Hi.
      now apply lookup_count_incr. }
    injection H as <-.
    repeat case_if; first [apply Hincr; cbn [In]; tauto | now split]. }
  destruct Hsame as (Hend' & Hsame).
  assert (Hbyte : forall j, 12 <= j -> byte_at (data P') j = byte_at (data P4) j).
  { intros j Hj. unfold byte_at. now rewrite Hsame by lia. }
  assert (Hbe : forall j, 12 <= j -> be16 (data P') j = be16 (data P4) j).
  { intros j Hj. unfold be16. now rewrite !Hbyte by lia. }
  assert (Hocc' : occurs (data P') (p_end P) (wire (take k ls) ++ t)).
  { apply (proj2 (occurs_lookup _ (p_end P) _ ltac:(lia))). intros i x Hi.
    rewrite Hsame by lia.
    exact (proj1 (occurs_lookup _ (p_end P) _ ltac:(lia)) Hocc4 i x Hi). }
  assert (Hlsk : Forall label_ok (take k ls)) by now apply Forall_take.
  pose proof (length_wire_ge (take k ls) Hlsk) as Hlenk.
  assert (Hskip : dns_d_skip_loop fuel' (p_end P) P' = Some (p_end P + nm)).
  { rewrite (dns_d_skip_loop_wire P' t Ht ltac:(lia) (take k ls)); try assumption;
      try lia. unfold nm. f_equal. lia. }
  eexists. split.
  { apply (dns_rr_parse_fields P' fuel' rr0 (p_end P) nm); try lia; [assumption|].
    rewrite Hbe, Hrdlen by lia. lia. }
  cbn [dn_p rr_type rr_class rr_ttl rd_p rd_len]. unfold dns_rr_len.
  cbn [dn_p dn_len rd_len].
  destruct (Z.eqb_spec (p_end P) 12); [lia|].
  rewrite !Hbe, !Hbyte, Htype, Hclass, Hrdlen, Hb0, Hb1, Hb2, Hb3, join31 by lia.
  rewrite u16_small by lia.
  repeat split; lia.
Qed.

(** An address record for ["b.a"] appended to [answer_packet_64]. *)
Lemma dns_p_push_parse_roundtrip_witness :
  let ls := [octets "b"; octets "a"] in
  let any := set_a any_blank 3221225985 in
  exists P',
    dns_p_push 0 8 answer_packet_64 DNS_S_AN (presentation ls false)
               (Z.of_nat (length (presentation ls false))) DNS_T_A DNS_C_IN
               2147483653 any = Some (0, P')
    /\ exists rr,
         dns_rr_parse 64 rr_blank (p_end answer_packet_64) P' = Some (0, rr)
         /\ dn_p rr = p_end answer_packet_64
         /\ rr_type rr = DNS_T_A mod 65536 /\ rr_class rr = DNS_C_IN mod 65536
         /\ rr_ttl rr = 2147483653 mod 2147483648
         /\ rd_p rr + rd_len rr = p_end P'
         /\ p_end answer_packet_64 + dns_rr_len rr = p_end P'.
Proof.
  intros ls any. eexists. split; [vm_compute; reflexivity|].
  apply (dns_p_push_parse_roundtrip 0 8 answer_packet_64 DNS_S_AN ls false
           DNS_T_A DNS_C_IN 2147483653 any).
  - unfold packet_ok. repeat split; vm_compute; congruence.
  - vm_compute. congruence.
  - vm_compute. reflexivity.
  - discriminate.
  - repeat constructor; cbn; try lia; discriminate.
  - vm_compute. reflexivity.
  - discriminate.
  - split; vm_compute; congruence.
  - intros E. discriminate E.
  - vm_compute. reflexivity.
  - vm_compute. lia.
Defined.

(** The stages of a successful [dns_p_push] for the question section: the
    name, then type and class, then the question count. *)
Lemma dns_p_push_question ind fuel P ls anchored type class ttl any P' :
  packet_ok P -> size P <= 65535 -> 12 <= p_end P ->
  ls <> [] -> Forall label_ok ls ->
  Z.of_nat (length (wire ls)) + 2 < 18446744073709551616 ->
  dns_p_push ind fuel P DNS_S_QD (presentation ls anchored)
             (Z.of_nat (length (presentation ls anchored))) type class ttl any
  = Some (0, P') ->
  exists nm,
    1 <= nm /\ p_end P' = p_end P + nm + 4 /\ p_end P' <= size P
    /\ (forall fuel', (Z.to_nat (p_end P') < fuel')%nat ->
          dns_d_skip_loop fuel' (p_end P) P' = Some (p_end P + nm))
    /\ be16 (data P') (p_end P + nm) = type mod 65536
    /\ be16 (data P') (p_end P + nm + 2) = class mod 65536
    /\ dns_p_count P' DNS_S_QD = u16 (dns_p_count P DNS_S_QD + 1).
Proof.
  intros Hok H16 H12 Hne Hls Hbound H.
  pose proof Hok as (Hend & H64 & Hdata). unfold dns_p_push in H.
  destruct (dns_d_push _ _ _ _ _) as [[e1 P1]|] eqn:Hname; [|discriminate].
  destruct (Z.eqb_spec e1 0) as [->|]; cbn [negb] in H; [|congruence].
  destruct (dns_d_push_name _ _ _ _ _ _ Hok H16 Hne Hls Hbound Hname)
    as (k & t & Hk & Ht & _ & Hend1 & Hsize1 & Hocc1).
  apply dns_d_push_appended in Hname; [|assumption].
  destruct Hname as (Happ1 & _).
  pose proof Happ1 as ((Hs1 & _) & _ & Hok1).
  rewrite (usize_small (size P1 - p_end P1)) in H by lia.
  destruct (Z.ltb_spec (size P1 - p_end P1) 4); [congruence|].
  destruct (appended_push_octet2 P1 (Z.land 255 (Z.shiftr type 8))
              (Z.land 255 (Z.shiftr type 0)) Hok1 ltac:(lia))
    as (Happ1' & Hend1').
  set (P1' := push_octet (push_octet P1 _) _) in *.
  pose proof Happ1' as ((Hs1' & _) & _ & Hok1').
  destruct (appended_push_octet2 P1' (Z.land 255 (Z.shiftr class 8))
              (Z.land 255 (Z.shiftr class 0)) Hok1' ltac:(lia))
    as (Happ2 & Hend2).
  set (P2 := push_octet (push_octet P1' _) _) in *.
  pose proof Happ2 as ((Hs2 & _) & _ & Hok2).
  change (DNS_S_QD =? DNS_S_QD) with true in H. cbv iota in H.
  injection H as <-.
  assert (Hf1' : frame P1' P2) by apply Happ2.
  assert (Hf1 : frame P1 P2).
  { eapply frame_trans; [apply Happ1'|exact Hf1'|]. destruct Hok1; lia. }
  assert (Hpos : 1 <= Z.of_nat (length t))
    by (destruct Ht as [->|(hi & lo & -> & _)]; cbn [length]; lia).
  set (nm := Z.of_nat (length (wire (take k ls))) + Z.of_nat (length t)) in *.
  assert (Hn : p_end P1 = p_end P + nm) by (unfold nm; lia).
  assert (Hsame : forall i, (12 <= i)%nat ->
            data (count_incr P2 qdcount_off) !! i = data P2 !! i)
    by (intros i Hi; apply lookup_count_incr; [cbn [In]; tauto|assumption]).
  assert (Hbyte : forall j, 12 <= j ->
            byte_at (data (count_incr P2 qdcount_off)) j = byte_at (data P2) j).
  { intros j Hj. unfold byte_at. now rewrite Hsame by lia. }
  assert (Hbe : forall j, 12 <= j ->
            be16 (data (count_incr P2 qdcount_off)) j = be16 (data P2) j).
  { intros j Hj. unfold be16. now rewrite !Hbyte by lia. }
  exists nm. change (p_end (count_incr P2 qdcount_off)) with (p_end P2).
  split; [lia|]. split; [lia|]. split; [lia|]. split; [|split; [|split]].
  - intros fuel' Hfuel.
    assert (Hlsk : Forall label_ok (take k ls)) by now apply Forall_take.
    pose proof (length_wire_ge (take k ls) Hlsk) as Hlenk.
    assert (H16' : p_end (count_incr P2 qdcount_off) <= 65535)
      by (change (p_end (count_incr P2 qdcount_off)) with (p_end P2); lia).
    rewrite (dns_d_skip_loop_wire (count_incr P2 qdcount_off) t Ht H16' (take k ls));
      try assumption; try lia.
    + unfold nm. f_equal. lia.
    + change (p_end (count_incr P2 qdcount_off)) with (p_end P2). lia.
    + apply (proj2 (occurs_lookup _ (p_end P) _ ltac:(lia))). intros i x Hi.
      rewrite Hsame by lia.
      assert (Hocc2 : occurs (data P2) (p_end P) (wire (take k ls) ++ t)).
      { apply (occurs_frame P1 P2); [exact Hf1|lia| |exact Hocc1].
        rewrite length_app. lia. }
      exact (proj1 (occurs_lookup _ (p_end P) _ ltac:(lia)) Hocc2 i x Hi).
  - rewrite Hbe by lia. rewrite <- Hn.
    rewrite (be16_push_octet2 P1 _ _ P2 Hok1 ltac:(lia) Hf1'). apply join16.
  - rewrite Hbe by lia. replace (p_end P + nm + 2) with (p_end P1') by lia.
    rewrite (be16_push_octet2 P1' (Z.land 255 (Z.shiftr class 8))
               (Z.land 255 (Z.shiftr class 0)) P2 Hok1' ltac:(lia) (frame_refl P2)).
    apply join16.
  - rewrite dns_p_count_incr; [|destruct Hok2 as (? & ? & ?); lia|cbn [In]; tauto].
    f_equal. f_equal. apply dns_p_count_frame; [lia|].
    eapply frame_trans; [apply Happ1|exact Hf1|lia].
Qed.

(** The question appended to a packet that holds nothing but the header is
    read back by [dns_rr_parse] from offset 12: the parse returns 0, with
    the type and class modulo 2^16, no TTL and no record data, and
    [dns_rr_len] is the number of octets appended. *)
Theorem dns_p_push_question_roundtrip
    (indeterminate : Z) (fuel : nat) (P : dns_packet)
    (ls : list (list Z)) (anchored : bool) (type class ttl : Z) (any : dns_any)
    (P' : dns_packet) (fuel' : nat) (rr0 : dns_rr) :
  packet_ok P -> size P <= 65535 -> p_end P = 12 ->
  ls <> [] -> Forall label_ok ls ->
  Z.of_nat (length (wire ls)) + 2 < 18446744073709551616 ->
  dns_p_push indeterminate fuel P DNS_S_QD (presentation ls anchored)
             (Z.of_nat (length (presentation ls anchored))) type class ttl any
  = Some (0, P') ->
  (Z.to_nat (p_end P') < fuel')%nat ->
  exists rr,
    dns_rr_parse fuel' rr0 12 P' = Some (0, rr)
    /\ dn_p rr = 12
    /\ rr_type rr = type mod 65536 /\ rr_class rr = class mod 65536
    /\ rr_ttl rr = 0 /\ rd_len rr = 0
    /\ 12 + dns_rr_len rr = p_end P'.
Proof.
  intros Hok H16 H12 Hne Hls Hbound H Hfuel.
  destruct (dns_p_push_question _ _ _ _ _ _ _ _ _ _ Hok H16 ltac:(lia) Hne Hls
              Hbound H) as (nm & Hnm & Hend' & Hsize & Hskip & Htype & Hclass & _).
  rewrite H12 in *. specialize (Hskip fuel' Hfuel).
  unfold dns_rr_parse. destruct (Z.geb_spec 12 (p_end P')); [lia|].
  rewrite Hskip. rewrite (usize_small (p_end P' - (12 + nm))) by lia.
  destruct (Z.ltb_spec (p_end P' - (12 + nm)) 4); [lia|].
  change (12 =? 12) with true. cbv iota.
  eexists. split; [reflexivity|].
  cbn [dn_p rr_type rr_class rr_ttl rd_len dn_len]. unfold dns_rr_len.
  cbn [dn_p dn_len rd_len]. change (12 =? 12) with true. cbv iota.
  replace (12 + nm - 12) with nm by lia.
  rewrite (u16_small nm), u16_small by lia.
  rewrite Htype, Hclass. repeat split; lia.
Qed.

Lemma dns_p_push_question_roundtrip_witness :
  let ls := [octets "example"; octets "com"] in
  exists P',
    dns_p_push 0 8 (dns_p_init 64) DNS_S_QD (presentation ls true)
               (Z.of_nat (length (presentation ls true))) DNS_T_MX DNS_C_IN 0
               any_blank = Some (0, P')
    /\ exists rr,
         dns_rr_parse 64 rr_blank 12 P' = Some (0, rr)
         /\ dn_p rr = 12
         /\ rr_type rr = DNS_T_MX mod 65536 /\ rr_class rr = DNS_C_IN mod 65536
         /\ rr_ttl rr = 0 /\ rd_len rr = 0
         /\ 12 + dns_rr_len rr = p_end P'.
Proof.
  intros ls. eexists. split; [vm_compute; reflexivity|].
  apply (dns_p_push_question_roundtrip 0 8 (dns_p_init 64) ls true
           DNS_T_MX DNS_C_IN 0 any_blank).
  - unfold packet_ok. repeat split; vm_compute; congruence.
  - vm_compute. congruence.
  - reflexivity.
  - discriminate.
  - repeat constructor; cbn; try lia; discriminate.
  - vm_compute. reflexivity.
  - vm_compute. reflexivity.
  - vm_compute. lia.
Defined.


(** ** Record data of a type the table does not hold *)

(** Round trip of opaque record data: for a type that is none of A, AAAA,
    MX, NS, CNAME and TXT, [dns_any_push] writes the 16-bit length and the
    octets as they are, and [dns_any_parse] on that record data gives the
    same length and octets back. *)
Theorem dns_any_push_parse_opaque (indeterminate indeterminate' : Z)
    (fuel fuel' : nat) (P : dns_packet) (any any' : dns_any) (type : Z)
    (size' : Z) (rr : dns_rr) :
  packet_ok P -> size P <= 65535 ->
  ~ In type [DNS_T_A; DNS_T_AAAA; DNS_T_MX; DNS_T_NS; DNS_T_CNAME; DNS_T_TXT] ->
  rdata_len any = Z.of_nat (length (rdata_data any)) ->
  rdata_len any + 2 <= size P - p_end P ->
  rdata_len any <= size' ->
  rr_type rr = type -> rd_p rr = p_end P + 2 -> rd_len rr = rdata_len any ->
  exists P',
    dns_any_push indeterminate fuel P any type = Some (0, P')
    /\ p_end P' = p_end P + 2 + rdata_len any
    /\ be16 (data P') (p_end P) = rdata_len any
    /\ dns_any_parse indeterminate' fuel' size' any' rr P'
       = Some (0, set_rdata any' (rdata_len any)
                            (memcpy (rdata_data any') 0 (rdata_data any))).
Proof.
  intros Hok H16 Htype Hlen Hroom Hsize Hrt Hrp Hrl.
  pose proof Hok as (Hend & H64 & Hdata).
  assert (Hne : (type =? DNS_T_A) = false /\ (type =? DNS_T_AAAA) = false
                /\ (type =? DNS_T_MX) = false /\ (type =? DNS_T_NS) = false
                /\ (type =? DNS_T_CNAME) = false /\ (type =? DNS_T_TXT) = false).
  { cbn [In] in Htype. repeat split; apply Z.eqb_neq; intros ->; tauto. }
  destruct Hne as (E1 & E2 & E3 & E4 & E5 & E6).
  unfold dns_any_push, dns_any_parse. rewrite Hrt, E1, E2, E3, E4, E5, E6.
  rewrite (usize_small (size P - p_end P)), (usize_small (rdata_len any + 2)) by lia.
  destruct (Z.ltb_spec (size P - p_end P) (rdata_len any + 2)); [lia|].
  rewrite Hrl. destruct (Z.gtb_spec (rdata_len any) size'); [lia|].
  eexists. split; [reflexivity|].
  match goal with |- p_end ?Q = _ /\ _ => set (Q' := Q) end.
  assert (HeQ : p_end Q' = p_end P + 2 + rdata_len any).
  { unfold Q', push_octet. cbn [p_end set_end set_data]. usize_simpl. lia. }
  assert (Hf : frame (push_octet (push_octet P (Z.land 255 (Z.shiftr (rdata_len any) 8)))
                                 (Z.land 255 (Z.shiftr (rdata_len any) 0))) Q').
  { unfold Q', frame, push_octet. cbn [size data p_end set_end set_data].
    rewrite length_memcpy, take_memcpy by lia. repeat split. }
  split; [exact HeQ|]. split.
  { rewrite (be16_push_octet2 P _ _ Q' Hok ltac:(lia) Hf), join16.
    apply Z.mod_small. lia. }
  do 3 f_equal. rewrite Hrp.
  unfold Q', push_octet. cbn [data p_end set_end set_data]. usize_simpl.
  replace (p_end P + 2) with (p_end P + 1 + 1) by lia.
  f_equal. rewrite Hlen, slice_full.
  apply occurs_memcpy; [lia|]. rewrite !length_store. lia.
Qed.

Lemma dns_any_push_parse_opaque_witness :
  let any := any_opaque [1; 2; 3; 4; 5] in
  let rr := {| rr_section := DNS_S_AN; dn_p := 0; dn_len := 0; rr_type := 99;
               rr_class := DNS_C_IN; rr_ttl := 0; rd_p := 14; rd_len := 5 |} in
  exists P',
    dns_any_push 0 8 (dns_p_init 32) any 99 = Some (0, P')
    /\ p_end P' = p_end (dns_p_init 32) + 2 + rdata_len any
    /\ be16 (data P') (p_end (dns_p_init 32)) = rdata_len any
    /\ dns_any_parse 0 8 8 (any_opaque (replicate 8 0)) rr P'
       = Some (0, set_rdata (any_opaque (replicate 8 0)) (rdata_len any)
                            (memcpy (rdata_data (any_opaque (replicate 8 0))) 0
                                    (rdata_data any))).
Proof.
  intros any rr.
  apply (dns_any_push_parse_opaque 0 0 8 8 (dns_p_init 32) any
           (any_opaque (replicate 8 0)) 99 8 rr).
  - unfold packet_ok. repeat split; vm_compute; congruence.
  - vm_compute. congruence.
  - cbn [In]. unfold DNS_T_A, DNS_T_AAAA, DNS_T_MX, DNS_T_NS, DNS_T_CNAME, DNS_T_TXT.
    lia.
  - reflexivity.
  - vm_compute. congruence.
  - vm_compute. congruence.
  - reflexivity.
  - reflexivity.
  - reflexivity.
Defined.
(** ** Reading resolv.conf *)

Lemma skip_line_shrinks fp :
  (skip_line fp).2 = EOF \/ (length (skip_line fp).1 < length fp)%nat.
Proof.
  induction fp as [|ch fp IH]; [now left|]. cbn [skip_line].
  destruct (ch =? 10); cbn [fst snd length]; [right; lia|].
  destruct IH; [now left|right; lia].
Qed.

Lemma read_line_shrinks fp :
  forall words wp wc,
    (read_line fp words wp wc).2 = EOF
    \/ (length (read_line fp words wp wc).1.2 < length fp)%nat.
Proof.
  induction fp as [|ch fp IH]; intros words wp wc; [now left|].
  cbn [read_line].
  assert (Hskip : forall (words : list Z) (wp wc : Z),
            (let '(fp0, ch0) := skip_line fp in (words, wp, wc, fp0, ch0)).2 = EOF
            \/ (length (let '(fp0, ch0) := skip_line fp in (words, wp, wc, fp0, ch0)).1.2
                < length (ch :: fp))%nat).
  { intros w p c. pose proof (skip_line_shrinks fp) as H.
    destruct (skip_line fp) as [fp0 ch0]. cbn [fst snd length] in *.
    destruct H; [now left|right; lia]. }
  destruct (ch =? 10); [right; cbn [fst snd length]; lia|].
  destruct (dns_resconf_issep ch).
  - destruct (wp >? 0).
    + destruct (u32 (wc + 1) >=? 6); [apply Hskip|].
      destruct (IH words 0 (u32 (wc + 1))); [now left|right; cbn [length]; lia].
    + destruct (IH words wp wc); [now left|right; cbn [length]; lia].
  - destruct (dns_resconf_iscom ch); [apply Hskip|].
    destruct (IH (word_put words wc wp ch) (u32 (wp + 1)) wc);
      [now left|right; cbn [length]; lia].
Qed.

Section Loadfile.

Variable inet_pton : Z -> list Z -> option (list Z).
Variable beyond : list Z.

(** The loop of [dns_resconf_loadfile] ends, and what it yields does not
    depend on the fuel once there is more of it than there are octets. *)
Lemma loadfile_loop_fuel :
  forall fuel fuel' fp resconf sa_count,
    (length fp < fuel)%nat -> (length fp < fuel')%nat ->
    loadfile_loop inet_pton beyond fuel fp resconf sa_count
    = loadfile_loop inet_pton beyond fuel' fp resconf sa_count
    /\ exists r, loadfile_loop inet_pton beyond fuel fp resconf sa_count = Some r.
Proof.
  induction fuel as [|fuel IH]; intros fuel' fp resconf sa_count Hf Hf'; [lia|].
  destruct fuel' as [|fuel']; [lia|]. cbn [loadfile_loop].
  pose proof (read_line_shrinks fp (replicate 1536 0) 0 0) as Hshrink.
  destruct (read_line fp (replicate 1536 0) 0 0)
    as [[[[words wp] wc] fp1] ch]. cbn [fst snd] in Hshrink.
  destruct (if (if wp >? 0 then u32 (wc + 1) else wc) <? 2
            then (resconf, sa_count)
            else loadfile_switch inet_pton beyond words (if wp >? 0 then u32 (wc + 1) else wc)
                                 resconf sa_count) as [resconf1 sa1].
  destruct (Z.eqb_spec ch EOF); [split; [reflexivity|eauto]|].
  destruct Hshrink; [contradiction|]. apply IH; lia.
Qed.

(** [dns_resconf_loadfile] ends on every file: each pass of its loop takes
    at least one octet of the file or finds it at its end. *)
Theorem dns_resconf_loadfile_terminates (resconf : dns_resolv_conf) (fp : list Z) :
  exists r, dns_resconf_loadfile inet_pton beyond resconf fp = Some r.
Proof.
  unfold dns_resconf_loadfile.
  apply (loadfile_loop_fuel (S (length fp)) (S (length fp))); lia.
Qed.

Lemma skip_line_to_newline pre rest :
  ~ In 10 pre -> skip_line (pre ++ 10 :: rest) = (rest, 10).
Proof.
  induction pre as [|x pre IH]; intros Hpre; cbn [app skip_line].
  - reflexivity.
  - destruct (Z.eqb_spec x 10) as [->|]; [exfalso; apply Hpre; now left|].
    apply IH. intros H. apply Hpre. now right.
Qed.

Lemma read_line_comment c junk rest :
  dns_resconf_iscom c = true -> ~ In 10 junk ->
  forall pre words wp wc,
    ~ In 10 pre ->
    read_line (pre ++ c :: junk ++ 10 :: rest) words wp wc
    = read_line (pre ++ 10 :: rest) words wp wc.
Proof.
  intros Hc Hjunk.
  assert (Hc10 : c <> 10 /\ dns_resconf_issep c = false).
  { unfold dns_resconf_iscom in Hc. apply orb_true_iff in Hc.
    destruct Hc as [Hc|Hc]; apply Z.eqb_eq in Hc; subst; now split. }
  destruct Hc10 as (Hc10 & Hcsep).
  assert (Hskip : forall pre, ~ In 10 pre ->
            skip_line (pre ++ c :: junk ++ 10 :: rest) = skip_line (pre ++ 10 :: rest)).
  { intros pre Hpre. rewrite (skip_line_to_newline pre rest Hpre).
    replace (pre ++ c :: junk ++ 10 :: rest) with ((pre ++ c :: junk) ++ 10 :: rest)
      by (rewrite <- app_assoc; reflexivity).
    apply skip_line_to_newline. intros H. apply in_app_or in H.
    destruct H as [H|[H|H]]; [now apply Hpre|congruence|now apply Hjunk]. }
  induction pre as [|x pre IH]; intros words wp wc Hpre; cbn [app read_line].
  - destruct (Z.eqb_spec c 10); [contradiction|]. rewrite Hcsep, Hc.
    rewrite (skip_line_to_newline junk rest Hjunk). reflexivity.
  - assert (Hpre' : ~ In 10 pre) by (intros H; apply Hpre; now right).
    destruct (Z.eqb_spec x 10) as [->|]; [exfalso; apply Hpre; now left|].
    destruct (dns_resconf_issep x).
    + destruct (wp >? 0); [|now apply IH].
      destruct (u32 (wc + 1) >=? 6); [now rewrite Hskip|now apply IH].
    + destruct (dns_resconf_iscom x); [now rewrite Hskip|now apply IH].
Qed.

(** A comment character ([#] or [;]) and everything after it up to the end
    of its line are dropped: the file is read as if the line ended where
    the comment begins. *)
Theorem dns_resconf_loadfile_comment (resconf : dns_resolv_conf)
    (pre junk rest : list Z) (c : Z) :
  dns_resconf_iscom c = true -> ~ In 10 pre -> ~ In 10 junk ->
  dns_resconf_loadfile inet_pton beyond resconf (pre ++ c :: junk ++ 10 :: rest)
  = dns_resconf_loadfile inet_pton beyond resconf (pre ++ 10 :: rest).
Proof.
  intros Hc Hpre Hjunk. unfold dns_resconf_loadfile. cbn [loadfile_loop].
  rewrite (read_line_comment c junk rest Hc Hjunk pre _ 0 0 Hpre).
  pose proof (read_line_shrinks (pre ++ 10 :: rest) (replicate 1536 0) 0 0)
    as Hshrink.
  destruct (read_line (pre ++ 10 :: rest) (replicate 1536 0) 0 0)
    as [[[[words wp] wc] fp1] ch]. cbn [fst snd] in Hshrink.
  destruct (if (if wp >? 0 then u32 (wc + 1) else wc) <? 2
            then (resconf, 0)
            else loadfile_switch inet_pton beyond words (if wp >? 0 then u32 (wc + 1) else wc)
                                 resconf 0) as [resconf1 sa1].
  destruct (Z.eqb_spec ch EOF); [reflexivity|].
  destruct Hshrink; [contradiction|].
  apply loadfile_loop_fuel; rewrite !length_app in *; cbn [length] in *;
    rewrite ?length_app; cbn [length]; lia.
Qed.

End Loadfile.

(** ["nameserver 1.2.3.4 # primary"] reads as ["nameserver 1.2.3.4 "]. *)
Lemma dns_resconf_loadfile_comment_witness :
  dns_resconf_loadfile inet_pton_1234 [] (resconf_with 1 [])
    (octets "nameserver 1.2.3.4 " ++ 35 :: octets " primary" ++ 10 :: [])
  = dns_resconf_loadfile inet_pton_1234 [] (resconf_with 1 [])
      (octets "nameserver 1.2.3.4 " ++ 10 :: []).
Proof.
  apply (dns_resconf_loadfile_comment inet_pton_1234 [] (resconf_with 1 [])
           (octets "nameserver 1.2.3.4 ") (octets " primary") [] 35).
  - reflexivity.
  - cbn. intuition discriminate.
  - cbn. intuition discriminate.
Defined.
(** ** A name the packet already holds *)

Lemma label_buffer X l :
  (length l < length X)%nat ->
  store (memcpy X 0 l) (Z.of_nat (length l)) 0 = l ++ 0 :: drop (S (length l)) X.
Proof.
  intros Hlen. rewrite memcpy_0_eq by lia. unfold store. rewrite Nat2Z.id.
  rewrite insert_app_r_alt by lia. rewrite Nat.sub_diag.
  destruct (drop (length l) X) as [|x r] eqn:E.
  - apply (f_equal length) in E. rewrite length_drop in E. cbn in E. lia.
  - cbn [insert list_insert]. do 2 f_equal.
    change (S (length l)) with (1 + length l)%nat.
    rewrite Nat.add_comm, <- drop_drop, E. reflexivity.
Qed.

Lemma tolower_zero c : tolower c = 0 <-> c = 0.
Proof.
  unfold tolower. destruct (Z.leb_spec 65 c); destruct (Z.leb_spec c 90);
    cbn [andb]; lia.
Qed.

Lemma strcaseeq_labels l l' r r' :
  map tolower l' = map tolower l ->
  strcaseeq (l' ++ 0 :: r') (l ++ 0 :: r) = true.
Proof.
  intros H. unfold strcaseeq. apply bool_decide_eq_true.
  revert l' H. induction l as [|c l IH]; intros [|c' l'] H; try discriminate.
  - reflexivity.
  - cbn [map] in H. injection H as Hc Hl. cbn [app c_str].
    destruct (Z.eqb_spec c' 0) as [->|Hc'0]; destruct (Z.eqb_spec c 0) as [->|Hc0].
    + reflexivity.
    + exfalso. apply Hc0. apply tolower_zero. now rewrite <- Hc.
    + exfalso. apply Hc'0. apply tolower_zero. now rewrite Hc.
    + cbn [map]. rewrite Hc. f_equal. now apply IH.
Qed.

(** The comparison of two names that have the same labels but for the case
    of letters, label by label down to the root. *)
Lemma comp_match_same (P : dns_packet) dstb lim :
  lim <= 65535 -> p_end P <= 65535 ->
  forall ls ls' fuel a b,
    caseless ls' = caseless ls ->
    Forall label_ok ls ->
    (S (length ls) < fuel)%nat ->
    w_len a <> 0 -> w_len b <> 0 ->
    strcaseeq (w_label a) (w_label b) = true ->
    length (w_label a) = 64%nat -> length (w_label b) = 64%nat ->
    0 <= w_y a -> w_y a + Z.of_nat (length (wire ls')) + 1 <= lim ->
    occurs dstb (w_y a) (wire ls' ++ [0]) ->
    0 <= w_y b -> w_y b + Z.of_nat (length (wire ls)) + 1 <= p_end P ->
    occurs (data P) (w_y b) (wire ls ++ [0]) ->
    exists a' b',
      comp_match fuel dstb lim P a b = Some (a', b')
      /\ w_len a' = 0 /\ w_len b' = 0
      /\ w_p a' = w_p a /\ w_p b' = w_p b.
Proof.
  intros Hlim16 Hend16.
  induction ls as [|l ls IH];
    intros ls' fuel a b Hcase Hls Hfuel Hla Hlb Heq Hal Hbl Hqa Hqa' Hocca
           Hqb Hqb' Hoccb;
    (destruct fuel as [|fuel]; [lia|]); cbn [comp_match];
    destruct (Z.eqb_spec (w_len a) 0); [contradiction| |contradiction|];
    destruct (Z.eqb_spec (w_len b) 0); try contradiction;
    rewrite Heq; cbn [negb andb].
  - destruct ls' as [|l' ls']; [|discriminate].
    cbn [wire map concat app length] in *.
    rewrite (dns_l_expand_at_label _ dstb lim (w_y a) []) by (cbn; auto; lia).
    rewrite (dns_l_expand_at_label _ (data P) (p_end P) (w_y b) [])
      by (cbn; auto; lia).
    cbn [l_len l_nxt l_dst length].
    destruct fuel as [|fuel]; [lia|]. cbn [comp_match w_len].
    change (0 =? 0) with true. cbn [negb andb].
    eexists. eexists. split; [reflexivity|]. now cbn.
  - destruct ls' as [|l' ls']; [discriminate|].
    unfold caseless in Hcase. cbn [map] in Hcase. injection Hcase as Hl Hcase.
    inversion Hls as [|? ? Hlok Hls']; subst.
    destruct Hlok as ((Hl1 & Hl63) & _).
    assert (Hlen : length l' = length l)
      by (rewrite <- (length_map tolower l'), Hl; apply length_map).
    rewrite length_wire_cons in Hqa', Hqb'. rewrite wire_cons_app in Hocca, Hoccb.
    apply occurs_app in Hocca; [|lia]. destruct Hocca as (Ha1 & Ha2).
    apply occurs_app in Hoccb; [|lia]. destruct Hoccb as (Hb1 & Hb2).
    rewrite (dns_l_expand_at_label _ dstb lim (w_y a) l') by (auto; lia).
    rewrite (dns_l_expand_at_label _ (data P) (p_end P) (w_y b) l) by (auto; lia).
    cbn [l_len l_nxt l_dst].
    cbn [length] in Ha2, Hb2, Hfuel.
    match goal with
    | |- exists a' b', comp_match _ _ _ _ ?A ?B = _ /\ _ =>
      destruct (IH ls' fuel A B) as (a' & b' & Hm & Ha0 & Hb0 & Hpa & Hpb);
        cbn [w_len w_label w_y w_p w_x]; try assumption; try lia
    end.
    + rewrite !label_buffer by lia. now apply strcaseeq_labels.
    + now rewrite length_store, length_memcpy.
    + now rewrite length_store, length_memcpy.
    + replace (w_y a + 1 + Z.of_nat (length l'))
        with (w_y a + Z.of_nat (S (length l'))) by lia. exact Ha2.
    + replace (w_y b + 1 + Z.of_nat (length l))
        with (w_y b + Z.of_nat (S (length l))) by lia. exact Hb2.
    + exists a', b'. cbn [w_p] in Hpa, Hpb. auto.
Qed.

(** The search for a suffix finds the whole name at the first dictionary
    entry. *)
Lemma comp_walk_a_known (P : dns_packet) dstb lim ls ls' e0 rest fuel :
  lim <= 65535 -> p_end P <= 65535 ->
  caseless ls' = caseless ls -> ls <> [] -> Forall label_ok ls ->
  take 16 (dict P) = e0 :: rest -> 0 < e0 <= 16383 ->
  occurs dstb 0 (wire ls' ++ [0]) -> Z.of_nat (length (wire ls')) + 1 <= lim ->
  occurs (data P) e0 (wire ls ++ [0]) ->
  e0 + Z.of_nat (length (wire ls)) + 1 <= p_end P ->
  (length ls + 2 < fuel)%nat ->
  comp_walk_a fuel dstb lim P walker_init walker_init = Some (Some (0, e0)).
Proof.
  intros Hlim16 Hend16 Hcase Hne Hls Hdict He0 Hocca Hlim Hoccb Hend Hfuel.
  destruct ls as [|l ls]; [congruence|]. destruct ls' as [|l' ls']; [discriminate|].
  unfold caseless in Hcase. cbn [map] in Hcase. injection Hcase as Hl Hcase.
  inversion Hls as [|? ? ((Hl1 & Hl63) & _) Hls']; subst.
  assert (Hlen : length l' = length l)
    by (rewrite <- (length_map tolower l'), Hl; apply length_map).
  rewrite length_wire_cons in Hlim, Hend. rewrite wire_cons_app in Hocca, Hoccb.
  apply occurs_app in Hocca; [|lia]. destruct Hocca as (Ha1 & Ha2).
  apply occurs_app in Hoccb; [|lia]. destruct Hoccb as (Hb1 & Hb2).
  cbn [length] in Ha2, Hb2, Hfuel.
  destruct fuel as [|fuel]; [lia|]. cbn [comp_walk_a].
  cbn [walker_init w_label w_p].
  rewrite (dns_l_expand_at_label _ dstb lim 0 l') by (auto; lia).
  cbn [l_len l_nxt l_dst].
  destruct (Z.eqb_spec (Z.of_nat (length l')) 0); [lia|].
  rewrite Hdict. cbn [comp_dict]. destruct (Z.eqb_spec e0 0); [lia|].
  destruct fuel as [|fuel]; [lia|]. cbn [comp_walk_b w_label w_p w_len w_x w_y].
  cbn [walker_init w_label].
  rewrite (dns_l_expand_at_label _ (data P) (p_end P) e0 l) by (auto; lia).
  cbn [l_len l_nxt l_dst].
  destruct (Z.eqb_spec (Z.of_nat (length l)) 0); [lia|].
  match goal with
  | |- context [comp_match fuel dstb lim P ?A ?B] =>
    destruct (comp_match_same P dstb lim Hlim16 Hend16 ls ls' fuel A B)
      as (a' & b' & Hm & Ha0 & Hb0 & Hpa & Hpb);
      cbn [w_len w_label w_y w_p w_x]; try assumption; try lia
  end.
  - rewrite !label_buffer by (rewrite length_replicate; lia).
    now apply strcaseeq_labels.
  - now rewrite length_store, length_memcpy, length_replicate.
  - now rewrite length_store, length_memcpy, length_replicate.
  - replace (0 + 1 + Z.of_nat (length l')) with (0 + Z.of_nat (S (length l')))
      by lia. exact Ha2.
  - replace (e0 + 1 + Z.of_nat (length l)) with (e0 + Z.of_nat (S (length l)))
      by lia. exact Hb2.
  - rewrite Hm, Ha0, Hb0, Hpa, Hpb. cbn [w_p].
    change (0 =? 0) with true. cbn [andb].
    destruct (Z.leb_spec e0 16383); [reflexivity|lia].
Qed.

Lemma testbit_63 i : Z.testbit 63 i = (0 <=? i) && (i <? 6).
Proof.
  destruct (Z.leb_spec 0 i).
  - change 63 with (Z.ones 6). now rewrite Z.testbit_ones_nonneg by lia.
  - now rewrite Z.testbit_neg_r by lia.
Qed.

(** The offset that a compression pointer to [e] decodes to. *)
Lemma pointer_decode e :
  0 <= e <= 16383 ->
  Z.lor (Z.shiftl (Z.land 63 (Z.lor 192 (Z.land 63 (Z.shiftr e 8)))) 8)
        (Z.shiftl (Z.land 255 (Z.land 255 (Z.shiftr e 0))) 0) = e.
Proof.
  intros He. apply Z.bits_inj'. intros n Hn.
  rewrite Z.lor_spec, testbit_byte, Z.shiftl_spec by lia.
  destruct (Z.lt_ge_cases n 8) as [H8|H8].
  - rewrite (Z.testbit_neg_r _ (n - 8)) by lia.
    destruct (Z.leb_spec 0 n); destruct (Z.ltb_spec n (0 + 8)); try lia.
    reflexivity.
  - rewrite !Z.land_spec, Z.lor_spec, Z.land_spec, testbit_63, Z.shiftr_spec by lia.
    replace (n - 8 + 8) with n by lia.
    destruct (Z.leb_spec 0 n); destruct (Z.ltb_spec n (0 + 8)); try lia.
    cbn [andb]. rewrite orb_false_r.
    destruct (Z.leb_spec 0 (n - 8)); [|lia].
    destruct (Z.ltb_spec (n - 8) 6).
    + cbn [andb]. destruct (Z.testbit e n); [now rewrite orb_true_r|].
      rewrite orb_false_r.
      change 192 with (Z.shiftl 3 6). rewrite Z.shiftl_spec by lia.
      now rewrite Z.testbit_neg_r by lia.
    + cbn [andb]. symmetry. apply (testbit_high e 14); [|lia].
      change (2 ^ 14) with 16384. lia.
Qed.

(** [dns_d_comp] of a name that the first dictionary entry spells, but for
    the case of letters: a pointer to that entry and nothing else. *)
Lemma dns_d_comp_known (P : dns_packet) ls ls' anchored e0 rest dst lim fuel :
  lim <= 65535 -> p_end P <= 65535 -> lim <= Z.of_nat (length dst) ->
  ls' <> [] -> Forall label_ok ls -> Forall label_ok ls' ->
  caseless ls' = caseless ls ->
  take 16 (dict P) = e0 :: rest -> 0 < e0 <= 16383 ->
  e0 + Z.of_nat (length (wire ls)) + 1 <= p_end P ->
  occurs (data P) e0 (wire ls ++ [0]) ->
  Z.of_nat (length (wire ls')) + 1 < lim ->
  (length ls + 2 < fuel)%nat ->
  dns_d_comp fuel dst lim (presentation ls' anchored)
             (Z.of_nat (length (presentation ls' anchored))) P
  = Some (2, store (store (memcpy dst 0 (wire ls' ++ [0])) 0
                          (Z.lor 192 (Z.land 63 (Z.shiftr e0 8))))
                   1 (Z.land 255 (Z.shiftr e0 0))).
Proof.
  intros Hlim16 Hend16 Hdst Hne' Hls Hls' Hcase Hdict He0 Hend Hocc Hlim Hfuel.
  assert (Hne : ls <> []).
  { intros ->. destruct ls'; [congruence|discriminate]. }
  unfold dns_d_comp. rewrite comp_layout_name by (try assumption; lia).
  destruct (Z.ltb_spec (Z.of_nat (length (wire ls')) + 1) lim); [|lia].
  rewrite (comp_walk_a_known P _ lim ls ls' e0 rest fuel); try assumption; try lia.
  - reflexivity.
  - apply occurs_memcpy_0. rewrite length_app. cbn [length]. lia.
Qed.

(** A name that the packet already holds is appended as a pointer, and reads
    back in the spelling of the first occurrence: when the first dictionary
    entry is the offset of an uncompressed name with the labels [ls], and
    [ls'] differs from [ls] at most in the case of letters, [dns_d_push] of
    [ls'] appends the two octets of a pointer to that offset, and
    [dns_d_expand] at the old end of the packet yields [ls], not [ls']. *)
Theorem dns_d_push_known_name (indeterminate : Z) (fuel : nat) (P : dns_packet)
    (ls ls' : list (list Z)) (anchored : bool) (e0 : Z) (rest dst : list Z)
    (lim : Z) :
  packet_ok P -> size P <= 65535 ->
  ls' <> [] -> Forall label_ok ls -> Forall label_ok ls' ->
  caseless ls' = caseless ls ->
  take 16 (dict P) = e0 :: rest -> 0 < e0 <= 16383 ->
  e0 + Z.of_nat (length (wire ls)) + 1 <= p_end P ->
  occurs (data P) e0 (wire ls ++ [0]) ->
  Z.of_nat (length (wire ls')) + 1 < size P - p_end P ->
  (length ls + 2 < fuel)%nat ->
  Z.of_nat (length (dotted ls)) < lim -> lim <= Z.of_nat (length dst) ->
  lim < 18446744073709551616 ->
  exists P',
    dns_d_push indeterminate fuel P (presentation ls' anchored)
               (Z.of_nat (length (presentation ls' anchored))) = Some (0, P')
    /\ p_end P' = p_end P + 2
    /\ occurs (data P') (p_end P)
              [Z.lor 192 (Z.land 63 (Z.shiftr e0 8)); Z.land 255 (Z.shiftr e0 0)]
    /\ dns_d_expand fuel dst lim (p_end P) P'
       = Some {| x_len := Z.of_nat (length (dotted ls));
                 x_dst := store (memcpy dst 0 (dotted ls))
                                (Z.of_nat (length (dotted ls))) 0;
                 x_error := None |}.
Proof.
  intros Hok H16 Hne' Hls Hls' Hcase Hdict He0 Hend Hocc Hroom Hfuel Hlim Hdst Hlim64.
  pose proof Hok as (Hend0 & H64 & Hdata).
  assert (Hne : ls <> []).
  { intros ->. destruct ls'; [congruence|discriminate]. }
  destruct (dns_d_push indeterminate fuel P (presentation ls' anchored)
              (Z.of_nat (length (presentation ls' anchored)))) as [[e P']|] eqn:Hpush.
  2: { unfold dns_d_push in Hpush. rewrite usize_small in Hpush by lia.
       rewrite (dns_d_comp_known P ls ls' anchored e0 rest) in Hpush;
         try assumption; try lia; [|rewrite length_drop; lia].
       change (2 =? 0) with false in Hpush. cbv iota in Hpush.
       destruct (2 >? size P - p_end P); discriminate. }
  pose proof (dns_d_push_appended _ _ _ _ _ _ _ Hok Hpush) as ((Hframe & _ & Hok') & _).
  unfold dns_d_push in Hpush. rewrite usize_small in Hpush by lia.
  rewrite (dns_d_comp_known P ls ls' anchored e0 rest) in Hpush;
    try assumption; try lia; [|rewrite length_drop; lia].
  change (2 =? 0) with false in Hpush. cbv iota in Hpush.
  destruct (Z.gtb_spec 2 (size P - p_end P)); [lia|].
  injection Hpush as <- HP'.
  assert (Hend' : p_end P' = p_end P + 2).
  { rewrite <- HP'. cbn [p_end set_end]. rewrite usize_small by (cbn; lia).
    reflexivity. }
  assert (Hdata' : data P'
                   = take (Z.to_nat (p_end P)) (data P)
                     ++ store (store (memcpy (drop (Z.to_nat (p_end P)) (data P)) 0
                                             (wire ls' ++ [0]))
                                     0 (Z.lor 192 (Z.land 63 (Z.shiftr e0 8))))
                              1 (Z.land 255 (Z.shiftr e0 0)))
    by now rewrite <- HP'.
  assert (Hptr : occurs (data P') (p_end P)
                   [Z.lor 192 (Z.land 63 (Z.shiftr e0 8)); Z.land 255 (Z.shiftr e0 0)]).
  { rewrite Hdata'.
    match goal with
    | |- occurs (?a ++ ?b) _ ?w =>
      pose proof (occurs_app_r a b 0 w) as Hw
    end.
    rewrite length_take, Z.add_0_r in Hw.
    replace (Z.of_nat (Z.to_nat (p_end P) `min` length (data P))) with (p_end P)
      in Hw by lia.
    apply Hw; [|lia].
    apply (proj2 (occurs_lookup _ 0 _ ltac:(lia))). intros i x Hi.
    cbn [Z.to_nat Nat.add].
    destruct i as [|[|i]]; cbn in Hi; simplify_eq.
    - rewrite store_lookup_ne by lia. apply (store_lookup_eq _ 0).
      rewrite length_memcpy, length_drop. lia.
    - apply (store_lookup_eq _ 1).
      rewrite length_store, length_memcpy, length_drop. lia. }
  exists P'. split; [reflexivity|]. split; [exact Hend'|]. split; [exact Hptr|].
  apply occurs_cons in Hptr; [|lia]. destruct Hptr as (Hhi & Hlo).
  apply occurs_cons in Hlo; [|lia]. destruct Hlo as (Hlo & _).
  unfold dns_d_expand. destruct fuel as [|fuel]; [lia|]. cbn [dns_d_expand_loop].
  destruct (Z.ltb_spec (p_end P) (p_end P')); [|lia].
  rewrite Hhi, Hlo, pointer_type.
  change (u32 (0 + 1)) with 1. change (1 >? DNS_D_MAXPTRS) with false. cbv iota.
  rewrite usize_small by lia.
  destruct (Z.ltb_spec (p_end P' - p_end P) 2); [lia|].
  rewrite pointer_decode by lia.
  rewrite (dns_d_expand_loop_wire P' lim ls Hls fuel dst e0 0 1); try lia.
  - reflexivity.
  - apply (occurs_frame P P'); try assumption; try lia.
    rewrite length_app. cbn [length]. lia.
  - now right.
Qed.

(** ["A."] after ["a."] at offset 12: a pointer to 12, which reads back as
    ["a."]. *)
Lemma dns_d_push_known_name_witness :
  exists P',
    dns_d_push 0 8 answer_packet_64 (presentation [octets "A"] true)
               (Z.of_nat (length (presentation [octets "A"] true))) = Some (0, P')
    /\ p_end P' = p_end answer_packet_64 + 2
    /\ occurs (data P') (p_end answer_packet_64)
              [Z.lor 192 (Z.land 63 (Z.shiftr 12 8)); Z.land 255 (Z.shiftr 12 0)]
    /\ dns_d_expand 8 (replicate 8 0) 8 (p_end answer_packet_64) P'
       = Some {| x_len := Z.of_nat (length (dotted [octets "a"]));
                 x_dst := store (memcpy (replicate 8 0) 0 (dotted [octets "a"]))
                                (Z.of_nat (length (dotted [octets "a"]))) 0;
                 x_error := None |}.
Proof.
  apply (dns_d_push_known_name 0 8 answer_packet_64 [octets "a"] [octets "A"] true
           12 (replicate 15 0) (replicate 8 0) 8).
  - unfold packet_ok. repeat split; vm_compute; congruence.
  - vm_compute. congruence.
  - discriminate.
  - repeat constructor; cbn; try lia; discriminate.
  - repeat constructor; cbn; try lia; discriminate.
  - vm_compute. reflexivity.
  - vm_compute. reflexivity.
  - lia.
  - vm_compute. congruence.
  - vm_compute. reflexivity.
  - vm_compute. reflexivity.
  - cbn. lia.
  - vm_compute. reflexivity.
  - vm_compute. congruence.
  - lia.
Defined.
(** ** A suffix found with a label left over from an earlier try *)

Lemma c_str_label l r : Forall (fun c => c <> 0) l -> c_str (l ++ 0 :: r) = l.
Proof.
  induction 1 as [|c l Hc _ IH]; cbn [app c_str]; [reflexivity|].
  destruct (Z.eqb_spec c 0); [contradiction|]. now rewrite IH.
Qed.

Lemma c_str_label_buffer X l :
  (length l < length X)%nat -> Forall (fun c => c <> 0) l ->
  c_str (store (memcpy X 0 l) (Z.of_nat (length l)) 0) = l.
Proof. intros. rewrite label_buffer by assumption. now apply c_str_label. Qed.

Lemma occurs_wire_cons d q l ls t :
  0 <= q -> occurs d q (wire (l :: ls) ++ t) ->
  occurs d q (Z.of_nat (length l) :: l)
  /\ occurs d (q + 1 + Z.of_nat (length l)) (wire ls ++ t).
Proof.
  intros Hq H. rewrite wire_cons_app in H. apply occurs_app in H; [|lia].
  destruct H as (H1 & H2). split; [exact H1|]. cbn [length] in H2.
  now replace (q + 1 + Z.of_nat (length l)) with (q + Z.of_nat (S (length l))) by lia.
Qed.

(** The comparison stops where two labels differ. *)
Lemma comp_match_stop fuel dstb lim P a b :
  strcaseeq (w_label a) (w_label b) = false ->
  comp_match (S fuel) dstb lim P a b = Some (a, b).
Proof. intros H. cbn [comp_match]. rewrite H. now rewrite andb_false_r. Qed.

(** And goes on to the next label of each name where they agree. *)
Lemma comp_match_step fuel dstb lim (P : dns_packet) a b l' l :
  lim <= 65535 -> p_end P <= 65535 ->
  w_len a <> 0 -> w_len b <> 0 ->
  strcaseeq (w_label a) (w_label b) = true ->
  (length l' <= 63)%nat -> (length l <= 63)%nat ->
  0 <= w_y a -> w_y a + 1 + Z.of_nat (length l') <= lim ->
  occurs dstb (w_y a) (Z.of_nat (length l') :: l') ->
  0 <= w_y b -> w_y b + 1 + Z.of_nat (length l) <= p_end P ->
  occurs (data P) (w_y b) (Z.of_nat (length l) :: l) ->
  comp_match (S fuel) dstb lim P a b
  = comp_match fuel dstb lim P
      {| w_label := store (memcpy (w_label a) 0 l') (Z.of_nat (length l')) 0;
         w_len := Z.of_nat (length l'); w_p := w_p a; w_x := w_x a;
         w_y := w_y a + 1 + Z.of_nat (length l') |}
      {| w_label := store (memcpy (w_label b) 0 l) (Z.of_nat (length l)) 0;
         w_len := Z.of_nat (length l); w_p := w_p b; w_x := w_x b;
         w_y := w_y b + 1 + Z.of_nat (length l) |}.
Proof.
  intros Hlim Hend Ha Hb Heq Hl' Hl Hqa Hqa' Hocca Hqb Hqb' Hoccb.
  cbn [comp_match].
  destruct (Z.eqb_spec (w_len a) 0); [contradiction|].
  destruct (Z.eqb_spec (w_len b) 0); [contradiction|].
  rewrite Heq. cbn [negb andb].
  rewrite (dns_l_expand_at_label _ dstb lim (w_y a) l') by (auto; lia).
  rewrite (dns_l_expand_at_label _ (data P) (p_end P) (w_y b) l) by (auto; lia).
  reflexivity.
Qed.

(** A position of the dictionary name whose label differs from the one in
    [a.label] is passed over. *)
Lemma comp_walk_b_pass fuel dstb lim (P : dns_packet) a b l :
  p_end P <= 65535 ->
  w_len a <> 0 ->
  (1 <= length l <= 63)%nat -> Forall (fun c => c <> 0) l ->
  length (w_label b) = 64%nat ->
  0 <= w_p b -> w_p b + 1 + Z.of_nat (length l) <= p_end P ->
  occurs (data P) (w_p b) (Z.of_nat (length l) :: l) ->
  map tolower (c_str (w_label a)) <> map tolower l ->
  comp_walk_b (S (S fuel)) dstb lim P a b
  = comp_walk_b (S fuel) dstb lim P
      {| w_label := w_label a; w_len := w_len a; w_p := w_p a; w_x := w_x a;
         w_y := w_x a |}
      {| w_label := store (memcpy (w_label b) 0 l) (Z.of_nat (length l)) 0;
         w_len := Z.of_nat (length l);
         w_p := w_p b + 1 + Z.of_nat (length l);
         w_x := w_p b + 1 + Z.of_nat (length l);
         w_y := w_p b + 1 + Z.of_nat (length l) |}.
Proof.
  intros Hend Ha Hl Hl0 Hlb Hq Hq' Hocc Hne.
  cbn [comp_walk_b].
  rewrite (dns_l_expand_at_label _ (data P) (p_end P) (w_p b) l) by (auto; lia).
  cbn [l_len l_nxt l_dst].
  destruct (Z.eqb_spec (Z.of_nat (length l)) 0); [lia|].
  assert (Hs : strcaseeq (w_label a)
                 (store (memcpy (w_label b) 0 l) (Z.of_nat (length l)) 0) = false).
  { unfold strcaseeq. apply bool_decide_eq_false.
    rewrite c_str_label_buffer by (try assumption; lia). exact Hne. }
  rewrite comp_match_stop by exact Hs.
  cbn [w_len w_label w_x w_y w_p].
  destruct (Z.eqb_spec (w_len a) 0); [contradiction|]. reflexivity.
Qed.

(** A position whose label agrees with the one in [a.label], and after
    which the dictionary name goes on as the new name does after its
    label at [a.p]: the new name is taken to end like the dictionary name
    from this position on. *)
Lemma comp_walk_b_hit fuel dstb lim (P : dns_packet) a b l ls ls' :
  lim <= 65535 -> p_end P <= 65535 ->
  w_len a <> 0 ->
  (1 <= length l <= 63)%nat -> Forall (fun c => c <> 0) l ->
  length (w_label a) = 64%nat -> length (w_label b) = 64%nat ->
  0 <= w_p b <= 16383 ->
  occurs (data P) (w_p b) (Z.of_nat (length l) :: l) ->
  map tolower (c_str (w_label a)) = map tolower l ->
  caseless ls' = caseless ls -> Forall label_ok ls ->
  0 <= w_x a -> w_x a + Z.of_nat (length (wire ls')) + 1 <= lim ->
  occurs dstb (w_x a) (wire ls' ++ [0]) ->
  w_p b + 1 + Z.of_nat (length l) + Z.of_nat (length (wire ls)) + 1 <= p_end P ->
  occurs (data P) (w_p b + 1 + Z.of_nat (length l)) (wire ls ++ [0]) ->
  (S (length ls) < fuel)%nat ->
  comp_walk_b (S fuel) dstb lim P a b = Some (Hit (w_p a) (w_p b)).
Proof.
  intros Hlim Hend Ha Hl Hl0 Hla Hlb Hpb Hocc Heq Hcase Hls Hax Hax' Hocca
         Hbx Hoccb Hfuel.
  cbn [comp_walk_b].
  rewrite (dns_l_expand_at_label _ (data P) (p_end P) (w_p b) l) by (auto; lia).
  cbn [l_len l_nxt l_dst].
  destruct (Z.eqb_spec (Z.of_nat (length l)) 0); [lia|].
  match goal with
  | |- context [comp_match fuel dstb lim P ?A ?B] =>
    destruct (comp_match_same P dstb lim Hlim Hend ls ls' fuel A B)
      as (a' & b' & Hm & Ha0 & Hb0 & Hpa & Hpb');
      cbn [w_len w_label w_y w_p w_x]; try assumption; try lia
  end.
  - unfold strcaseeq. apply bool_decide_eq_true.
    rewrite c_str_label_buffer by (try assumption; lia). exact Heq.
  - now rewrite length_store, length_memcpy.
  - rewrite Hm, Ha0, Hb0, Hpa, Hpb'. cbn [w_p].
    change (0 =? 0) with true. cbn [andb].
    destruct (Z.leb_spec (w_p b) 16383); [reflexivity|lia].
Qed.

Lemma length_wire3 (x y w : list Z) :
  Z.of_nat (length (wire [x; y; w]))
  = 1 + Z.of_nat (length x) + 1 + Z.of_nat (length y) + 1 + Z.of_nat (length w).
Proof. rewrite !length_wire_cons. cbn [wire map concat length]. lia. Qed.

Lemma length_wire6 (x y w z y' z' : list Z) :
  Z.of_nat (length (wire [x; y; w; z; y'; z']))
  = 1 + Z.of_nat (length x) + 1 + Z.of_nat (length y) + 1 + Z.of_nat (length w)
    + 1 + Z.of_nat (length z) + 1 + Z.of_nat (length y') + 1 + Z.of_nat (length z').
Proof. rewrite !length_wire_cons. cbn [wire map concat length]. lia. Qed.

(** The search for a suffix of ["x.y.z"] in a dictionary that holds
    ["x.y.w.z.y.z"]: the first try stops at [z] against [w] and leaves [z]
    in [a.label]; the tries that follow compare that label, not [x], with
    the labels of the dictionary name, and the second [z] of that name is
    taken for the start of the new name. *)
Lemma comp_walk_a_stale (P : dns_packet) dstb lim x y w z e0 rest fuel :
  lim <= 65535 -> p_end P <= 65535 ->
  Forall label_ok [x; y; w; z] ->
  Forall (Forall (fun c => c <> 0)) [x; y; w; z] ->
  map tolower z <> map tolower y -> map tolower z <> map tolower w ->
  take 16 (dict P) = e0 :: rest ->
  0 < e0 -> e0 + Z.of_nat (length (wire [x; y; w])) <= 16383 ->
  occurs dstb 0 (wire [x; y; z] ++ [0]) ->
  Z.of_nat (length (wire [x; y; z])) + 1 <= lim ->
  occurs (data P) e0 (wire [x; y; w; z; y; z] ++ [0]) ->
  e0 + Z.of_nat (length (wire [x; y; w; z; y; z])) + 1 <= p_end P ->
  (9 <= fuel)%nat ->
  comp_walk_a fuel dstb lim P walker_init walker_init
  = Some (Some (0, e0 + Z.of_nat (length (wire [x; y; w])))).
Proof.
  intros Hlim Hend Hok H0 Hzy Hzw Hdict He0 Hptr Hocca Hla Hoccb Hlb Hfuel.
  rewrite length_wire3 in *. rewrite length_wire6 in Hlb.
  apply Forall_cons in Hok. destruct Hok as (((Hx1 & Hx63) & _) & Hok).
  apply Forall_cons in Hok. destruct Hok as (((Hy1 & Hy63) & Hy46) & Hok).
  apply Forall_cons in Hok. destruct Hok as (((Hw1 & Hw63) & _) & Hok).
  apply Forall_cons in Hok. destruct Hok as (((Hz1 & Hz63) & Hz46) & _).
  apply Forall_cons in H0. destruct H0 as (Hx0 & H0).
  apply Forall_cons in H0. destruct H0 as (Hy0 & H0).
  apply Forall_cons in H0. destruct H0 as (Hw0 & H0).
  apply Forall_cons in H0. destruct H0 as (Hz0 & _).
  apply occurs_wire_cons in Hocca; [|lia]. destruct Hocca as (Ha0 & Hocca).
  pose proof Hocca as Hatail.
  apply occurs_wire_cons in Hocca; [|lia]. destruct Hocca as (Ha1 & Hocca).
  apply occurs_wire_cons in Hocca; [|lia]. destruct Hocca as (Ha2 & _).
  apply occurs_wire_cons in Hoccb; [|lia]. destruct Hoccb as (Hb0 & Hoccb).
  apply occurs_wire_cons in Hoccb; [|lia]. destruct Hoccb as (Hb1 & Hoccb).
  apply occurs_wire_cons in Hoccb; [|lia]. destruct Hoccb as (Hb2 & Hoccb).
  apply occurs_wire_cons in Hoccb; [|lia]. destruct Hoccb as (Hb3 & Hbtail).
  (* the first label of the new name, the first entry of the dictionary *)
  destruct fuel as [|fuel]; [lia|]. cbn [comp_walk_a].
  cbn [walker_init w_label w_p].
  rewrite (dns_l_expand_at_label _ dstb lim 0 x) by (auto; lia).
  cbn [l_len l_nxt l_dst].
  destruct (Z.eqb_spec (Z.of_nat (length x)) 0); [lia|].
  rewrite Hdict. cbn [comp_dict]. destruct (Z.eqb_spec e0 0); [lia|].
  (* [x] against [x], [y] against [y], [z] against [w] *)
  destruct fuel as [|fuel]; [lia|]. cbn [comp_walk_b w_label w_p w_len w_x w_y].
  cbn [walker_init w_label].
  rewrite (dns_l_expand_at_label _ (data P) (p_end P) e0 x) by (auto; lia).
  cbn [l_len l_nxt l_dst].
  destruct (Z.eqb_spec (Z.of_nat (length x)) 0); [lia|].
  destruct fuel as [|fuel]; [lia|].
  rewrite (comp_match_step fuel dstb lim P _ _ y y);
    cbn [w_len w_label w_y w_p w_x]; try assumption; try lia;
    [|apply bool_decide_eq_true; reflexivity].
  destruct fuel as [|fuel]; [lia|].
  rewrite (comp_match_step fuel dstb lim P _ _ z w);
    cbn [w_len w_label w_y w_p w_x]; try assumption; try lia;
    [|apply bool_decide_eq_true; reflexivity].
  destruct fuel as [|fuel]; [lia|].
  rewrite comp_match_stop.
  2: { cbn [w_label]. apply bool_decide_eq_false.
       rewrite !c_str_label_buffer
         by (repeat (rewrite length_store || rewrite length_memcpy);
             rewrite ?length_replicate; try assumption; lia).
       exact Hzw. }
  cbn [w_len w_label w_y w_p w_x].
  destruct (Z.eqb_spec (Z.of_nat (length z)) 0); [lia|]. cbn [andb].
  assert (Hstale : c_str (store (memcpy (store (memcpy
                      (store (memcpy (replicate 64 0) 0 x) (Z.of_nat (length x)) 0)
                      0 y) (Z.of_nat (length y)) 0) 0 z) (Z.of_nat (length z)) 0) = z).
  { apply c_str_label_buffer; [|assumption].
    repeat (rewrite length_store || rewrite length_memcpy).
    rewrite length_replicate. lia. }
  (* [z], left in [a.label], against [y] and against [w] *)
  rewrite (comp_walk_b_pass _ dstb lim P _ _ y);
    cbn [w_len w_label w_y w_p w_x]; try assumption; try lia;
    [|repeat (rewrite length_store || rewrite length_memcpy);
      now rewrite length_replicate
     |now rewrite Hstale].
  rewrite (comp_walk_b_pass _ dstb lim P _ _ w);
    cbn [w_len w_label w_y w_p w_x]; try assumption; try lia;
    [|repeat (rewrite length_store || rewrite length_memcpy);
      now rewrite length_replicate
     |now rewrite Hstale].
  (* and against the second [z], after which [y.z] follows as in the new
     name *)
  rewrite (comp_walk_b_hit fuel dstb lim P _ _ z [y; z] [y; z]);
    cbn [w_len w_label w_y w_p w_x]; try assumption; try lia.
  - do 3 f_equal. lia.
  - repeat (rewrite length_store || rewrite length_memcpy).
    now rewrite length_replicate.
  - repeat (rewrite length_store || rewrite length_memcpy).
    now rewrite length_replicate.
  - now rewrite Hstale.
  - reflexivity.
  - constructor; [repeat split; assumption|].
    constructor; [repeat split; assumption|constructor].
  - rewrite !length_wire_cons. cbn [wire map concat length]. lia.
  - rewrite !length_wire_cons. cbn [wire map concat length]. lia.
  - cbn [length]. lia.
Qed.

(** What [dns_d_push] makes of a name for which the search finds the
    dictionary position [bp] for the name as a whole: a pointer, which
    [dns_d_expand] follows to the name that stands at [bp]. *)
Lemma dns_d_push_pointer (indeterminate : Z) (fuel : nat) (P : dns_packet)
    (ls ls' : list (list Z)) (anchored : bool) (bp : Z) (dst : list Z) (lim : Z) :
  packet_ok P -> size P <= 65535 ->
  ls' <> [] -> Forall label_ok ls' ->
  Z.of_nat (length (wire ls')) + 1 < size P - p_end P ->
  comp_walk_a fuel (memcpy (drop (Z.to_nat (p_end P)) (data P)) 0 (wire ls' ++ [0]))
              (size P - p_end P) P walker_init walker_init = Some (Some (0, bp)) ->
  0 <= bp <= 16383 ->
  Forall label_ok ls -> ls <> [] ->
  bp + Z.of_nat (length (wire ls)) + 1 <= p_end P ->
  occurs (data P) bp (wire ls ++ [0]) ->
  (S (length ls) < fuel)%nat ->
  Z.of_nat (length (dotted ls)) < lim -> lim <= Z.of_nat (length dst) ->
  lim < 18446744073709551616 ->
  exists P',
    dns_d_push indeterminate fuel P (presentation ls' anchored)
               (Z.of_nat (length (presentation ls' anchored))) = Some (0, P')
    /\ p_end P' = p_end P + 2
    /\ occurs (data P') (p_end P)
              [Z.lor 192 (Z.land 63 (Z.shiftr bp 8)); Z.land 255 (Z.shiftr bp 0)]
    /\ dns_d_expand fuel dst lim (p_end P) P'
       = Some {| x_len := Z.of_nat (length (dotted ls));
                 x_dst := store (memcpy dst 0 (dotted ls))
                                (Z.of_nat (length (dotted ls))) 0;
                 x_error := None |}.
Proof.
  intros Hok H16 Hne' Hls' Hroom Hwalk Hbp Hls Hne Hend Hocc Hfuel Hlim Hdst Hlim64.
  pose proof Hok as (Hend0 & H64 & Hdata).
  assert (Hcomp : dns_d_comp fuel (drop (Z.to_nat (p_end P)) (data P))
                    (size P - p_end P) (presentation ls' anchored)
                    (Z.of_nat (length (presentation ls' anchored))) P
                  = Some (2, store (store (memcpy (drop (Z.to_nat (p_end P)) (data P)) 0
                                                  (wire ls' ++ [0]))
                                          0 (Z.lor 192 (Z.land 63 (Z.shiftr bp 8))))
                                   1 (Z.land 255 (Z.shiftr bp 0)))).
  { unfold dns_d_comp. rewrite comp_layout_name by (try assumption; lia).
    destruct (Z.ltb_spec (Z.of_nat (length (wire ls')) + 1) (size P - p_end P)); [|lia].
    rewrite Hwalk. reflexivity. }
  destruct (dns_d_push indeterminate fuel P (presentation ls' anchored)
              (Z.of_nat (length (presentation ls' anchored)))) as [[e P']|] eqn:Hpush.
  2: { unfold dns_d_push in Hpush. rewrite usize_small in Hpush by lia.
       rewrite Hcomp in Hpush.
       change (2 =? 0) with false in Hpush. cbv iota in Hpush.
       destruct (2 >? size P - p_end P); discriminate. }
  pose proof (dns_d_push_appended _ _ _ _ _ _ _ Hok Hpush) as ((Hframe & _ & Hok') & _).
  unfold dns_d_push in Hpush. rewrite usize_small in Hpush by lia.
  rewrite Hcomp in Hpush.
  change (2 =? 0) with false in Hpush. cbv iota in Hpush.
  destruct (Z.gtb_spec 2 (size P - p_end P)); [lia|].
  injection Hpush as <- HP'.
  assert (Hend' : p_end P' = p_end P + 2).
  { rewrite <- HP'. cbn [p_end set_end]. rewrite usize_small by (cbn; lia).
    reflexivity. }
  assert (Hdata' : data P'
                   = take (Z.to_nat (p_end P)) (data P)
                     ++ store (store (memcpy (drop (Z.to_nat (p_end P)) (data P)) 0
                                             (wire ls' ++ [0]))
                                     0 (Z.lor 192 (Z.land 63 (Z.shiftr bp 8))))
                              1 (Z.land 255 (Z.shiftr bp 0)))
    by now rewrite <- HP'.
  assert (Hptr : occurs (data P') (p_end P)
                   [Z.lor 192 (Z.land 63 (Z.shiftr bp 8)); Z.land 255 (Z.shiftr bp 0)]).
  { rewrite Hdata'.
    match goal with
    | |- occurs (?a ++ ?b) _ ?w =>
      pose proof (occurs_app_r a b 0 w) as Hw
    end.
    rewrite length_take, Z.add_0_r in Hw.
    replace (Z.of_nat (Z.to_nat (p_end P) `min` length (data P))) with (p_end P)
      in Hw by lia.
    apply Hw; [|lia].
    apply (proj2 (occurs_lookup _ 0 _ ltac:(lia))). intros i c Hi.
    cbn [Z.to_nat Nat.add].
    destruct i as [|[|i]]; cbn in Hi; simplify_eq.
    - rewrite store_lookup_ne by lia. apply (store_lookup_eq _ 0).
      rewrite length_memcpy, length_drop. lia.
    - apply (store_lookup_eq _ 1).
      rewrite length_store, length_memcpy, length_drop. lia. }
  exists P'. split; [reflexivity|]. split; [exact Hend'|]. split; [exact Hptr|].
  apply occurs_cons in Hptr; [|lia]. destruct Hptr as (Hhi & Hlo).
  apply occurs_cons in Hlo; [|lia]. destruct Hlo as (Hlo & _).
  unfold dns_d_expand. destruct fuel as [|fuel]; [lia|]. cbn [dns_d_expand_loop].
  destruct (Z.ltb_spec (p_end P) (p_end P')); [|lia].
  rewrite Hhi, Hlo, pointer_type.
  change (u32 (0 + 1)) with 1. change (1 >? DNS_D_MAXPTRS) with false. cbv iota.
  rewrite usize_small by lia.
  destruct (Z.ltb_spec (p_end P' - p_end P) 2); [lia|].
  rewrite pointer_decode by lia.
  rewrite (dns_d_expand_loop_wire P' lim ls Hls fuel dst bp 0 1); try lia.
  - reflexivity.
  - apply (occurs_frame P P'); try assumption; try lia.
    rewrite length_app. cbn [length]. lia.
  - now right.
Qed.

Lemma tolower_dot c : tolower c = 46 -> c = 46.
Proof.
  unfold tolower. destruct (Z.leb_spec 65 c); destruct (Z.leb_spec c 90);
    cbn [andb]; lia.
Qed.

(** Two names in text differ, beyond the case of letters, where their first
    labels do. *)
Lemma dotted_caseless_head l l' ls ls' :
  Forall (fun c => c <> 46) l -> Forall (fun c => c <> 46) l' ->
  map tolower (dotted (l :: ls)) = map tolower (dotted (l' :: ls')) ->
  map tolower l = map tolower l'.
Proof.
  change (dotted (l :: ls)) with ((l ++ [46]) ++ dotted ls).
  change (dotted (l' :: ls')) with ((l' ++ [46]) ++ dotted ls').
  rewrite <- !app_assoc. cbn [app].
  intros Hl. revert l'. induction Hl as [|c l Hc _ IH]; intros l' Hl' H.
  - destruct Hl' as [|c' l' Hc' _]; [reflexivity|].
    cbn in H. injection H as H _. symmetry in H. apply tolower_dot in H. contradiction.
  - destruct Hl' as [|c' l' Hc' Hl'].
    + cbn in H. injection H as H _. apply tolower_dot in H. contradiction.
    + cbn [app map] in H. injection H as Hcc H. cbn [map]. rewrite Hcc.
      f_equal. now apply IH.
Qed.

(** C4 at a failing input: ["x.y.z"] pushed onto a packet whose dictionary
    holds ["x.y.w.z.y.z"].  For all labels [x], [y], [w], [z] of 1 to 63
    octets without NUL, [z] differing from [x], [y] and [w] by more than the
    case of letters, and every packet whose first dictionary entry is the
    offset of the uncompressed name [x.y.w.z.y.z]: [dns_d_push] of [x.y.z]
    returns 0 and appends a pointer to the second [z] of that name, so that
    [dns_d_expand] of what was appended yields [z.y.z.], while
    [dns_d_anchor] makes [x.y.z.] of the name; the two differ by more than
    the case of letters. *)
Theorem dns_d_push_expand_stale_label (indeterminate : Z) (fuel : nat)
    (P : dns_packet) (x y w z : list Z) (anchored : bool) (e0 : Z)
    (rest dst : list Z) (lim : Z) :
  packet_ok P -> size P <= 65535 ->
  Forall label_ok [x; y; w; z] ->
  Forall (Forall (fun c => c <> 0)) [x; y; w; z] ->
  map tolower z <> map tolower x ->
  map tolower z <> map tolower y ->
  map tolower z <> map tolower w ->
  take 16 (dict P) = e0 :: rest ->
  0 < e0 -> e0 + Z.of_nat (length (wire [x; y; w])) <= 16383 ->
  e0 + Z.of_nat (length (wire [x; y; w; z; y; z])) + 1 <= p_end P ->
  occurs (data P) e0 (wire [x; y; w; z; y; z] ++ [0]) ->
  Z.of_nat (length (wire [x; y; z])) + 1 < size P - p_end P ->
  (9 <= fuel)%nat ->
  Z.of_nat (length (dotted [x; y; z])) < lim ->
  Z.of_nat (length (dotted [z; y; z])) < lim ->
  lim <= Z.of_nat (length dst) -> lim < 18446744073709551616 ->
  let name := presentation [x; y; z] anchored in
  exists P',
    dns_d_push indeterminate fuel P name (Z.of_nat (length name)) = Some (0, P')
    /\ p_end P' = p_end P + 2
    /\ dns_d_expand fuel dst lim (p_end P) P'
       = Some {| x_len := Z.of_nat (length (dotted [z; y; z]));
                 x_dst := store (memcpy dst 0 (dotted [z; y; z]))
                                (Z.of_nat (length (dotted [z; y; z]))) 0;
                 x_error := None |}
    /\ dns_d_anchor dst lim name (Z.of_nat (length name))
       = (Z.of_nat (length (dotted [x; y; z])),
          store (memcpy dst 0 (dotted [x; y; z]))
                (Z.of_nat (length (dotted [x; y; z]))) 0)
    /\ map tolower (dotted [z; y; z]) <> map tolower (dotted [x; y; z]).
Proof.
  intros Hok H16 Hlabels H0 Hzx Hzy Hzw Hdict He0 Hptr Hend Hocc Hroom Hfuel
         Hlimx Hlimz Hdst Hlim64 name.
  pose proof Hok as (Hend0 & H64 & Hdata).
  pose proof Hlabels as Hl4.
  apply Forall_cons in Hl4. destruct Hl4 as (Hx & Hl4).
  apply Forall_cons in Hl4. destruct Hl4 as (Hy & Hl4).
  apply Forall_cons in Hl4. destruct Hl4 as (Hw & Hl4).
  apply Forall_cons in Hl4. destruct Hl4 as (Hz & _).
  assert (Hxyz : Forall label_ok [x; y; z]) by (repeat apply Forall_cons_2; auto).
  assert (Hzyz : Forall label_ok [z; y; z]) by (repeat apply Forall_cons_2; auto).
  assert (Hwalk : comp_walk_a fuel
                    (memcpy (drop (Z.to_nat (p_end P)) (data P)) 0
                            (wire [x; y; z] ++ [0]))
                    (size P - p_end P) P walker_init walker_init
                  = Some (Some (0, e0 + Z.of_nat (length (wire [x; y; w]))))).
  { apply (comp_walk_a_stale P _ _ x y w z e0 rest); try assumption; try lia.
    apply occurs_memcpy_0. rewrite length_drop, length_app. cbn [length]. lia. }
  assert (Hsplit : wire [x; y; w; z; y; z] = wire [x; y; w] ++ wire [z; y; z])
    by (change [x; y; w; z; y; z] with ([x; y; w] ++ [z; y; z]); apply wire_app).
  assert (Hoccz : occurs (data P) (e0 + Z.of_nat (length (wire [x; y; w])))
                    (wire [z; y; z] ++ [0])).
  { rewrite Hsplit, <- app_assoc in Hocc. apply occurs_app in Hocc; [|lia].
    apply Hocc. }
  assert (Hlen6 : length (wire [x; y; w; z; y; z])
                  = (length (wire [x; y; w]) + length (wire [z; y; z]))%nat)
    by (rewrite Hsplit; apply length_app).
  destruct (dns_d_push_pointer indeterminate fuel P [z; y; z] [x; y; z] anchored
              (e0 + Z.of_nat (length (wire [x; y; w]))) dst lim)
    as (P' & Hpush & Hend' & _ & Hexp); try assumption; try lia;
    try discriminate; [cbn [length]; lia|].
  exists P'. split; [exact Hpush|]. split; [exact Hend'|]. split; [exact Hexp|].
  split.
  - apply dns_d_anchor_presentation; try assumption; discriminate.
  - intros H. apply dotted_caseless_head in H; [contradiction|apply Hz|apply Hx].
Qed.

(** ["x.y.z"] after ["x.y.w.z.y.z"] at offset 12. *)
Lemma dns_d_push_expand_stale_label_witness :
  let name := presentation [octets "x"; octets "y"; octets "z"] false in
  exists P',
    dns_d_push 0 9 stale_packet name (Z.of_nat (length name)) = Some (0, P')
    /\ p_end P' = p_end stale_packet + 2
    /\ dns_d_expand 9 (replicate 256 0) 256 (p_end stale_packet) P'
       = Some {| x_len := Z.of_nat (length (dotted [octets "z"; octets "y"; octets "z"]));
                 x_dst := store (memcpy (replicate 256 0) 0
                                        (dotted [octets "z"; octets "y"; octets "z"]))
                                (Z.of_nat (length (dotted [octets "z"; octets "y";
                                                           octets "z"]))) 0;
                 x_error := None |}
    /\ dns_d_anchor (replicate 256 0) 256 name (Z.of_nat (length name))
       = (Z.of_nat (length (dotted [octets "x"; octets "y"; octets "z"])),
          store (memcpy (replicate 256 0) 0
                        (dotted [octets "x"; octets "y"; octets "z"]))
                (Z.of_nat (length (dotted [octets "x"; octets "y"; octets "z"]))) 0)
    /\ map tolower (dotted [octets "z"; octets "y"; octets "z"])
       <> map tolower (dotted [octets "x"; octets "y"; octets "z"]).
Proof.
  apply (dns_d_push_expand_stale_label 0 9 stale_packet
           (octets "x") (octets "y") (octets "w") (octets "z") false 12
           (replicate 15 0) (replicate 256 0) 256).
  - unfold packet_ok. repeat split; vm_compute; congruence.
  - vm_compute. congruence.
  - repeat constructor; cbn; try lia; discriminate.
  - repeat constructor; discriminate.
  - discriminate.
  - discriminate.
  - discriminate.
  - vm_compute. reflexivity.
  - lia.
  - vm_compute. congruence.
  - vm_compute. congruence.
  - vm_compute. reflexivity.
  - vm_compute. reflexivity.
  - lia.
  - vm_compute. reflexivity.
  - vm_compute. reflexivity.
  - vm_compute. congruence.
  - lia.
Defined.
(** ** The root name *)

(** [dns_d_push] of ["."]: the dot closes a label of no octets, which is
    written as a length octet 0, and the root label is added after it.  Two
    octets 0 are appended, whatever the dictionary holds. *)
Lemma dns_d_push_root (indeterminate : Z) (fuel : nat) (P : dns_packet) :
  packet_ok P -> size P <= 65535 -> p_end P + 2 <= size P -> (1 <= fuel)%nat ->
  exists P1,
    dns_d_push indeterminate fuel P (octets ".") 1 = Some (0, P1)
    /\ p_end P1 = p_end P + 2
    /\ byte_at (data P1) (p_end P) = 0 /\ byte_at (data P1) (p_end P + 1) = 0.
Proof.
  intros Hok H16 Hroom Hfuel. pose proof Hok as (Hend & H64 & Hdata).
  set (D := drop (Z.to_nat (p_end P)) (data P)).
  assert (HD : Z.of_nat (length D) = size P - p_end P)
    by (unfold D; rewrite length_drop; lia).
  assert (Hcomp : dns_d_comp fuel D (size P - p_end P) (octets ".") 1 P
                  = Some (2, store (store D 0 0) 1 0)).
  { unfold dns_d_comp, comp_layout. change (slice (octets ".") 0 1) with [46].
    cbn [comp_labels]. change (46 =? 46) with true. cbv iota.
    destruct (Z.ltb_spec 0 (size P - p_end P)); [|lia].
    change (usize (0 - 0)) with 0. change (Z.land 63 0) with 0.
    change (usize (0 + 1)) with 1. change (usize (1 + 1)) with 2.
    change (1 >? 1) with false. cbv iota.
    destruct (Z.ltb_spec 1 (size P - p_end P)); [|lia].
    change (usize (1 + 1)) with 2.
    destruct (Z.ltb_spec 2 (size P - p_end P)); [|reflexivity].
    destruct fuel as [|fuel]; [lia|]. cbn [comp_walk_a walker_init w_label w_p].
    rewrite (dns_l_expand_at_label _ _ (size P - p_end P) 0 []); cbn [length]; try lia.
    - reflexivity.
    - unfold occurs, slice. cbn [length Z.to_nat drop]. change (Z.of_nat 1) with 1.
      change (Z.to_nat 1) with 1%nat.
      destruct D as [|d0 [|d1 D']]; cbn [length] in HD; try lia. reflexivity. }
  unfold dns_d_push. rewrite usize_small by lia. fold D. rewrite Hcomp.
  change (2 =? 0) with false. cbv iota.
  destruct (Z.gtb_spec 2 (size P - p_end P)); [lia|].
  eexists. split; [reflexivity|].
  cbn [p_end set_end dns_p_dictadd set_dict set_data data].
  rewrite usize_small by lia. split; [reflexivity|].
  assert (Hlt : length (take (Z.to_nat (p_end P)) (data P)) = Z.to_nat (p_end P))
    by (rewrite length_take; lia).
  rewrite !byte_at_app_r by lia. rewrite Hlt.
  replace (p_end P - Z.of_nat (Z.to_nat (p_end P))) with 0 by lia.
  replace (p_end P + 1 - Z.of_nat (Z.to_nat (p_end P))) with 1 by lia.
  unfold byte_at. split.
  - rewrite store_lookup_ne by lia. rewrite store_lookup_eq by lia. reflexivity.
  - rewrite store_lookup_eq by (rewrite length_store; lia). reflexivity.
Qed.

(** The root name is not spanned by [dns_d_skip] once [dns_d_push] has
    appended it: on every packet with room for two octets, whatever its
    dictionary holds, [dns_d_push] of ["."] returns 0 and moves the end of
    the packet by two octets, both 0, and [dns_d_skip] from the old end
    stops behind the first of them, one octet before the new end. *)
Theorem dns_d_push_root_skip (indeterminate : Z) (fuel : nat) (P : dns_packet) :
  packet_ok P -> size P <= 65535 -> p_end P + 2 <= size P -> (1 <= fuel)%nat ->
  exists P',
    dns_d_push indeterminate fuel P (octets ".") 1 = Some (0, P')
    /\ p_end P' = p_end P + 2
    /\ byte_at (data P') (p_end P) = 0 /\ byte_at (data P') (p_end P + 1) = 0
    /\ dns_d_skip (p_end P) P' = Some (p_end P + 1).
Proof.
  intros Hok H16 Hroom Hfuel. pose proof Hok as (Hend & H64 & Hdata).
  destruct (dns_d_push_root indeterminate fuel P Hok H16 Hroom Hfuel)
    as (P' & Hpush & Hend' & Hz0 & Hz1).
  exists P'. repeat (split; [assumption|]).
  unfold dns_d_skip. cbn [dns_d_skip_loop].
  destruct (Z.ltb_spec (p_end P) (p_end P')); [|lia].
  rewrite Hz0. change (Z.land 3 (Z.shiftr 0 6)) with 0.
  change (Z.land 63 0 =? 0) with true. cbv iota.
  now rewrite u16_small by lia.
Qed.

(** ["."] after the question and the answer of [answer_packet_64]. *)
Lemma dns_d_push_root_skip_witness :
  exists P',
    dns_d_push 0 1 answer_packet_64 (octets ".") 1 = Some (0, P')
    /\ p_end P' = p_end answer_packet_64 + 2
    /\ byte_at (data P') (p_end answer_packet_64) = 0
    /\ byte_at (data P') (p_end answer_packet_64 + 1) = 0
    /\ dns_d_skip (p_end answer_packet_64) P' = Some (p_end answer_packet_64 + 1).
Proof.
  apply (dns_d_push_root_skip 0 1 answer_packet_64).
  - unfold packet_ok. repeat split; vm_compute; congruence.
  - vm_compute. congruence.
  - vm_compute. congruence.
  - lia.
Defined.

(** C5 at a failing input: the question for the root name, as in the query
    for the root name servers.  On a packet that holds only the header,
    [dns_p_push] for section QD with the name ["."] returns 0 and counts the
    question, but the name takes two octets 0 where the root label is one,
    so that [dns_rr_parse] finds type and class one octet too early: for
    every type from 1 to 65535 the type read back is [type / 256], not the
    type pushed, and the record read ends one octet before the end of the
    packet. *)
Theorem dns_p_push_root_question (indeterminate : Z) (fuel : nat) (P : dns_packet)
    (type class ttl : Z) (any : dns_any) (fuel' : nat) (rr0 : dns_rr) :
  packet_ok P -> size P <= 65535 -> p_end P = 12 -> 18 <= size P ->
  (1 <= fuel)%nat -> (1 <= fuel')%nat ->
  0 < type < 65536 ->
  exists P' rr,
    dns_p_push indeterminate fuel P DNS_S_QD (octets ".") 1 type class ttl any
    = Some (0, P')
    /\ p_end P' = 18
    /\ dns_p_count P' DNS_S_QD = u16 (dns_p_count P DNS_S_QD + 1)
    /\ dns_rr_parse fuel' rr0 12 P' = Some (0, rr)
    /\ rr_type rr = type / 256 /\ rr_type rr <> type
    /\ rr_class rr = type mod 256 * 256 + class / 256 mod 256
    /\ 12 + dns_rr_len rr = 17.
Proof.
  intros Hok H16 H12 Hsize Hfuel Hfuel' Htype.
  pose proof Hok as (Hend & H64 & Hdata).
  destruct (dns_d_push_root indeterminate fuel P Hok H16 ltac:(lia) Hfuel)
    as (P1 & Hpush & Hend1 & Hz0 & Hz1).
  destruct (dns_d_push_appended _ _ _ _ _ _ _ Hok Hpush) as (Happ1 & _).
  pose proof Happ1 as ((Hs1 & _) & _ & Hok1).
  rewrite H12 in *.
  destruct (appended_push_octet4 P1 (Z.land 255 (Z.shiftr type 8))
              (Z.land 255 (Z.shiftr type 0)) (Z.land 255 (Z.shiftr class 8))
              (Z.land 255 (Z.shiftr class 0)) Hok1 ltac:(lia)) as (Happ2 & Hend2).
  destruct (bytes_push_octet4 P1 (Z.land 255 (Z.shiftr type 8))
              (Z.land 255 (Z.shiftr type 0)) (Z.land 255 (Z.shiftr class 8))
              (Z.land 255 (Z.shiftr class 0)) _ Hok1 ltac:(lia) (frame_refl _))
    as (Hb2 & Hb3 & Hb4 & Hb5).
  set (P2 := push_octet (push_octet (push_octet (push_octet P1 _) _) _) _) in *.
  pose proof Happ2 as (Hf2 & _ & Hok2).
  exists (count_incr P2 qdcount_off).
  assert (Hbyte : forall j, 12 <= j ->
            byte_at (data (count_incr P2 qdcount_off)) j = byte_at (data P2) j).
  { intros j Hj. unfold byte_at.
    rewrite lookup_count_incr by (cbn [In]; tauto || lia). reflexivity. }
  assert (Hd : forall j, j = 12 \/ j = 13 ->
            byte_at (data (count_incr P2 qdcount_off)) j = 0).
  { intros j Hj. rewrite Hbyte by lia. rewrite (byte_at_frame P1 P2) by (auto; lia).
    destruct Hj as [->| ->]; assumption. }
  rewrite Hend1 in Hb2, Hb3, Hb4, Hb5.
  assert (Hskip : dns_d_skip_loop fuel' 12 (count_incr P2 qdcount_off) = Some 13).
  { rewrite (dns_d_skip_loop_wire (count_incr P2 qdcount_off) [0] ltac:(now left)
               ltac:(change (p_end (count_incr P2 qdcount_off)) with (p_end P2); lia)
               [] fuel' 12);
      cbn [length wire map concat app]; try lia.
    - reflexivity.
    - constructor.
    - change (p_end (count_incr P2 qdcount_off)) with (p_end P2). lia.
    - apply (proj2 (occurs_lookup _ 12 _ ltac:(lia))). intros i c Hi.
      destruct i as [|i]; [|destruct i; discriminate]. cbn in Hi. injection Hi as <-.
      rewrite Nat.add_0_r.
      assert (Hl : length (data (count_incr P2 qdcount_off)) = length (data P2)).
      { unfold count_incr, htons_at. cbn [set_data data]. now rewrite !length_store. }
      destruct (lookup_lt_is_Some_2 (data (count_incr P2 qdcount_off)) (Z.to_nat 12))
        as (c & Hc); [destruct Hok2 as (? & ? & ?); lia|].
      pose proof (Hd 12 ltac:(lia)) as H0. unfold byte_at in H0.
      rewrite Hc in H0. cbn in H0. now subst c. }
  eexists. split.
  { unfold dns_p_push. rewrite Hpush. cbn [Z.eqb negb].
    rewrite usize_small by lia.
    destruct (Z.ltb_spec (size P1 - p_end P1) 4); [lia|].
    change (DNS_S_QD =? DNS_S_QD) with true. cbv iota. reflexivity. }
  fold P2. split; [change (p_end (count_incr P2 qdcount_off)) with (p_end P2); lia|].
  split.
  { rewrite dns_p_count_incr; [|destruct Hok2 as (? & ? & ?); lia|cbn [In]; tauto].
    f_equal. f_equal. apply dns_p_count_frame; [lia|].
    eapply frame_trans; [apply Happ1|exact Hf2|lia]. }
  unfold dns_rr_parse.
  change (p_end (count_incr P2 qdcount_off)) with (p_end P2).
  destruct (Z.geb_spec 12 (p_end P2)); [lia|].
  rewrite Hskip. rewrite Hend2, Hend1. change (usize (12 + 2 + 4 - 13)) with 5.
  change (5 <? 4) with false. change (12 =? 12) with true. cbv iota.
  split; [reflexivity|].
  cbn [rr_type rr_class dn_p dn_len rd_len]. unfold dns_rr_len.
  cbn [dn_p dn_len rd_len]. change (12 =? 12) with true. cbv iota.
  unfold be16.
  rewrite !Hbyte by lia.
  change (13 + 0) with 13. change (13 + 1) with (12 + 2 + 0).
  change (13 + 2 + 0) with (12 + 2 + 1). change (13 + 2 + 1) with (12 + 2 + 2).
  rewrite (byte_at_frame P1 P2 13) by (auto; lia).
  replace (byte_at (data P1) 13) with 0 by (symmetry; exact Hz1).
  rewrite Hb2, Hb3, Hb4.
  assert (Ht : type / 256 mod 256 = type / 256).
  { apply Z.mod_small. split; [apply Z.div_pos; lia|].
    apply Z.div_lt_upper_bound; lia. }
  assert (HT : Z.lor (Z.shiftl (Z.land 255 0) 8)
                     (Z.shiftl (Z.land 255 (Z.land 255 (Z.shiftr type 8))) 0)
               = type / 256).
  { change (Z.shiftl (Z.land 255 0) 8) with 0. rewrite Z.lor_0_l, Z.shiftl_0_r.
    rewrite !land255_mod, Z.shiftr_div_pow2 by lia. change (2 ^ 8) with 256.
    now rewrite Z.mod_mod, Ht by lia. }
  assert (HC : Z.lor (Z.shiftl (Z.land 255 (Z.land 255 (Z.shiftr type 0))) 8)
                     (Z.shiftl (Z.land 255 (Z.land 255 (Z.shiftr class 8))) 0)
               = type mod 256 * 256 + class / 256 mod 256).
  { rewrite Z.shiftl_0_r, Z.shiftr_0_r.
    rewrite !land255_mod, Z.shiftr_div_pow2 by lia. change (2 ^ 8) with 256.
    rewrite !Z.mod_mod by lia.
    rewrite lor_shiftl_add; [reflexivity|lia|].
    change (2 ^ 8) with 256. apply Z.mod_pos_bound. lia. }
  rewrite HT, HC. split; [reflexivity|].
  split.
  { assert (type / 256 * 256 <= type) by (pose proof (Z.mul_div_le type 256); lia).
    assert (0 <= type / 256) by (apply Z.div_pos; lia). lia. }
  split; reflexivity.
Qed.

(** The question [. NS IN] on a fresh packet of 512 octets comes back with
    type 0 and class 512. *)
Lemma dns_p_push_root_question_witness :
  exists P' rr,
    dns_p_push 0 1 (dns_p_init 512) DNS_S_QD (octets ".") 1 DNS_T_NS DNS_C_IN 0
               any_blank = Some (0, P')
    /\ p_end P' = 18
    /\ dns_p_count P' DNS_S_QD = u16 (dns_p_count (dns_p_init 512) DNS_S_QD + 1)
    /\ dns_rr_parse 1 rr_blank 12 P' = Some (0, rr)
    /\ rr_type rr = DNS_T_NS / 256 /\ rr_type rr <> DNS_T_NS
    /\ rr_class rr = DNS_T_NS mod 256 * 256 + DNS_C_IN / 256 mod 256
    /\ 12 + dns_rr_len rr = 17.
Proof.
  apply (dns_p_push_root_question 0 1 (dns_p_init 512) DNS_T_NS DNS_C_IN 0
           any_blank 1 rr_blank).
  - unfold packet_ok. repeat split; vm_compute; congruence.
  - vm_compute. congruence.
  - reflexivity.
  - vm_compute. congruence.
  - lia.
  - lia.
  - vm_compute. split; reflexivity.
Defined.

(** What the witness amounts to, and what [dns_rr_grep] then yields. *)
Example dns_p_push_root_question_grep :
  exists P',
    dns_p_push 0 1 (dns_p_init 512) DNS_S_QD (octets ".") 1 DNS_T_NS DNS_C_IN 0
               any_blank = Some (0, P')
    /\ slice (data P') 12 6 = [0; 0; 0; 2; 0; 1]
    /\ option_map (fun g => (g_count g,
                             map (fun rr => (rr_section rr, dn_p rr, dn_len rr,
                                             rr_type rr, rr_class rr))
                                 (g_rr g)))
                  (dns_rr_grep 24 8 (dns_rr_i_init (mkRRI 0 None 0 0 0 0 0)) P')
       = Some (1, [(DNS_S_QD, 12, 1, 0, 512)]).
Proof. eexists. split; [now vm_compute|]. split; now vm_compute. Qed.
